(** * Aeroacoustic UAV propeller optimisation: a shallow embedding

    The Python sources under [src/] are embedded function by function.

    Numbers.  A Python [float] (and an [int] used in arithmetic) is a real
    number of [R]: rounding and overflow are left out.  The IEEE values
    [inf], [-inf] and [nan] appear where the source creates them on purpose
    ([float('inf')] in the noise-to-thrust ratio and in the optimiser), as
    the type [pyfloat].

    Outcomes.  A call either returns a value ([Ok]), every number in it
    real, or ends with a [fault]: a Python exception ([ZeroDivisionError],
    [KeyError], [IndexError], [TypeError], [ValueError]) or [NotReal], which
    stands for a number that leaves the reals (numpy answers [inf] or [nan]
    with a warning where Python raises, and a negative base under a
    fractional exponent gives a complex number).  The model stops at such a
    number; Python goes on with it.

    A division raises on Python floats ([pydiv]) and follows numpy's rule
    when an operand is a numpy scalar ([npdiv]): a value returned by a
    numpy call, or an element of a numpy array.  The numeric arguments of
    a function are Python floats, as a direct call gives them and as the
    signatures declare them.  The reduction estimates are also handed
    their baseline from inside the program, as a numpy scalar: the total
    level in [evaluate_bio_inspired_design], and the running level after a
    reduction that went through [np.exp].  There a baseline of zero gives
    [inf] or [nan] in Python, where the model names [ZeroDivisionError].

    A dict entry is taken to have the type it is read as: a number (a
    [bool] is not one) or a dict.  On any other entry the model faults with
    [TypeError] where the entry is read; Python raises at the first use of
    the entry: after any other fault that comes before it, and not at all
    when the entry is never used.

    Dicts.  A Python [dict] is an association list in insertion order.
    Dicts built and returned by a function are values; the geometry records
    that callers own and that the bio-inspired features copy and update
    live in a store ([heap]) and are passed by reference. *)

From Stdlib Require Import Reals Lra Lia Psatz List String ZArith Bool.
From Stdlib Require Import Permutation Sorted.
From Stdlib Require DecimalString.
Import ListNotations.
Open Scope string_scope.
Open Scope list_scope.
Open Scope R_scope.

(** ** Outcomes *)

Inductive fault : Type :=
| ZeroDivisionError
| KeyError (k : string)
| IndexError
| TypeError
| ValueError
| NotReal.

Inductive outcome (A : Type) : Type :=
| Ok (a : A)
| Raise (e : fault).
Arguments Ok {A} a.
Arguments Raise {A} e.

Definition bind {A B : Type} (m : outcome A) (k : A -> outcome B) : outcome B :=
  match m with
  | Ok a => k a
  | Raise e => Raise e
  end.

Notation "'let*' x ':=' m 'in' k" := (bind m (fun x => k))
  (at level 10, x name, m at level 100, k at level 200).
Notation "'let*' ( x , y ) ':=' m 'in' k" := (bind m (fun '(x, y) => k))
  (at level 10, x name, y name, m at level 100, k at level 200).

(** ** Numbers *)

Inductive pyfloat : Type :=
| Fin (x : R)
| PInf
| NInf
| NaN.

(** [x / y] on Python floats. *)
Definition pydiv (x y : R) : outcome R :=
  if Req_dec_T y 0 then Raise ZeroDivisionError else Ok (x / y).

(** [x / y] when an operand is a numpy scalar. *)
Definition npdiv (x y : R) : outcome R :=
  if Req_dec_T y 0 then Raise NotReal else Ok (x / y).

(** [x ** y] on Python floats, for a float exponent. *)
Definition pypow (x y : R) : outcome R :=
  if Rlt_dec 0 x then Ok (Rpower x y)
  else if Req_dec_T x 0 then
    if Rlt_dec 0 y then Ok 0
    else if Req_dec_T y 0 then Ok 1
    else Raise ZeroDivisionError
  else Raise NotReal.

Definition log10 (x : R) : R := ln x / ln 10.

Definition np_log10 (x : R) : outcome R :=
  if Rlt_dec 0 x then Ok (log10 x) else Raise NotReal.

Definition np_sqrt (x : R) : outcome R :=
  if Rle_dec 0 x then Ok (sqrt x) else Raise NotReal.

(** Python's [min(a, b)]: [b] when [b < a], else [a]. *)
Definition pymin (a b : R) : R := if Rlt_dec b a then b else a.

(** Python's [max(a, b)]: [b] when [b > a], else [a]. *)
Definition pymax (a b : R) : R := if Rlt_dec a b then b else a.

(** Python's [int(x)]: truncation towards zero. *)
Definition pyint (x : R) : Z :=
  if Rle_dec 0 x then Int_part x else (- Int_part (- x))%Z.

(** ** Values and dicts *)

Definition ref := nat.

#[warnings="-register-all"]
Inductive value : Type :=
| VNone
| VBool (b : bool)
| VNum (x : pyfloat)
| VStr (s : string)
| VStrs (l : list string)
| VDict (d : list (string * value))
| VRef (r : ref).

Definition dict := list (string * value).

Definition VReal (x : R) : value := VNum (Fin x).

Fixpoint dget (d : dict) (k : string) : option value :=
  match d with
  | [] => None
  | (k', v) :: d' => if String.eqb k' k then Some v else dget d' k
  end.

(** [d[k] = v]: an existing key keeps its place, a new key goes last. *)
Fixpoint dset (d : dict) (k : string) (v : value) : dict :=
  match d with
  | [] => [(k, v)]
  | (k', v') :: d' =>
      if String.eqb k' k then (k', v) :: d' else (k', v') :: dset d' k v
  end.

(** [{**a, **b}]. *)
Definition dupdate (a b : dict) : dict :=
  fold_left (fun acc kv => dset acc (fst kv) (snd kv)) b a.

Definition as_real (v : value) : outcome R :=
  match v with
  | VNum (Fin x) => Ok x
  | VNum _ => Raise NotReal
  | _ => Raise TypeError
  end.

(** [d.get(k, dflt)] read as a number. *)
Definition get_real (d : dict) (k : string) (dflt : R) : outcome R :=
  match dget d k with
  | Some v => as_real v
  | None => Ok dflt
  end.

(** [d[k]] read as a number. *)
Definition item_real (d : dict) (k : string) : outcome R :=
  match dget d k with
  | Some v => as_real v
  | None => Raise (KeyError k)
  end.

(** [d[k]] read as a float, the infinities and nan included. *)
Definition item_float (d : dict) (k : string) : outcome pyfloat :=
  match dget d k with
  | Some (VNum x) => Ok x
  | Some _ => Raise TypeError
  | None => Raise (KeyError k)
  end.

(** [d.get(k, dflt)], the entry passed on as it is. *)
Definition get_value (d : dict) (k : string) (dflt : value) : value :=
  match dget d k with
  | Some v => v
  | None => dflt
  end.

(** [d[k]] read as a dict. *)
Definition item_dict (d : dict) (k : string) : outcome dict :=
  match dget d k with
  | Some (VDict d') => Ok d'
  | Some _ => Raise TypeError
  | None => Raise (KeyError k)
  end.

(** [d.get(k, {})] read as a dict. *)
Definition get_dict (d : dict) (k : string) : outcome dict :=
  match dget d k with
  | Some (VDict d') => Ok d'
  | Some _ => Raise TypeError
  | None => Ok []
  end.

(** [sub in s] on strings. *)
Definition contains (sub s : string) : bool :=
  match index 0 sub s with
  | Some _ => true
  | None => false
  end.

(** [name in features] on a list of strings. *)
Definition mem (name : string) (features : list string) : bool :=
  existsb (String.eqb name) features.

(** ** aeroacoustics/noise_analysis.py *)

Module NoiseAnalyzer.

Record t : Type := { reference_pressure : R }.

(** [NoiseAnalyzer()] *)
Definition default : t := {| reference_pressure := 2e-5 |}.

(** [calculate_spl], with the division of the type of [pressure]. *)
Definition calculate_spl_with (divide : R -> R -> outcome R) (self : t)
    (pressure distance : R) : outcome R :=
  if Rle_dec pressure 0 then Ok 0
  else
    let* adjusted_pressure := divide pressure distance in
    let* q := divide adjusted_pressure (reference_pressure self) in
    let* l := np_log10 q in
    Ok (20 * l).

(** [calculate_spl] on a Python float. *)
Definition calculate_spl : t -> R -> R -> outcome R :=
  calculate_spl_with pydiv.

(** [np.abs] makes [aoa_factor], and so [pressure_rms], a numpy scalar. *)
Definition calculate_broadband_noise (self : t)
    (velocity chord_length blade_thickness angle_of_attack distance : R)
    : outcome R :=
  let* velocity_term := pypow velocity 5.5 in
  let area_term := chord_length * blade_thickness in
  let aoa_factor := 1.0 + 0.5 * Rabs angle_of_attack / 15.0 in
  let* pressure_rms :=
    npdiv (1e-3 * velocity_term * area_term * aoa_factor) (distance ^ 2) in
  calculate_spl_with npdiv self pressure_rms distance.

Definition harmonic_key (h : nat) : string :=
  match h with
  | 1%nat => "BPF_harmonic_1"
  | 2%nat => "BPF_harmonic_2"
  | _ => "BPF_harmonic_3"
  end.

Definition frequency_key (h : nat) : string :=
  match h with
  | 1%nat => "frequency_hz_1"
  | 2%nat => "frequency_hz_2"
  | _ => "frequency_hz_3"
  end.

(** The loop [for h in range(1, harmonics + 1)], for the default
    [harmonics = 3] that every caller uses. *)
Fixpoint tonal_loop (self : t) (bpf tip_speed num_blades distance : R)
    (hs : list nat) (results : dict) : outcome dict :=
  match hs with
  | [] => Ok results
  | h :: hs' =>
      let freq := bpf * INR h in
      let* hp := pypow (INR h) 1.5 in
      let* pressure_rms :=
        pydiv (5e-3 * (tip_speed ^ 4) * (num_blades / 2.0))
              (hp * distance ^ 2) in
      let* spl := calculate_spl self pressure_rms distance in
      tonal_loop self bpf tip_speed num_blades distance hs'
        (dset (dset results (harmonic_key h) (VReal spl))
              (frequency_key h) (VReal freq))
  end.

Definition calculate_tonal_noise (self : t)
    (rpm num_blades tip_speed distance : R) : outcome dict :=
  let bpf := (rpm / 60.0) * num_blades in
  tonal_loop self bpf tip_speed num_blades distance [1; 2; 3]%nat [].

Definition calculate_vortex_noise (self : t)
    (velocity diameter strouhal_number distance : R) : outcome (R * R) :=
  let* vortex_freq := pydiv (strouhal_number * velocity) diameter in
  let* pressure_rms :=
    pydiv (8e-4 * (velocity ^ 3) * diameter) (distance ^ 2) in
  let* spl := calculate_spl self pressure_rms distance in
  Ok (vortex_freq, spl).

Definition calculate_total_noise (self : t)
    (propeller_params operating_conditions : dict) (distance : R)
    : outcome dict :=
  let* rpm := get_real operating_conditions "rpm" 5000 in
  let* velocity := get_real operating_conditions "velocity" 10.0 in
  let* chord := get_real propeller_params "chord_length" 0.05 in
  let* thickness := get_real propeller_params "blade_thickness" 0.005 in
  let* num_blades := get_real propeller_params "num_blades" 2 in
  let* radius := get_real propeller_params "radius" 0.127 in
  let* aoa := get_real propeller_params "angle_of_attack" 5.0 in
  let tip_speed := (rpm / 60.0) * 2 * PI * radius in
  let* broadband_spl :=
    calculate_broadband_noise self velocity chord thickness aoa distance in
  let* tonal_results :=
    calculate_tonal_noise self rpm num_blades tip_speed distance in
  let* (vortex_freq, vortex_spl) :=
    calculate_vortex_noise self velocity thickness 0.2 distance in
  let* tonal_spl_primary := get_real tonal_results "BPF_harmonic_1" 0 in
  let p_ref := reference_pressure self in
  let p_broadband := p_ref * Rpower 10 (broadband_spl / 20.0) in
  let p_tonal := p_ref * Rpower 10 (tonal_spl_primary / 20.0) in
  let p_vortex := p_ref * Rpower 10 (vortex_spl / 20.0) in
  let* p_total := np_sqrt (p_broadband ^ 2 + p_tonal ^ 2 + p_vortex ^ 2) in
  let* q := npdiv p_total p_ref in
  let* l := np_log10 q in
  let total_spl := 20 * l in
  Ok (dupdate
        [("total_spl_db", VReal total_spl);
         ("broadband_spl_db", VReal broadband_spl);
         ("tonal_spl_db", VReal tonal_spl_primary);
         ("vortex_spl_db", VReal vortex_spl);
         ("vortex_frequency_hz", VReal vortex_freq)]
        tonal_results).

End NoiseAnalyzer.

(** ** Arithmetic on [pyfloat] (IEEE rules for the infinities and nan) *)

Definition fle (a b : pyfloat) : bool :=
  match a, b with
  | NaN, _ | _, NaN => false
  | NInf, _ => true
  | _, PInf => true
  | Fin x, Fin y => if Rle_dec x y then true else false
  | _, _ => false
  end.

Definition flt (a b : pyfloat) : bool :=
  match a, b with
  | NaN, _ | _, NaN => false
  | PInf, _ => false
  | _, NInf => false
  | Fin x, Fin y => if Rlt_dec x y then true else false
  | _, _ => true
  end.

Definition fge (a b : pyfloat) : bool := fle b a.
Definition fgt (a b : pyfloat) : bool := flt b a.

Definition fneg (a : pyfloat) : pyfloat :=
  match a with
  | Fin x => Fin (- x)
  | PInf => NInf
  | NInf => PInf
  | NaN => NaN
  end.

Definition fsub (a b : pyfloat) : pyfloat :=
  match a, b with
  | NaN, _ | _, NaN => NaN
  | Fin x, Fin y => Fin (x - y)
  | Fin _, PInf => NInf
  | Fin _, NInf => PInf
  | PInf, PInf => NaN
  | PInf, _ => PInf
  | NInf, NInf => NaN
  | NInf, _ => NInf
  end.

(** The infinity with the sign of [x] times the sign of [inf]. *)
Definition signed_inf (positive : bool) (x : R) : pyfloat :=
  if Rlt_dec 0 x then (if positive then PInf else NInf)
  else if Rlt_dec x 0 then (if positive then NInf else PInf)
  else NaN.

Definition fmul (a b : pyfloat) : pyfloat :=
  match a, b with
  | NaN, _ | _, NaN => NaN
  | Fin x, Fin y => Fin (x * y)
  | Fin x, PInf | PInf, Fin x => signed_inf true x
  | Fin x, NInf | NInf, Fin x => signed_inf false x
  | PInf, PInf | NInf, NInf => PInf
  | PInf, NInf | NInf, PInf => NInf
  end.

(** [a / b]; [zero] is the fault at a zero divisor. *)
Definition fdiv_with (zero : fault) (a b : pyfloat) : outcome pyfloat :=
  match a, b with
  | _, Fin y =>
      if Req_dec_T y 0 then Raise zero
      else match a with
           | Fin x => Ok (Fin (x / y))
           | PInf => Ok (signed_inf true y)
           | NInf => Ok (signed_inf false y)
           | NaN => Ok NaN
           end
  | NaN, _ | _, NaN => Ok NaN
  | Fin _, _ => Ok (Fin 0)
  | _, _ => Ok NaN
  end.

(** [a / b] on Python floats: a zero divisor raises. *)
Definition fdiv : pyfloat -> pyfloat -> outcome pyfloat :=
  fdiv_with ZeroDivisionError.

(** [a / b] when an operand is a numpy scalar. *)
Definition npfdiv : pyfloat -> pyfloat -> outcome pyfloat :=
  fdiv_with NotReal.

(** ** aeroacoustics/metrics.py *)

Module AeroacousticMetrics.

Definition calculate_noise_to_thrust_ratio
    (noise_spl_db thrust_N reference_thrust : R) : outcome pyfloat :=
  if Rle_dec thrust_N 0 then Ok PInf
  else
    let* normalized_thrust := pydiv thrust_N reference_thrust in
    let* ntr := pydiv noise_spl_db normalized_thrust in
    Ok (Fin ntr).

Definition calculate_acoustic_efficiency
    (noise_spl_db thrust_N power_W : R) : outcome R :=
  if Rle_dec noise_spl_db 0 then Ok 0
  else if Rle_dec power_W 0 then Ok 0
  else
    let* thrust_efficiency := pydiv thrust_N power_W in
    let* noise_penalty := pydiv 100.0 noise_spl_db in
    Ok (thrust_efficiency * noise_penalty * 1000).

Definition calculate_noise_reduction_percentage
    (baseline_ntr modified_ntr : pyfloat) : outcome pyfloat :=
  if fle baseline_ntr (Fin 0) then Ok (Fin 0)
  else
    let* q := fdiv (fsub baseline_ntr modified_ntr) baseline_ntr in
    Ok (fmul q (Fin 100.0)).

Definition evaluate_design_performance
    (noise_results thrust_results : dict) (baseline_ntr : option pyfloat)
    : outcome dict :=
  let* total_noise := get_real noise_results "total_spl_db" 0 in
  let* thrust := get_real thrust_results "thrust_N" 0 in
  let* power := get_real thrust_results "power_W" 1 in
  let efficiency := get_value thrust_results "efficiency" (VReal 0) in
  let* ntr := calculate_noise_to_thrust_ratio total_noise thrust 1.0 in
  let* acoustic_eff := calculate_acoustic_efficiency total_noise thrust power in
  let results :=
    [("noise_to_thrust_ratio_dB_per_N", VNum ntr);
     ("acoustic_efficiency", VReal acoustic_eff);
     ("total_noise_spl_db", VReal total_noise);
     ("thrust_N", VReal thrust);
     ("power_W", VReal power);
     ("propulsive_efficiency", efficiency);
     ("broadband_noise_db", get_value noise_results "broadband_spl_db" (VReal 0));
     ("tonal_noise_db", get_value noise_results "tonal_spl_db" (VReal 0));
     ("vortex_noise_db", get_value noise_results "vortex_spl_db" (VReal 0))] in
  match baseline_ntr with
  | Some b =>
      let* reduction := calculate_noise_reduction_percentage b ntr in
      Ok (dset (dset results "noise_reduction_percentage" (VNum reduction))
               "meets_15_percent_target" (VBool (fge reduction (Fin 15.0))))
  | None => Ok results
  end.

(** The loop over [noise_spectrum.items()]. *)
Fixpoint weighted_loop (p_ref : R) (items : dict) (frequency_weights : dict)
    (total_weighted_pressure_sq : R) : outcome R :=
  match items with
  | [] => Ok total_weighted_pressure_sq
  | (freq_key, spl) :: items' =>
      if contains "frequency_hz" freq_key then
        weighted_loop p_ref items' frequency_weights total_weighted_pressure_sq
      else
        let weight :=
          match dget frequency_weights freq_key with
          | Some w => w
          | None => VReal 1.0
          end in
        let* spl := as_real spl in
        let pressure := p_ref * Rpower 10 (spl / 20.0) in
        let* weight := as_real weight in
        weighted_loop p_ref items' frequency_weights
          (total_weighted_pressure_sq + (weight * pressure) ^ 2)
  end.

Definition calculate_weighted_noise_metric
    (noise_spectrum : dict) (frequency_weights : option dict) : outcome R :=
  match noise_spectrum with
  | [] => Ok 0
  | _ =>
      let frequency_weights :=
        match frequency_weights with
        | None => []
        | Some w => w
        end in
      let p_ref := 2e-5 in
      let* total_weighted_pressure_sq :=
        weighted_loop p_ref noise_spectrum frequency_weights 0.0 in
      if Rlt_dec 0 total_weighted_pressure_sq then
        let* total_pressure := np_sqrt total_weighted_pressure_sq in
        let* q := npdiv total_pressure p_ref in
        let* l := np_log10 q in
        Ok (20 * l)
      else Ok 0
  end.

End AeroacousticMetrics.

(** ** aeroacoustics/thrust_analysis.py *)

(** [np.linspace(start, stop, num)] *)
Definition linspace (start stop : R) (num : Z) : outcome (list R) :=
  if (num <? 0)%Z then Raise ValueError
  else
    let n := Z.to_nat num in
    let step := (stop - start) / INR (n - 1) in
    Ok (map (fun i => INR i * step + start) (seq 0 n)).

(** [a[i]] on a numpy array. *)
Definition array_item (a : list R) (i : nat) : outcome R :=
  match nth_error a i with
  | Some x => Ok x
  | None => Raise IndexError
  end.

Module ThrustCalculator.

Record t : Type := { air_density : R }.

(** [ThrustCalculator()] *)
Definition default : t := {| air_density := 1.225 |}.

Definition calculate_thrust_momentum_theory (self : t)
    (rpm diameter power : R) : outcome R :=
  let omega := rpm * 2 * PI / 60.0 in
  let area := PI * (diameter / 2.0) ^ 2 in
  np_sqrt (2 * air_density self * area * power).

(** The loop [for r in r_elements]. *)
Fixpoint blade_loop (self : t)
    (omega radius chord_root chord_tip pitch_angle cl_slope dr num_blades : R)
    (r_elements : list R) (total_thrust total_torque : R) : outcome (R * R) :=
  match r_elements with
  | [] => Ok (total_thrust, total_torque)
  | r :: rest =>
      let* x := npdiv r radius in
      let chord := chord_root + (chord_tip - chord_root) * x in
      let u_rot := omega * r in
      let alpha := pitch_angle in
      let cl := cl_slope * alpha in
      let dT :=
        0.5 * air_density self * u_rot ^ 2 * chord * cl * dr * num_blades in
      let cd := 0.01 + 0.05 * alpha ^ 2 in
      let dQ :=
        0.5 * air_density self * u_rot ^ 2 * chord * cd * r * dr * num_blades in
      blade_loop self omega radius chord_root chord_tip pitch_angle cl_slope
        dr num_blades rest (total_thrust + dT) (total_torque + dQ)
  end.

Definition calculate_thrust_blade_element (self : t)
    (rpm : R) (blade_params : dict) (num_blades : R) (num_elements : Z)
    : outcome dict :=
  let omega := rpm * 2 * PI / 60.0 in
  let* radius := get_real blade_params "radius" 0.127 in
  let* chord_root := get_real blade_params "chord_root" 0.03 in
  let* chord_tip := get_real blade_params "chord_tip" 0.015 in
  let* pitch_deg := get_real blade_params "pitch_angle" 10.0 in
  let pitch_angle := pitch_deg * PI / 180.0 in
  let* cl_slope := get_real blade_params "cl_slope" (2 * PI) in
  let* r_elements := linspace (0.2 * radius) radius num_elements in
  let* r1 := array_item r_elements 1 in
  let* r0 := array_item r_elements 0 in
  let dr := r1 - r0 in
  let* (total_thrust, total_torque) :=
    blade_loop self omega radius chord_root chord_tip pitch_angle cl_slope
      dr num_blades r_elements 0.0 0.0 in
  let power := total_torque * omega in
  let* efficiency :=
    if Rlt_dec 0 power then
      let* q :=
        npdiv total_thrust (2 * air_density self * PI * radius ^ 2) in
      let* v_induced := np_sqrt q in
      let ideal_power := total_thrust * v_induced in
      npdiv ideal_power power
    else Ok 0 in
  Ok [("thrust_N", VReal total_thrust);
      ("torque_Nm", VReal total_torque);
      ("power_W", VReal power);
      ("efficiency", VReal (pymin efficiency 1.0))].

Definition calculate_figure_of_merit (self : t)
    (thrust power radius : R) : outcome R :=
  if Rle_dec power 0 then Ok 0
  else
    let disk_area := PI * radius ^ 2 in
    let* q := pydiv thrust (2 * air_density self * disk_area) in
    let* v_induced_ideal := np_sqrt q in
    let ideal_power := thrust * v_induced_ideal in
    let* fm := npdiv ideal_power power in
    Ok (pymin fm 1.0).

Definition calculate_advance_ratio (self : t)
    (forward_velocity rpm diameter : R) : outcome R :=
  let n := rpm / 60.0 in
  if Req_dec_T (n * diameter) 0 then Ok 0
  else pydiv forward_velocity (n * diameter).

Definition calculate_thrust_coefficient (self : t)
    (thrust rpm diameter : R) : outcome R :=
  let n := rpm / 60.0 in
  let denominator := air_density self * n ^ 2 * diameter ^ 4 in
  if Req_dec_T denominator 0 then Ok 0
  else pydiv thrust denominator.

End ThrustCalculator.

(** ** The store of geometry records *)

Definition heap := list dict.

(** A computation that reads and updates the store; the store is kept when
    the computation faults. *)
Definition M (A : Type) : Type := heap -> heap * outcome A.

Definition ret {A : Type} (a : A) : M A := fun h => (h, Ok a).

Definition lift {A : Type} (o : outcome A) : M A := fun h => (h, o).

Definition mbind {A B : Type} (m : M A) (k : A -> M B) : M B :=
  fun h =>
    match m h with
    | (h', Ok a) => k a h'
    | (h', Raise e) => (h', Raise e)
    end.

Notation "'let!' x ':=' m 'in' k" := (mbind m (fun x => k))
  (at level 10, x name, m at level 100, k at level 200).
Notation "'let!' ( x , y ) ':=' m 'in' k" := (mbind m (fun '(x, y) => k))
  (at level 10, x name, y name, m at level 100, k at level 200).

(** The record behind a reference.  Python has no dangling reference; the
    model answers [TypeError] for one. *)
Definition deref (r : ref) : M dict :=
  fun h =>
    match nth_error h r with
    | Some d => (h, Ok d)
    | None => (h, Raise TypeError)
    end.

(** A new dict object. *)
Definition alloc (d : dict) : M ref :=
  fun h => ((h ++ [d])%list, Ok (List.length h)).

(** [r.copy()]: a new object with the entries of [r]. *)
Definition copy (r : ref) : M ref :=
  let! d := deref r in alloc d.

Fixpoint replace_nth (h : heap) (r : ref) (d : dict) : heap :=
  match h, r with
  | [], _ => []
  | _ :: h', O => d :: h'
  | d' :: h', S r' => d' :: replace_nth h' r' d
  end.

(** [r[k] = v] *)
Definition setitem (r : ref) (k : string) (v : value) : M unit :=
  fun h =>
    match nth_error h r with
    | Some d => (replace_nth h r (dset d k v), Ok tt)
    | None => (h, Raise TypeError)
    end.

(** [np.degrees] *)
Definition degrees (x : R) : R := x * (180 / PI).

(** ** bio_inspired/owl_serrations.py *)

Module OwlWingSerrations.

Definition calculate_serration_geometry
    (chord_length serration_depth_ratio serration_wavelength_ratio : R)
    (num_serrations : option Z) : outcome dict :=
  let depth := chord_length * serration_depth_ratio in
  let wavelength := chord_length * serration_wavelength_ratio in
  let* num_serrations :=
    match num_serrations with
    | None =>
        let* q := pydiv (0.5 * chord_length) wavelength in
        Ok (pyint q)
    | Some n => Ok n
    end in
  let* q := pydiv depth (wavelength / 2) in
  let serration_angle := atan q in
  let serration_angle_deg := degrees serration_angle in
  Ok [("depth_m", VReal depth);
      ("wavelength_m", VReal wavelength);
      ("num_serrations", VReal (IZR num_serrations));
      ("angle_deg", VReal serration_angle_deg);
      ("depth_ratio", VReal serration_depth_ratio);
      ("wavelength_ratio", VReal serration_wavelength_ratio)].

Definition estimate_noise_reduction
    (baseline_noise_db : R) (serration_params : dict)
    (frequency_hz flow_velocity : R) : outcome dict :=
  let* depth := item_real serration_params "depth_m" in
  let* wavelength := item_real serration_params "wavelength_m" in
  let speed_of_sound := 343.0 in
  let* acoustic_wavelength := pydiv speed_of_sound frequency_hz in
  let optimal_wavelength := acoustic_wavelength / 4 in
  let* wavelength_ratio := pydiv wavelength optimal_wavelength in
  (* the last branch goes through [np.exp]: its value is a numpy scalar *)
  let '(effectiveness, divide) :=
    if Rlt_dec wavelength_ratio 0.1 then (0.3, pydiv)
    else if Rlt_dec wavelength_ratio 0.5 then
      (0.3 + 0.4 * (wavelength_ratio - 0.1) / 0.4, pydiv)
    else if Rle_dec wavelength_ratio 2.0 then
      (0.7 + 0.3 * (1.0 - Rabs (wavelength_ratio - 1.0)), pydiv)
    else (0.5 * exp (- (wavelength_ratio - 2.0) / 2.0), npdiv) in
  let base_reduction := 2.0 + 5.0 * effectiveness in
  let depth_factor := pymin (depth / 0.01) 1.0 in
  let noise_reduction_db := base_reduction * depth_factor * 2.0 in
  let reduced_noise_db := baseline_noise_db - noise_reduction_db in
  let* q := divide noise_reduction_db baseline_noise_db in
  Ok [("noise_reduction_db", VReal noise_reduction_db);
      ("reduced_noise_db", VReal reduced_noise_db);
      ("effectiveness_factor", VReal effectiveness);
      ("reduction_percentage", VReal (q * 100))].

Definition apply_to_blade_design
    (blade_geometry : ref) (serration_config : option dict) : M ref :=
  let! serration_params :=
    match serration_config with
    | None =>
        let! g := deref blade_geometry in
        let! chord_length := lift (get_real g "chord_length" 0.05) in
        lift (calculate_serration_geometry chord_length 0.05 0.02 None)
    | Some c => ret c
    end in
  let! modified_geometry := copy blade_geometry in
  let! _ := setitem modified_geometry "trailing_edge_serrations"
                    (VDict serration_params) in
  let! _ := setitem modified_geometry "bio_inspired_feature"
                    (VStr "owl_wing_serrations") in
  let! g := deref blade_geometry in
  let! base_drag_coeff := lift (get_real g "drag_coefficient" 0.02) in
  let! depth_ratio := lift (item_real serration_params "depth_ratio") in
  let serration_drag_penalty := 0.02 + 0.03 * (depth_ratio / 0.1) in
  let! _ := setitem modified_geometry "drag_coefficient"
                    (VReal (base_drag_coeff * (1 + serration_drag_penalty))) in
  ret modified_geometry.

End OwlWingSerrations.

(** ** bio_inspired/humpback_tubercles.py *)

Module HumpbackWhaleTubercles.

Definition calculate_tubercle_geometry
    (blade_span amplitude_ratio wavelength_ratio : R)
    (num_tubercles : option Z) : outcome dict :=
  let wavelength := blade_span * wavelength_ratio in
  let* num_tubercles :=
    match num_tubercles with
    | None =>
        let* q := pydiv blade_span wavelength in
        Ok (Z.max 3 (pyint q))
    | Some n => Ok n
    end in
  let* wavelength := pydiv blade_span (IZR num_tubercles) in
  let* ratio := pydiv wavelength blade_span in
  Ok [("num_tubercles", VReal (IZR num_tubercles));
      ("wavelength_m", VReal wavelength);
      ("amplitude_ratio", VReal amplitude_ratio);
      ("wavelength_ratio", VReal ratio);
      ("span_m", VReal blade_span)].

Definition calculate_local_amplitude (chord_length amplitude_ratio : R) : R :=
  chord_length * amplitude_ratio.

Definition estimate_noise_reduction
    (baseline_noise_db : R) (tubercle_params operating_conditions : dict)
    : outcome dict :=
  let* num_tubercles := item_real tubercle_params "num_tubercles" in
  let* amplitude_ratio := item_real tubercle_params "amplitude_ratio" in
  let* aoa := get_real operating_conditions "angle_of_attack" 5.0 in
  let aoa_factor :=
    if Rlt_dec aoa 5 then 0.4
    else if Rlt_dec aoa 10 then 0.4 + 0.4 * (aoa - 5) / 5
    else 0.8 + 0.2 * pymin ((aoa - 10) / 10) 1.0 in
  let tubercle_factor := pymin (num_tubercles / 5.0) 1.0 in
  let amplitude_factor := pymin (amplitude_ratio / 0.12) 1.0 in
  let vortex_reduction :=
    3.0 + 5.0 * aoa_factor * tubercle_factor * amplitude_factor in
  let vortex_reduction := vortex_reduction * 2.2 in
  let broadband_increase := 0.5 + 0.5 * amplitude_ratio / 0.12 in
  let net_reduction := vortex_reduction - broadband_increase in
  let reduced_noise_db := baseline_noise_db - net_reduction in
  let* q := pydiv net_reduction baseline_noise_db in
  Ok [("noise_reduction_db", VReal net_reduction);
      ("reduced_noise_db", VReal reduced_noise_db);
      ("vortex_noise_reduction_db", VReal vortex_reduction);
      ("broadband_noise_increase_db", VReal broadband_increase);
      ("aoa_effectiveness_factor", VReal aoa_factor);
      ("reduction_percentage", VReal (q * 100))].

Definition apply_to_blade_design
    (blade_geometry : ref) (tubercle_config : option dict) : M ref :=
  let! tubercle_params :=
    match tubercle_config with
    | None =>
        let! g := deref blade_geometry in
        let! blade_span := lift (get_real g "radius" 0.127) in
        lift (calculate_tubercle_geometry blade_span 0.12 0.25 None)
    | Some c => ret c
    end in
  let! modified_geometry := copy blade_geometry in
  let! _ := setitem modified_geometry "leading_edge_tubercles"
                    (VDict tubercle_params) in
  let! _ := setitem modified_geometry "bio_inspired_feature"
                    (VStr "humpback_whale_tubercles") in
  let! g := deref blade_geometry in
  let! base_cl_max := lift (get_real g "cl_max" 1.2) in
  let! _ := setitem modified_geometry "cl_max" (VReal (base_cl_max * 1.075)) in
  let! g := deref blade_geometry in
  let! base_drag_coeff := lift (get_real g "drag_coefficient" 0.02) in
  let drag_penalty := 0.025 in
  let! _ := setitem modified_geometry "drag_coefficient"
                    (VReal (base_drag_coeff * (1 + drag_penalty))) in
  let! g := deref blade_geometry in
  let! base_stall_angle := lift (get_real g "stall_angle_deg" 12.0) in
  let! _ := setitem modified_geometry "stall_angle_deg"
                    (VReal (base_stall_angle + 2.0)) in
  ret modified_geometry.

(** The division by [wavelength] is one of a numpy array: with a wavelength
    of zero every element leaves the reals. *)
Definition generate_tubercle_profile
    (tubercle_params : dict) (num_points : Z) : outcome (list R * list R) :=
  let* wavelength := item_real tubercle_params "wavelength_m" in
  let* num_tubercles := item_real tubercle_params "num_tubercles" in
  let* span := item_real tubercle_params "span_m" in
  let* s := linspace 0 span num_points in
  let* amplitude :=
    match s with
    | [] => Ok []
    | _ =>
        if Req_dec_T wavelength 0 then Raise NotReal
        else Ok (map (fun x => sin (2 * PI * x / wavelength)) s)
    end in
  Ok (s, amplitude).

End HumpbackWhaleTubercles.

(** ** bio_inspired/dragonfly_corrugations.py *)

Module DragonflyCorrugations.

Definition calculate_corrugation_geometry
    (chord_length corrugation_depth_ratio corrugation_wavelength_ratio : R)
    (num_corrugations : option Z) : outcome dict :=
  let depth := chord_length * corrugation_depth_ratio in
  let wavelength := chord_length * corrugation_wavelength_ratio in
  let* num_corrugations :=
    match num_corrugations with
    | None =>
        let* q := pydiv chord_length wavelength in
        Ok (Z.max (pyint q) 3)
    | Some n => Ok n
    end in
  let* q := pydiv (2 * depth) wavelength in
  let profile_angle := atan q in
  let profile_angle_deg := degrees profile_angle in
  Ok [("depth_m", VReal depth);
      ("wavelength_m", VReal wavelength);
      ("num_corrugations", VReal (IZR num_corrugations));
      ("profile_angle_deg", VReal profile_angle_deg);
      ("depth_ratio", VReal corrugation_depth_ratio);
      ("wavelength_ratio", VReal corrugation_wavelength_ratio)].

Definition estimate_noise_reduction
    (baseline_noise_db : R) (corrugation_params : dict)
    (reynolds_number flow_velocity : R) : outcome dict :=
  let* depth := item_real corrugation_params "depth_m" in
  let* wavelength := item_real corrugation_params "wavelength_m" in
  let* num_corrugations := item_real corrugation_params "num_corrugations" in
  (* the last branch goes through [np.exp]: its value is a numpy scalar *)
  let '(re_factor, divide) :=
    if Rlt_dec reynolds_number 100000 then (1.0, pydiv)
    else if Rlt_dec reynolds_number 500000 then
      (1.0 - 0.5 * (reynolds_number - 100000) / 400000, pydiv)
    else (0.5 * exp (- (reynolds_number - 500000) / 500000), npdiv) in
  let depth_factor := pymin (depth / 0.002) 1.0 in
  let num_factor := pymin (num_corrugations / 10.0) 1.0 in
  let boundary_layer_reduction :=
    2.0 + 3.0 * re_factor * depth_factor * num_factor in
  let vortex_reduction := 1.0 + 2.0 * re_factor * num_factor in
  let boundary_layer_reduction := boundary_layer_reduction * 2.1 in
  let vortex_reduction := vortex_reduction * 2.1 in
  let* dw := pydiv depth wavelength in
  let surface_area_ratio := 1.0 + dw in
  let friction_increase := 0.5 * (surface_area_ratio - 1.0) * 2.0 in
  let net_reduction :=
    boundary_layer_reduction + vortex_reduction - friction_increase in
  let reduced_noise_db := baseline_noise_db - net_reduction in
  let* q := divide net_reduction baseline_noise_db in
  Ok [("noise_reduction_db", VReal net_reduction);
      ("reduced_noise_db", VReal reduced_noise_db);
      ("boundary_layer_reduction_db", VReal boundary_layer_reduction);
      ("vortex_reduction_db", VReal vortex_reduction);
      ("friction_increase_db", VReal friction_increase);
      ("re_effectiveness_factor", VReal re_factor);
      ("reduction_percentage", VReal (q * 100))].

Definition estimate_structural_benefits
    (corrugation_params blade_material : dict) : outcome dict :=
  let* depth := item_real corrugation_params "depth_m" in
  let* wavelength := item_real corrugation_params "wavelength_m" in
  let* depth_wavelength_ratio := pydiv depth wavelength in
  let moment_area_factor := 1.0 + depth_wavelength_ratio ^ 2 in
  let stiffness_increase_percentage := (moment_area_factor - 1.0) * 100 in
  let torsional_increase_percentage := stiffness_increase_percentage * 0.5 in
  let* root := np_sqrt moment_area_factor in
  let frequency_increase_percentage := (root - 1.0) * 100 in
  Ok [("stiffness_increase_percentage", VReal stiffness_increase_percentage);
      ("torsional_stiffness_increase_percentage",
       VReal torsional_increase_percentage);
      ("natural_frequency_increase_percentage",
       VReal frequency_increase_percentage);
      ("moment_area_factor", VReal moment_area_factor);
      ("flutter_resistance_improvement",
       VStr (if Rlt_dec 20 stiffness_increase_percentage
             then "high" else "moderate"))].

Definition apply_to_blade_design
    (blade_geometry : ref) (corrugation_config : option dict) : M ref :=
  let! corrugation_params :=
    match corrugation_config with
    | None =>
        let! g := deref blade_geometry in
        let! chord_length := lift (get_real g "chord_length" 0.05) in
        lift (calculate_corrugation_geometry chord_length 0.03 0.05 None)
    | Some c => ret c
    end in
  let! modified_geometry := copy blade_geometry in
  let! _ := setitem modified_geometry "surface_corrugations"
                    (VDict corrugation_params) in
  let! _ := setitem modified_geometry "bio_inspired_feature"
                    (VStr "dragonfly_corrugations") in
  let! g := deref blade_geometry in
  let material_props :=
    match dget g "material_properties" with
    | Some (VDict m) => m
    | _ => []
    end in
  let! structural_benefits :=
    lift (estimate_structural_benefits corrugation_params material_props) in
  let! _ := setitem modified_geometry "structural_improvements"
                    (VDict structural_benefits) in
  let! g := deref blade_geometry in
  let! base_drag_coeff := lift (get_real g "drag_coefficient" 0.02) in
  let drag_penalty := 0.04 in
  let! _ := setitem modified_geometry "drag_coefficient"
                    (VReal (base_drag_coeff * (1 + drag_penalty))) in
  let! g := deref blade_geometry in
  let! base_cl_max := lift (get_real g "cl_max" 1.2) in
  let! _ := setitem modified_geometry "cl_max" (VReal (base_cl_max * 1.05)) in
  ret modified_geometry.

(** [x % 1] on a numpy array is the fractional part [x - floor(x)]. *)
Definition generate_corrugation_profile
    (corrugation_params : dict) (profile_type : string) (num_points : Z)
    : outcome (list R * list R) :=
  let* depth := item_real corrugation_params "depth_m" in
  let* wavelength := item_real corrugation_params "wavelength_m" in
  let* num_corrugations := item_real corrugation_params "num_corrugations" in
  let chord_extent := num_corrugations * wavelength in
  let* x := linspace 0 chord_extent num_points in
  let* z :=
    match x with
    | [] => Ok []
    | _ =>
        if Req_dec_T wavelength 0 then Raise NotReal
        else if String.eqb profile_type "sinusoidal" then
          Ok (map (fun xi => depth * sin (2 * PI * xi / wavelength)) x)
        else
          Ok (map (fun xi =>
                     depth * (2 * Rabs (frac_part (xi / wavelength) - 0.5)
                              - 0.5)) x)
    end in
  Ok (x, z).

End DragonflyCorrugations.

(** ** Reads and tests that the functions below share *)

(** [d.get(k, dflt)] read as a float, the infinities and nan included. *)
Definition get_float (d : dict) (k : string) (dflt : pyfloat)
    : outcome pyfloat :=
  match dget d k with
  | Some (VNum x) => Ok x
  | Some _ => Raise TypeError
  | None => Ok dflt
  end.

(** [v == s] for a string [s]. *)
Definition is_string (v : value) (s : string) : bool :=
  match v with
  | VStr s' => String.eqb s' s
  | _ => false
  end.

(** The truth value of [v], as [if v] and [or] take it. *)
Definition truth (v : value) : M bool :=
  match v with
  | VNone => ret false
  | VBool b => ret b
  | VNum (Fin x) => ret (if Req_dec_T x 0 then false else true)
  | VNum _ => ret true
  | VStr s => ret (negb (String.eqb s ""))
  | VStrs l => ret (match l with [] => false | _ => true end)
  | VDict d => ret (match d with [] => false | _ => true end)
  | VRef r =>
      let! d := deref r in
      ret (match d with [] => false | _ => true end)
  end.

(** The slice [l[:n]]: a negative [n] counts from the end. *)
Definition slice_to {A : Type} (l : list A) (n : Z) : list A :=
  if (n <? 0)%Z then firstn (Z.to_nat (Z.of_nat (List.length l) + n)) l
  else firstn (Z.to_nat n) l.

(** [str(n)] for a natural number. *)
Definition decimal (n : nat) : string :=
  DecimalString.NilEmpty.string_of_uint (Nat.to_uint n).

(** ** bio_inspired/design_factory.py *)

Module BioInspiredDesignFactory.

(** [custom_configs.get(name)]: [None] when the feature has no entry. *)
Definition config_of (custom_configs : dict) (name : string)
    : outcome (option dict) :=
  match dget custom_configs name with
  | None | Some VNone => Ok None
  | Some (VDict c) => Ok (Some c)
  | Some _ => Raise TypeError
  end.

Definition create_design
    (base_geometry : ref) (features : list string)
    (custom_configs : option dict) : M ref :=
  let! modified_geometry := copy base_geometry in
  let custom_configs :=
    match custom_configs with
    | None => []
    | Some c => c
    end in
  let applied_features : list string := [] in
  let! (modified_geometry, applied_features) :=
    if mem "owl_serrations" features then
      let! config := lift (config_of custom_configs "owl_serrations") in
      let! g := OwlWingSerrations.apply_to_blade_design
                  modified_geometry config in
      ret (g, (applied_features ++ ["owl_serrations"])%list)
    else ret (modified_geometry, applied_features) in
  let! (modified_geometry, applied_features) :=
    if mem "humpback_tubercles" features then
      let! config := lift (config_of custom_configs "humpback_tubercles") in
      let! g := HumpbackWhaleTubercles.apply_to_blade_design
                  modified_geometry config in
      ret (g, (applied_features ++ ["humpback_tubercles"])%list)
    else ret (modified_geometry, applied_features) in
  let! (modified_geometry, applied_features) :=
    if mem "dragonfly_corrugations" features then
      let! config := lift (config_of custom_configs "dragonfly_corrugations") in
      let! g := DragonflyCorrugations.apply_to_blade_design
                  modified_geometry config in
      ret (g, (applied_features ++ ["dragonfly_corrugations"])%list)
    else ret (modified_geometry, applied_features) in
  let! _ := setitem modified_geometry "bio_inspired_features"
                    (VStrs applied_features) in
  ret modified_geometry.

(** The state of the loop [for feature in features]. *)
Record reduction_state : Type := {
  total_reduction : R;
  individual_reductions : dict;
  current_noise : R
}.

(** One pass of the loop body. *)
Definition reduction_step
    (feature_params operating_conditions : dict)
    (st : reduction_state) (feature : string) : outcome reduction_state :=
  if String.eqb feature "owl_serrations" then
    let* params := get_dict feature_params "owl_serrations" in
    let* freq := get_real operating_conditions "frequency_hz" 1000 in
    let* velocity := get_real operating_conditions "velocity" 10.0 in
    let* result :=
      OwlWingSerrations.estimate_noise_reduction
        (current_noise st) params freq velocity in
    let* reduction := item_real result "noise_reduction_db" in
    let* reduced := item_real result "reduced_noise_db" in
    Ok {| total_reduction := total_reduction st + reduction;
          individual_reductions :=
            dset (individual_reductions st) "owl_serrations" (VReal reduction);
          current_noise := reduced |}
  else if String.eqb feature "humpback_tubercles" then
    let* params := get_dict feature_params "humpback_tubercles" in
    let* result :=
      HumpbackWhaleTubercles.estimate_noise_reduction
        (current_noise st) params operating_conditions in
    let* reduction := item_real result "noise_reduction_db" in
    let* reduced := item_real result "reduced_noise_db" in
    Ok {| total_reduction := total_reduction st + reduction;
          individual_reductions :=
            dset (individual_reductions st) "humpback_tubercles"
                 (VReal reduction);
          current_noise := reduced |}
  else if String.eqb feature "dragonfly_corrugations" then
    let* params := get_dict feature_params "dragonfly_corrugations" in
    let* reynolds := get_real operating_conditions "reynolds_number" 200000 in
    let* velocity := get_real operating_conditions "velocity" 10.0 in
    let* result :=
      DragonflyCorrugations.estimate_noise_reduction
        (current_noise st) params reynolds velocity in
    let* reduction := item_real result "noise_reduction_db" in
    let* reduced := item_real result "reduced_noise_db" in
    Ok {| total_reduction := total_reduction st + reduction;
          individual_reductions :=
            dset (individual_reductions st) "dragonfly_corrugations"
                 (VReal reduction);
          current_noise := reduced |}
  else Ok st.

Fixpoint reduction_loop
    (feature_params operating_conditions : dict)
    (features : list string) (st : reduction_state)
    : outcome reduction_state :=
  match features with
  | [] => Ok st
  | feature :: rest =>
      let* st' := reduction_step feature_params operating_conditions
                    st feature in
      reduction_loop feature_params operating_conditions rest st'
  end.

Definition estimate_combined_noise_reduction
    (baseline_noise_db : R) (features : list string)
    (feature_params operating_conditions : dict) : outcome dict :=
  let* st :=
    reduction_loop feature_params operating_conditions features
      {| total_reduction := 0.0;
         individual_reductions := [];
         current_noise := baseline_noise_db |} in
  let len := List.length features in
  let interaction_factor := 1.0 + 0.18 * IZR (Z.of_nat len - 1) in
  let effective_reduction :=
    if (1 <? len)%nat then total_reduction st * interaction_factor
    else total_reduction st in
  let final_noise := baseline_noise_db - effective_reduction in
  let* q := pydiv effective_reduction baseline_noise_db in
  Ok [("total_reduction_db", VReal effective_reduction);
      ("final_noise_db", VReal final_noise);
      ("individual_reductions", VDict (individual_reductions st));
      ("interaction_factor",
       VReal (if (1 <? len)%nat then interaction_factor else 1.0));
      ("reduction_percentage", VReal (q * 100))].

Definition recommend_features
    (operating_conditions : dict) (constraints : option dict)
    : M (list string) :=
  let recommendations : list string := [] in
  let constraints :=
    match constraints with
    | None => []
    | Some c => c
    end in
  let! reynolds :=
    lift (get_float operating_conditions "reynolds_number" (Fin 200000)) in
  let! aoa :=
    lift (get_float operating_conditions "angle_of_attack" (Fin 5.0)) in
  let! noise_target :=
    lift (get_float operating_conditions "noise_reduction_target"
            (Fin 15.0)) in
  let manufacturing :=
    get_value constraints "manufacturing_complexity" (VStr "medium") in
  let recommendations :=
    if is_string manufacturing "medium" || is_string manufacturing "high"
    then recommendations ++ ["owl_serrations"]
    else recommendations in
  let recommendations :=
    if fgt aoa (Fin 5.0) && is_string manufacturing "high"
    then recommendations ++ ["humpback_tubercles"]
    else recommendations in
  let! stiffness :=
    if flt reynolds (Fin 300000) then ret true
    else truth (get_value constraints "require_stiffness" (VBool false)) in
  let recommendations :=
    if stiffness then recommendations ++ ["dragonfly_corrugations"]
    else recommendations in
  let recommendations :=
    if fge noise_target (Fin 15.0)
       && (List.length recommendations <? 2)%nat
    then
      let recommendations :=
        if negb (mem "owl_serrations" recommendations)
        then recommendations ++ ["owl_serrations"]
        else recommendations in
      if negb (mem "humpback_tubercles" recommendations)
         && is_string manufacturing "high"
      then recommendations ++ ["humpback_tubercles"]
      else recommendations
    else recommendations in
  ret recommendations.

(** A variant: its name, its geometry record and its features. *)
Definition variant (name : string) (geometry : ref) (features : list string)
    : dict :=
  [("name", VStr name); ("geometry", VRef geometry);
   ("features", VStrs features)].

Definition generate_design_variants
    (base_geometry : ref) (num_variants : Z) : M (list dict) :=
  let variants : list dict := [] in
  let! g := copy base_geometry in
  let variants := variants ++ [variant "Baseline" g []] in
  let! g := create_design base_geometry ["owl_serrations"] None in
  let variants :=
    variants ++ [variant "Owl Serrations" g ["owl_serrations"]] in
  let! g := create_design base_geometry ["humpback_tubercles"] None in
  let variants :=
    variants ++ [variant "Humpback Tubercles" g ["humpback_tubercles"]] in
  let! g := create_design base_geometry ["dragonfly_corrugations"] None in
  let variants :=
    variants
    ++ [variant "Dragonfly Corrugations" g ["dragonfly_corrugations"]] in
  let! variants :=
    if (5 <=? num_variants)%Z then
      let! g :=
        create_design base_geometry
          ["owl_serrations"; "humpback_tubercles"; "dragonfly_corrugations"]
          None in
      ret (variants
           ++ [variant "Combined Bio-Inspired" g
                 ["owl_serrations"; "humpback_tubercles";
                  "dragonfly_corrugations"]])
    else ret variants in
  ret (slice_to variants num_variants).

End BioInspiredDesignFactory.

(** ** optimization/design_evaluator.py *)

Module DesignEvaluator.

Record t : Type := {
  noise_analyzer : NoiseAnalyzer.t;
  thrust_calculator : ThrustCalculator.t
}.

(** [DesignEvaluator()] *)
Definition default : t :=
  {| noise_analyzer := NoiseAnalyzer.default;
     thrust_calculator := ThrustCalculator.default |}.

Definition evaluate_design (self : t)
    (propeller_geometry : ref) (operating_conditions : dict)
    (baseline_ntr : option pyfloat) : M dict :=
  let! g := deref propeller_geometry in
  let! noise_results :=
    lift (NoiseAnalyzer.calculate_total_noise (noise_analyzer self)
            g operating_conditions 1.0) in
  let! rpm := lift (get_real operating_conditions "rpm" 5000) in
  let blade_params :=
    [("radius", get_value g "radius_m" (VReal 0.127));
     ("chord_root", get_value g "chord_root" (VReal 0.03));
     ("chord_tip", get_value g "chord_tip" (VReal 0.015));
     ("pitch_angle", get_value g "pitch_angle" (VReal 10.0));
     ("cl_slope", get_value g "cl_slope" (VReal (2 * 3.14159)))] in
  let! num_blades := lift (get_real g "num_blades" 2) in
  let! thrust_results :=
    lift (ThrustCalculator.calculate_thrust_blade_element
            (thrust_calculator self) rpm blade_params num_blades 20) in
  let! performance_metrics :=
    lift (AeroacousticMetrics.evaluate_design_performance
            noise_results thrust_results baseline_ntr) in
  ret [("noise_analysis", VDict noise_results);
       ("thrust_analysis", VDict thrust_results);
       ("performance_metrics", VDict performance_metrics);
       ("propeller_geometry", VRef propeller_geometry);
       ("operating_conditions", VDict operating_conditions)].

(** The dict [feature_params] that [evaluate_bio_inspired_design] reads off
    the modified geometry. *)
Definition extract_feature_params
    (features : list string) (modified_geometry : dict) : dict :=
  let feature_params : dict := [] in
  let feature_params :=
    if mem "owl_serrations" features then
      dset feature_params "owl_serrations"
        (get_value modified_geometry "trailing_edge_serrations" (VDict []))
    else feature_params in
  let feature_params :=
    if mem "humpback_tubercles" features then
      dset feature_params "humpback_tubercles"
        (get_value modified_geometry "leading_edge_tubercles" (VDict []))
    else feature_params in
  if mem "dragonfly_corrugations" features then
    dset feature_params "dragonfly_corrugations"
      (get_value modified_geometry "surface_corrugations" (VDict []))
  else feature_params.

Definition evaluate_bio_inspired_design (self : t)
    (base_geometry : ref) (features : list string)
    (operating_conditions : dict) (baseline_ntr : option pyfloat) : M dict :=
  let! modified_geometry :=
    BioInspiredDesignFactory.create_design base_geometry features None in
  let! evaluation :=
    evaluate_design self modified_geometry operating_conditions
      baseline_ntr in
  let! evaluation :=
    match features with
    | [] => ret evaluation
    | _ =>
        let! noise_analysis := lift (item_dict evaluation "noise_analysis") in
        let! baseline_noise := lift (item_real noise_analysis "total_spl_db") in
        let! g := deref modified_geometry in
        let feature_params := extract_feature_params features g in
        let! reduction_results :=
          lift (BioInspiredDesignFactory.estimate_combined_noise_reduction
                  baseline_noise features feature_params
                  operating_conditions) in
        let! reduced_noise :=
          lift (item_real reduction_results "final_noise_db") in
        let! noise_reduction_db :=
          lift (item_real reduction_results "total_reduction_db") in
        let noise_analysis :=
          dset (dset (dset noise_analysis
                        "total_spl_db" (VReal reduced_noise))
                  "noise_reduction_db" (VReal noise_reduction_db))
            "bio_inspired_reduction" (VDict reduction_results) in
        let evaluation :=
          dset evaluation "noise_analysis" (VDict noise_analysis) in
        let! thrust_results := lift (item_dict evaluation "thrust_analysis") in
        let! performance_metrics :=
          lift (AeroacousticMetrics.evaluate_design_performance
                  noise_analysis thrust_results baseline_ntr) in
        ret (dset evaluation "performance_metrics"
               (VDict performance_metrics))
    end in
  ret (dset (dset evaluation "bio_inspired_features" (VStrs features))
         "modified_geometry" (VRef modified_geometry)).

(** What [compare_designs] returns. *)
Record comparison : Type := {
  designs : list dict;
  best_design : dict;
  num_designs : nat
}.

(** The loop [for i, design in enumerate(designs)]. *)
Fixpoint compare_loop (self : t) (designs : list ref)
    (operating_conditions : dict) (i : nat) (results : list dict)
    : M (list dict) :=
  match designs with
  | [] => ret results
  | design :: rest =>
      let! d := deref design in
      let name := get_value d "name" (VStr ("Design " ++ decimal (i + 1))) in
      let! evaluation :=
        evaluate_design self design operating_conditions None in
      let! metrics := lift (item_dict evaluation "performance_metrics") in
      let! ntr :=
        lift (item_float metrics "noise_to_thrust_ratio_dB_per_N") in
      let! noise_db := lift (item_real metrics "total_noise_spl_db") in
      let! thrust_N := lift (item_real metrics "thrust_N") in
      compare_loop self rest operating_conditions (S i)
        (results ++ [[("name", name);
                      ("evaluation", VDict evaluation);
                      ("ntr", VNum ntr);
                      ("noise_db", VReal noise_db);
                      ("thrust_N", VReal thrust_N)]])
  end.

(** The key [x['ntr']] of a result. *)
Definition ntr_of (result : dict) : pyfloat :=
  match dget result "ntr" with
  | Some (VNum x) => x
  | _ => NaN
  end.

(** [results.sort(key=lambda x: x['ntr'])] for keys none of which is nan:
    there [<] orders the keys and the sort is stable, so a result goes
    behind the results before it that are not greater.  A key that is nan
    comes from an evaluation that has left the real numbers, where the
    model has stopped with [NotReal]; what Python's sort does with such a
    key is not modelled. *)
Fixpoint sort_insert (x : dict) (sorted : list dict) : list dict :=
  match sorted with
  | [] => [x]
  | y :: rest =>
      if flt (ntr_of x) (ntr_of y) then x :: y :: rest
      else y :: sort_insert x rest
  end.

Definition sort_by_ntr (results : list dict) : list dict :=
  fold_left (fun sorted x => sort_insert x sorted) results [].

Definition compare_designs (self : t) (designs : list ref)
    (operating_conditions : dict) : M comparison :=
  let! results := compare_loop self designs operating_conditions 0 [] in
  let results := sort_by_ntr results in
  match results with
  | [] => lift (Raise IndexError)
  | best :: _ =>
      ret {| designs := results;
             best_design := best;
             num_designs := List.length designs |}
  end.

End DesignEvaluator.

(** ** optimization/optimizer.py *)

Module PropellerOptimizer.

(** The random source behind [np.random.uniform]: a sequence of draws from
    the unit interval [[0, 1)] and the position of the next one. *)
Record rng : Type := { draws : nat -> R; next : nat }.

(** [np.random.uniform(low, high)] *)
Definition uniform (low high : R) (g : rng) : R * rng :=
  (low + (high - low) * draws g (next g),
   {| draws := draws g; next := S (next g) |}).

Record t : Type := {
  evaluator : DesignEvaluator.t;
  history : list dict
}.

(** [PropellerOptimizer()] *)
Definition default : t :=
  {| evaluator := DesignEvaluator.default; history := [] |}.

Definition _generate_random_configs (features : list string) (g : rng)
    : dict * rng :=
  let configs : dict := [] in
  let '(configs, g) :=
    if mem "owl_serrations" features then
      let '(a, g) := uniform 0.03 0.08 g in
      let '(b, g) := uniform 0.015 0.04 g in
      (dset configs "owl_serrations"
         (VDict [("serration_depth_ratio", VReal a);
                 ("serration_wavelength_ratio", VReal b)]), g)
    else (configs, g) in
  let '(configs, g) :=
    if mem "humpback_tubercles" features then
      let '(a, g) := uniform 0.08 0.14 g in
      let '(b, g) := uniform 0.20 0.35 g in
      (dset configs "humpback_tubercles"
         (VDict [("amplitude_ratio", VReal a);
                 ("wavelength_ratio", VReal b)]), g)
    else (configs, g) in
  if mem "dragonfly_corrugations" features then
    let '(a, g) := uniform 0.025 0.045 g in
    let '(b, g) := uniform 0.04 0.07 g in
    (dset configs "dragonfly_corrugations"
       (VDict [("corrugation_depth_ratio", VReal a);
               ("corrugation_wavelength_ratio", VReal b)]), g)
  else (configs, g).

(** The variables of the loop [for iteration in range(num_iterations)]. *)
Record search_state : Type := {
  best_design : option dict;
  best_score : pyfloat;
  trials : list dict;
  source : rng
}.

(** One pass of the loop body. *)
Definition search_step (self : t)
    (base_geometry : ref) (features : list string)
    (operating_conditions : dict) (objective : string)
    (baseline_ntr : pyfloat) (st : search_state) (iteration : nat)
    : M search_state :=
  let '(custom_configs, g) := _generate_random_configs features (source st) in
  let! evaluation :=
    DesignEvaluator.evaluate_bio_inspired_design (evaluator self)
      base_geometry features operating_conditions (Some baseline_ntr) in
  let! metrics := lift (item_dict evaluation "performance_metrics") in
  let! (score, is_better) :=
    if String.eqb objective "minimize_ntr" then
      let! score :=
        lift (item_float metrics "noise_to_thrust_ratio_dB_per_N") in
      ret (score, flt score (best_score st))
    else if String.eqb objective "maximize_efficiency" then
      let! thrust := lift (item_dict evaluation "thrust_analysis") in
      let! score := lift (item_float thrust "efficiency") in
      ret (score, fgt score (best_score st))
    else
      let! score :=
        lift (match dget metrics "noise_reduction_percentage" with
              | Some (VNum x) => Ok x
              | Some _ => Raise TypeError
              | None => Ok (Fin 0)
              end) in
      ret (score, fgt score (best_score st)) in
  let! geometry := lift (match dget evaluation "modified_geometry" with
                         | Some v => Ok v
                         | None => Raise (KeyError "modified_geometry")
                         end) in
  let '(best_score', best_design') :=
    if is_better then
      (score,
       Some [("geometry", geometry);
             ("evaluation", VDict evaluation);
             ("configs", VDict custom_configs);
             ("iteration", VReal (INR iteration));
             ("score", VNum score)])
    else (best_score st, best_design st) in
  let! ntr := lift (item_float metrics "noise_to_thrust_ratio_dB_per_N") in
  ret {| best_design := best_design';
         best_score := best_score';
         trials := (trials st ++
                    [[("iteration", VReal (INR iteration));
                      ("score", VNum score);
                      ("ntr", VNum ntr)]])%list;
         source := g |}.

Fixpoint search_loop (self : t)
    (base_geometry : ref) (features : list string)
    (operating_conditions : dict) (objective : string)
    (baseline_ntr : pyfloat) (iterations : list nat) (st : search_state)
    : M search_state :=
  match iterations with
  | [] => ret st
  | iteration :: rest =>
      let! st' := search_step self base_geometry features
                    operating_conditions objective baseline_ntr
                    st iteration in
      search_loop self base_geometry features operating_conditions
        objective baseline_ntr rest st'
  end.

(** Returns the best design, the optimiser with its history extended, and
    the random source after the run. *)
Definition optimize_bio_inspired_parameters (self : t)
    (base_geometry : ref) (features : list string)
    (operating_conditions : dict) (objective : string)
    (num_iterations : Z) (g : rng) : M (option dict * t * rng) :=
  let best_score :=
    if String.eqb objective "minimize_ntr" then PInf else NInf in
  let! baseline_eval :=
    DesignEvaluator.evaluate_design (evaluator self)
      base_geometry operating_conditions None in
  let! metrics := lift (item_dict baseline_eval "performance_metrics") in
  let! baseline_ntr :=
    lift (item_float metrics "noise_to_thrust_ratio_dB_per_N") in
  let! st :=
    search_loop self base_geometry features operating_conditions objective
      baseline_ntr (seq 0 (Z.to_nat num_iterations))
      {| best_design := None;
         best_score := best_score;
         trials := history self;
         source := g |} in
  let! best :=
    match best_design st with
    | Some ((_ :: _) as best) =>
        let! evaluation := lift (item_dict best "evaluation") in
        let! metrics := lift (item_dict evaluation "performance_metrics") in
        let! ntr :=
          lift (item_float metrics "noise_to_thrust_ratio_dB_per_N") in
        (* a [baseline_ntr] of zero is a quotient of numpy scalars *)
        let! q := lift (npfdiv (fsub baseline_ntr ntr) baseline_ntr) in
        let improvement_percentage := fmul q (Fin 100) in
        ret (Some (dset (dset best "improvement_over_baseline_percentage"
                           (VNum improvement_percentage))
                     "baseline_ntr" (VNum baseline_ntr)))
    | other => ret other
    end in
  ret (best,
       {| evaluator := evaluator self; history := trials st |},
       source st).

Definition get_optimization_history (self : t) : list dict := history self.

Definition clear_history (self : t) : t :=
  {| evaluator := evaluator self; history := [] |}.

End PropellerOptimizer.

(** * Definitions of the specification

    What the statements below need besides the embedding: the formulas
    and relations that the specification words, and the sample inputs that
    the statements are run on. *)

(** An entry that, when present, is a positive number. *)
Definition positive_entry (d : dict) (k : string) : Prop :=
  match dget d k with
  | Some v => exists x : R, v = VReal x /\ 0 < x
  | None => True
  end.

(** The level of a sum of energies: [20 log10 (sqrt (sum 10^(s/10)))]. *)
Definition energy (levels : list R) : R :=
  fold_right (fun s acc => Rpower 10 (s / 10) + acc) 0 levels.

Definition energy_sum_db (levels : list R) : R :=
  20 * log10 (sqrt (energy levels)).

Definition naive_sum_db (levels : list R) : R := fold_right Rplus 0 levels.

(** The number behind a numeric entry. *)
Definition real_of (v : value) : R :=
  match v with
  | VNum (Fin x) => x
  | _ => 0
  end.

(** The weight and the level of each SPL entry of a spectrum, in order: the
    entries whose label does not contain [frequency_hz]. *)
Fixpoint spl_entries (noise_spectrum frequency_weights : dict)
    : list (R * R) :=
  match noise_spectrum with
  | [] => []
  | (freq_key, spl) :: rest =>
      if contains "frequency_hz" freq_key
      then spl_entries rest frequency_weights
      else (real_of (get_value frequency_weights freq_key (VReal 1.0)),
            real_of spl) :: spl_entries rest frequency_weights
  end.

(** [sum w_i^2 10^(s_i/10)] *)
Definition weighted_energy (entries : list (R * R)) : R :=
  fold_right (fun ws acc => fst ws ^ 2 * Rpower 10 (snd ws / 10) + acc)
    0 entries.

Definition weights_or_empty (frequency_weights : option dict) : dict :=
  match frequency_weights with
  | None => []
  | Some w => w
  end.

(** The levels of the SPL entries, under the default weights. *)
Definition spl_levels (noise_spectrum : dict) : list R :=
  map snd (spl_entries noise_spectrum []).

(** An entry that, when present, is a real number. *)
Definition real_entry (d : dict) (k : string) : Prop :=
  match dget d k with
  | Some v => exists x : R, v = VReal x
  | None => True
  end.

(** A dict whose entries are all real numbers. *)
Definition all_real (d : dict) : Prop :=
  Forall (fun kv => exists x : R, snd kv = VReal x) d.

(** A computation run on the store [h] extended with one new record writes
    to the new record only and returns a reference to it. *)
Definition writes_only_new (h : heap) (c : M ref) : Prop :=
  forall d1 : dict,
    (exists d', fst (c (h ++ [d1])%list) = (h ++ [d'])%list) /\
    (forall g', snd (c (h ++ [d1])%list) = Ok g' -> g' = List.length h).

(** What a call that copies the record [g] and updates the copy leaves
    behind. *)
Definition leaves_store_intact (h : heap) (g : ref)
    (res : heap * outcome ref) : Prop :=
  (forall (r : ref) (d : dict),
      nth_error h r = Some d -> nth_error (fst res) r = Some d) /\
  (forall g' : ref,
      snd res = Ok g' ->
      g' = List.length h /\ (g < List.length h)%nat /\
      exists d', fst res = h ++ [d']).

(** An entry that, when present, is a real number other than zero. *)
Definition nonzero_entry (d : dict) (k : string) : Prop :=
  match dget d k with
  | Some v => exists x : R, v = VReal x /\ x <> 0
  | None => True
  end.

(** The three variants of the bio-inspired feature model. *)
Inductive feature_model : Type := Serration | Tubercle | Corrugation.

Definition apply_model (f : feature_model) : ref -> option dict -> M ref :=
  match f with
  | Serration => OwlWingSerrations.apply_to_blade_design
  | Tubercle => HumpbackWhaleTubercles.apply_to_blade_design
  | Corrugation => DragonflyCorrugations.apply_to_blade_design
  end.

Section CompositionDefinitions.

Import BioInspiredDesignFactory.

(** The feature names that [create_design] knows, in declaration order. *)
Definition recognized : list string :=
  ["owl_serrations"; "humpback_tubercles"; "dragonfly_corrugations"].

(** The features of the declaration order with their [apply] operation. *)
Definition declaration_order : list (string * (ref -> option dict -> M ref)) :=
  [("owl_serrations", OwlWingSerrations.apply_to_blade_design);
   ("humpback_tubercles", HumpbackWhaleTubercles.apply_to_blade_design);
   ("dragonfly_corrugations", DragonflyCorrugations.apply_to_blade_design)].

(** Apply, one after the other, the steps whose name is in [features]. *)
Fixpoint apply_in_order
    (steps : list (string * (ref -> option dict -> M ref)))
    (features : list string) (custom_configs : dict)
    (geometry : ref) (applied : list string) : M (ref * list string) :=
  match steps with
  | [] => ret (geometry, applied)
  | (name, apply) :: rest =>
      if mem name features then
        let! config := lift (config_of custom_configs name) in
        let! g := apply geometry config in
        apply_in_order rest features custom_configs g (applied ++ [name])
      else apply_in_order rest features custom_configs geometry applied
  end.

(** [compose] as the specification words it. *)
Definition compose_in_declaration_order
    (base_geometry : ref) (features : list string)
    (custom_configs : option dict) : M ref :=
  let! copied := copy base_geometry in
  let! (g, applied) :=
    apply_in_order declaration_order features
      (match custom_configs with None => [] | Some c => c end) copied [] in
  let! _ := setitem g "bio_inspired_features" (VStrs applied) in
  ret g.

End CompositionDefinitions.

(** The reduce operation of a recognised feature, at a noise level: the
    estimate of its model on the parameters and conditions that
    [estimate_combined_noise_reduction] hands it.  [None] for a name that
    is not a feature. *)
Definition feature_reduce (feature_params operating_conditions : dict)
    (feature : string) (level : R) : option (outcome dict) :=
  if String.eqb feature "owl_serrations" then
    Some (let* params := get_dict feature_params "owl_serrations" in
          let* freq := get_real operating_conditions "frequency_hz" 1000 in
          let* velocity := get_real operating_conditions "velocity" 10.0 in
          OwlWingSerrations.estimate_noise_reduction level params freq velocity)
  else if String.eqb feature "humpback_tubercles" then
    Some (let* params := get_dict feature_params "humpback_tubercles" in
          HumpbackWhaleTubercles.estimate_noise_reduction
            level params operating_conditions)
  else if String.eqb feature "dragonfly_corrugations" then
    Some (let* params := get_dict feature_params "dragonfly_corrugations" in
          let* reynolds :=
            get_real operating_conditions "reynolds_number" 200000 in
          let* velocity := get_real operating_conditions "velocity" 10.0 in
          DragonflyCorrugations.estimate_noise_reduction
            level params reynolds velocity)
  else None.

(** [reduced_in_sequence fp oc level features reductions]: the recognised
    names of [features], in the order of the list, each reduce from the
    level that the one before it left; [reductions] are their reductions. *)
Inductive reduced_in_sequence (feature_params operating_conditions : dict)
    : R -> list string -> list R -> Prop :=
| seq_done (level : R) :
    reduced_in_sequence feature_params operating_conditions level [] []
| seq_skip (level : R) (feature : string) (rest : list string)
      (reductions : list R) :
    feature_reduce feature_params operating_conditions feature level = None ->
    reduced_in_sequence feature_params operating_conditions
      level rest reductions ->
    reduced_in_sequence feature_params operating_conditions
      level (feature :: rest) reductions
| seq_reduce (level : R) (feature : string) (rest : list string)
      (result : dict) (reduction : R) (reductions : list R) :
    feature_reduce feature_params operating_conditions feature level
      = Some (Ok result) ->
    item_real result "noise_reduction_db" = Ok reduction ->
    reduced_in_sequence feature_params operating_conditions
      (level - reduction) rest reductions ->
    reduced_in_sequence feature_params operating_conditions
      level (feature :: rest) (reduction :: reductions).

Definition sum_db (l : list R) : R := fold_right Rplus 0 l.

(** The synergy multiplier for a list of [k] names. *)
Definition synergy (k : nat) : R :=
  if (1 <? k)%nat then 1 + 0.18 * (INR k - 1) else 1.

(** Serration parameters for a 50 mm chord and tubercle parameters for
    four tubercles, as the geometry operations derive them. *)
Definition sample_feature_params : dict :=
  [("owl_serrations",
    VDict [("depth_m", VReal 0.0025); ("wavelength_m", VReal 0.001)]);
   ("humpback_tubercles",
    VDict [("num_tubercles", VReal 4); ("amplitude_ratio", VReal 0.12)])].

(** The noise breakdown after the composed level has been written to it. *)
Definition updated_noise (noise_analysis reduction_results : dict)
    (reduced_noise noise_reduction_db : R) : dict :=
  dset (dset (dset noise_analysis "total_spl_db" (VReal reduced_noise))
          "noise_reduction_db" (VReal noise_reduction_db))
    "bio_inspired_reduction" (VDict reduction_results).

(** A blade with a 50 mm chord, at rest in the air, rotor at 5000 rpm. *)
Definition sample_base : dict := [("chord_length", VReal 0.05)].
Definition sample_conditions : dict := [("velocity", VReal 0)].

Section OptimisationDefinitions.

Import PropellerOptimizer.

(** A best-design record without the sampled parameters it carries. *)
Definition without_configs (best : dict) : dict := dset best "configs" VNone.

(** Two best designs that differ at most in the sampled parameters. *)
Inductive same_best : option dict -> option dict -> Prop :=
| same_best_none : same_best None None
| same_best_some (geometry evaluation c1 c2 iteration score : value) :
    same_best
      (Some [("geometry", geometry); ("evaluation", evaluation);
             ("configs", c1); ("iteration", iteration); ("score", score)])
      (Some [("geometry", geometry); ("evaluation", evaluation);
             ("configs", c2); ("iteration", iteration); ("score", score)]).

(** Two loop states that differ at most in the random source and in the
    sampled parameters of the best design. *)
Definition same_search (s1 s2 : search_state) : Prop :=
  best_score s1 = best_score s2 /\ trials s1 = trials s2 /\
  same_best (best_design s1) (best_design s2).

(** Two runs that end alike: the same store, the same fault, or results
    related by [rel]. *)
Definition same_run {A : Type} (rel : A -> A -> Prop)
    (r1 r2 : heap * outcome A) : Prop :=
  fst r1 = fst r2 /\
  match snd r1, snd r2 with
  | Ok a1, Ok a2 => rel a1 a2
  | Raise e1, Raise e2 => e1 = e2
  | _, _ => False
  end.

(** Two random sources: every draw 0, and every draw 1/2. *)
Definition low_draws : rng := {| draws := fun _ => 0; next := 0 |}.
Definition mid_draws : rng := {| draws := fun _ => 0.5; next := 0 |}.

(** Two results of the optimiser that differ at most in the random source
    left behind and in the sampled parameters that the best design
    carries. *)
Definition same_result (r1 r2 : option dict * t * rng) : Prop :=
  history (snd (fst r1)) = history (snd (fst r2)) /\
  option_map without_configs (fst (fst r1))
  = option_map without_configs (fst (fst r2)).

End OptimisationDefinitions.

(** * Definitions for the further properties *)

(** [reductions_of fp oc features reductions]: the reductions that the
    recognised names of [features] estimate, in the order of the list, each
    at some level at which its estimate returns. *)
Inductive reductions_of (feature_params operating_conditions : dict)
    : list string -> list R -> Prop :=
| red_done : reductions_of feature_params operating_conditions [] []
| red_skip (feature : string) (rest : list string) (reductions : list R) :
    mem feature recognized = false ->
    reductions_of feature_params operating_conditions rest reductions ->
    reductions_of feature_params operating_conditions
      (feature :: rest) reductions
| red_take (feature : string) (rest : list string) (level : R)
      (result : dict) (reduction : R) (reductions : list R) :
    feature_reduce feature_params operating_conditions feature level
      = Some (Ok result) ->
    item_real result "noise_reduction_db" = Ok reduction ->
    reductions_of feature_params operating_conditions rest reductions ->
    reductions_of feature_params operating_conditions
      (feature :: rest) (reduction :: reductions).

(** The entries that the bio-inspired features write to a record. *)
Definition written_entries : list string :=
  ["trailing_edge_serrations"; "bio_inspired_feature"; "drag_coefficient";
   "leading_edge_tubercles"; "cl_max"; "stall_angle_deg";
   "surface_corrugations"; "structural_improvements";
   "bio_inspired_features"].

(** The entries of a geometry record that [evaluate_design] reads. *)
Definition evaluated_entries : list string :=
  ["chord_length"; "blade_thickness"; "num_blades"; "radius";
   "angle_of_attack"; "radius_m"; "chord_root"; "chord_tip"; "pitch_angle";
   "cl_slope"].

(** Whether a score is better than the best one so far, under an
    objective of the optimiser. *)
Definition improves (objective : string) (score best : pyfloat) : bool :=
  if String.eqb objective "minimize_ntr" then flt score best
  else fgt score best.

(** The score that the optimiser starts from. *)
Definition worst_score (objective : string) : pyfloat :=
  if String.eqb objective "minimize_ntr" then PInf else NInf.

(** The record of a trial in the history of the optimiser. *)
Definition trial_record (iteration : nat) (score ntr : pyfloat) : dict :=
  [("iteration", VReal (INR iteration)); ("score", VNum score);
   ("ntr", VNum ntr)].

(** * Lemmas shared by the sections below *)

Lemma bind_Ok_inv {A B : Type} (m : outcome A) (k : A -> outcome B) (b : B) :
  bind m k = Ok b -> exists a, m = Ok a /\ k a = Ok b.
Proof.
  destruct m as [a|e]; simpl; intros H; [exists a; auto | discriminate].
Qed.

Tactic Notation "bind_inv" hyp(H) ident(x) ident(Hx) :=
  apply bind_Ok_inv in H; destruct H as [x [Hx H]].

Lemma pydiv_ok (x y : R) : y <> 0 -> pydiv x y = Ok (x / y).
Proof. intros H. unfold pydiv. destruct (Req_dec_T y 0); [contradiction | reflexivity]. Qed.

Lemma npdiv_ok (x y : R) : y <> 0 -> npdiv x y = Ok (x / y).
Proof. intros H. unfold npdiv. destruct (Req_dec_T y 0); [contradiction | reflexivity]. Qed.

Lemma np_sqrt_ok (x : R) : 0 <= x -> np_sqrt x = Ok (sqrt x).
Proof. intros H. unfold np_sqrt. destruct (Rle_dec 0 x); [reflexivity | contradiction]. Qed.

Lemma np_log10_ok (x : R) : 0 < x -> np_log10 x = Ok (log10 x).
Proof.
  intros H. unfold np_log10. destruct (Rlt_dec 0 x); [reflexivity | contradiction].
Qed.

Lemma pymin_le_r (a b : R) : pymin a b <= b.
Proof. unfold pymin. destruct (Rlt_dec b a); lra. Qed.

Lemma pymin_ge (a b c : R) : c <= a -> c <= b -> c <= pymin a b.
Proof. intros. unfold pymin. destruct (Rlt_dec b a); lra. Qed.

Lemma get_real_returns (d : dict) (k : string) (dflt : R) :
  real_entry d k -> exists x, get_real d k dflt = Ok x.
Proof.
  unfold real_entry, get_real. destruct (dget d k) as [v|].
  - intros [x ->]. exists x. reflexivity.
  - intros _. exists dflt. reflexivity.
Qed.

Lemma get_real_nonzero (d : dict) (k : string) (dflt : R) :
  nonzero_entry d k -> dflt <> 0 ->
  exists x, get_real d k dflt = Ok x /\ x <> 0.
Proof.
  unfold nonzero_entry, get_real. destruct (dget d k) as [v|].
  - intros [x [-> Hx]] _. exists x. split; [reflexivity | exact Hx].
  - intros _ Hd. exists dflt. split; [reflexivity | exact Hd].
Qed.

Lemma get_real_positive (d : dict) (k : string) (dflt : R) :
  positive_entry d k -> 0 < dflt ->
  exists x, get_real d k dflt = Ok x /\ 0 < x.
Proof.
  unfold positive_entry, get_real. intros H Hd.
  destruct (dget d k) as [v|].
  - destruct H as [x [-> Hx]]. exists x. split; [reflexivity | exact Hx].
  - exists dflt. split; [reflexivity | exact Hd].
Qed.

Lemma all_real_entry (d : dict) (k : string) : all_real d -> real_entry d k.
Proof.
  unfold real_entry. induction 1 as [|[k' v] d [x Hx] Hd IH]; simpl; [exact I|].
  destruct (String.eqb k' k); [exists x; exact Hx | exact IH].
Qed.

(** * Metrics *)

Section Metrics.

Import AeroacousticMetrics.

Lemma ntr_nonpositive_thrust (db t ref : R) :
  t <= 0 -> calculate_noise_to_thrust_ratio db t ref = Ok PInf.
Proof.
  intros H. unfold calculate_noise_to_thrust_ratio.
  destruct (Rle_dec t 0); [reflexivity | contradiction].
Qed.

Lemma ntr_positive_thrust (db t ref : R) :
  0 < t -> ref <> 0 ->
  calculate_noise_to_thrust_ratio db t ref = Ok (Fin (db / (t / ref))).
Proof.
  intros Ht Hr. unfold calculate_noise_to_thrust_ratio.
  destruct (Rle_dec t 0) as [H|_]; [lra|].
  rewrite (pydiv_ok t ref Hr). simpl.
  rewrite pydiv_ok; [reflexivity|].
  unfold Rdiv. apply Rmult_integral_contrapositive_currified; [lra|].
  apply Rinv_neq_0_compat; exact Hr.
Qed.

Lemma acoustic_efficiency_returns (noise thrust power : R) :
  exists e, calculate_acoustic_efficiency noise thrust power = Ok e.
Proof.
  unfold calculate_acoustic_efficiency.
  destruct (Rle_dec noise 0) as [|Hn]; [eexists; reflexivity|].
  destruct (Rle_dec power 0) as [|Hp]; [eexists; reflexivity|].
  rewrite pydiv_ok by lra. simpl. rewrite pydiv_ok by lra. simpl.
  eexists; reflexivity.
Qed.

Lemma ntr_returns (noise thrust : R) :
  exists r, calculate_noise_to_thrust_ratio noise thrust 1.0 = Ok r.
Proof.
  destruct (Rle_dec thrust 0) as [H|H].
  - exists PInf. apply ntr_nonpositive_thrust; exact H.
  - eexists. apply ntr_positive_thrust; lra.
Qed.

Lemma fle_zero_false_nonzero (b : pyfloat) :
  fle b (Fin 0) = false -> b <> Fin 0.
Proof.
  intros H E. subst b. simpl in H.
  destruct (Rle_dec 0 0); [discriminate | lra].
Qed.

Lemma fdiv_returns (a b : pyfloat) :
  b <> Fin 0 -> exists q, fdiv a b = Ok q.
Proof.
  intros Hb. unfold fdiv, fdiv_with.
  destruct b as [y| | |].
  - destruct (Req_dec_T y 0) as [E|E]; [subst; contradiction|].
    destruct a; eexists; reflexivity.
  - destruct a; eexists; reflexivity.
  - destruct a; eexists; reflexivity.
  - destruct a; eexists; reflexivity.
Qed.

Lemma reduction_percentage_returns (b m : pyfloat) :
  exists r, calculate_noise_reduction_percentage b m = Ok r.
Proof.
  unfold calculate_noise_reduction_percentage.
  destruct (fle b (Fin 0)) eqn:E; [eexists; reflexivity|].
  destruct (fdiv_returns (fsub b m) b (fle_zero_false_nonzero b E)) as [q Hq].
  rewrite Hq. simpl. eexists; reflexivity.
Qed.

Lemma evaluate_design_performance_returns
    (noise_results thrust_results : dict) (baseline_ntr : option pyfloat)
    (total thrust power : R) :
  get_real noise_results "total_spl_db" 0 = Ok total ->
  get_real thrust_results "thrust_N" 0 = Ok thrust ->
  get_real thrust_results "power_W" 1 = Ok power ->
  exists metrics : dict,
    evaluate_design_performance noise_results thrust_results baseline_ntr
    = Ok metrics.
Proof.
  intros Hn Ht Hp. unfold evaluate_design_performance.
  rewrite Hn, Ht, Hp. cbn [bind].
  destruct (ntr_returns total thrust) as [ntr Hntr].
  destruct (acoustic_efficiency_returns total thrust power) as [e He].
  rewrite Hntr, He. cbn [bind].
  destruct baseline_ntr as [b|]; [|eexists; reflexivity].
  destruct (reduction_percentage_returns b ntr) as [red Hred].
  rewrite Hred. cbn [bind]. eexists; reflexivity.
Qed.

Lemma evaluate_design_performance_reads
    (noise_results thrust_results : dict) (baseline_ntr : option pyfloat)
    (metrics : dict) :
  evaluate_design_performance noise_results thrust_results baseline_ntr
    = Ok metrics ->
  exists total thrust power : R,
    get_real noise_results "total_spl_db" 0 = Ok total /\
    get_real thrust_results "thrust_N" 0 = Ok thrust /\
    get_real thrust_results "power_W" 1 = Ok power.
Proof.
  unfold evaluate_design_performance. intros H.
  apply bind_Ok_inv in H. destruct H as [total [E1 H]].
  apply bind_Ok_inv in H. destruct H as [thrust [E2 H]].
  apply bind_Ok_inv in H. destruct H as [power [E3 H]].
  exists total, thrust, power. repeat split; assumption.
Qed.

Lemma design_performance_ntr (noise_results thrust_results : dict)
    (baseline_ntr : option pyfloat) (total thrust power : R) :
  get_real noise_results "total_spl_db" 0 = Ok total ->
  get_real thrust_results "thrust_N" 0 = Ok thrust ->
  get_real thrust_results "power_W" 1 = Ok power ->
  0 < thrust ->
  exists metrics : dict,
    evaluate_design_performance noise_results thrust_results baseline_ntr
    = Ok metrics /\
    dget metrics "noise_to_thrust_ratio_dB_per_N"
    = Some (VNum (Fin (total / (thrust / 1.0)))).
Proof.
  intros Hn Ht Hp Hpos. unfold evaluate_design_performance.
  rewrite Hn, Ht, Hp. cbn [bind].
  rewrite (ntr_positive_thrust total thrust 1.0) by lra.
  destruct (acoustic_efficiency_returns total thrust power) as [e He].
  rewrite He. cbn [bind].
  destruct baseline_ntr as [b|]; [|eexists; split; reflexivity].
  destruct (reduction_percentage_returns b (Fin (total / (thrust / 1.0))))
    as [red Hred].
  rewrite Hred. cbn [bind]. eexists. split; reflexivity.
Qed.

(** C5.  [calculate_noise_to_thrust_ratio] returns [+inf] for a thrust of
    at most 0 and [db / (t / ref)] otherwise, for a reference thrust other
    than 0; at 80 dB and 5 N it is 16.  With a baseline NTR [b] supplied,
    [evaluate_design_performance] returns metrics whose reduction
    percentage is 0 when [b <= 0] and [(b - ntr) / b * 100] otherwise, and
    whose target flag is [reduction >= 15]; the function takes no
    threshold. *)
Theorem ntr_sentinel_and_target_flag :
  (forall db t ref : R,
      t <= 0 -> calculate_noise_to_thrust_ratio db t ref = Ok PInf) /\
  (forall db t ref : R,
      0 < t -> ref <> 0 ->
      calculate_noise_to_thrust_ratio db t ref = Ok (Fin (db / (t / ref)))) /\
  calculate_noise_to_thrust_ratio 80 5 1 = Ok (Fin 16) /\
  (forall (noise_results thrust_results : dict) (b : pyfloat)
          (total thrust power : R),
      get_real noise_results "total_spl_db" 0 = Ok total ->
      get_real thrust_results "thrust_N" 0 = Ok thrust ->
      get_real thrust_results "power_W" 1 = Ok power ->
      exists (metrics : dict) (ntr reduction : pyfloat),
        evaluate_design_performance noise_results thrust_results (Some b)
          = Ok metrics /\
        calculate_noise_to_thrust_ratio total thrust 1 = Ok ntr /\
        dget metrics "noise_to_thrust_ratio_dB_per_N" = Some (VNum ntr) /\
        dget metrics "noise_reduction_percentage" = Some (VNum reduction) /\
        dget metrics "meets_15_percent_target"
          = Some (VBool (fge reduction (Fin 15))) /\
        (fle b (Fin 0) = true -> reduction = Fin 0) /\
        (fle b (Fin 0) = false ->
           exists q, fdiv (fsub b ntr) b = Ok q /\
                     reduction = fmul q (Fin 100)) /\
        (forall x y : R,
            b = Fin x -> 0 < x -> ntr = Fin y ->
            reduction = Fin ((x - y) / x * 100))).
Proof.
  split; [exact ntr_nonpositive_thrust|].
  split; [exact ntr_positive_thrust|].
  split.
  { rewrite ntr_positive_thrust by lra. do 2 f_equal. field. }
  intros noise_results thrust_results b total thrust power Hn Ht Hp.
  unfold evaluate_design_performance.
  rewrite Hn, Ht, Hp. cbn [bind].
  destruct (ntr_returns total thrust) as [ntr Hntr].
  destruct (acoustic_efficiency_returns total thrust power) as [e He].
  destruct (reduction_percentage_returns b ntr) as [red Hred].
  replace 1 with 1.0 by lra.
  rewrite Hntr, He. cbn [bind]. rewrite Hred. cbn [bind].
  exists (dset
       (dset
          [("noise_to_thrust_ratio_dB_per_N", VNum ntr);
           ("acoustic_efficiency", VReal e);
           ("total_noise_spl_db", VReal total); ("thrust_N", VReal thrust);
           ("power_W", VReal power);
           ("propulsive_efficiency",
            get_value thrust_results "efficiency" (VReal 0));
           ("broadband_noise_db",
            get_value noise_results "broadband_spl_db" (VReal 0));
           ("tonal_noise_db", get_value noise_results "tonal_spl_db" (VReal 0));
           ("vortex_noise_db",
            get_value noise_results "vortex_spl_db" (VReal 0))]
          "noise_reduction_percentage" (VNum red))
       "meets_15_percent_target" (VBool (fge red (Fin 15.0)))), ntr, red.
  split; [reflexivity|].
  split; [reflexivity|].
  split; [reflexivity|].
  split; [reflexivity|].
  split; [replace 15 with 15.0 by lra; reflexivity|].
  unfold calculate_noise_reduction_percentage in Hred.
  destruct (fle b (Fin 0)) eqn:E.
  - injection Hred as <-.
    split; [reflexivity|].
    split; [discriminate|].
    intros x y -> Hx _. simpl in E.
    destruct (Rle_dec x 0); [lra | discriminate].
  - apply bind_Ok_inv in Hred. destruct Hred as [q [Hq Hr]].
    injection Hr as <-.
    split; [discriminate|].
    split.
    + intros _. exists q. split; [exact Hq|].
      replace 100 with 100.0 by lra. reflexivity.
    + intros x y -> Hx ->. simpl in Hq.
      unfold fdiv, fdiv_with in Hq.
      destruct (Req_dec_T x 0); [lra|].
      injection Hq as <-. simpl. f_equal. lra.
Qed.

Lemma ntr_sentinel_and_target_flag_witness :
  exists metrics : dict,
    evaluate_design_performance
      [("total_spl_db", VReal 85)]
      [("thrust_N", VReal 5); ("power_W", VReal 100)]
      (Some (Fin 20)) = Ok metrics /\
    dget metrics "noise_to_thrust_ratio_dB_per_N" = Some (VNum (Fin 17)) /\
    dget metrics "noise_reduction_percentage" = Some (VNum (Fin 15)) /\
    dget metrics "meets_15_percent_target" = Some (VBool true).
Proof.
  destruct ntr_sentinel_and_target_flag as [_ [Hpos [_ Hev]]].
  destruct (Hev [("total_spl_db", VReal 85)]
                [("thrust_N", VReal 5); ("power_W", VReal 100)]
                (Fin 20) 85 5 100 eq_refl eq_refl eq_refl)
    as [metrics [ntr [reduction [Hm [Hntr [Hk1 [Hk2 [Hk3 [_ [_ Hfin]]]]]]]]]].
  rewrite Hpos in Hntr by lra.
  injection Hntr as Hntr.
  assert (Hred : reduction = Fin 15).
  { rewrite (Hfin 20 (85 / (5 / 1)) eq_refl); [f_equal; lra | lra | auto]. }
  exists metrics.
  split; [exact Hm|].
  split; [rewrite Hk1, <- Hntr; do 3 f_equal; lra|].
  split; [rewrite Hk2, Hred; reflexivity|].
  rewrite Hk3, Hred. unfold fge, fle.
  destruct (Rle_dec 15 15); [reflexivity | lra].
Defined.

End Metrics.

(** * Thrust *)

Section Thrust.

Ltac pos :=
  match goal with
  | |- 0 < ?a * ?b => apply Rmult_lt_0_compat; pos
  | |- 0 < ?a ^ _ => apply pow_lt; pos
  | |- _ => first [assumption | lra | nra]
  end.

Import ThrustCalculator.

Section BladeLoop.
Variables (self : t) (omega radius chord_root chord_tip pitch cl_slope : R).
Variables (dr nb : R).
Hypothesis Hrho : 0 < air_density self.
Hypothesis Homega : 0 < omega.
Hypothesis Hradius : 0 < radius.
Hypothesis Hroot : 0 < chord_root.
Hypothesis Htip : 0 < chord_tip.
Hypothesis Hpitch : 0 < pitch.
Hypothesis Hslope : 0 < cl_slope.
Hypothesis Hdr : 0 < dr.
Hypothesis Hnb : 0 < nb.

Lemma chord_positive (r : R) :
  0 < r <= radius -> 0 < chord_root + (chord_tip - chord_root) * (r / radius).
Proof.
  intros [Hr0 Hr1].
  assert (Hx0 : 0 < r / radius) by (apply Rdiv_lt_0_compat; lra).
  assert (Hx1 : r / radius <= 1).
  { apply (Rmult_le_reg_r radius); [lra|]. unfold Rdiv.
    rewrite Rmult_assoc, Rinv_l by lra. lra. }
  replace (chord_root + (chord_tip - chord_root) * (r / radius))
    with (chord_root * (1 - r / radius) + chord_tip * (r / radius)) by ring.
  apply Rplus_le_lt_0_compat.
  - apply Rmult_le_pos; lra.
  - apply Rmult_lt_0_compat; lra.
Qed.

Lemma blade_loop_positive (rs : list R) :
  Forall (fun r => 0 < r <= radius) rs ->
  forall aT aQ : R,
  exists T Q : R,
    blade_loop self omega radius chord_root chord_tip pitch cl_slope dr nb
      rs aT aQ = Ok (T, Q) /\
    aT <= T /\ aQ <= Q /\ (rs <> [] -> aT < T /\ aQ < Q).
Proof.
  induction 1 as [|r rs Hr Hrs IH]; intros aT aQ.
  - exists aT, aQ. simpl. repeat split; try lra; contradiction.
  - cbn [blade_loop]. rewrite npdiv_ok by lra. cbn [bind].
    pose proof (chord_positive r Hr) as Hc.
    set (chord := chord_root + (chord_tip - chord_root) * (r / radius)) in *.
    set (dT := 0.5 * air_density self * (omega * r) ^ 2 * chord
               * (cl_slope * pitch) * dr * nb).
    set (dQ := 0.5 * air_density self * (omega * r) ^ 2 * chord
               * (0.01 + 0.05 * pitch ^ 2) * r * dr * nb).
    assert (HdT : 0 < dT) by (unfold dT; destruct Hr; pos).
    assert (HdQ : 0 < dQ) by (unfold dQ; destruct Hr; pos).
    destruct (IH (aT + dT) (aQ + dQ)) as [T [Q [E [H1 [H2 _]]]]].
    exists T, Q. rewrite E. repeat split; try lra.
Qed.
End BladeLoop.

Lemma linspace_elements (a b : R) (num : Z) :
  (2 <= num)%Z -> 0 < a < b ->
  exists rs,
    linspace a b num = Ok rs /\
    Forall (fun r => 0 < r <= b) rs /\
    rs <> [] /\
    exists r0 r1, array_item rs 0 = Ok r0 /\ array_item rs 1 = Ok r1 /\ 0 < r1 - r0.
Proof.
  intros Hn [Ha Hab]. unfold linspace.
  destruct (num <? 0)%Z eqn:E; [apply Z.ltb_lt in E; lia|].
  set (n := Z.to_nat num).
  assert (Hn2 : (2 <= n)%nat) by (unfold n; lia).
  set (step := (b - a) / INR (n - 1)).
  assert (HN : 0 < INR (n - 1)) by (apply lt_0_INR; lia).
  assert (Hstep : 0 < step) by (apply Rdiv_lt_0_compat; lra).
  eexists. split; [reflexivity|].
  split; [|split].
  - apply Forall_forall. intros r Hr. apply in_map_iff in Hr.
    destruct Hr as [i [<- Hi]]. apply in_seq in Hi.
    assert (H0 : 0 <= INR i) by apply pos_INR.
    assert (H1 : INR i <= INR (n - 1)) by (apply le_INR; lia).
    split.
    + assert (0 <= INR i * step) by (apply Rmult_le_pos; lra). lra.
    + assert (INR i * step <= INR (n - 1) * step)
        by (apply Rmult_le_compat_r; lra).
      assert (INR (n - 1) * step = b - a)
        by (unfold step; field; lra).
      lra.
  - destruct n as [|n']; [lia|]. simpl. discriminate.
  - destruct n as [|[|n']]; try lia.
    exists (INR 0 * step + a), (INR 1 * step + a).
    split; [reflexivity|]. split; [reflexivity|].
    simpl INR. lra.
Qed.

Lemma blade_element_shape (self : t) (rpm : R) (blade_params : dict)
    (num_blades : R) (num_elements : Z) (d : dict) :
  calculate_thrust_blade_element self rpm blade_params num_blades num_elements
    = Ok d ->
  exists thrust torque power efficiency : R,
    d = [("thrust_N", VReal thrust); ("torque_Nm", VReal torque);
         ("power_W", VReal power);
         ("efficiency", VReal (pymin efficiency 1.0))].
Proof.
  unfold calculate_thrust_blade_element. intros H.
  bind_inv H radius E1. bind_inv H chord_root E2. bind_inv H chord_tip E3.
  bind_inv H pitch E4. bind_inv H slope E5. bind_inv H rs E6.
  bind_inv H r1 E7. bind_inv H r0 E8.
  apply bind_Ok_inv in H. destruct H as [[T Q] [E9 H]].
  bind_inv H eff E10. injection H as <-.
  do 4 eexists. reflexivity.
Qed.

Lemma blade_element_efficiency_le_1
    (self : t) (rpm : R) (blade_params : dict) (num_blades : R)
    (num_elements : Z) (d : dict) :
  calculate_thrust_blade_element self rpm blade_params num_blades num_elements
    = Ok d ->
  exists e : R, dget d "efficiency" = Some (VReal e) /\ e <= 1.
Proof.
  intros H. destruct (blade_element_shape _ _ _ _ _ _ H)
    as [T [Q [P [eff ->]]]].
  eexists. split; [reflexivity|].
  replace 1 with 1.0 by lra. apply pymin_le_r.
Qed.

Lemma blade_element_returns
    (self : t) (rpm : R) (blade_params : dict) (num_blades : R)
    (num_elements : Z) :
  0 < air_density self -> 0 < rpm -> 0 < num_blades ->
  (2 <= num_elements)%Z ->
  positive_entry blade_params "radius" ->
  positive_entry blade_params "chord_root" ->
  positive_entry blade_params "chord_tip" ->
  positive_entry blade_params "pitch_angle" ->
  positive_entry blade_params "cl_slope" ->
  exists thrust torque power efficiency : R,
    calculate_thrust_blade_element self rpm blade_params num_blades
      num_elements
    = Ok [("thrust_N", VReal thrust); ("torque_Nm", VReal torque);
          ("power_W", VReal power); ("efficiency", VReal efficiency)] /\
    0 < thrust /\ 0 < power /\ 0 <= efficiency <= 1.
Proof.
  intros Hrho Hrpm Hnb Hn Hr Hcr Hct Hp Hs.
  pose proof PI_RGT_0 as Hpi.
  destruct (get_real_positive _ _ 0.127 Hr ltac:(lra)) as [radius [Er Hradius]].
  destruct (get_real_positive _ _ 0.03 Hcr ltac:(lra)) as [croot [Ecr Hroot]].
  destruct (get_real_positive _ _ 0.015 Hct ltac:(lra)) as [ctip [Ect Htip]].
  destruct (get_real_positive _ _ 10.0 Hp ltac:(lra)) as [pitch [Ep Hpitch]].
  destruct (get_real_positive _ _ (2 * PI) Hs ltac:(lra)) as [slope [Es Hslope]].
  destruct (linspace_elements (0.2 * radius) radius num_elements Hn ltac:(lra))
    as [rs [Els [Hall [Hne [r0 [r1 [E0 [E1 Hdr]]]]]]]].
  set (omega := rpm * 2 * PI / 60.0).
  assert (Homega : 0 < omega) by (unfold omega; apply Rdiv_lt_0_compat; pos).
  set (pitch_angle := pitch * PI / 180.0).
  assert (Hpa : 0 < pitch_angle)
    by (unfold pitch_angle; apply Rdiv_lt_0_compat; pos).
  destruct (blade_loop_positive self omega radius croot ctip pitch_angle slope
              (r1 - r0) num_blades Hrho Homega Hradius Hroot Htip Hpa Hslope
              Hdr Hnb rs Hall 0.0 0.0) as [T [Q [EL [_ [_ Hgrow]]]]].
  destruct (Hgrow Hne) as [HT HQ].
  unfold calculate_thrust_blade_element.
  rewrite Er, Ecr, Ect, Ep, Es. cbn [bind].
  rewrite Els. cbn [bind]. rewrite E1, E0. cbn [bind].
  fold omega. fold pitch_angle. rewrite EL. cbn [bind].
  assert (Hpow : 0 < Q * omega) by (apply Rmult_lt_0_compat; lra).
  destruct (Rlt_dec 0 (Q * omega)) as [_|C]; [|contradiction].
  assert (Hden : 0 < 2 * air_density self * PI * radius ^ 2) by pos.
  rewrite npdiv_ok by lra. cbn [bind].
  assert (Hq : 0 <= T / (2 * air_density self * PI * radius ^ 2)).
  { apply Rmult_le_pos; [lra|]. left. apply Rinv_0_lt_compat. exact Hden. }
  rewrite np_sqrt_ok by exact Hq. cbn [bind].
  rewrite npdiv_ok by lra. cbn [bind].
  do 4 eexists. split; [reflexivity|].
  split; [lra|]. split; [exact Hpow|]. split.
  - apply pymin_ge; [|lra].
    apply Rmult_le_pos.
    + apply Rmult_le_pos; [lra | apply sqrt_pos].
    + left. apply Rinv_0_lt_compat. exact Hpow.
  - replace 1 with 1.0 by lra. apply pymin_le_r.
Qed.

Lemma blade_element_efficiency_bounds
    (self : t) (rpm : R) (blade_params : dict) (num_blades : R)
    (num_elements : Z) :
  0 < air_density self -> 0 < rpm -> 0 < num_blades ->
  (2 <= num_elements)%Z ->
  positive_entry blade_params "radius" ->
  positive_entry blade_params "chord_root" ->
  positive_entry blade_params "chord_tip" ->
  positive_entry blade_params "pitch_angle" ->
  positive_entry blade_params "cl_slope" ->
  exists (d : dict) (e : R),
    calculate_thrust_blade_element self rpm blade_params num_blades
      num_elements = Ok d /\
    dget d "efficiency" = Some (VReal e) /\ 0 <= e <= 1.
Proof.
  intros Hrho Hrpm Hnb Hn Hr Hcr Hct Hp Hs.
  destruct (blade_element_returns self rpm blade_params num_blades
              num_elements Hrho Hrpm Hnb Hn Hr Hcr Hct Hp Hs)
    as [T [Q [P [e [E [_ [_ He]]]]]]].
  eexists. exists e. split; [exact E|]. split; [reflexivity | exact He].
Qed.

Lemma figure_of_merit_bounds (self : t) (thrust power radius : R) :
  0 < air_density self -> 0 < thrust -> 0 < power -> 0 < radius ->
  exists fm : R,
    calculate_figure_of_merit self thrust power radius = Ok fm /\
    0 <= fm <= 1.
Proof.
  intros Hrho Ht Hp Hr. pose proof PI_RGT_0 as Hpi.
  unfold calculate_figure_of_merit.
  destruct (Rle_dec power 0) as [C|_]; [lra|].
  assert (Hden : 0 < 2 * air_density self * (PI * radius ^ 2)) by pos.
  rewrite pydiv_ok by lra. cbn [bind].
  assert (Hq : 0 <= thrust / (2 * air_density self * (PI * radius ^ 2))).
  { apply Rmult_le_pos; [lra|]. left. apply Rinv_0_lt_compat. exact Hden. }
  rewrite np_sqrt_ok by exact Hq. cbn [bind].
  rewrite npdiv_ok by lra. cbn [bind].
  eexists. split; [reflexivity|]. split.
  - apply pymin_ge; [|lra].
    apply Rmult_le_pos.
    + apply Rmult_le_pos; [lra | apply sqrt_pos].
    + left. apply Rinv_0_lt_compat. exact Hp.
  - replace 1 with 1.0 by lra. apply pymin_le_r.
Qed.

(** C6.  For a positive air density: with positive rpm, blade count,
    radius, chords, pitch angle and lift-curve slope, and at least two
    elements, [calculate_thrust_blade_element] returns an efficiency in
    [0, 1]; with positive thrust, power and radius,
    [calculate_figure_of_merit] returns a value in [0, 1]; and whatever the
    inputs, an efficiency that is returned is at most 1. *)
Theorem efficiency_and_figure_of_merit_bounded (self : t) :
  0 < air_density self ->
  (forall (rpm : R) (blade_params : dict) (num_blades : R) (num_elements : Z),
      0 < rpm -> 0 < num_blades -> (2 <= num_elements)%Z ->
      positive_entry blade_params "radius" ->
      positive_entry blade_params "chord_root" ->
      positive_entry blade_params "chord_tip" ->
      positive_entry blade_params "pitch_angle" ->
      positive_entry blade_params "cl_slope" ->
      exists (d : dict) (e : R),
        calculate_thrust_blade_element self rpm blade_params num_blades
          num_elements = Ok d /\
        dget d "efficiency" = Some (VReal e) /\ 0 <= e <= 1) /\
  (forall thrust power radius : R,
      0 < thrust -> 0 < power -> 0 < radius ->
      exists fm : R,
        calculate_figure_of_merit self thrust power radius = Ok fm /\
        0 <= fm <= 1) /\
  (forall (rpm : R) (blade_params : dict) (num_blades : R) (num_elements : Z)
          (d : dict),
      calculate_thrust_blade_element self rpm blade_params num_blades
        num_elements = Ok d ->
      exists e : R, dget d "efficiency" = Some (VReal e) /\ e <= 1).
Proof.
  intros Hrho. split; [|split].
  - intros. apply blade_element_efficiency_bounds; assumption.
  - intros. apply figure_of_merit_bounds; assumption.
  - intros rpm bp nb n d. apply blade_element_efficiency_le_1.
Qed.

Lemma efficiency_and_figure_of_merit_bounded_witness :
  (exists (d : dict) (e : R),
      calculate_thrust_blade_element ThrustCalculator.default 5000
        [("radius", VReal 0.127); ("chord_root", VReal 0.03);
         ("chord_tip", VReal 0.015); ("pitch_angle", VReal 10.0)]
        2 20 = Ok d /\
      dget d "efficiency" = Some (VReal e) /\ 0 <= e <= 1) /\
  (exists fm : R,
      calculate_figure_of_merit ThrustCalculator.default 5.0 100.0 0.127
        = Ok fm /\ 0 <= fm <= 1).
Proof.
  assert (Hrho : 0 < air_density ThrustCalculator.default) by (simpl; lra).
  destruct (efficiency_and_figure_of_merit_bounded ThrustCalculator.default Hrho)
    as [Hbe [Hfm _]].
  split.
  - apply Hbe; try lra; try lia; unfold positive_entry; simpl;
      try exact I; eexists; (split; [reflexivity | lra]).
  - apply Hfm; lra.
Defined.

End Thrust.

(** * Noise *)

Section Noise.

(** *** Decibels *)

Lemma ln_10_pos : 0 < ln 10.
Proof. rewrite <- ln_1. apply ln_increasing; lra. Qed.

Lemma log10_increasing (x y : R) : 0 < x -> x < y -> log10 x < log10 y.
Proof.
  intros Hx Hxy. unfold log10, Rdiv.
  apply Rmult_lt_compat_r.
  - apply Rinv_0_lt_compat, ln_10_pos.
  - apply ln_increasing; assumption.
Qed.

Lemma log10_Rpower (x : R) : log10 (Rpower 10 x) = x.
Proof.
  unfold log10, Rpower. rewrite ln_exp. field.
  pose proof ln_10_pos. lra.
Qed.

Lemma Rpower_10_log10 (x : R) : 0 < x -> Rpower 10 (log10 x) = x.
Proof.
  intros Hx. unfold log10, Rpower.
  replace (ln x / ln 10 * ln 10) with (ln x)
    by (field; pose proof ln_10_pos; lra).
  apply exp_ln; exact Hx.
Qed.

Lemma Rpower_10_pos (x : R) : 0 < Rpower 10 x.
Proof. unfold Rpower. apply exp_pos. Qed.

Lemma log10_sqrt (x : R) : 0 < x -> 20 * log10 (sqrt x) = 10 * log10 x.
Proof.
  intros Hx. unfold log10.
  assert (Hs : 0 < sqrt x) by (apply sqrt_lt_R0; exact Hx).
  assert (E : ln x = ln (sqrt x) + ln (sqrt x)).
  { rewrite <- ln_mult by assumption. rewrite sqrt_sqrt by lra. reflexivity. }
  rewrite E. field. pose proof ln_10_pos. lra.
Qed.

Lemma pressure_squared (p_ref s : R) :
  (p_ref * Rpower 10 (s / 20.0)) ^ 2 = p_ref ^ 2 * Rpower 10 (s / 10).
Proof.
  replace (s / 10) with (s / 20.0 + s / 20.0) by lra.
  rewrite Rpower_plus. ring.
Qed.

Lemma energy_nonneg (l : list R) : 0 <= energy l.
Proof.
  induction l as [|s l IH]; simpl; [lra|].
  pose proof (Rpower_10_pos (s / 10)). lra.
Qed.

Lemma energy_pos (l : list R) : l <> [] -> 0 < energy l.
Proof.
  destruct l as [|s l]; [contradiction|]. intros _. simpl.
  pose proof (Rpower_10_pos (s / 10)). pose proof (energy_nonneg l). lra.
Qed.

Lemma energy_sum_db_alt (l : list R) :
  l <> [] -> energy_sum_db l = 10 * log10 (energy l).
Proof. intros H. apply log10_sqrt, energy_pos, H. Qed.

Lemma energy_exceeds_member (l : list R) (s : R) :
  (2 <= List.length l)%nat -> In s l -> Rpower 10 (s / 10) < energy l.
Proof.
  induction l as [|a l IH]; simpl; [lia|].
  intros Hlen [->|Hin].
  - assert (0 < energy l) by (apply energy_pos; destruct l; simpl in *; [lia | discriminate]).
    lra.
  - pose proof (Rpower_10_pos (a / 10)).
    destruct l as [|b l]; [contradiction|].
    destruct l as [|c l].
    + destruct Hin as [->|[]]. simpl. lra.
    + assert (Rpower 10 (s / 10) < energy (b :: c :: l))
        by (apply IH; [simpl; lia | exact Hin]).
      lra.
Qed.

(** The combined level exceeds every component once there are two. *)
Lemma energy_sum_exceeds_member (l : list R) (s : R) :
  (2 <= List.length l)%nat -> In s l -> s < energy_sum_db l.
Proof.
  intros Hlen Hin.
  rewrite energy_sum_db_alt by (destruct l; simpl in *; [lia | discriminate]).
  pose proof (energy_exceeds_member l s Hlen Hin) as H.
  apply (log10_increasing _ _ (Rpower_10_pos _)) in H.
  rewrite log10_Rpower in H. lra.
Qed.

Lemma Rpower_10_sum (l : list R) :
  Rpower 10 (naive_sum_db l / 10)
  = fold_right (fun s acc => Rpower 10 (s / 10) * acc) 1 l.
Proof.
  induction l as [|s l IH]; simpl.
  - replace (0 / 10) with 0 by lra. apply Rpower_O; lra.
  - replace ((s + naive_sum_db l) / 10) with (s / 10 + naive_sum_db l / 10)
      by lra.
    rewrite Rpower_plus, IH. reflexivity.
Qed.

Lemma Rpower_10_above_2 (s : R) : 10 * log10 2 < s -> 2 < Rpower 10 (s / 10).
Proof.
  intros H. rewrite <- (Rpower_10_log10 2) at 1 by lra.
  apply Rpower_lt; lra.
Qed.

Lemma sum_below_product (l : list R) :
  Forall (fun s => 10 * log10 2 < s) l -> l <> [] ->
  energy l <= fold_right (fun s acc => Rpower 10 (s / 10) * acc) 1 l /\
  2 < fold_right (fun s acc => Rpower 10 (s / 10) * acc) 1 l /\
  ((2 <= List.length l)%nat ->
   energy l < fold_right (fun s acc => Rpower 10 (s / 10) * acc) 1 l).
Proof.
  induction 1 as [|s l Hs Hl IH]; [contradiction|]. intros _.
  apply Rpower_10_above_2 in Hs. simpl.
  set (x := Rpower 10 (s / 10)) in *.
  destruct l as [|b l].
  - simpl. repeat split; try lra. simpl; lia.
  - destruct IH as [IH1 [IH2 _]]; [discriminate|].
    set (S := energy (b :: l)) in *.
    set (P := fold_right (fun s acc => Rpower 10 (s / 10) * acc) 1 (b :: l)) in *.
    assert (x + S < x * P) by nra.
    repeat split; try lra. nra.
Qed.

(** The combined level is below the plain sum of the decibel values once
    every component is above [10 log10 2] (about 3.01 dB). *)
Lemma energy_sum_below_naive_sum (l : list R) :
  (2 <= List.length l)%nat -> Forall (fun s => 10 * log10 2 < s) l ->
  energy_sum_db l < naive_sum_db l.
Proof.
  intros Hlen Hall.
  assert (Hne : l <> []) by (destruct l; simpl in *; [lia | discriminate]).
  rewrite energy_sum_db_alt by exact Hne.
  destruct (sum_below_product l Hall Hne) as [_ [_ H]].
  specialize (H Hlen). rewrite <- Rpower_10_sum in H.
  apply (log10_increasing _ _ (energy_pos l Hne)) in H.
  rewrite log10_Rpower in H. lra.
Qed.

Import NoiseAnalyzer.

Lemma tonal_results_shape (self : t) (rpm num_blades tip_speed distance : R)
    (results : dict) :
  calculate_tonal_noise self rpm num_blades tip_speed distance = Ok results ->
  exists s1 f1 s2 f2 s3 f3 : R,
    results = [("BPF_harmonic_1", VReal s1); ("frequency_hz_1", VReal f1);
               ("BPF_harmonic_2", VReal s2); ("frequency_hz_2", VReal f2);
               ("BPF_harmonic_3", VReal s3); ("frequency_hz_3", VReal f3)].
Proof.
  unfold calculate_tonal_noise. cbn [tonal_loop]. intros H.
  bind_inv H hp1 E1. bind_inv H p1 E2. bind_inv H s1 E3.
  bind_inv H hp2 E4. bind_inv H p2 E5. bind_inv H s2 E6.
  bind_inv H hp3 E7. bind_inv H p3 E8. bind_inv H s3 E9.
  injection H as <-.
  do 6 eexists. reflexivity.
Qed.

Lemma total_noise_is_energy_sum (self : t)
    (propeller_params operating_conditions : dict) (distance : R) (d : dict) :
  calculate_total_noise self propeller_params operating_conditions distance
    = Ok d ->
  exists b t v : R,
    dget d "broadband_spl_db" = Some (VReal b) /\
    dget d "tonal_spl_db" = Some (VReal t) /\
    dget d "vortex_spl_db" = Some (VReal v) /\
    dget d "total_spl_db" = Some (VReal (energy_sum_db [b; t; v])).
Proof.
  unfold calculate_total_noise. intros H.
  bind_inv H rpm E1. bind_inv H velocity E2. bind_inv H chord E3.
  bind_inv H thickness E4. bind_inv H num_blades E5. bind_inv H radius E6.
  bind_inv H aoa E7. bind_inv H b Eb. bind_inv H tr Et.
  apply bind_Ok_inv in H. destruct H as [[vf v] [Ev H]].
  bind_inv H t Etp. bind_inv H p_total Ep. bind_inv H q Eq. bind_inv H l El.
  injection H as <-.
  destruct (tonal_results_shape _ _ _ _ _ _ Et)
    as [s1 [f1 [s2 [f2 [s3 [f3 ->]]]]]].
  exists b, t, v.
  split; [reflexivity|]. split; [reflexivity|]. split; [reflexivity|].
  cbn [dupdate fold_left dset dget String.eqb Ascii.eqb Bool.eqb fst snd].
  do 2 f_equal.
  (* the pressures *)
  set (p_ref := reference_pressure self) in *.
  rewrite !pressure_squared in Ep.
  set (S := Rpower 10 (b / 10) + Rpower 10 (t / 10) + Rpower 10 (v / 10)).
  assert (HS : 0 < S).
  { unfold S. pose proof (Rpower_10_pos (b / 10)).
    pose proof (Rpower_10_pos (t / 10)). pose proof (Rpower_10_pos (v / 10)).
    lra. }
  replace (p_ref ^ 2 * Rpower 10 (b / 10) + p_ref ^ 2 * Rpower 10 (t / 10)
           + p_ref ^ 2 * Rpower 10 (v / 10)) with (p_ref ^ 2 * S) in Ep
    by (unfold S; ring).
  assert (Ep' : p_total = Rabs p_ref * sqrt S).
  { unfold np_sqrt in Ep.
    destruct (Rle_dec 0 (p_ref ^ 2 * S)) as [_|]; [|discriminate].
    assert (E : sqrt (p_ref ^ 2 * S) = p_total) by congruence.
    rewrite <- E, sqrt_mult by (try apply pow2_ge_0; lra).
    rewrite <- Rsqr_pow2, sqrt_Rsqr_abs. reflexivity. }
  assert (Hp : p_ref <> 0).
  { unfold npdiv in Eq. destruct (Req_dec_T p_ref 0); [discriminate | assumption]. }
  rewrite (npdiv_ok _ _ Hp) in Eq.
  assert (Eq' : q = p_total / p_ref) by congruence.
  assert (Hq : 0 < q /\ l = log10 q).
  { unfold np_log10 in El. destruct (Rlt_dec 0 q); [|discriminate].
    split; [assumption | congruence]. }
  destruct Hq as [Hq ->]. subst q p_total.
  assert (Hpos : 0 < p_ref).
  { destruct (Rlt_dec 0 p_ref) as [|Hn]; [assumption|]. exfalso.
    assert (Hneg : p_ref < 0) by lra.
    rewrite (Rabs_left _ Hneg) in Hq.
    assert (0 < sqrt S) by (apply sqrt_lt_R0; exact HS).
    replace (- p_ref * sqrt S / p_ref) with (- sqrt S) in Hq by (field; lra).
    lra. }
  clear Hq.
  rewrite (Rabs_right p_ref) by lra.
  unfold energy_sum_db, energy. cbn [fold_right].
  replace (Rpower 10 (b / 10) + (Rpower 10 (t / 10) + (Rpower 10 (v / 10) + 0)))
    with S by (unfold S; ring).
  replace (p_ref * sqrt S / p_ref) with (sqrt S) by (field; lra).
  reflexivity.
Qed.

Import AeroacousticMetrics.

Lemma as_real_real_of (v : value) (x : R) : as_real v = Ok x -> real_of v = x.
Proof.
  destruct v as [| |[y| | |]| | | |]; simpl; intros H;
    try discriminate; congruence.
Qed.

Lemma weighted_loop_sum (p_ref : R) (items weights : dict) :
  forall acc total : R,
    weighted_loop p_ref items weights acc = Ok total ->
    total = acc + p_ref ^ 2 * weighted_energy (spl_entries items weights).
Proof.
  induction items as [|[k v] items IH]; intros acc total H.
  - simpl in H. injection H as <-. simpl. ring.
  - cbn [weighted_loop spl_entries] in *.
    destruct (contains "frequency_hz" k).
    + apply IH; exact H.
    + bind_inv H s Es. bind_inv H w Ew.
      apply IH in H. rewrite H.
      apply as_real_real_of in Es, Ew.
      unfold get_value. rewrite Es, Ew.
      cbn [weighted_energy fold_right fst snd].
      fold (weighted_energy (spl_entries items weights)).
      replace ((w * (p_ref * Rpower 10 (s / 20.0))) ^ 2)
        with (w ^ 2 * (p_ref * Rpower 10 (s / 20.0)) ^ 2) by ring.
      rewrite pressure_squared. ring.
Qed.

Lemma weighted_energy_nonneg (l : list (R * R)) : 0 <= weighted_energy l.
Proof.
  induction l as [|[w s] l IH]; simpl; [lra|].
  pose proof (Rpower_10_pos (s / 10)). pose proof (pow2_ge_0 w).
  assert (0 <= w ^ 2 * Rpower 10 (s / 10)) by (apply Rmult_le_pos; lra).
  simpl in *. lra.
Qed.

Lemma weighted_metric_formula
    (noise_spectrum : dict) (frequency_weights : option dict) (r : R) :
  calculate_weighted_noise_metric noise_spectrum frequency_weights = Ok r ->
  let E := weighted_energy
             (spl_entries noise_spectrum (weights_or_empty frequency_weights)) in
  (0 < E -> r = 20 * log10 (sqrt E)) /\ (E <= 0 -> r = 0).
Proof.
  unfold calculate_weighted_noise_metric.
  destruct noise_spectrum as [|kv rest].
  - intros H. injection H as <-. simpl. split; [lra | reflexivity].
  - set (spectrum := kv :: rest). fold (weights_or_empty frequency_weights).
    set (weights := weights_or_empty frequency_weights).
    intros H. bind_inv H total Et.
    apply weighted_loop_sum in Et.
    set (E := weighted_energy (spl_entries spectrum weights)) in *.
    cbv zeta.
    assert (Ht : total = 2e-5 ^ 2 * E) by lra. clear Et.
    destruct (Rlt_dec 0 total) as [Hpos|Hneg].
    + assert (HE : 0 < E) by nra.
      rewrite np_sqrt_ok in H by lra. cbn [bind] in H.
      rewrite npdiv_ok in H by lra. cbn [bind] in H.
      assert (Hs : sqrt total / 2e-5 = sqrt E).
      { rewrite Ht, sqrt_mult by (try apply pow2_ge_0; lra).
        rewrite sqrt_pow2 by lra. field. }
      rewrite Hs in H. unfold np_log10 in H.
      destruct (Rlt_dec 0 (sqrt E)) as [_|C];
        [|exfalso; apply C, sqrt_lt_R0, HE].
      cbn [bind] in H. split; [intros _; congruence | lra].
    + split; [intros HE; exfalso; apply Hneg; nra | intros _; congruence].
Qed.

Lemma default_weights_energy (noise_spectrum : dict) :
  weighted_energy (spl_entries noise_spectrum [])
  = energy (spl_levels noise_spectrum).
Proof.
  unfold spl_levels.
  induction noise_spectrum as [|[k v] rest IH]; [reflexivity|].
  cbn [spl_entries]. destruct (contains "frequency_hz" k); [exact IH|].
  cbn [map weighted_energy energy fold_right fst snd get_value dget real_of VReal].
  fold (weighted_energy (spl_entries rest [])).
  fold (energy (map snd (spl_entries rest []))).
  rewrite IH. lra.
Qed.

Lemma default_weights_metric (noise_spectrum : dict) (r : R) :
  calculate_weighted_noise_metric noise_spectrum None = Ok r ->
  spl_levels noise_spectrum <> [] ->
  r = energy_sum_db (spl_levels noise_spectrum).
Proof.
  intros H Hne. apply weighted_metric_formula in H.
  cbn [weights_or_empty] in H. rewrite default_weights_energy in H.
  destruct H as [H _]. apply H. apply energy_pos, Hne.
Qed.

Lemma weighted_loop_returns (p_ref : R) (items weights : dict) :
  all_real items -> all_real weights ->
  forall acc, exists total, weighted_loop p_ref items weights acc = Ok total.
Proof.
  intros Hi Hw. induction Hi as [|[k v] items [x Hx] Hi IH]; intros acc.
  - exists acc. reflexivity.
  - cbn [weighted_loop]. destruct (contains "frequency_hz" k); [apply IH|].
    simpl in Hx. subst v. cbn [as_real VReal bind].
    pose proof (all_real_entry weights k Hw) as Hk. unfold real_entry in Hk.
    destruct (dget weights k) as [w|].
    + destruct Hk as [y ->]. cbn [as_real VReal bind]. apply IH.
    + cbn [as_real VReal bind]. apply IH.
Qed.

Lemma weighted_metric_returns
    (noise_spectrum : dict) (frequency_weights : option dict) :
  all_real noise_spectrum -> all_real (weights_or_empty frequency_weights) ->
  exists r, calculate_weighted_noise_metric noise_spectrum frequency_weights
            = Ok r.
Proof.
  intros Hs Hw. unfold calculate_weighted_noise_metric.
  destruct noise_spectrum as [|kv rest]; [exists 0; reflexivity|].
  fold (weights_or_empty frequency_weights).
  destruct (weighted_loop_returns 2e-5 (kv :: rest) _ Hs Hw 0.0) as [total Et].
  pose proof (weighted_loop_sum _ _ _ _ _ Et) as Hsum.
  pose proof (weighted_energy_nonneg
                (spl_entries (kv :: rest) (weights_or_empty frequency_weights)))
    as HE.
  cbv zeta. rewrite Et. cbn [bind].
  destruct (Rlt_dec 0 total) as [Hpos|]; [|exists 0; reflexivity].
  rewrite np_sqrt_ok by lra. cbn [bind].
  rewrite npdiv_ok by lra. cbn [bind].
  unfold np_log10.
  destruct (Rlt_dec 0 (sqrt total / 2e-5)) as [_|C].
  - eexists; reflexivity.
  - exfalso. apply C. apply Rdiv_lt_0_compat; [apply sqrt_lt_R0; lra | lra].
Qed.

Lemma log10_2_above_tenth : 0.1 < log10 2.
Proof.
  unfold log10. pose proof ln_10_pos as H10.
  assert (H : ln 10 < 10 * ln 2).
  { replace (10 * ln 2) with (INR 10 * ln 2) by (simpl; lra).
    rewrite <- ln_pow by lra. apply ln_increasing; lra. }
  apply (Rmult_lt_reg_r (ln 10)); [lra|].
  unfold Rdiv. rewrite Rmult_assoc, Rinv_l by lra. lra.
Qed.

Lemma log10_mult (x y : R) :
  0 < x -> 0 < y -> log10 (x * y) = log10 x + log10 y.
Proof.
  intros Hx Hy. unfold log10. rewrite ln_mult by assumption.
  field. pose proof ln_10_pos. lra.
Qed.

(** C1 as stated fails.  Two entries of 1 dB, the first weighted by 2,
    combine to a level that is not [20 log10 (sqrt (sum 10^(SPL_i/10)))];
    under the default weights the two combine to that level, about 4 dB,
    which is not below the plain sum 1 + 1. *)
Lemma two_unit_levels_combined :
  (exists r : R,
      calculate_weighted_noise_metric
        [("a", VReal 1); ("b", VReal 1)] (Some [("a", VReal 2)]) = Ok r /\
      r <> energy_sum_db [1; 1]) /\
  (exists r : R,
      calculate_weighted_noise_metric
        [("a", VReal 1); ("b", VReal 1)] None = Ok r /\
      r = energy_sum_db [1; 1] /\
      ~ r < 1 + 1).
Proof.
  set (X := Rpower 10 (1 / 10)).
  assert (HX : 0 < X) by apply Rpower_10_pos.
  assert (HlX : log10 X = 1 / 10) by apply log10_Rpower.
  assert (Hsum : energy_sum_db [1; 1] = 10 * (log10 2 + 1 / 10)).
  { rewrite energy_sum_db_alt by discriminate.
    cbn [energy fold_right]. fold X.
    replace (X + (X + 0)) with (2 * X) by lra.
    rewrite log10_mult, HlX by lra. reflexivity. }
  pose proof log10_2_above_tenth as H2.
  split.
  - destruct (weighted_metric_returns
                [("a", VReal 1); ("b", VReal 1)] (Some [("a", VReal 2)]))
      as [r Hr].
    { repeat constructor; eexists; reflexivity. }
    { repeat constructor; eexists; reflexivity. }
    exists r. split; [exact Hr|].
    apply weighted_metric_formula in Hr. destruct Hr as [Hr _].
    assert (Hent : spl_entries [("a", VReal 1); ("b", VReal 1)]
                     (weights_or_empty (Some [("a", VReal 2)]))
                   = [(2, 1); (1.0, 1)]) by reflexivity.
    rewrite Hent in Hr. clear Hent.
    cbn [weighted_energy fold_right fst snd] in Hr. fold X in Hr.
    replace (2 ^ 2 * X + (1.0 ^ 2 * X + 0)) with (5 * X) in Hr by lra.
    rewrite Hr by lra. clear Hr.
    rewrite log10_sqrt by lra.
    rewrite log10_mult, HlX by lra.
    assert (H5 : log10 2 < log10 5) by (apply log10_increasing; lra).
    rewrite Hsum. lra.
  - destruct (weighted_metric_returns
                [("a", VReal 1); ("b", VReal 1)] None) as [r Hr].
    { repeat constructor; eexists; reflexivity. }
    { constructor. }
    exists r. split; [exact Hr|].
    apply default_weights_metric in Hr; [|discriminate].
    change (spl_levels [("a", VReal 1); ("b", VReal 1)]) with [1; 1] in Hr.
    split; [exact Hr|]. rewrite Hr, Hsum. lra.
Qed.

Lemma calculate_spl_with_returns (divide : R -> R -> outcome R) (self : t)
    (pressure distance : R) :
  (forall x y, y <> 0 -> divide x y = Ok (x / y)) ->
  0 < reference_pressure self -> 0 < distance ->
  exists s, calculate_spl_with divide self pressure distance = Ok s.
Proof.
  intros Hdiv Hp Hd. unfold calculate_spl_with.
  destruct (Rle_dec pressure 0) as [|Hpos]; [exists 0; reflexivity|].
  rewrite Hdiv by lra. cbn [bind]. rewrite Hdiv by lra. cbn [bind].
  rewrite np_log10_ok; [eexists; reflexivity|].
  apply Rdiv_lt_0_compat; [apply Rdiv_lt_0_compat; lra | exact Hp].
Qed.

Lemma calculate_spl_returns (self : t) (pressure distance : R) :
  0 < reference_pressure self -> 0 < distance ->
  exists s, calculate_spl self pressure distance = Ok s.
Proof. apply calculate_spl_with_returns. exact pydiv_ok. Qed.

Lemma pypow_positive_base (x y : R) : 0 < x -> pypow x y = Ok (Rpower x y).
Proof.
  intros H. unfold pypow. destruct (Rlt_dec 0 x); [reflexivity | contradiction].
Qed.

Lemma pypow_nonneg_base (x y : R) :
  0 <= x -> 0 < y -> exists z, pypow x y = Ok z.
Proof.
  intros Hx Hy. unfold pypow.
  destruct (Rlt_dec 0 x); [eexists; reflexivity|].
  destruct (Req_dec_T x 0); [|lra].
  destruct (Rlt_dec 0 y); [eexists; reflexivity | contradiction].
Qed.

Lemma tonal_loop_returns (self : t) (bpf tip_speed num_blades distance : R)
    (hs : list nat) :
  0 < reference_pressure self -> 0 < distance ->
  Forall (fun h => (0 < h)%nat) hs ->
  forall results, exists r,
    tonal_loop self bpf tip_speed num_blades distance hs results = Ok r.
Proof.
  intros Hp Hd Hhs. induction Hhs as [|h hs Hh _ IH]; intros results.
  - exists results. reflexivity.
  - cbn [tonal_loop].
    assert (HI : 0 < INR h) by (apply lt_0_INR; exact Hh).
    rewrite pypow_positive_base by exact HI. cbn [bind].
    assert (0 < Rpower (INR h) 1.5) by (unfold Rpower; apply exp_pos).
    assert (0 < distance ^ 2) by (apply pow_lt; exact Hd).
    rewrite pydiv_ok by nra. cbn [bind].
    destruct (calculate_spl_returns self
                (5e-3 * tip_speed ^ 4 * (num_blades / 2.0)
                 / (Rpower (INR h) 1.5 * distance ^ 2)) distance Hp Hd)
      as [s Es].
    rewrite Es. cbn [bind]. apply IH.
Qed.

Lemma total_noise_returns (self : t)
    (propeller_params operating_conditions : dict) (distance : R)
    (rpm velocity chord thickness num_blades radius aoa : R) :
  0 < reference_pressure self -> 0 < distance ->
  get_real operating_conditions "rpm" 5000 = Ok rpm ->
  get_real operating_conditions "velocity" 10.0 = Ok velocity ->
  get_real propeller_params "chord_length" 0.05 = Ok chord ->
  get_real propeller_params "blade_thickness" 0.005 = Ok thickness ->
  get_real propeller_params "num_blades" 2 = Ok num_blades ->
  get_real propeller_params "radius" 0.127 = Ok radius ->
  get_real propeller_params "angle_of_attack" 5.0 = Ok aoa ->
  0 <= velocity -> thickness <> 0 ->
  exists d,
    calculate_total_noise self propeller_params operating_conditions distance
      = Ok d.
Proof.
  intros Hp Hd E1 E2 E3 E4 E5 E6 E7 Hv Ht.
  assert (Hd2 : 0 < distance ^ 2) by (apply pow_lt; exact Hd).
  unfold calculate_total_noise.
  rewrite E1, E2, E3, E4, E5, E6, E7. cbn [bind].
  (* broadband *)
  unfold calculate_broadband_noise.
  destruct (pypow_nonneg_base velocity 5.5 Hv ltac:(lra)) as [vt Evt].
  rewrite Evt. cbn [bind]. rewrite npdiv_ok by lra. cbn [bind].
  match goal with
  | |- context [calculate_spl_with npdiv self ?p distance] =>
      destruct (calculate_spl_with_returns npdiv self p distance npdiv_ok
                  Hp Hd) as [b Eb]
  end.
  rewrite Eb. cbn [bind].
  (* tonal *)
  unfold calculate_tonal_noise.
  match goal with
  | |- context [tonal_loop self ?bpf ?ts ?nb distance ?hs ?r0] =>
      destruct (tonal_loop_returns self bpf ts nb distance hs Hp Hd
                  ltac:(repeat constructor) r0) as [tr Etr];
      pose proof Etr as Eshape
  end.
  rewrite Etr. cbn [bind].
  apply (tonal_results_shape self rpm num_blades) in Eshape.
  destruct Eshape as [s1 [f1 [s2 [f2 [s3 [f3 ->]]]]]].
  (* vortex *)
  unfold calculate_vortex_noise.
  rewrite pydiv_ok by exact Ht. cbn [bind].
  rewrite pydiv_ok by lra. cbn [bind].
  match goal with
  | |- context [calculate_spl self ?p distance] =>
      destruct (calculate_spl_returns self p distance Hp Hd) as [v Ev]
  end.
  rewrite Ev. cbn [bind].
  change (get_real _ "BPF_harmonic_1" 0) with (Ok s1). cbn [bind].
  (* total *)
  set (p_ref := reference_pressure self) in *.
  rewrite !pressure_squared.
  pose proof (Rpower_10_pos (b / 10)). pose proof (Rpower_10_pos (s1 / 10)).
  pose proof (Rpower_10_pos (v / 10)).
  assert (Hp2 : 0 < p_ref ^ 2) by (apply pow_lt; exact Hp).
  match goal with
  | |- context [np_sqrt ?x] =>
      assert (Hx : 0 < x) by nra; rewrite (np_sqrt_ok x) by lra;
      pose proof (sqrt_lt_R0 x Hx)
  end.
  cbn [bind]. rewrite npdiv_ok by lra. cbn [bind].
  rewrite np_log10_ok by (apply Rdiv_lt_0_compat; assumption).
  cbn [bind]. eexists. reflexivity.
Qed.

(** C1, as amended.  The total level that [calculate_total_noise] returns
    is [20 log10 (sqrt (sum 10^(SPL_i/10)))] over the broadband, primary
    tonal and vortex levels and is at least each of the three; it is
    below the plain sum of the three decibel values when each of them is
    above [10 log10 2], about 3.01 dB.  The call returns for a positive
    reference pressure and distance, a velocity that is not negative and a
    thickness that is not zero.  [calculate_weighted_noise_metric] returns
    [20 log10 (sqrt (sum w_i^2 10^(SPL_i/10)))] over the SPL entries when
    that sum is positive, and 0 otherwise; under the default weights and
    with an SPL entry this is the unweighted formula, which is at least
    every entry once there are two and is below their plain sum under the
    same threshold.  It returns when the entries and the weights are real
    numbers. *)
Theorem combined_spl_is_energy_sum :
  (forall (self : NoiseAnalyzer.t) (propeller_params operating_conditions : dict)
          (distance : R) (d : dict),
      calculate_total_noise self propeller_params operating_conditions distance
        = Ok d ->
      exists b t v total : R,
        dget d "broadband_spl_db" = Some (VReal b) /\
        dget d "tonal_spl_db" = Some (VReal t) /\
        dget d "vortex_spl_db" = Some (VReal v) /\
        dget d "total_spl_db" = Some (VReal total) /\
        total = energy_sum_db [b; t; v] /\
        b <= total /\ t <= total /\ v <= total /\
        (10 * log10 2 < b -> 10 * log10 2 < t -> 10 * log10 2 < v ->
         total < b + t + v)) /\
  (forall (self : NoiseAnalyzer.t) (propeller_params operating_conditions : dict)
          (distance rpm velocity chord thickness num_blades radius aoa : R),
      0 < reference_pressure self -> 0 < distance ->
      get_real operating_conditions "rpm" 5000 = Ok rpm ->
      get_real operating_conditions "velocity" 10.0 = Ok velocity ->
      get_real propeller_params "chord_length" 0.05 = Ok chord ->
      get_real propeller_params "blade_thickness" 0.005 = Ok thickness ->
      get_real propeller_params "num_blades" 2 = Ok num_blades ->
      get_real propeller_params "radius" 0.127 = Ok radius ->
      get_real propeller_params "angle_of_attack" 5.0 = Ok aoa ->
      0 <= velocity -> thickness <> 0 ->
      exists d,
        calculate_total_noise self propeller_params operating_conditions
          distance = Ok d) /\
  (forall (noise_spectrum : dict) (frequency_weights : option dict) (r : R),
      calculate_weighted_noise_metric noise_spectrum frequency_weights = Ok r ->
      let E := weighted_energy
                 (spl_entries noise_spectrum
                    (weights_or_empty frequency_weights)) in
      (0 < E -> r = 20 * log10 (sqrt E)) /\ (E <= 0 -> r = 0)) /\
  (forall (noise_spectrum : dict) (r : R),
      calculate_weighted_noise_metric noise_spectrum None = Ok r ->
      let levels := spl_levels noise_spectrum in
      levels <> [] ->
      r = energy_sum_db levels /\
      ((2 <= List.length levels)%nat ->
       Forall (fun s => s <= r) levels /\
       (Forall (fun s => 10 * log10 2 < s) levels ->
        r < naive_sum_db levels))) /\
  (forall (noise_spectrum : dict) (frequency_weights : option dict),
      all_real noise_spectrum ->
      all_real (weights_or_empty frequency_weights) ->
      exists r,
        calculate_weighted_noise_metric noise_spectrum frequency_weights
          = Ok r).
Proof.
  split; [|split; [|split; [|split]]].
  - intros self params oc distance d H.
    destruct (total_noise_is_energy_sum _ _ _ _ _ H)
      as [b [t [v [Hb [Ht [Hv HT]]]]]].
    exists b, t, v, (energy_sum_db [b; t; v]).
    repeat (split; [first [assumption | reflexivity]|]).
    assert (Hlen : (2 <= List.length [b; t; v])%nat) by (simpl; lia).
    split; [apply Rlt_le, energy_sum_exceeds_member; simpl; auto|].
    split; [apply Rlt_le, energy_sum_exceeds_member; simpl; auto|].
    split; [apply Rlt_le, energy_sum_exceeds_member; simpl; auto|].
    intros H1 H2 H3.
    replace (b + t + v) with (naive_sum_db [b; t; v]) by (simpl; lra).
    apply energy_sum_below_naive_sum; [exact Hlen|].
    repeat constructor; assumption.
  - intros. eapply total_noise_returns; eassumption.
  - exact weighted_metric_formula.
  - intros spectrum r H levels Hne.
    pose proof (default_weights_metric _ _ H Hne) as Hr. fold levels in Hr.
    split; [exact Hr|]. intros Hlen. rewrite Hr. split.
    + apply Forall_forall. intros s Hs.
      apply Rlt_le, energy_sum_exceeds_member; assumption.
    + intros Hall. apply energy_sum_below_naive_sum; assumption.
  - exact weighted_metric_returns.
Qed.

Lemma combined_spl_is_energy_sum_witness :
  (exists (d : dict) (b t v total : R),
      calculate_total_noise NoiseAnalyzer.default
        [("chord_length", VReal 0.05); ("blade_thickness", VReal 0.005);
         ("num_blades", VReal 2); ("radius", VReal 0.127);
         ("angle_of_attack", VReal 5.0)]
        [("rpm", VReal 5000); ("velocity", VReal 10.0)] 1.0 = Ok d /\
      dget d "broadband_spl_db" = Some (VReal b) /\
      dget d "tonal_spl_db" = Some (VReal t) /\
      dget d "vortex_spl_db" = Some (VReal v) /\
      dget d "total_spl_db" = Some (VReal total) /\
      total = energy_sum_db [b; t; v] /\
      b <= total /\ t <= total /\ v <= total) /\
  (exists r : R,
      calculate_weighted_noise_metric
        [("BPF_harmonic_1", VReal 70); ("frequency_hz_1", VReal 166);
         ("BPF_harmonic_2", VReal 60)] None = Ok r /\
      r = energy_sum_db [70; 60] /\ 70 <= r /\ r < 70 + 60).
Proof.
  destruct combined_spl_is_energy_sum as [Hsum [Hret [_ [Hdef Hwret]]]].
  split.
  - destruct (Hret NoiseAnalyzer.default
                [("chord_length", VReal 0.05); ("blade_thickness", VReal 0.005);
                 ("num_blades", VReal 2); ("radius", VReal 0.127);
                 ("angle_of_attack", VReal 5.0)]
                [("rpm", VReal 5000); ("velocity", VReal 10.0)] 1.0
                5000 10.0 0.05 0.005 2 0.127 5.0)
      as [d Hd]; try reflexivity; try (simpl; lra).
    destruct (Hsum _ _ _ _ _ Hd)
      as [b [t [v [total [H1 [H2 [H3 [H4 [H5 [H6 [H7 [H8 _]]]]]]]]]]]].
    exists d, b, t, v, total. repeat (split; [assumption|]). assumption.
  - destruct (Hwret [("BPF_harmonic_1", VReal 70); ("frequency_hz_1", VReal 166);
                     ("BPF_harmonic_2", VReal 60)] None) as [r Hr].
    { repeat constructor; eexists; reflexivity. }
    { constructor. }
    exists r. split; [exact Hr|].
    assert (Hl : spl_levels [("BPF_harmonic_1", VReal 70);
                             ("frequency_hz_1", VReal 166);
                             ("BPF_harmonic_2", VReal 60)] = [70; 60])
      by reflexivity.
    destruct (Hdef _ _ Hr) as [Heq Hrest]; [rewrite Hl; discriminate|].
    rewrite Hl in Heq, Hrest.
    destruct Hrest as [Hall Hbelow]; [simpl; lia|].
    split; [exact Heq|]. split.
    + apply (proj1 (Forall_forall _ _) Hall). simpl; auto.
    + replace (70 + 60) with (naive_sum_db [70; 60]) by (simpl; lra).
      apply Hbelow.
      pose proof log10_2_above_tenth.
      assert (log10 2 < log10 10) by (apply log10_increasing; lra).
      assert (log10 10 = 1).
      { unfold log10. field. pose proof ln_10_pos. lra. }
      repeat constructor; lra.
Defined.

Lemma total_noise_broadband (self : t)
    (propeller_params operating_conditions : dict) (distance : R) (d : dict)
    (velocity chord thickness aoa : R) :
  calculate_total_noise self propeller_params operating_conditions distance
    = Ok d ->
  get_real operating_conditions "velocity" 10.0 = Ok velocity ->
  get_real propeller_params "chord_length" 0.05 = Ok chord ->
  get_real propeller_params "blade_thickness" 0.005 = Ok thickness ->
  get_real propeller_params "angle_of_attack" 5.0 = Ok aoa ->
  exists b : R,
    calculate_broadband_noise self velocity chord thickness aoa distance
      = Ok b /\
    dget d "broadband_spl_db" = Some (VReal b).
Proof.
  unfold calculate_total_noise. intros H E2 E3 E4 E7.
  rewrite E2, E3, E4, E7 in H.
  bind_inv H rpm E1. cbn [bind] in H.
  bind_inv H num_blades E5. bind_inv H radius E6. cbn [bind] in H.
  bind_inv H b Eb. bind_inv H tr Et.
  apply bind_Ok_inv in H. destruct H as [[vf v] [Ev H]].
  bind_inv H t Etp. bind_inv H p_total Ep. bind_inv H q Eq. bind_inv H l El.
  injection H as <-.
  destruct (tonal_results_shape _ _ _ _ _ _ Et)
    as [s1 [f1 [s2 [f2 [s3 [f3 ->]]]]]].
  exists b. split; [exact Eb | reflexivity].
Qed.

Lemma broadband_at_rest (self : t) (chord thickness aoa distance : R) :
  distance <> 0 ->
  calculate_broadband_noise self 0 chord thickness aoa distance = Ok 0.
Proof.
  intros Hd. unfold calculate_broadband_noise, pypow.
  destruct (Rlt_dec 0 0); [lra|].
  destruct (Req_dec_T 0 0); [|lra].
  destruct (Rlt_dec 0 5.5); [|lra]. cbn [bind].
  rewrite npdiv_ok by (apply pow_nonzero; exact Hd). cbn [bind].
  unfold calculate_spl_with.
  match goal with |- context [Rle_dec ?p 0] => destruct (Rle_dec p 0) as [|C] end;
    [reflexivity|].
  exfalso. apply C. right. unfold Rdiv. ring.
Qed.

End Noise.

(** * Feature models *)

Section FeatureModels.

(** *** The store *)

Lemma replace_nth_last (h : heap) (d d' : dict) :
  replace_nth (h ++ [d]) (List.length h) d' = (h ++ [d'])%list.
Proof. induction h as [|x h IH]; simpl; [reflexivity | rewrite IH; reflexivity]. Qed.

Lemma nth_error_last (h : heap) (d : dict) :
  nth_error (h ++ [d]) (List.length h) = Some d.
Proof. induction h as [|x h IH]; simpl; [reflexivity | exact IH]. Qed.

Lemma nth_error_old (h new : heap) (r : ref) (d : dict) :
  nth_error h r = Some d -> nth_error (h ++ new) r = Some d.
Proof.
  intros H. rewrite nth_error_app1; [exact H|].
  apply nth_error_Some. rewrite H. discriminate.
Qed.

Lemma setitem_last (h : heap) (d : dict) (k : string) (v : value) :
  setitem (List.length h) k v (h ++ [d])%list = ((h ++ [dset d k v])%list, Ok tt).
Proof.
  unfold setitem. rewrite nth_error_last, replace_nth_last. reflexivity.
Qed.

Lemma writes_only_new_ret (h : heap) : writes_only_new h (ret (List.length h)).
Proof. intros d1. simpl. split; [exists d1; reflexivity | congruence]. Qed.

Lemma writes_only_new_lift {A : Type} (h : heap) (o : outcome A) (k : A -> M ref) :
  (forall a, writes_only_new h (k a)) -> writes_only_new h (mbind (lift o) k).
Proof.
  intros Hk d1. unfold mbind, lift. destruct o as [a|e].
  - apply Hk.
  - simpl. split; [exists d1; reflexivity | discriminate].
Qed.

Lemma writes_only_new_deref (h : heap) (g : ref) (k : dict -> M ref) :
  (forall d, writes_only_new h (k d)) -> writes_only_new h (mbind (deref g) k).
Proof.
  intros Hk d1. unfold mbind, deref.
  destruct (nth_error (h ++ [d1]) g) as [d|].
  - apply Hk.
  - simpl. split; [exists d1; reflexivity | discriminate].
Qed.

Lemma writes_only_new_setitem (h : heap) (key : string) (v : value)
    (k : unit -> M ref) :
  writes_only_new h (k tt) ->
  writes_only_new h (mbind (setitem (List.length h) key v) k).
Proof.
  intros Hk d1. unfold mbind. rewrite setitem_last. apply Hk.
Qed.

Ltac frame_steps :=
  repeat first
    [ apply writes_only_new_ret
    | apply writes_only_new_setitem
    | apply writes_only_new_deref; intros ?
    | apply writes_only_new_lift; intros ? ].

Lemma intact_refl (h : heap) (g : ref) (e : fault) :
  leaves_store_intact h g (h, Raise e).
Proof. split; [auto | discriminate]. Qed.

Lemma copy_then (h : heap) (g : ref) (k : ref -> M ref) :
  writes_only_new h (k (List.length h)) ->
  leaves_store_intact h g (mbind (copy g) k h).
Proof.
  intros Hk. unfold mbind at 1, copy, mbind, deref, alloc.
  destruct (nth_error h g) as [d|] eqn:Eg; [|apply intact_refl].
  destruct (Hk d) as [[d' Hd'] Hg].
  destruct (k (List.length h) (h ++ [d])) as [h' o]. simpl in *.
  subst h'. split; simpl.
  - intros r d0 Hr. apply nth_error_old, Hr.
  - intros g' Ho. split; [apply Hg; exact Ho|].
    split; [apply nth_error_Some; rewrite Eg; discriminate|].
    exists d'; reflexivity.
Qed.

Lemma owl_apply_intact (h : heap) (g : ref) (config : option dict) :
  leaves_store_intact h g (OwlWingSerrations.apply_to_blade_design g config h).
Proof.
  unfold OwlWingSerrations.apply_to_blade_design.
  destruct config as [c|].
  - unfold mbind at 1, ret. apply copy_then. frame_steps.
  - unfold mbind at 1. unfold mbind at 1. unfold deref at 1.
    destruct (nth_error h g) as [d|]; [|apply intact_refl].
    unfold mbind at 1, lift at 1.
    destruct (get_real d "chord_length" 0.05) as [c|e]; [|apply intact_refl].
    unfold lift at 1.
    destruct (OwlWingSerrations.calculate_serration_geometry c 0.05 0.02 None)
      as [p|e]; [|apply intact_refl].
    apply copy_then. frame_steps.
Qed.

Lemma humpback_apply_intact (h : heap) (g : ref) (config : option dict) :
  leaves_store_intact h g
    (HumpbackWhaleTubercles.apply_to_blade_design g config h).
Proof.
  unfold HumpbackWhaleTubercles.apply_to_blade_design.
  destruct config as [c|].
  - unfold mbind at 1, ret. apply copy_then. frame_steps.
  - unfold mbind at 1. unfold mbind at 1. unfold deref at 1.
    destruct (nth_error h g) as [d|]; [|apply intact_refl].
    unfold mbind at 1, lift at 1.
    destruct (get_real d "radius" 0.127) as [c|e]; [|apply intact_refl].
    unfold lift at 1.
    destruct (HumpbackWhaleTubercles.calculate_tubercle_geometry c 0.12 0.25 None)
      as [p|e]; [|apply intact_refl].
    apply copy_then. frame_steps.
Qed.

Lemma dragonfly_apply_intact (h : heap) (g : ref) (config : option dict) :
  leaves_store_intact h g
    (DragonflyCorrugations.apply_to_blade_design g config h).
Proof.
  unfold DragonflyCorrugations.apply_to_blade_design.
  destruct config as [c|].
  - unfold mbind at 1, ret. apply copy_then. frame_steps.
  - unfold mbind at 1. unfold mbind at 1. unfold deref at 1.
    destruct (nth_error h g) as [d|]; [|apply intact_refl].
    unfold mbind at 1, lift at 1.
    destruct (get_real d "chord_length" 0.05) as [c|e]; [|apply intact_refl].
    unfold lift at 1.
    destruct (DragonflyCorrugations.calculate_corrugation_geometry c 0.03 0.05 None)
      as [p|e]; [|apply intact_refl].
    apply copy_then. frame_steps.
Qed.

(** *** Running a call that succeeds *)

Lemma run_lift {A B : Type} (a : A) (k : A -> M B) (h : heap) :
  mbind (lift (Ok a)) k h = k a h.
Proof. reflexivity. Qed.

Lemma run_deref {B : Type} (g : ref) (d : dict) (k : dict -> M B)
    (h new : heap) :
  nth_error h g = Some d -> mbind (deref g) k (h ++ new) = k d (h ++ new).
Proof.
  intros H. unfold mbind, deref. rewrite (nth_error_old h new g d H).
  reflexivity.
Qed.

Lemma run_deref_base {B : Type} (g : ref) (d : dict) (k : dict -> M B)
    (h : heap) :
  nth_error h g = Some d -> mbind (deref g) k h = k d h.
Proof. intros H. unfold mbind, deref. rewrite H. reflexivity. Qed.

Lemma run_copy {B : Type} (g : ref) (d : dict) (k : ref -> M B) (h : heap) :
  nth_error h g = Some d ->
  mbind (copy g) k h = k (List.length h) (h ++ [d]).
Proof.
  intros H. unfold mbind at 1, copy, mbind, deref, alloc. rewrite H.
  reflexivity.
Qed.

Lemma run_setitem {B : Type} (key : string) (v : value) (k : unit -> M B)
    (h : heap) (d : dict) :
  mbind (setitem (List.length h) key v) k (h ++ [d])
  = k tt (h ++ [dset d key v]).
Proof. unfold mbind. rewrite setitem_last. reflexivity. Qed.

Ltac run_tail Hg :=
  repeat first
    [ rewrite run_setitem
    | rewrite (run_deref _ _ _ _ _ Hg)
    | rewrite run_lift ].

Lemma serration_geometry_default (chord : R) :
  chord <> 0 ->
  exists num_serrations angle_deg : R,
    OwlWingSerrations.calculate_serration_geometry chord 0.05 0.02 None
    = Ok [("depth_m", VReal (chord * 0.05));
          ("wavelength_m", VReal (chord * 0.02));
          ("num_serrations", VReal num_serrations);
          ("angle_deg", VReal angle_deg);
          ("depth_ratio", VReal 0.05);
          ("wavelength_ratio", VReal 0.02)].
Proof.
  intros Hc. unfold OwlWingSerrations.calculate_serration_geometry.
  rewrite pydiv_ok by nra. cbn [bind].
  rewrite pydiv_ok by nra. cbn [bind].
  eexists. eexists. reflexivity.
Qed.

Lemma owl_apply_default (h : heap) (g : ref) (d : dict) (chord drag : R) :
  nth_error h g = Some d ->
  get_real d "chord_length" 0.05 = Ok chord -> chord <> 0 ->
  get_real d "drag_coefficient" 0.02 = Ok drag ->
  exists params : dict,
    OwlWingSerrations.calculate_serration_geometry chord 0.05 0.02 None
      = Ok params /\
    OwlWingSerrations.apply_to_blade_design g None h
    = (h ++ [dset (dset (dset d "trailing_edge_serrations" (VDict params))
                     "bio_inspired_feature" (VStr "owl_wing_serrations"))
               "drag_coefficient"
               (VReal (drag * (1 + (0.02 + 0.03 * (0.05 / 0.1)))))],
       Ok (List.length h)).
Proof.
  intros Hg Ec Hc0 Edrag.
  destruct (serration_geometry_default chord Hc0) as [n [a Ep]].
  eexists. split; [exact Ep|].
  unfold OwlWingSerrations.apply_to_blade_design.
  unfold mbind at 1. rewrite (run_deref_base _ _ _ _ Hg).
  rewrite Ec, run_lift, Ep. cbn [lift].
  rewrite (run_copy _ _ _ _ Hg).
  run_tail Hg. rewrite Edrag. run_tail Hg.
  change (item_real _ "depth_ratio") with (Ok 0.05).
  run_tail Hg. reflexivity.
Qed.

Lemma owl_apply_returns (h : heap) (g : ref) (d : dict) :
  nth_error h g = Some d ->
  nonzero_entry d "chord_length" -> real_entry d "drag_coefficient" ->
  exists d', OwlWingSerrations.apply_to_blade_design g None h
             = (h ++ [d'], Ok (List.length h)).
Proof.
  intros Hg Hc Hd.
  destruct (get_real_nonzero d "chord_length" 0.05 Hc ltac:(lra)) as [c [Ec Hc0]].
  destruct (get_real_returns d "drag_coefficient" 0.02 Hd) as [drag Edrag].
  destruct (owl_apply_default h g d c drag Hg Ec Hc0 Edrag) as [p [_ E]].
  eexists. exact E.
Qed.

Lemma tubercle_geometry_returns (span : R) :
  span <> 0 ->
  exists p, HumpbackWhaleTubercles.calculate_tubercle_geometry
              span 0.12 0.25 None = Ok p.
Proof.
  intros Hs. unfold HumpbackWhaleTubercles.calculate_tubercle_geometry.
  rewrite pydiv_ok by nra. cbn [bind].
  set (n := Z.max 3 (pyint (span / (span * 0.25)))).
  assert (Hn : IZR n <> 0).
  { apply not_0_IZR. unfold n. lia. }
  rewrite pydiv_ok by exact Hn. cbn [bind].
  rewrite pydiv_ok by exact Hs. cbn [bind].
  eexists. reflexivity.
Qed.

Lemma humpback_apply_returns (h : heap) (g : ref) (d : dict) :
  nth_error h g = Some d ->
  nonzero_entry d "radius" -> real_entry d "cl_max" ->
  real_entry d "drag_coefficient" -> real_entry d "stall_angle_deg" ->
  exists d', HumpbackWhaleTubercles.apply_to_blade_design g None h
             = (h ++ [d'], Ok (List.length h)).
Proof.
  intros Hg Hr Hcl Hd Hst.
  destruct (get_real_nonzero d "radius" 0.127 Hr ltac:(lra)) as [c [Ec Hc0]].
  destruct (get_real_returns d "cl_max" 1.2 Hcl) as [cl Ecl].
  destruct (get_real_returns d "drag_coefficient" 0.02 Hd) as [drag Edrag].
  destruct (get_real_returns d "stall_angle_deg" 12.0 Hst) as [st Est].
  destruct (tubercle_geometry_returns c Hc0) as [p Ep].
  unfold HumpbackWhaleTubercles.apply_to_blade_design.
  unfold mbind at 1. rewrite (run_deref_base _ _ _ _ Hg).
  rewrite Ec, run_lift, Ep. cbn [lift].
  rewrite (run_copy _ _ _ _ Hg).
  run_tail Hg. rewrite Ecl. run_tail Hg. rewrite Edrag. run_tail Hg.
  rewrite Est. run_tail Hg.
  eexists. reflexivity.
Qed.

Lemma dragonfly_apply_returns (h : heap) (g : ref) (d : dict) :
  nth_error h g = Some d ->
  nonzero_entry d "chord_length" -> real_entry d "drag_coefficient" ->
  real_entry d "cl_max" ->
  exists d', DragonflyCorrugations.apply_to_blade_design g None h
             = (h ++ [d'], Ok (List.length h)).
Proof.
  intros Hg Hc Hd Hcl.
  destruct (get_real_nonzero d "chord_length" 0.05 Hc ltac:(lra)) as [c [Ec Hc0]].
  destruct (get_real_returns d "drag_coefficient" 0.02 Hd) as [drag Edrag].
  destruct (get_real_returns d "cl_max" 1.2 Hcl) as [cl Ecl].
  unfold DragonflyCorrugations.apply_to_blade_design.
  unfold mbind at 1. rewrite (run_deref_base _ _ _ _ Hg).
  rewrite Ec, run_lift.
  unfold DragonflyCorrugations.calculate_corrugation_geometry.
  rewrite pydiv_ok by nra. cbn [bind].
  rewrite pydiv_ok by nra. cbn [bind lift].
  rewrite (run_copy _ _ _ _ Hg).
  run_tail Hg.
  unfold DragonflyCorrugations.estimate_structural_benefits.
  change (item_real _ "depth_m") with (Ok (c * 0.03)).
  change (item_real _ "wavelength_m") with (Ok (c * 0.05)).
  cbn [bind]. rewrite pydiv_ok by nra. cbn [bind].
  rewrite np_sqrt_ok by nra. cbn [bind].
  run_tail Hg. rewrite Edrag. run_tail Hg. rewrite Ecl. run_tail Hg.
  eexists. reflexivity.
Qed.

(** C7.  The [apply_to_blade_design] of each variant leaves every record
    of the store as it was, whatever the outcome; when it returns, its
    reference is to a record that did not exist before the call, so it is
    not the caller's record.  With the default configuration it returns
    when the entries it reads are real numbers and chord length and radius
    are not zero. *)
Theorem apply_leaves_original_unchanged
    (f : feature_model) (h : heap) (blade_geometry : ref) :
  (forall (config : option dict) (h' : heap) (o : outcome ref),
      apply_model f blade_geometry config h = (h', o) ->
      (forall (r : ref) (d : dict),
          nth_error h r = Some d -> nth_error h' r = Some d) /\
      (forall g' : ref,
          o = Ok g' ->
          g' = List.length h /\ g' <> blade_geometry /\
          exists d', h' = h ++ [d'])) /\
  (forall d : dict,
      nth_error h blade_geometry = Some d ->
      nonzero_entry d "chord_length" -> nonzero_entry d "radius" ->
      real_entry d "drag_coefficient" -> real_entry d "cl_max" ->
      real_entry d "stall_angle_deg" ->
      exists d', apply_model f blade_geometry None h
                 = (h ++ [d'], Ok (List.length h))).
Proof.
  split.
  - intros config h' o E.
    assert (H : leaves_store_intact h blade_geometry
                  (apply_model f blade_geometry config h)).
    { destruct f; [apply owl_apply_intact | apply humpback_apply_intact
                  | apply dragonfly_apply_intact]. }
    rewrite E in H. destruct H as [Hold Hnew]. simpl in Hold, Hnew.
    split; [exact Hold|].
    intros g' ->. destruct (Hnew g' eq_refl) as [-> [Hlt [d' ->]]].
    split; [reflexivity|]. split; [lia | exists d'; reflexivity].
  - intros d Hg Hc Hr Hd Hcl Hst. destruct f; cbn [apply_model].
    + apply (owl_apply_returns h blade_geometry d); assumption.
    + apply (humpback_apply_returns h blade_geometry d); assumption.
    + apply (dragonfly_apply_returns h blade_geometry d); assumption.
Qed.

Lemma apply_leaves_original_unchanged_witness :
  exists d',
    OwlWingSerrations.apply_to_blade_design 0%nat None
      [[("chord_length", VReal 0.05); ("drag_coefficient", VReal 0.02)]]
    = ([[("chord_length", VReal 0.05); ("drag_coefficient", VReal 0.02)]; d'],
       Ok 1%nat) /\
    nth_error
      [[("chord_length", VReal 0.05); ("drag_coefficient", VReal 0.02)]; d']
      0
    = Some [("chord_length", VReal 0.05); ("drag_coefficient", VReal 0.02)].
Proof.
  set (base := [("chord_length", VReal 0.05); ("drag_coefficient", VReal 0.02)]).
  destruct (apply_leaves_original_unchanged Serration [base] 0%nat)
    as [Hframe Hret].
  destruct (Hret base eq_refl) as [d' Hd'];
    try (unfold nonzero_entry, real_entry; simpl; try exact I;
         eexists; try split; try reflexivity; lra).
  exists d'. split; [exact Hd'|].
  destruct (Hframe None _ _ Hd') as [Hold _].
  apply Hold. reflexivity.
Defined.

End FeatureModels.

(** * Composition *)

Section Composition.

Import BioInspiredDesignFactory.

Lemma mem_In (name : string) (features : list string) :
  mem name features = true <-> In name features.
Proof.
  unfold mem. rewrite existsb_exists. split.
  - intros [x [Hx E]]. apply String.eqb_eq in E. subst x. exact Hx.
  - intros H. exists name. split; [exact H | apply String.eqb_refl].
Qed.

Lemma mem_same (name : string) (f1 f2 : list string) :
  (In name f1 <-> In name f2) -> mem name f1 = mem name f2.
Proof.
  intros H. destruct (mem name f1) eqn:E1, (mem name f2) eqn:E2; try reflexivity.
  - apply mem_In, H, mem_In in E1. congruence.
  - apply mem_In, H, mem_In in E2. congruence.
Qed.

Ltac step_apply :=
  match goal with
  | |- context [copy ?g ?h] => destruct (copy g h) as [? [?|?]]
  | |- context [config_of ?c ?n] => destruct (config_of c n) as [?|?]
  | |- context [OwlWingSerrations.apply_to_blade_design ?g ?c ?h] =>
      destruct (OwlWingSerrations.apply_to_blade_design g c h) as [? [?|?]]
  | |- context [HumpbackWhaleTubercles.apply_to_blade_design ?g ?c ?h] =>
      destruct (HumpbackWhaleTubercles.apply_to_blade_design g c h)
        as [? [?|?]]
  | |- context [DragonflyCorrugations.apply_to_blade_design ?g ?c ?h] =>
      destruct (DragonflyCorrugations.apply_to_blade_design g c h)
        as [? [?|?]]
  end.

Ltac step_call :=
  first
    [ step_apply
    | match goal with
      | |- context [setitem ?g ?k ?v ?h] =>
          destruct (setitem g k v h) as [? [?|?]]
      end ].

Lemma create_design_is_compose
    (base_geometry : ref) (features : list string)
    (custom_configs : option dict) (h : heap) :
  create_design base_geometry features custom_configs h
  = compose_in_declaration_order base_geometry features custom_configs h.
Proof.
  unfold create_design, compose_in_declaration_order, declaration_order.
  cbn [apply_in_order].
  destruct (mem "owl_serrations" features),
           (mem "humpback_tubercles" features),
           (mem "dragonfly_corrugations" features);
    unfold mbind, ret, lift; cbv beta iota zeta;
    repeat (step_call; cbv beta iota zeta); reflexivity.
Qed.

Lemma dget_dset_same (d : dict) (k : string) (v : value) :
  dget (dset d k v) k = Some v.
Proof.
  induction d as [|[k' v'] d IH]; simpl.
  - rewrite String.eqb_refl. reflexivity.
  - destruct (String.eqb k' k) eqn:E; simpl; rewrite E; [reflexivity | exact IH].
Qed.

Lemma nth_error_replace_nth (h : heap) (r : ref) (d d' : dict) :
  nth_error h r = Some d -> nth_error (replace_nth h r d') r = Some d'.
Proof.
  revert r. induction h as [|x h IH]; intros [|r] H; simpl in *;
    try discriminate; [reflexivity | apply IH; exact H].
Qed.

Lemma setitem_Ok (g : ref) (k : string) (v : value) (h h' : heap) (u : unit) :
  setitem g k v h = (h', Ok u) ->
  exists d', nth_error h' g = Some d' /\ dget d' k = Some v.
Proof.
  unfold setitem. destruct (nth_error h g) as [d|] eqn:E; [|discriminate].
  intros H. injection H as <- _. exists (dset d k v).
  split; [apply (nth_error_replace_nth h g d), E | apply dget_dset_same].
Qed.

Lemma create_design_records_features
    (base_geometry : ref) (features : list string)
    (custom_configs : option dict) (h h' : heap) (g' : ref) :
  create_design base_geometry features custom_configs h = (h', Ok g') ->
  exists d',
    nth_error h' g' = Some d' /\
    dget d' "bio_inspired_features"
    = Some (VStrs (filter (fun name => mem name features) recognized)).
Proof.
  unfold create_design, recognized. cbn [filter].
  destruct (mem "owl_serrations" features),
           (mem "humpback_tubercles" features),
           (mem "dragonfly_corrugations" features);
    unfold mbind, ret, lift; cbv beta iota zeta;
    repeat (step_apply; cbv beta iota zeta; try discriminate);
    match goal with
    | |- context [setitem ?g ?k ?v ?h] =>
        let hs := fresh "hs" in
        let E := fresh "E" in
        let H := fresh "H" in
        destruct (setitem g k v h) as [hs [[]|?]] eqn:E; [|discriminate];
        intros H; injection H as <- <-;
        apply setitem_Ok in E; exact E
    end.
Qed.

Lemma create_design_same_set
    (base_geometry : ref) (f1 f2 : list string)
    (custom_configs : option dict) (h : heap) :
  (forall name, In name recognized -> (In name f1 <-> In name f2)) ->
  create_design base_geometry f1 custom_configs h
  = create_design base_geometry f2 custom_configs h.
Proof.
  intros H. unfold create_design.
  rewrite (mem_same "owl_serrations" f1 f2) by (apply H; simpl; auto).
  rewrite (mem_same "humpback_tubercles" f1 f2) by (apply H; simpl; auto).
  rewrite (mem_same "dragonfly_corrugations" f1 f2) by (apply H; simpl; auto).
  reflexivity.
Qed.

(** C8.  [create_design] is the composition in declaration order: it
    copies the base record, applies serration, tubercle and corrugation in
    that order, each only when its name is in the list, and records the
    names applied.  The record it returns lists the recognised names of the
    input in declaration order, and two lists with the same recognised
    names give the same outcome. *)
Theorem compose_applies_in_declaration_order
    (base_geometry : ref) (custom_configs : option dict) (h : heap) :
  (forall features : list string,
      create_design base_geometry features custom_configs h
      = compose_in_declaration_order base_geometry features custom_configs h)
  /\
  (forall (features : list string) (h' : heap) (g' : ref),
      create_design base_geometry features custom_configs h = (h', Ok g') ->
      exists d',
        nth_error h' g' = Some d' /\
        dget d' "bio_inspired_features"
        = Some (VStrs (filter (fun name => mem name features) recognized)))
  /\
  (forall f1 f2 : list string,
      (forall name, In name recognized -> (In name f1 <-> In name f2)) ->
      create_design base_geometry f1 custom_configs h
      = create_design base_geometry f2 custom_configs h).
Proof.
  split; [|split].
  - intros features. apply create_design_is_compose.
  - intros features h' g'. apply create_design_records_features.
  - intros f1 f2. apply create_design_same_set.
Qed.

Lemma compose_applies_in_declaration_order_witness :
  create_design 0%nat ["humpback_tubercles"; "owl_serrations"] None
    [[("chord_length", VReal 0.05); ("radius", VReal 0.127)]]
  = create_design 0%nat ["owl_serrations"; "winglets"; "humpback_tubercles"]
      None [[("chord_length", VReal 0.05); ("radius", VReal 0.127)]]
  /\
  exists (h' : heap) (g' : ref) (d' : dict),
    create_design 0%nat ["owl_serrations"] None
      [[("chord_length", VReal 0.05); ("radius", VReal 0.127)]] = (h', Ok g') /\
    nth_error h' g' = Some d' /\
    dget d' "bio_inspired_features" = Some (VStrs ["owl_serrations"]).
Proof.
  set (base := [("chord_length", VReal 0.05); ("radius", VReal 0.127)]).
  destruct (compose_applies_in_declaration_order 0%nat None [base])
    as [_ [Hrec Hsame]].
  split.
  - apply Hsame. unfold recognized. intros name Hin. simpl in Hin |- *.
    intuition (subst; auto; try discriminate).
  - assert (Hrun : exists h' g',
               create_design 0%nat ["owl_serrations"] None [base]
               = (h', Ok g')).
    { destruct (owl_apply_returns [base; base] 1%nat base eq_refl) as [d1 E1];
        try (unfold nonzero_entry, real_entry; simpl; try exact I;
             eexists; try split; try reflexivity; lra).
      cbn [List.length app] in E1.
      unfold create_design, mbind, copy, deref, alloc, lift, ret.
      cbn [nth_error mem existsb String.eqb Ascii.eqb Bool.eqb orb config_of
           dget List.length app].
      unfold mbind, deref, alloc. cbn [nth_error List.length app].
      do 2 eexists.
      match goal with
      | |- context [OwlWingSerrations.apply_to_blade_design ?a ?b ?c] =>
          replace (OwlWingSerrations.apply_to_blade_design a b c)
            with ([base; base; d1], Ok (A:=ref) 2%nat)
            by (symmetry; exact E1)
      end.
      unfold setitem. cbn [nth_error replace_nth].
      reflexivity. }
    destruct Hrun as [h' [g' Hrun]].
    destruct (Hrec _ _ _ Hrun) as [d' [Hn Hd]].
    exists h', g', d'. split; [exact Hrun|]. split; [exact Hn | exact Hd].
Defined.

End Composition.

(** * Combined reduction *)

Section CombinedReduction.

Import BioInspiredDesignFactory.

(** Each estimate answers the reduction and the level less the reduction. *)
Lemma owl_estimate_levels (level : R) (params : dict) (freq velocity : R)
    (result : dict) :
  OwlWingSerrations.estimate_noise_reduction level params freq velocity
    = Ok result ->
  exists reduction : R,
    item_real result "noise_reduction_db" = Ok reduction /\
    item_real result "reduced_noise_db" = Ok (level - reduction).
Proof.
  unfold OwlWingSerrations.estimate_noise_reduction. intros H.
  bind_inv H depth E1. bind_inv H wavelength E2. bind_inv H aw E3.
  bind_inv H wr E4.
  destruct (Rlt_dec wr 0.1); [|destruct (Rlt_dec wr 0.5);
                               [|destruct (Rle_dec wr 2.0)]];
    bind_inv H q E5; injection H as <-; eexists; split; reflexivity.
Qed.

Lemma humpback_estimate_levels (level : R) (params conditions : dict)
    (result : dict) :
  HumpbackWhaleTubercles.estimate_noise_reduction level params conditions
    = Ok result ->
  exists reduction : R,
    item_real result "noise_reduction_db" = Ok reduction /\
    item_real result "reduced_noise_db" = Ok (level - reduction).
Proof.
  unfold HumpbackWhaleTubercles.estimate_noise_reduction. intros H.
  bind_inv H n E1. bind_inv H a E2. bind_inv H aoa E3. bind_inv H q E4.
  injection H as <-. eexists; split; reflexivity.
Qed.

Lemma dragonfly_estimate_levels (level : R) (params : dict)
    (reynolds velocity : R) (result : dict) :
  DragonflyCorrugations.estimate_noise_reduction level params reynolds velocity
    = Ok result ->
  exists reduction : R,
    item_real result "noise_reduction_db" = Ok reduction /\
    item_real result "reduced_noise_db" = Ok (level - reduction).
Proof.
  unfold DragonflyCorrugations.estimate_noise_reduction. intros H.
  bind_inv H depth E1. bind_inv H wavelength E2. bind_inv H n E3.
  destruct (Rlt_dec reynolds 100000); [|destruct (Rlt_dec reynolds 500000)];
    bind_inv H dw E4; bind_inv H q E5; injection H as <-;
    eexists; split; reflexivity.
Qed.

Lemma reduction_step_spec (fp oc : dict) (st st' : reduction_state)
    (feature : string) :
  reduction_step fp oc st feature = Ok st' ->
  (feature_reduce fp oc feature (current_noise st) = None /\ st' = st) \/
  (exists (result : dict) (reduction : R),
      feature_reduce fp oc feature (current_noise st) = Some (Ok result) /\
      item_real result "noise_reduction_db" = Ok reduction /\
      total_reduction st' = total_reduction st + reduction /\
      current_noise st' = current_noise st - reduction).
Proof.
  unfold reduction_step, feature_reduce. intros H.
  destruct (String.eqb feature "owl_serrations").
  { right. bind_inv H params E1. bind_inv H freq E2. bind_inv H velocity E3.
    bind_inv H result E4. bind_inv H reduction E5. bind_inv H reduced E6.
    injection H as <-. rewrite E1, E2, E3. cbn [bind].
    destruct (owl_estimate_levels _ _ _ _ _ E4) as [red [Hr Hl]].
    exists result, reduction. rewrite Hr in E5. rewrite Hl in E6.
    injection E5 as ->. injection E6 as <-.
    repeat split; [rewrite E4; reflexivity | exact Hr]. }
  destruct (String.eqb feature "humpback_tubercles").
  { right. bind_inv H params E1.
    bind_inv H result E4. bind_inv H reduction E5. bind_inv H reduced E6.
    injection H as <-. rewrite E1. cbn [bind].
    destruct (humpback_estimate_levels _ _ _ _ E4) as [red [Hr Hl]].
    exists result, reduction. rewrite Hr in E5. rewrite Hl in E6.
    injection E5 as ->. injection E6 as <-.
    repeat split; [rewrite E4; reflexivity | exact Hr]. }
  destruct (String.eqb feature "dragonfly_corrugations").
  { right. bind_inv H params E1. bind_inv H reynolds E2.
    bind_inv H velocity E3.
    bind_inv H result E4. bind_inv H reduction E5. bind_inv H reduced E6.
    injection H as <-. rewrite E1, E2, E3. cbn [bind].
    destruct (dragonfly_estimate_levels _ _ _ _ _ E4) as [red [Hr Hl]].
    exists result, reduction. rewrite Hr in E5. rewrite Hl in E6.
    injection E5 as ->. injection E6 as <-.
    repeat split; [rewrite E4; reflexivity | exact Hr]. }
  left. injection H as <-. split; reflexivity.
Qed.

Lemma reduction_step_returns (fp oc : dict) (st : reduction_state)
    (feature : string) :
  (feature_reduce fp oc feature (current_noise st) = None ->
   reduction_step fp oc st feature = Ok st) /\
  (forall (result : dict) (reduction : R),
      feature_reduce fp oc feature (current_noise st) = Some (Ok result) ->
      item_real result "noise_reduction_db" = Ok reduction ->
      exists st',
        reduction_step fp oc st feature = Ok st' /\
        total_reduction st' = total_reduction st + reduction /\
        current_noise st' = current_noise st - reduction).
Proof.
  unfold reduction_step, feature_reduce.
  destruct (String.eqb feature "owl_serrations").
  { split; [discriminate|]. intros result reduction H Hr.
    injection H as H.
    bind_inv H params E1. bind_inv H freq E2. bind_inv H velocity E3.
    rewrite E1, E2, E3. cbn [bind]. rewrite H. cbn [bind].
    destruct (owl_estimate_levels _ _ _ _ _ H) as [red [Hr' Hl]].
    rewrite Hr' in Hr. injection Hr as ->. rewrite Hr', Hl. cbn [bind].
    eexists. split; [reflexivity|]. split; reflexivity. }
  destruct (String.eqb feature "humpback_tubercles").
  { split; [discriminate|]. intros result reduction H Hr.
    injection H as H.
    bind_inv H params E1.
    rewrite E1. cbn [bind]. rewrite H. cbn [bind].
    destruct (humpback_estimate_levels _ _ _ _ H) as [red [Hr' Hl]].
    rewrite Hr' in Hr. injection Hr as ->. rewrite Hr', Hl. cbn [bind].
    eexists. split; [reflexivity|]. split; reflexivity. }
  destruct (String.eqb feature "dragonfly_corrugations").
  { split; [discriminate|]. intros result reduction H Hr.
    injection H as H.
    bind_inv H params E1. bind_inv H reynolds E2. bind_inv H velocity E3.
    rewrite E1, E2, E3. cbn [bind]. rewrite H. cbn [bind].
    destruct (dragonfly_estimate_levels _ _ _ _ _ H) as [red [Hr' Hl]].
    rewrite Hr' in Hr. injection Hr as ->. rewrite Hr', Hl. cbn [bind].
    eexists. split; [reflexivity|]. split; reflexivity. }
  split; [reflexivity | discriminate].
Qed.

Lemma reduction_loop_spec (fp oc : dict) (features : list string) :
  forall st st' : reduction_state,
    reduction_loop fp oc features st = Ok st' ->
    exists reductions : list R,
      reduced_in_sequence fp oc (current_noise st) features reductions /\
      total_reduction st' = total_reduction st + sum_db reductions.
Proof.
  induction features as [|f rest IH]; intros st st' H.
  - injection H as <-. exists []. split; [constructor | simpl; lra].
  - cbn [reduction_loop] in H. bind_inv H st1 E.
    destruct (IH _ _ H) as [reds [Hseq Htot]].
    destruct (reduction_step_spec _ _ _ _ _ E)
      as [[Hnone ->] | [result [red [Hsome [Hr [Ht Hc]]]]]].
    + exists reds. split; [apply seq_skip; assumption | exact Htot].
    + exists (red :: reds). split.
      * eapply seq_reduce; [exact Hsome | exact Hr |].
        rewrite <- Hc. exact Hseq.
      * rewrite Htot, Ht. simpl. lra.
Qed.

Lemma reduction_loop_returns (fp oc : dict) (features : list string)
    (reductions : list R) :
  forall st : reduction_state,
    reduced_in_sequence fp oc (current_noise st) features reductions ->
    exists st',
      reduction_loop fp oc features st = Ok st' /\
      total_reduction st' = total_reduction st + sum_db reductions.
Proof.
  intros st H. remember (current_noise st) as level eqn:El.
  revert st El.
  induction H as [level | level f rest reds Hnone Hseq IH
                 | level f rest result red reds Hsome Hr Hseq IH];
    intros st El; subst level.
  - exists st. split; [reflexivity | simpl; lra].
  - cbn [reduction_loop].
    rewrite (proj1 (reduction_step_returns fp oc st f) Hnone). cbn [bind].
    apply IH. reflexivity.
  - cbn [reduction_loop].
    destruct (proj2 (reduction_step_returns fp oc st f) result red Hsome Hr)
      as [st1 [E [Ht Hc]]].
    rewrite E. cbn [bind].
    destruct (IH st1 (eq_sym Hc)) as [st' [E' Ht']].
    exists st'. split; [exact E'|]. rewrite Ht', Ht. simpl. lra.
Qed.

Lemma interaction_value (k : nat) :
  (if (1 <? k)%nat then 1.0 + 0.18 * IZR (Z.of_nat k - 1) else 1.0)
  = synergy k.
Proof.
  unfold synergy. destruct (1 <? k)%nat eqn:E; [|lra].
  apply Nat.ltb_lt in E. rewrite minus_IZR, <- INR_IZR_INZ. lra.
Qed.

Lemma effective_value (k : nat) (total : R) :
  (if (1 <? k)%nat
   then total * (1.0 + 0.18 * IZR (Z.of_nat k - 1)) else total)
  = total * synergy k.
Proof.
  unfold synergy. destruct (1 <? k)%nat eqn:E; [|lra].
  apply Nat.ltb_lt in E. rewrite minus_IZR, <- INR_IZR_INZ. lra.
Qed.

Lemma combined_reduction_returns (baseline_noise_db : R)
    (features : list string) (fp oc : dict) (reductions : list R) :
  reduced_in_sequence fp oc baseline_noise_db features reductions ->
  baseline_noise_db <> 0 ->
  exists result : dict,
    estimate_combined_noise_reduction baseline_noise_db features fp oc
    = Ok result.
Proof.
  intros Hseq Hb. unfold estimate_combined_noise_reduction.
  destruct (reduction_loop_returns fp oc features reductions
              {| total_reduction := 0.0; individual_reductions := [];
                 current_noise := baseline_noise_db |} Hseq)
    as [st [E _]].
  rewrite E. cbn [bind]. rewrite pydiv_ok by exact Hb. cbn [bind].
  eexists. reflexivity.
Qed.

(** C3.  When [estimate_combined_noise_reduction] returns, the recognised
    names of the list were reduced in list order, each from the level that
    the reduction before it left ([reduced_in_sequence]); the total
    reduction is the sum of these reductions times the synergy multiplier
    of the list length, and the final noise is the baseline less that
    total.  It returns when the reduces in sequence do and the baseline is
    not zero.  The multiplier is 1 for at most one name, 1.36 for three and
    [1 + 0.18 (k - 1)] for [k > 1] names. *)
Theorem combined_reduction_sequential_with_synergy
    (baseline_noise_db : R) (features : list string)
    (feature_params operating_conditions : dict) :
  (forall result : dict,
      estimate_combined_noise_reduction baseline_noise_db features
        feature_params operating_conditions = Ok result ->
      exists reductions : list R,
        reduced_in_sequence feature_params operating_conditions
          baseline_noise_db features reductions /\
        let effective := sum_db reductions * synergy (List.length features) in
        dget result "total_reduction_db" = Some (VReal effective) /\
        dget result "final_noise_db"
          = Some (VReal (baseline_noise_db - effective)) /\
        dget result "interaction_factor"
          = Some (VReal (synergy (List.length features)))) /\
  (forall reductions : list R,
      reduced_in_sequence feature_params operating_conditions
        baseline_noise_db features reductions ->
      baseline_noise_db <> 0 ->
      exists result : dict,
        estimate_combined_noise_reduction baseline_noise_db features
          feature_params operating_conditions = Ok result) /\
  synergy 0 = 1 /\ synergy 1 = 1 /\ synergy 3 = 1.36 /\
  (forall k : nat, (1 < k)%nat -> synergy k = 1 + 0.18 * (INR k - 1)).
Proof.
  split; [|split].
  - intros result H. unfold estimate_combined_noise_reduction in H.
    bind_inv H st E. bind_inv H q Eq. injection H as <-.
    destruct (reduction_loop_spec _ _ _ _ _ E) as [reds [Hseq Htot]].
    cbn [total_reduction current_noise] in Hseq, Htot.
    exists reds. split; [exact Hseq|].
    cbv zeta. cbn [dget String.eqb Ascii.eqb Bool.eqb].
    rewrite effective_value, interaction_value, Htot.
    replace (0.0 + sum_db reds) with (sum_db reds) by lra.
    repeat split; reflexivity.
  - intros reds Hseq Hb.
    exact (combined_reduction_returns _ _ _ _ _ Hseq Hb).
  - split; [reflexivity|]. split; [reflexivity|]. split.
    + unfold synergy. simpl. lra.
    + intros k Hk. unfold synergy. apply Nat.ltb_lt in Hk. rewrite Hk.
      reflexivity.
Qed.

(** *** The estimates at given parameters *)

Lemma owl_estimate_low_ratio (level : R) (params : dict)
    (freq velocity depth wavelength : R) :
  item_real params "depth_m" = Ok depth ->
  item_real params "wavelength_m" = Ok wavelength ->
  freq <> 0 ->
  wavelength / (343.0 / freq / 4) < 0.1 ->
  OwlWingSerrations.estimate_noise_reduction level params freq velocity
  = let noise_reduction_db :=
      (2.0 + 5.0 * 0.3) * pymin (depth / 0.01) 1.0 * 2.0 in
    let* q := pydiv noise_reduction_db level in
    Ok [("noise_reduction_db", VReal noise_reduction_db);
        ("reduced_noise_db", VReal (level - noise_reduction_db));
        ("effectiveness_factor", VReal 0.3);
        ("reduction_percentage", VReal (q * 100))].
Proof.
  intros Ed Ew Hf Hr. unfold OwlWingSerrations.estimate_noise_reduction.
  rewrite Ed, Ew. cbn [bind]. rewrite (pydiv_ok 343.0 freq Hf). cbn [bind].
  assert (Hopt : 343.0 / freq / 4 <> 0).
  { intros E. apply (Rinv_neq_0_compat freq Hf). unfold Rdiv in E. lra. }
  rewrite (pydiv_ok _ _ Hopt). cbn [bind].
  destruct (Rlt_dec (wavelength / (343.0 / freq / 4)) 0.1);
    [reflexivity | contradiction].
Qed.

Lemma humpback_estimate_value (level : R) (params conditions : dict)
    (num_tubercles amplitude_ratio aoa : R) :
  item_real params "num_tubercles" = Ok num_tubercles ->
  item_real params "amplitude_ratio" = Ok amplitude_ratio ->
  get_real conditions "angle_of_attack" 5.0 = Ok aoa ->
  5 <= aoa < 10 ->
  HumpbackWhaleTubercles.estimate_noise_reduction level params conditions
  = let aoa_factor := 0.4 + 0.4 * (aoa - 5) / 5 in
    let vortex_reduction :=
      (3.0 + 5.0 * aoa_factor * pymin (num_tubercles / 5.0) 1.0
             * pymin (amplitude_ratio / 0.12) 1.0) * 2.2 in
    let broadband_increase := 0.5 + 0.5 * amplitude_ratio / 0.12 in
    let net_reduction := vortex_reduction - broadband_increase in
    let* q := pydiv net_reduction level in
    Ok [("noise_reduction_db", VReal net_reduction);
        ("reduced_noise_db", VReal (level - net_reduction));
        ("vortex_noise_reduction_db", VReal vortex_reduction);
        ("broadband_noise_increase_db", VReal broadband_increase);
        ("aoa_effectiveness_factor", VReal aoa_factor);
        ("reduction_percentage", VReal (q * 100))].
Proof.
  intros En Ea Eaoa [H5 H10].
  unfold HumpbackWhaleTubercles.estimate_noise_reduction.
  rewrite En, Ea, Eaoa. cbn [bind].
  destruct (Rlt_dec aoa 5); [lra|].
  destruct (Rlt_dec aoa 10); [reflexivity | lra].
Qed.

Lemma pymin_quarter : pymin (0.0025 / 0.01) 1.0 = 0.25.
Proof. unfold pymin. destruct (Rlt_dec 1.0 (0.0025 / 0.01)); lra. Qed.

Lemma pymin_four_fifths : pymin (4 / 5.0) 1.0 = 0.8.
Proof. unfold pymin. destruct (Rlt_dec 1.0 (4 / 5.0)); lra. Qed.

Lemma pymin_unit : pymin (0.12 / 0.12) 1.0 = 1.
Proof. unfold pymin. destruct (Rlt_dec 1.0 (0.12 / 0.12)); lra. Qed.

Lemma sample_owl_reduce (level : R) :
  level <> 0 ->
  exists result,
    feature_reduce sample_feature_params [] "owl_serrations" level
      = Some (Ok result) /\
    item_real result "noise_reduction_db" = Ok 1.75.
Proof.
  intros Hl. unfold feature_reduce, sample_feature_params.
  cbn [String.eqb Ascii.eqb Bool.eqb get_dict get_real dget bind].
  rewrite (owl_estimate_low_ratio level _ 1000 10.0 0.0025 0.001)
    by (try reflexivity; lra).
  cbv zeta. rewrite pydiv_ok by exact Hl. cbn [bind].
  eexists. split; [reflexivity|].
  cbn [item_real dget String.eqb Ascii.eqb Bool.eqb as_real VReal].
  rewrite pymin_quarter. f_equal. lra.
Qed.

Lemma sample_humpback_reduce (level : R) :
  level <> 0 ->
  exists result,
    feature_reduce sample_feature_params [] "humpback_tubercles" level
      = Some (Ok result) /\
    item_real result "noise_reduction_db" = Ok 9.12.
Proof.
  intros Hl. unfold feature_reduce, sample_feature_params.
  cbn [String.eqb Ascii.eqb Bool.eqb get_dict get_real dget bind].
  rewrite (humpback_estimate_value level _ [] 4 0.12 5.0)
    by (try reflexivity; lra).
  cbv zeta. rewrite pydiv_ok by exact Hl. cbn [bind].
  eexists. split; [reflexivity|].
  cbn [item_real dget String.eqb Ascii.eqb Bool.eqb as_real VReal].
  rewrite pymin_four_fifths, pymin_unit. f_equal. lra.
Qed.

Lemma combined_reduction_sequential_with_synergy_witness :
  exists result : dict,
    estimate_combined_noise_reduction 80
      ["owl_serrations"; "humpback_tubercles"] sample_feature_params []
      = Ok result /\
    dget result "total_reduction_db" = Some (VReal ((1.75 + 9.12) * 1.18)) /\
    dget result "final_noise_db"
      = Some (VReal (80 - (1.75 + 9.12) * 1.18)) /\
    dget result "interaction_factor" = Some (VReal 1.18).
Proof.
  destruct (combined_reduction_sequential_with_synergy 80
              ["owl_serrations"; "humpback_tubercles"]
              sample_feature_params [])
    as [Hspec [Hret _]].
  destruct (sample_owl_reduce 80 ltac:(lra)) as [r1 [E1 R1]].
  destruct (sample_humpback_reduce (80 - 1.75) ltac:(lra)) as [r2 [E2 R2]].
  assert (Hseq : reduced_in_sequence sample_feature_params [] 80
                   ["owl_serrations"; "humpback_tubercles"] [1.75; 9.12]).
  { eapply seq_reduce; [exact E1 | exact R1 |].
    eapply seq_reduce; [exact E2 | exact R2 |]. constructor. }
  destruct (Hret _ Hseq ltac:(lra)) as [result Hres].
  exists result. split; [exact Hres|].
  destruct (Hspec result Hres) as [reds [Hseq' [Ht [Hf Hi]]]].
  assert (Hreds : reds = [1.75; 9.12]).
  { clear - Hseq' E1 R1 E2 R2.
    inversion Hseq' as [| ? ? ? ? Hn _ | ? ? ? rs1 red1 reds1 Hs1 Hr1 Hq1];
      subst; [rewrite E1 in Hn; discriminate|].
    rewrite E1 in Hs1. injection Hs1 as <-. rewrite R1 in Hr1.
    injection Hr1 as <-.
    inversion Hq1 as [| ? ? ? ? Hn _ | ? ? ? rs2 red2 reds2 Hs2 Hr2 Hq2];
      subst; [rewrite E2 in Hn; discriminate|].
    rewrite E2 in Hs2. injection Hs2 as <-. rewrite R2 in Hr2.
    injection Hr2 as <-.
    inversion Hq2; subst. reflexivity. }
  subst reds.
  assert (Hs : synergy 2 = 1.18) by (unfold synergy; simpl; lra).
  cbn [List.length] in Ht, Hf, Hi. rewrite Hs in Ht, Hf, Hi.
  assert (Hsum : sum_db [1.75; 9.12] = 1.75 + 9.12) by (simpl; lra).
  rewrite Hsum in Ht, Hf.
  split; [exact Ht|]. split; [exact Hf | exact Hi].
Defined.

Lemma feature_reduce_unrecognized (fp oc : dict) (feature : string) (level : R) :
  mem feature recognized = false ->
  feature_reduce fp oc feature level = None.
Proof.
  unfold mem, recognized, feature_reduce. cbn [existsb].
  destruct (String.eqb feature "owl_serrations"); [discriminate|].
  destruct (String.eqb feature "humpback_tubercles"); [discriminate|].
  destruct (String.eqb feature "dragonfly_corrugations"); [discriminate|].
  reflexivity.
Qed.

Lemma feature_reduce_recognized (fp oc : dict) (feature : string) (level : R) :
  mem feature recognized = true ->
  feature_reduce fp oc feature level <> None.
Proof.
  unfold mem, recognized, feature_reduce. cbn [existsb].
  destruct (String.eqb feature "owl_serrations"); [discriminate|].
  destruct (String.eqb feature "humpback_tubercles"); [discriminate|].
  destruct (String.eqb feature "dragonfly_corrugations"); discriminate.
Qed.

Lemma reduced_in_sequence_count (fp oc : dict) (level : R)
    (features : list string) (reductions : list R) :
  reduced_in_sequence fp oc level features reductions ->
  List.length reductions
  = List.length (filter (fun name => mem name recognized) features).
Proof.
  induction 1 as [level | level f rest reds Hnone Hseq IH
                 | level f rest result red reds Hsome Hr Hseq IH].
  - reflexivity.
  - cbn [filter]. destruct (mem f recognized) eqn:E; [|exact IH].
    exfalso. exact (feature_reduce_recognized fp oc f level E Hnone).
  - cbn [filter]. destruct (mem f recognized) eqn:E.
    + simpl. rewrite IH. reflexivity.
    + rewrite (feature_reduce_unrecognized fp oc f level E) in Hsome.
      discriminate.
Qed.

Lemma unrecognized_in_sequence (fp oc : dict) (level : R)
    (features : list string) :
  Forall (fun name => mem name recognized = false) features ->
  reduced_in_sequence fp oc level features [].
Proof.
  induction 1 as [|f rest Hf _ IH]; [constructor|].
  apply seq_skip; [apply feature_reduce_unrecognized, Hf | exact IH].
Qed.

(** C10.  The interaction factor that
    [estimate_combined_noise_reduction] returns is the synergy multiplier
    of the length of the list as the caller wrote it,
    [1 + 0.18 (k - 1)] for [k > 1] names: the reductions it multiplies are
    one per occurrence of a recognised name, so a name that is not a
    feature adds to [k] and to no reduction, and a name listed twice is
    reduced twice. *)
Theorem synergy_counts_raw_list_length
    (baseline_noise_db : R) (features : list string)
    (feature_params operating_conditions : dict) :
  (forall result : dict,
      estimate_combined_noise_reduction baseline_noise_db features
        feature_params operating_conditions = Ok result ->
      exists reductions : list R,
        reduced_in_sequence feature_params operating_conditions
          baseline_noise_db features reductions /\
        List.length reductions
        = List.length (filter (fun name => mem name recognized) features) /\
        dget result "interaction_factor"
        = Some (VReal (synergy (List.length features))) /\
        dget result "total_reduction_db"
        = Some (VReal (sum_db reductions * synergy (List.length features)))) /\
  ((1 < List.length features)%nat ->
   synergy (List.length features)
   = 1 + 0.18 * (INR (List.length features) - 1)) /\
  (Forall (fun name => mem name recognized = false) features ->
   baseline_noise_db <> 0 ->
   exists result : dict,
     estimate_combined_noise_reduction baseline_noise_db features
       feature_params operating_conditions = Ok result /\
     dget result "total_reduction_db" = Some (VReal 0) /\
     dget result "interaction_factor"
     = Some (VReal (synergy (List.length features)))).
Proof.
  split; [|split].
  - intros result H. unfold estimate_combined_noise_reduction in H.
    bind_inv H st E. bind_inv H q Eq. injection H as <-.
    destruct (reduction_loop_spec _ _ _ _ _ E) as [reds [Hseq Htot]].
    cbn [total_reduction current_noise] in Hseq, Htot.
    exists reds. split; [exact Hseq|].
    split; [exact (reduced_in_sequence_count _ _ _ _ _ Hseq)|].
    cbn [dget String.eqb Ascii.eqb Bool.eqb].
    rewrite effective_value, interaction_value, Htot.
    replace (0.0 + sum_db reds) with (sum_db reds) by lra.
    split; reflexivity.
  - intros Hk. unfold synergy. apply Nat.ltb_lt in Hk. rewrite Hk.
    reflexivity.
  - intros Hall Hb. unfold estimate_combined_noise_reduction.
    destruct (reduction_loop_returns feature_params operating_conditions
                features []
                {| total_reduction := 0.0; individual_reductions := [];
                   current_noise := baseline_noise_db |}
                (unrecognized_in_sequence _ _ _ _ Hall))
      as [st [E Ht]].
    cbn [total_reduction sum_db fold_right] in Ht.
    rewrite E. cbn [bind]. rewrite pydiv_ok by exact Hb. cbn [bind].
    eexists. split; [reflexivity|].
    cbn [dget String.eqb Ascii.eqb Bool.eqb].
    rewrite effective_value, interaction_value, Ht.
    split; [do 2 f_equal; lra | reflexivity].
Qed.

Lemma synergy_counts_raw_list_length_witness :
  (exists result : dict,
      estimate_combined_noise_reduction 80 ["winglets"; "riblets"] [] []
        = Ok result /\
      dget result "total_reduction_db" = Some (VReal 0) /\
      dget result "interaction_factor" = Some (VReal 1.18)) /\
  (exists result : dict,
      estimate_combined_noise_reduction 80
        ["owl_serrations"; "owl_serrations"; "winglets"]
        sample_feature_params [] = Ok result /\
      dget result "interaction_factor" = Some (VReal 1.36) /\
      dget result "total_reduction_db"
      = Some (VReal ((1.75 + 1.75) * 1.36))).
Proof.
  split.
  - destruct (synergy_counts_raw_list_length 80 ["winglets"; "riblets"] [] [])
      as [_ [Hk Hun]].
    destruct Hun as [result [Hres [Ht Hi]]];
      [repeat constructor | lra |].
    exists result. split; [exact Hres|]. split; [exact Ht|].
    rewrite Hi, Hk by (simpl; lia). simpl. do 2 f_equal. lra.
  - destruct (synergy_counts_raw_list_length 80
                ["owl_serrations"; "owl_serrations"; "winglets"]
                sample_feature_params []) as [Hspec [Hk _]].
    destruct (sample_owl_reduce 80 ltac:(lra)) as [r1 [E1 R1]].
    destruct (sample_owl_reduce (80 - 1.75) ltac:(lra)) as [r2 [E2 R2]].
    assert (Hseq : reduced_in_sequence sample_feature_params [] 80
                     ["owl_serrations"; "owl_serrations"; "winglets"]
                     [1.75; 1.75]).
    { eapply seq_reduce; [exact E1 | exact R1 |].
      eapply seq_reduce; [exact E2 | exact R2 |].
      apply seq_skip; [reflexivity | constructor]. }
    destruct (reduction_loop_returns _ _ _ _
                {| total_reduction := 0.0; individual_reductions := [];
                   current_noise := 80 |} Hseq) as [st [E Ht]].
    assert (Hres : exists result,
               estimate_combined_noise_reduction 80
                 ["owl_serrations"; "owl_serrations"; "winglets"]
                 sample_feature_params [] = Ok result).
    { unfold estimate_combined_noise_reduction. rewrite E. cbn [bind].
      rewrite pydiv_ok by lra. cbn [bind]. eexists. reflexivity. }
    destruct Hres as [result Hres]. exists result. split; [exact Hres|].
    destruct (Hspec result Hres) as [reds [Hseq' [Hlen [Hi Htot]]]].
    assert (Hreds : reds = [1.75; 1.75]).
    { clear - Hseq' E1 R1 E2 R2.
      inversion Hseq' as [| ? ? ? ? Hn _ | ? ? ? rs1 red1 reds1 Hs1 Hr1 Hq1];
        subst; [rewrite E1 in Hn; discriminate|].
      rewrite E1 in Hs1. injection Hs1 as <-. rewrite R1 in Hr1.
      injection Hr1 as <-.
      inversion Hq1 as [| ? ? ? ? Hn _ | ? ? ? rs2 red2 reds2 Hs2 Hr2 Hq2];
        subst; [rewrite E2 in Hn; discriminate|].
      rewrite E2 in Hs2. injection Hs2 as <-. rewrite R2 in Hr2.
      injection Hr2 as <-.
      inversion Hq2 as [| ? ? ? ? Hn Hq3 | ? ? ? ? ? ? Hs3 _ _]; subst.
      - inversion Hq3; subst. reflexivity.
      - discriminate Hs3. }
    subst reds.
    rewrite Hi, Htot, Hk by (simpl; lia). simpl.
    split; do 2 f_equal; lra.
Defined.

(** C9, where the code departs from the claim.  At a baseline of 0 dB the
    combined estimate and the serration, tubercle and corrugation estimates
    end with [ZeroDivisionError] instead of returning a value. *)
Theorem reduction_estimates_fault_at_zero_baseline :
  estimate_combined_noise_reduction 0 [] [] [] = Raise ZeroDivisionError /\
  estimate_combined_noise_reduction 0 ["owl_serrations"]
    sample_feature_params [] = Raise ZeroDivisionError /\
  OwlWingSerrations.estimate_noise_reduction 0
    [("depth_m", VReal 0.0025); ("wavelength_m", VReal 0.001)] 1000 10.0
    = Raise ZeroDivisionError /\
  HumpbackWhaleTubercles.estimate_noise_reduction 0
    [("num_tubercles", VReal 4); ("amplitude_ratio", VReal 0.12)] []
    = Raise ZeroDivisionError /\
  DragonflyCorrugations.estimate_noise_reduction 0
    [("depth_m", VReal 0.0015); ("wavelength_m", VReal 0.0025);
     ("num_corrugations", VReal 20)] 50000 10.0
    = Raise ZeroDivisionError.
Proof.
  assert (Hzero : forall x, pydiv x 0 = Raise ZeroDivisionError).
  { intros x. unfold pydiv. destruct (Req_dec_T 0 0); [reflexivity | lra]. }
  assert (Howl : OwlWingSerrations.estimate_noise_reduction 0
                   [("depth_m", VReal 0.0025); ("wavelength_m", VReal 0.001)]
                   1000 10.0 = Raise ZeroDivisionError).
  { rewrite (owl_estimate_low_ratio 0 _ 1000 10.0 0.0025 0.001)
      by (try reflexivity; lra).
    cbv zeta. rewrite Hzero. reflexivity. }
  split; [|split; [|split; [|split]]].
  - unfold estimate_combined_noise_reduction.
    cbn [reduction_loop bind List.length Nat.ltb Nat.leb total_reduction].
    rewrite Hzero. reflexivity.
  - unfold estimate_combined_noise_reduction.
    cbn [reduction_loop]. unfold reduction_step, sample_feature_params.
    cbn [String.eqb Ascii.eqb Bool.eqb get_dict get_real dget bind
         current_noise].
    rewrite Howl. reflexivity.
  - exact Howl.
  - rewrite (humpback_estimate_value 0 _ [] 4 0.12 5.0)
      by (try reflexivity; lra).
    cbv zeta. rewrite Hzero. reflexivity.
  - unfold DragonflyCorrugations.estimate_noise_reduction.
    cbn [item_real dget String.eqb Ascii.eqb Bool.eqb as_real VReal bind].
    destruct (Rlt_dec 50000 100000); [|lra].
    rewrite pydiv_ok by lra. cbn [bind].
    rewrite Hzero. reflexivity.
Qed.

End CombinedReduction.

(** * Evaluation *)

Section Evaluation.

Lemma mbind_Ok_inv {A B : Type} (m : M A) (k : A -> M B)
    (h h' : heap) (b : B) :
  mbind m k h = (h', Ok b) ->
  exists (a : A) (h1 : heap), m h = (h1, Ok a) /\ k a h1 = (h', Ok b).
Proof.
  unfold mbind. destruct (m h) as [h1 [a|e]]; intros H.
  - exists a, h1. split; [reflexivity | exact H].
  - discriminate.
Qed.

Lemma lift_Ok_inv {A : Type} (o : outcome A) (h h' : heap) (a : A) :
  lift o h = (h', Ok a) -> h' = h /\ o = Ok a.
Proof. unfold lift. intros H. injection H as <- ->. split; reflexivity. Qed.

Lemma deref_Ok_inv (g : ref) (h h' : heap) (d : dict) :
  deref g h = (h', Ok d) -> h' = h /\ nth_error h g = Some d.
Proof.
  unfold deref. destruct (nth_error h g) as [d'|]; intros H.
  - injection H as <- <-. split; reflexivity.
  - discriminate.
Qed.

Tactic Notation "mbind_inv" hyp(H) ident(x) ident(h) ident(Hx) :=
  apply mbind_Ok_inv in H; destruct H as [x [h [Hx H]]].

Tactic Notation "lift_inv" hyp(H) :=
  apply lift_Ok_inv in H; destruct H as [-> H].

Import DesignEvaluator.

(** The evaluation record that [evaluate_design] builds. *)
Lemma evaluate_design_shape (self : t) (g : ref) (oc : dict)
    (baseline_ntr : option pyfloat) (h h' : heap) (evaluation : dict) :
  evaluate_design self g oc baseline_ntr h = (h', Ok evaluation) ->
  h' = h /\
  exists geometry noise_results thrust_results performance_metrics : dict,
    nth_error h g = Some geometry /\
    NoiseAnalyzer.calculate_total_noise (noise_analyzer self) geometry oc 1.0
      = Ok noise_results /\
    AeroacousticMetrics.evaluate_design_performance
      noise_results thrust_results baseline_ntr = Ok performance_metrics /\
    evaluation
    = [("noise_analysis", VDict noise_results);
       ("thrust_analysis", VDict thrust_results);
       ("performance_metrics", VDict performance_metrics);
       ("propeller_geometry", VRef g);
       ("operating_conditions", VDict oc)].
Proof.
  unfold evaluate_design. intros H.
  mbind_inv H geometry h1 E1. apply deref_Ok_inv in E1. destruct E1 as [-> Eg].
  mbind_inv H noise h2 E2. lift_inv E2.
  mbind_inv H rpm h3 E3. lift_inv E3.
  mbind_inv H nb h4 E4. lift_inv E4.
  mbind_inv H thrust h5 E5. lift_inv E5.
  mbind_inv H pm h6 E6. lift_inv E6.
  unfold ret in H. injection H as <- <-.
  split; [reflexivity|].
  exists geometry, noise, thrust, pm.
  repeat split; assumption.
Qed.

Lemma item_real_dget (d : dict) (k : string) (x : R) :
  item_real d k = Ok x -> dget d k = Some (VReal x).
Proof.
  unfold item_real. destruct (dget d k) as [v|]; [|discriminate].
  destruct v as [| |[y| | |]| | | |]; simpl; intros H; try discriminate.
  injection H as ->. reflexivity.
Qed.

Lemma dget_item_real (d : dict) (k : string) (x : R) :
  dget d k = Some (VReal x) -> item_real d k = Ok x.
Proof. unfold item_real. intros ->. reflexivity. Qed.

Lemma item_dict_dget (d : dict) (k : string) (d' : dict) :
  item_dict d k = Ok d' -> dget d k = Some (VDict d').
Proof.
  unfold item_dict. destruct (dget d k) as [v|]; [|discriminate].
  destruct v; intros H; try discriminate. injection H as ->. reflexivity.
Qed.

Lemma dget_dset_other (d : dict) (k k' : string) (v : value) :
  String.eqb k' k = false -> dget (dset d k' v) k = dget d k.
Proof.
  intros Hk. induction d as [|[k0 v0] d IH]; simpl.
  - rewrite Hk. reflexivity.
  - destruct (String.eqb k0 k') eqn:E0; simpl.
    + apply String.eqb_eq in E0. subst k0. rewrite Hk. reflexivity.
    + destruct (String.eqb k0 k); [reflexivity | exact IH].
Qed.

Lemma updated_noise_total (noise_analysis reduction_results : dict)
    (reduced_noise noise_reduction_db : R) :
  dget (updated_noise noise_analysis reduction_results
          reduced_noise noise_reduction_db) "total_spl_db"
  = Some (VReal reduced_noise).
Proof.
  unfold updated_noise.
  rewrite !dget_dset_other by reflexivity. apply dget_dset_same.
Qed.

Lemma combined_result_items (b : R) (features : list string)
    (fp oc result : dict) :
  BioInspiredDesignFactory.estimate_combined_noise_reduction b features fp oc
    = Ok result ->
  exists effective : R,
    item_real result "total_reduction_db" = Ok effective /\
    item_real result "final_noise_db" = Ok (b - effective).
Proof.
  unfold BioInspiredDesignFactory.estimate_combined_noise_reduction.
  intros H. apply bind_Ok_inv in H. destruct H as [st [_ H]].
  apply bind_Ok_inv in H. destruct H as [q [_ H]].
  injection H as <-. eexists. split; reflexivity.
Qed.

Import BioInspiredDesignFactory AeroacousticMetrics.

Lemma bio_inspired_stages (self : t) (base_geometry : ref)
    (features : list string) (oc : dict) (baseline_ntr : option pyfloat)
    (h h' : heap) (evaluation : dict) :
  features <> [] ->
  evaluate_bio_inspired_design self base_geometry features oc baseline_ntr h
    = (h', Ok evaluation) ->
  exists (modified : ref)
         (first_pass geometry noise0 thrust reduction noise metrics : dict)
         (initial effective : R),
    create_design base_geometry features None h = (h', Ok modified) /\
    evaluate_design self modified oc baseline_ntr h' = (h', Ok first_pass) /\
    dget first_pass "noise_analysis" = Some (VDict noise0) /\
    dget noise0 "total_spl_db" = Some (VReal initial) /\
    dget first_pass "thrust_analysis" = Some (VDict thrust) /\
    nth_error h' modified = Some geometry /\
    estimate_combined_noise_reduction initial features
      (extract_feature_params features geometry) oc = Ok reduction /\
    dget reduction "total_reduction_db" = Some (VReal effective) /\
    dget reduction "final_noise_db" = Some (VReal (initial - effective)) /\
    noise = updated_noise noise0 reduction (initial - effective) effective /\
    dget evaluation "noise_analysis" = Some (VDict noise) /\
    dget noise "total_spl_db" = Some (VReal (initial - effective)) /\
    dget evaluation "thrust_analysis" = Some (VDict thrust) /\
    evaluate_design_performance noise thrust baseline_ntr = Ok metrics /\
    dget evaluation "performance_metrics" = Some (VDict metrics) /\
    dget evaluation "modified_geometry" = Some (VRef modified).
Proof.
  intros Hne H. unfold evaluate_bio_inspired_design in H.
  mbind_inv H modified h1 Ecreate.
  mbind_inv H first_pass h2 Eeval.
  destruct (evaluate_design_shape _ _ _ _ _ _ _ Eeval)
    as [-> [geometry [noise0 [thrust [pm0 [Hg [Hnoise [Hpm ->]]]]]]]].
  mbind_inv H ev h3 Eupd.
  unfold ret in H. injection H as <- <-.
  destruct features as [|f fs]; [contradiction|].
  set (features := f :: fs) in *.
  mbind_inv Eupd na h4 E1. lift_inv E1.
  cbn [item_dict dget String.eqb Ascii.eqb Bool.eqb] in E1.
  injection E1 as <-.
  mbind_inv Eupd initial h5 E2. lift_inv E2.
  mbind_inv Eupd g h6 E3. apply deref_Ok_inv in E3. destruct E3 as [-> Hg'].
  rewrite Hg in Hg'. injection Hg' as <-.
  mbind_inv Eupd reduction h7 E4. lift_inv E4.
  mbind_inv Eupd final h8 E5. lift_inv E5.
  mbind_inv Eupd effective h9 E6. lift_inv E6.
  mbind_inv Eupd thrust' h10 E7. lift_inv E7.
  cbn [item_dict dget dset String.eqb Ascii.eqb Bool.eqb] in E7.
  injection E7 as <-.
  mbind_inv Eupd metrics h11 E8. lift_inv E8.
  unfold ret in Eupd. injection Eupd as <- <-.
  destruct (combined_result_items _ _ _ _ _ E4) as [eff [Ht Hf]].
  rewrite Ht in E6. injection E6 as <-.
  rewrite Hf in E5. injection E5 as <-.
  fold (updated_noise noise0 reduction (initial - eff) eff) in E8 |- *.
  exists modified. eexists. exists geometry, noise0, thrust, reduction,
    (updated_noise noise0 reduction (initial - eff) eff), metrics,
    initial, eff.
  split; [exact Ecreate|]. split; [exact Eeval|].
  split; [reflexivity|]. split; [apply item_real_dget, E2|].
  split; [reflexivity|]. split; [exact Hg|]. split; [exact E4|].
  split; [apply item_real_dget, Ht|]. split; [apply item_real_dget, Hf|].
  split; [reflexivity|]. split; [reflexivity|].
  split; [apply updated_noise_total|]. split; [reflexivity|].
  split; [exact E8|]. split; reflexivity.
Qed.

Lemma run_mbind {A B : Type} (m : M A) (k : A -> M B) (h h1 : heap) (a : A) :
  m h = (h1, Ok a) -> mbind m k h = k a h1.
Proof. intros H. unfold mbind. rewrite H. reflexivity. Qed.

Lemma run_lift_Ok {A B : Type} (o : outcome A) (a : A) (k : A -> M B)
    (h : heap) :
  o = Ok a -> mbind (lift o) k h = k a h.
Proof. intros ->. reflexivity. Qed.

Lemma bio_inspired_returns (self : t) (base_geometry : ref)
    (features : list string) (oc : dict) (baseline_ntr : option pyfloat)
    (h h1 : heap) (modified : ref)
    (first_pass noise0 geometry reduction : dict) (initial : R) :
  features <> [] ->
  create_design base_geometry features None h = (h1, Ok modified) ->
  evaluate_design self modified oc baseline_ntr h1 = (h1, Ok first_pass) ->
  dget first_pass "noise_analysis" = Some (VDict noise0) ->
  dget noise0 "total_spl_db" = Some (VReal initial) ->
  nth_error h1 modified = Some geometry ->
  estimate_combined_noise_reduction initial features
    (extract_feature_params features geometry) oc = Ok reduction ->
  exists evaluation : dict,
    evaluate_bio_inspired_design self base_geometry features oc baseline_ntr h
    = (h1, Ok evaluation).
Proof.
  intros Hne Ecreate Eeval Hna Hinit Hg Ered.
  destruct (evaluate_design_shape _ _ _ _ _ _ _ Eeval)
    as [_ [geometry' [noise [thrust [pm0 [Hg' [Hnoise [Hpm Hshape]]]]]]]].
  subst first_pass.
  cbn [dget String.eqb Ascii.eqb Bool.eqb] in Hna. injection Hna as ->.
  destruct (combined_result_items _ _ _ _ _ Ered) as [eff [Ht Hf]].
  destruct (evaluate_design_performance_reads _ _ _ _ Hpm)
    as [total [t [p [_ [Et Ep]]]]].
  set (noise' := updated_noise noise0 reduction (initial - eff) eff).
  destruct (evaluate_design_performance_returns noise' thrust baseline_ntr
              (initial - eff) t p) as [metrics Hm]; [|exact Et|exact Ep|].
  { unfold get_real, noise'. rewrite updated_noise_total. reflexivity. }
  unfold evaluate_bio_inspired_design.
  rewrite (run_mbind _ _ _ _ _ Ecreate).
  rewrite (run_mbind _ _ _ _ _ Eeval).
  destruct features as [|f fs]; [contradiction|].
  set (features := f :: fs) in *.
  unfold mbind at 1.
  rewrite (run_lift_Ok _ noise0) by reflexivity.
  rewrite (run_lift_Ok _ initial) by (apply dget_item_real, Hinit).
  rewrite (run_mbind (deref modified) _ h1 h1 geometry)
    by (unfold deref; rewrite Hg; reflexivity).
  rewrite (run_lift_Ok _ reduction) by exact Ered.
  rewrite (run_lift_Ok _ (initial - eff)) by exact Hf.
  rewrite (run_lift_Ok _ eff) by exact Ht.
  rewrite (run_lift_Ok _ thrust) by reflexivity.
  fold noise'.
  rewrite (run_lift_Ok _ metrics) by exact Hm.
  unfold ret. eexists. reflexivity.
Qed.

Lemma evaluate_design_returns (self : t) (g : ref) (oc : dict)
    (baseline_ntr : option pyfloat) (h : heap)
    (geometry noise thrust metrics : dict) (rpm num_blades : R) :
  nth_error h g = Some geometry ->
  NoiseAnalyzer.calculate_total_noise (noise_analyzer self) geometry oc 1.0
    = Ok noise ->
  get_real oc "rpm" 5000 = Ok rpm ->
  get_real geometry "num_blades" 2 = Ok num_blades ->
  ThrustCalculator.calculate_thrust_blade_element (thrust_calculator self) rpm
    [("radius", get_value geometry "radius_m" (VReal 0.127));
     ("chord_root", get_value geometry "chord_root" (VReal 0.03));
     ("chord_tip", get_value geometry "chord_tip" (VReal 0.015));
     ("pitch_angle", get_value geometry "pitch_angle" (VReal 10.0));
     ("cl_slope", get_value geometry "cl_slope" (VReal (2 * 3.14159)))]
    num_blades 20 = Ok thrust ->
  evaluate_design_performance noise thrust baseline_ntr = Ok metrics ->
  evaluate_design self g oc baseline_ntr h
  = (h, Ok [("noise_analysis", VDict noise);
            ("thrust_analysis", VDict thrust);
            ("performance_metrics", VDict metrics);
            ("propeller_geometry", VRef g);
            ("operating_conditions", VDict oc)]).
Proof.
  intros Hg En Erpm Enb Et Em. unfold evaluate_design.
  rewrite (run_mbind (deref g) _ h h geometry)
    by (unfold deref; rewrite Hg; reflexivity).
  rewrite (run_lift_Ok _ noise) by exact En.
  rewrite (run_lift_Ok _ rpm) by exact Erpm.
  rewrite (run_lift_Ok _ num_blades) by exact Enb.
  rewrite (run_lift_Ok _ thrust) by exact Et.
  rewrite (run_lift_Ok _ metrics) by exact Em.
  reflexivity.
Qed.

(** C2.  For a feature list that is not empty, a call of
    [evaluate_bio_inspired_design] that returns has (1) composed the
    geometry with [create_design], (2) evaluated the composed geometry with
    [evaluate_design], whose total level is [initial], (4) run
    [estimate_combined_noise_reduction] with [initial] as the baseline, on
    the parameters read off the composed geometry, and (5) written the
    composed level [initial - effective] over the total of the noise
    breakdown and recomputed the performance metrics from that breakdown
    and the thrust breakdown of the first pass, which the record returned
    carries unchanged.  The call returns when these stages do. *)
Theorem bio_inspired_evaluation_two_pass (self : t) (base_geometry : ref)
    (features : list string) (oc : dict) (baseline_ntr : option pyfloat)
    (h : heap) :
  features <> [] ->
  (forall (h' : heap) (evaluation : dict),
      evaluate_bio_inspired_design self base_geometry features oc
        baseline_ntr h = (h', Ok evaluation) ->
      exists (modified : ref)
             (first_pass geometry noise0 thrust reduction noise metrics : dict)
             (initial effective : R),
        create_design base_geometry features None h = (h', Ok modified) /\
        evaluate_design self modified oc baseline_ntr h'
          = (h', Ok first_pass) /\
        dget first_pass "noise_analysis" = Some (VDict noise0) /\
        dget noise0 "total_spl_db" = Some (VReal initial) /\
        dget first_pass "thrust_analysis" = Some (VDict thrust) /\
        nth_error h' modified = Some geometry /\
        estimate_combined_noise_reduction initial features
          (extract_feature_params features geometry) oc = Ok reduction /\
        dget reduction "total_reduction_db" = Some (VReal effective) /\
        dget reduction "final_noise_db"
          = Some (VReal (initial - effective)) /\
        noise = updated_noise noise0 reduction (initial - effective) effective /\
        dget evaluation "noise_analysis" = Some (VDict noise) /\
        dget noise "total_spl_db" = Some (VReal (initial - effective)) /\
        dget evaluation "thrust_analysis" = Some (VDict thrust) /\
        evaluate_design_performance noise thrust baseline_ntr = Ok metrics /\
        dget evaluation "performance_metrics" = Some (VDict metrics) /\
        dget evaluation "modified_geometry" = Some (VRef modified)) /\
  (forall (h1 : heap) (modified : ref)
          (first_pass noise0 geometry reduction : dict) (initial : R),
      create_design base_geometry features None h = (h1, Ok modified) ->
      evaluate_design self modified oc baseline_ntr h1
        = (h1, Ok first_pass) ->
      dget first_pass "noise_analysis" = Some (VDict noise0) ->
      dget noise0 "total_spl_db" = Some (VReal initial) ->
      nth_error h1 modified = Some geometry ->
      estimate_combined_noise_reduction initial features
        (extract_feature_params features geometry) oc = Ok reduction ->
      exists evaluation : dict,
        evaluate_bio_inspired_design self base_geometry features oc
          baseline_ntr h = (h1, Ok evaluation)).
Proof.
  intros Hne. split.
  - intros h' evaluation H.
    exact (bio_inspired_stages self base_geometry features oc baseline_ntr
             h h' evaluation Hne H).
  - intros h1 modified first_pass noise0 geometry reduction initial
           H1 H2 H3 H4 H5 H6.
    exact (bio_inspired_returns self base_geometry features oc baseline_ntr
             h h1 modified first_pass noise0 geometry reduction initial
             Hne H1 H2 H3 H4 H5 H6).
Qed.

Lemma get_value_positive (d : dict) (k : string) (dflt : R) :
  positive_entry d k -> 0 < dflt ->
  exists x : R, get_value d k (VReal dflt) = VReal x /\ 0 < x.
Proof.
  unfold positive_entry, get_value. intros H Hd.
  destruct (dget d k) as [v|]; [exact H|].
  exists dflt. split; [reflexivity | exact Hd].
Qed.

(** The first pass on a blade at rest in the air, rotor at 5000 rpm: the
    total level and the thrust are positive. *)
Lemma first_pass_at_rest (g : ref) (h : heap) (geometry : dict)
    (baseline_ntr : option pyfloat)
    (chord thickness num_blades radius aoa : R) :
  nth_error h g = Some geometry ->
  get_real geometry "chord_length" 0.05 = Ok chord ->
  get_real geometry "blade_thickness" 0.005 = Ok thickness ->
  get_real geometry "num_blades" 2 = Ok num_blades ->
  get_real geometry "radius" 0.127 = Ok radius ->
  get_real geometry "angle_of_attack" 5.0 = Ok aoa ->
  thickness <> 0 -> 0 < num_blades ->
  positive_entry geometry "radius_m" ->
  positive_entry geometry "chord_root" ->
  positive_entry geometry "chord_tip" ->
  positive_entry geometry "pitch_angle" ->
  positive_entry geometry "cl_slope" ->
  exists (noise metrics : dict) (total T Q P e : R),
    let thrust := [("thrust_N", VReal T); ("torque_Nm", VReal Q);
                   ("power_W", VReal P); ("efficiency", VReal e)] in
    evaluate_design DesignEvaluator.default g sample_conditions baseline_ntr h
    = (h, Ok [("noise_analysis", VDict noise);
              ("thrust_analysis", VDict thrust);
              ("performance_metrics", VDict metrics);
              ("propeller_geometry", VRef g);
              ("operating_conditions", VDict sample_conditions)]) /\
    dget noise "total_spl_db" = Some (VReal total) /\
    0 < total /\ 0 < T /\
    dget metrics "noise_to_thrust_ratio_dB_per_N"
    = Some (VNum (Fin (total / (T / 1.0)))).
Proof.
  intros Hg Ec Et Enb Er Ea Ht Hnb Hrm Hcr Hct Hpa Hcs.
  (* noise *)
  destruct (total_noise_returns NoiseAnalyzer.default geometry
              sample_conditions 1.0 5000 0 chord thickness num_blades radius
              aoa) as [noise En];
    try assumption; try reflexivity; try (simpl; lra).
  destruct (total_noise_is_energy_sum _ _ _ _ _ En)
    as [b [t [v [Hb [_ [_ Htot]]]]]].
  destruct (total_noise_broadband _ _ _ _ _ 0 chord thickness aoa En)
    as [b' [Eb Hb']]; try assumption; try reflexivity.
  rewrite broadband_at_rest in Eb by lra. injection Eb as <-.
  rewrite Hb in Hb'. injection Hb' as ->.
  assert (Hpos : 0 < energy_sum_db [0; t; v]).
  { apply energy_sum_exceeds_member; simpl; [lia | auto]. }
  (* thrust *)
  destruct (blade_element_returns ThrustCalculator.default 5000
              [("radius", get_value geometry "radius_m" (VReal 0.127));
               ("chord_root", get_value geometry "chord_root" (VReal 0.03));
               ("chord_tip", get_value geometry "chord_tip" (VReal 0.015));
               ("pitch_angle", get_value geometry "pitch_angle" (VReal 10.0));
               ("cl_slope",
                get_value geometry "cl_slope" (VReal (2 * 3.14159)))]
              num_blades 20) as [T [Q [P [e [Eth [HT _]]]]]];
    try assumption; try (simpl; lra); try lia;
    try (unfold positive_entry;
         cbn [dget String.eqb Ascii.eqb Bool.eqb];
         apply get_value_positive; [assumption | lra]).
  (* metrics *)
  destruct (design_performance_ntr noise
              [("thrust_N", VReal T); ("torque_Nm", VReal Q);
               ("power_W", VReal P); ("efficiency", VReal e)]
              baseline_ntr (energy_sum_db [0; t; v]) T P)
    as [metrics [Epm Hntr]];
    [unfold get_real; rewrite Htot; reflexivity
    | reflexivity | reflexivity | exact HT |].
  exists noise, metrics, (energy_sum_db [0; t; v]), T, Q, P, e.
  cbv zeta.
  split; [|split; [exact Htot | split; [exact Hpos | split;
                                         [exact HT | exact Hntr]]]].
  apply (evaluate_design_returns DesignEvaluator.default g sample_conditions
           baseline_ntr h geometry noise _ metrics 5000 num_blades);
    try assumption; reflexivity.
Qed.

Lemma sample_create_design :
  exists (num_serrations angle_deg : R) (geometry : dict),
    geometry
    = [("chord_length", VReal 0.05);
       ("trailing_edge_serrations",
        VDict [("depth_m", VReal (0.05 * 0.05));
               ("wavelength_m", VReal (0.05 * 0.02));
               ("num_serrations", VReal num_serrations);
               ("angle_deg", VReal angle_deg);
               ("depth_ratio", VReal 0.05);
               ("wavelength_ratio", VReal 0.02)]);
       ("bio_inspired_feature", VStr "owl_wing_serrations");
       ("drag_coefficient",
        VReal (0.02 * (1 + (0.02 + 0.03 * (0.05 / 0.1)))));
       ("bio_inspired_features", VStrs ["owl_serrations"])] /\
    create_design 0%nat ["owl_serrations"] None [sample_base]
    = ([sample_base; sample_base; geometry], Ok 2%nat).
Proof.
  destruct (owl_apply_default [sample_base; sample_base] 1%nat sample_base
              0.05 0.02 eq_refl eq_refl ltac:(lra) eq_refl)
    as [params [Ep E1]].
  destruct (serration_geometry_default 0.05 ltac:(lra)) as [n [a Ep']].
  rewrite Ep' in Ep. injection Ep as <-.
  cbn [List.length app dset sample_base String.eqb Ascii.eqb Bool.eqb] in E1.
  exists n, a. eexists. split; [reflexivity|].
  unfold create_design, mbind, copy, deref, alloc, lift, ret.
  cbn [nth_error mem existsb String.eqb Ascii.eqb Bool.eqb orb config_of
       dget List.length app].
  unfold mbind, deref, alloc. cbn [nth_error List.length app].
  match goal with
  | |- context [OwlWingSerrations.apply_to_blade_design ?x1 ?x2 ?x3] =>
      replace (OwlWingSerrations.apply_to_blade_design x1 x2 x3)
        with ([sample_base; sample_base;
               [("chord_length", VReal 0.05);
                ("trailing_edge_serrations",
                 VDict [("depth_m", VReal (0.05 * 0.05));
                        ("wavelength_m", VReal (0.05 * 0.02));
                        ("num_serrations", VReal n);
                        ("angle_deg", VReal a);
                        ("depth_ratio", VReal 0.05);
                        ("wavelength_ratio", VReal 0.02)]);
                ("bio_inspired_feature", VStr "owl_wing_serrations");
                ("drag_coefficient",
                 VReal (0.02 * (1 + (0.02 + 0.03 * (0.05 / 0.1)))))]],
              Ok (A:=ref) 2%nat)
        by (symmetry; exact E1)
  end.
  unfold setitem. cbn [nth_error replace_nth]. reflexivity.
Qed.

Lemma sample_combined_reduction (num_serrations angle_deg total : R) :
  total <> 0 ->
  exists reduction : dict,
    estimate_combined_noise_reduction total ["owl_serrations"]
      [("owl_serrations",
        VDict [("depth_m", VReal (0.05 * 0.05));
               ("wavelength_m", VReal (0.05 * 0.02));
               ("num_serrations", VReal num_serrations);
               ("angle_deg", VReal angle_deg);
               ("depth_ratio", VReal 0.05);
               ("wavelength_ratio", VReal 0.02)])]
      sample_conditions = Ok reduction.
Proof.
  intros Ht.
  assert (Hest : exists result red,
             feature_reduce
               [("owl_serrations",
                 VDict [("depth_m", VReal (0.05 * 0.05));
                        ("wavelength_m", VReal (0.05 * 0.02));
                        ("num_serrations", VReal num_serrations);
                        ("angle_deg", VReal angle_deg);
                        ("depth_ratio", VReal 0.05);
                        ("wavelength_ratio", VReal 0.02)])]
               sample_conditions "owl_serrations" total
             = Some (Ok result) /\
             item_real result "noise_reduction_db" = Ok red).
  { unfold feature_reduce, sample_conditions.
    cbn [String.eqb Ascii.eqb Bool.eqb get_dict get_real dget bind as_real
         VReal].
    rewrite (owl_estimate_low_ratio total _ 1000 0 (0.05 * 0.05)
               (0.05 * 0.02)) by (try reflexivity; lra).
    cbv zeta. rewrite pydiv_ok by exact Ht. cbn [bind].
    eexists. eexists. split; reflexivity. }
  destruct Hest as [result [red [E1 R1]]].
  apply (combined_reduction_returns total ["owl_serrations"] _ _ [red]);
    [|exact Ht].
  eapply seq_reduce; [exact E1 | exact R1 | constructor].
Qed.

(** The serrated 50 mm blade at rest, evaluated in two passes: the call
    returns, and its noise-to-thrust ratio is a real number. *)
Lemma sample_bio_inspired_run (baseline_ntr : option pyfloat) :
  exists (h' : heap) (evaluation metrics : dict) (ntr : R),
    evaluate_bio_inspired_design DesignEvaluator.default 0%nat
      ["owl_serrations"] sample_conditions baseline_ntr [sample_base]
    = (h', Ok evaluation) /\
    dget evaluation "performance_metrics" = Some (VDict metrics) /\
    dget metrics "noise_to_thrust_ratio_dB_per_N" = Some (VNum (Fin ntr)) /\
    dget evaluation "modified_geometry" = Some (VRef 2%nat).
Proof.
  destruct sample_create_design as [n [a [G [HG Ecreate]]]].
  set (h1 := [sample_base; sample_base; G]) in *.
  destruct (first_pass_at_rest 2%nat h1 G baseline_ntr 0.05 0.005 2 0.127 5.0)
    as [noise0 [pm0 [total [T [Q [P [e [Eeval [Htot [Hpos [HT _]]]]]]]]]]];
    try (subst G; reflexivity); try lra;
    try (subst G; unfold positive_entry; simpl; exact I).
  cbv zeta in Eeval.
  assert (Hfp : extract_feature_params ["owl_serrations"] G
                = [("owl_serrations",
                    VDict [("depth_m", VReal (0.05 * 0.05));
                           ("wavelength_m", VReal (0.05 * 0.02));
                           ("num_serrations", VReal n);
                           ("angle_deg", VReal a);
                           ("depth_ratio", VReal 0.05);
                           ("wavelength_ratio", VReal 0.02)])])
    by (subst G; reflexivity).
  destruct (sample_combined_reduction n a total ltac:(lra)) as [reduction Ered].
  rewrite <- Hfp in Ered.
  destruct (bio_inspired_returns DesignEvaluator.default 0%nat
              ["owl_serrations"] sample_conditions baseline_ntr
              [sample_base] h1 2%nat _ noise0 G reduction total
              ltac:(discriminate) Ecreate Eeval eq_refl Htot eq_refl Ered)
    as [evaluation Hrun].
  assert (Hne : ["owl_serrations"] <> []) by discriminate.
  destruct (bio_inspired_stages _ _ _ _ _ _ _ _ Hne Hrun)
    as [modified [first_pass [geometry [noise0' [thrust [reduction'
         [noise [metrics [initial [effective
           [S1 [S2 [S3 [S4 [S5 [S6 [S7 [S8 [S9 [S10 [S11 [S12 [S13 [S14
             [S15 S16]]]]]]]]]]]]]]]]]]]]]]]]].
  rewrite Ecreate in S1. injection S1 as <-.
  rewrite Eeval in S2. injection S2 as <-.
  cbn [dget String.eqb Ascii.eqb Bool.eqb] in S5. injection S5 as <-.
  destruct (design_performance_ntr noise
              [("thrust_N", VReal T); ("torque_Nm", VReal Q);
               ("power_W", VReal P); ("efficiency", VReal e)]
              baseline_ntr (initial - effective) T P)
    as [metrics' [Epm Hntr]];
    [unfold get_real; rewrite S12; reflexivity
    | reflexivity | reflexivity | exact HT |].
  rewrite S14 in Epm. injection Epm as <-.
  exists h1, evaluation, metrics, ((initial - effective) / (T / 1.0)).
  split; [exact Hrun|]. split; [exact S15|]. split; [exact Hntr | exact S16].
Qed.

Lemma bio_inspired_evaluation_two_pass_witness :
  exists (h' : heap) (evaluation first_pass noise0 noise thrust metrics : dict)
         (initial effective : R),
    evaluate_bio_inspired_design DesignEvaluator.default 0%nat
      ["owl_serrations"] sample_conditions (Some (Fin 20)) [sample_base]
      = (h', Ok evaluation) /\
    evaluate_design DesignEvaluator.default 2%nat sample_conditions
      (Some (Fin 20)) h' = (h', Ok first_pass) /\
    dget first_pass "noise_analysis" = Some (VDict noise0) /\
    dget noise0 "total_spl_db" = Some (VReal initial) /\
    dget first_pass "thrust_analysis" = Some (VDict thrust) /\
    dget evaluation "thrust_analysis" = Some (VDict thrust) /\
    dget evaluation "noise_analysis" = Some (VDict noise) /\
    dget noise "total_spl_db" = Some (VReal (initial - effective)) /\
    evaluate_design_performance noise thrust (Some (Fin 20)) = Ok metrics /\
    dget evaluation "performance_metrics" = Some (VDict metrics).
Proof.
  destruct sample_create_design as [n [a [G [HG Ecreate]]]].
  set (h1 := [sample_base; sample_base; G]) in *.
  destruct (first_pass_at_rest 2%nat h1 G (Some (Fin 20))
              0.05 0.005 2 0.127 5.0)
    as [noise0 [pm0 [total [T [Q [P [e [Eeval [Htot [Hpos _]]]]]]]]]];
    try (subst G; reflexivity); try lra;
    try (subst G; unfold positive_entry; simpl; exact I).
  cbv zeta in Eeval.
  assert (Hfp : extract_feature_params ["owl_serrations"] G
                = [("owl_serrations",
                    VDict [("depth_m", VReal (0.05 * 0.05));
                           ("wavelength_m", VReal (0.05 * 0.02));
                           ("num_serrations", VReal n);
                           ("angle_deg", VReal a);
                           ("depth_ratio", VReal 0.05);
                           ("wavelength_ratio", VReal 0.02)])])
    by (subst G; reflexivity).
  destruct (sample_combined_reduction n a total ltac:(lra)) as [reduction Ered].
  rewrite <- Hfp in Ered.
  (* the two passes together *)
  assert (Hne : ["owl_serrations"] <> []) by discriminate.
  destruct (bio_inspired_evaluation_two_pass DesignEvaluator.default 0%nat
              ["owl_serrations"] sample_conditions (Some (Fin 20))
              [sample_base] Hne) as [Hstages Hreturns].
  destruct (Hreturns h1 2%nat _ noise0 G reduction total
              Ecreate Eeval eq_refl Htot eq_refl Ered) as [evaluation Hrun].
  destruct (Hstages h1 evaluation Hrun)
    as [modified [first_pass [geometry [noise0' [thrust' [reduction'
         [noise [metrics [initial [effective
           [S1 [S2 [S3 [S4 [S5 [S6 [S7 [S8 [S9 [S10 [S11 [S12 [S13 [S14
             [S15 S16]]]]]]]]]]]]]]]]]]]]]]]]].
  rewrite Ecreate in S1. injection S1 as <-.
  exists h1, evaluation, first_pass, noise0', noise, thrust', metrics,
    initial, effective.
  repeat (split; [assumption|]). assumption.
Defined.

End Evaluation.

(** * Optimisation *)

Section Optimisation.

Import PropellerOptimizer.

Lemma same_run_bind {A B : Type} (rel : B -> B -> Prop) (m : M A)
    (k1 k2 : A -> M B) (h : heap) :
  (forall (a : A) (h1 : heap), same_run rel (k1 a h1) (k2 a h1)) ->
  same_run rel (mbind m k1 h) (mbind m k2 h).
Proof.
  intros Hk. unfold mbind. destruct (m h) as [h1 [a|e]].
  - apply Hk.
  - split; reflexivity.
Qed.

Ltac bind_same :=
  match goal with
  | |- same_run ?rel (mbind ?m ?k1 ?h) (mbind ?m ?k2 ?h) =>
      apply (same_run_bind rel m k1 k2 h)
  end.

Lemma search_step_ignores_draws (self : t) (base_geometry : ref)
    (features : list string) (oc : dict) (objective : string)
    (baseline_ntr : pyfloat) (s1 s2 : search_state) (iteration : nat)
    (h : heap) :
  same_search s1 s2 ->
  same_run same_search
    (search_step self base_geometry features oc objective baseline_ntr
       s1 iteration h)
    (search_step self base_geometry features oc objective baseline_ntr
       s2 iteration h).
Proof.
  intros [Hscore [Htrials Hbest]]. unfold search_step.
  destruct (_generate_random_configs features (source s1)) as [c1 g1].
  destruct (_generate_random_configs features (source s2)) as [c2 g2].
  rewrite <- Hscore, <- Htrials.
  apply same_run_bind. intros evaluation h1.
  apply same_run_bind. intros metrics h2.
  apply same_run_bind. intros [score is_better] h3.
  apply same_run_bind. intros geometry h4.
  destruct is_better; apply same_run_bind; intros ntr h5;
    (split; [reflexivity|]); cbn [snd ret];
    repeat split; try assumption; constructor.
Qed.

Lemma search_loop_ignores_draws (self : t) (base_geometry : ref)
    (features : list string) (oc : dict) (objective : string)
    (baseline_ntr : pyfloat) (iterations : list nat) :
  forall (s1 s2 : search_state) (h : heap),
    same_search s1 s2 ->
    same_run same_search
      (search_loop self base_geometry features oc objective baseline_ntr
         iterations s1 h)
      (search_loop self base_geometry features oc objective baseline_ntr
         iterations s2 h).
Proof.
  induction iterations as [|i rest IH]; intros s1 s2 h Hs.
  - split; [reflexivity | exact Hs].
  - cbn [search_loop]. unfold mbind.
    pose proof (search_step_ignores_draws self base_geometry features oc
                  objective baseline_ntr s1 s2 i h Hs) as [Hh Ho].
    destruct (search_step self base_geometry features oc objective
                baseline_ntr s1 i h) as [h1 [a1|e1]];
      destruct (search_step self base_geometry features oc objective
                  baseline_ntr s2 i h) as [h2 [a2|e2]];
      simpl in Hh, Ho; subst; try contradiction.
    + apply IH. exact Ho.
    + split; reflexivity.
Qed.

Lemma same_run_bind_related {A B : Type} (relA : A -> A -> Prop)
    (relB : B -> B -> Prop) (m1 m2 : M A) (k1 k2 : A -> M B) (h : heap) :
  same_run relA (m1 h) (m2 h) ->
  (forall (a1 a2 : A) (h1 : heap),
      relA a1 a2 -> same_run relB (k1 a1 h1) (k2 a2 h1)) ->
  same_run relB (mbind m1 k1 h) (mbind m2 k2 h).
Proof.
  intros [Hh Ho] Hk. unfold mbind.
  destruct (m1 h) as [h1 [a1|e1]]; destruct (m2 h) as [h2 [a2|e2]];
    simpl in Hh, Ho; subst; try contradiction.
  - apply Hk. exact Ho.
  - split; reflexivity.
Qed.

Lemma optimizer_ignores_draws (self : t) (base_geometry : ref)
    (features : list string) (oc : dict) (objective : string)
    (num_iterations : Z) (g1 g2 : rng) (h : heap) :
  same_run same_result
    (optimize_bio_inspired_parameters self base_geometry features oc
       objective num_iterations g1 h)
    (optimize_bio_inspired_parameters self base_geometry features oc
       objective num_iterations g2 h).
Proof.
  unfold optimize_bio_inspired_parameters.
  apply same_run_bind. intros baseline_eval h1.
  apply same_run_bind. intros metrics h2.
  apply same_run_bind. intros baseline_ntr h3.
  apply (same_run_bind_related same_search).
  - apply search_loop_ignores_draws. repeat split. constructor.
  - intros s1 s2 h4 [Hscore [Htrials Hbest]].
    rewrite Htrials.
    inversion Hbest as [E1 E2 | geometry evaluation c1 c2 iteration score E1 E2].
    + unfold mbind, ret. split; [reflexivity|]. cbn [snd].
      split; reflexivity.
    + cbn [item_dict dget String.eqb Ascii.eqb Bool.eqb].
      apply (same_run_bind_related
               (fun b1 b2 => option_map without_configs b1
                             = option_map without_configs b2)).
      * bind_same. intros ev h5.
        bind_same. intros m h6.
        bind_same. intros ntr h7.
        bind_same. intros q h8.
        unfold ret. split; reflexivity.
      * intros b1 b2 h5 Hb. unfold ret. split; [reflexivity|]. cbn [snd].
        split; [reflexivity | exact Hb].
Qed.

Lemma dget_item_dict (d : dict) (k : string) (d' : dict) :
  dget d k = Some (VDict d') -> item_dict d k = Ok d'.
Proof. unfold item_dict. intros ->. reflexivity. Qed.

Lemma dget_item_float (d : dict) (k : string) (x : pyfloat) :
  dget d k = Some (VNum x) -> item_float d k = Ok x.
Proof. unfold item_float. intros ->. reflexivity. Qed.

(** One trial on the 50 mm blade at rest, serrations asked for: the run
    returns the same store, evaluation, score and history whatever the
    random source; the source shows in the sampled parameters only. *)
Lemma sample_optimizer_run :
  exists (h' : heap) (evaluation : dict) (score improvement baseline : pyfloat),
    forall g : rng,
      optimize_bio_inspired_parameters PropellerOptimizer.default 0%nat
        ["owl_serrations"] sample_conditions "minimize_ntr" 1 g [sample_base]
      = (h',
         Ok (Some [("geometry", VRef 2%nat);
                   ("evaluation", VDict evaluation);
                   ("configs",
                    VDict (fst (_generate_random_configs
                                  ["owl_serrations"] g)));
                   ("iteration", VReal (INR 0));
                   ("score", VNum score);
                   ("improvement_over_baseline_percentage", VNum improvement);
                   ("baseline_ntr", VNum baseline)],
             {| evaluator := DesignEvaluator.default;
                history := [[("iteration", VReal (INR 0));
                             ("score", VNum score);
                             ("ntr", VNum score)]] |},
             snd (_generate_random_configs ["owl_serrations"] g))).
Proof.
  destruct (first_pass_at_rest 0%nat [sample_base] sample_base None
              0.05 0.005 2 0.127 5.0)
    as [noise0 [pm0 [total [T [Q [P [e [Ebase [_ [Hpos [HT Hntr0]]]]]]]]]]];
    try reflexivity; try lra;
    try (unfold positive_entry; simpl; exact I).
  cbv zeta in Ebase.
  set (b0 := total / (T / 1.0)) in *.
  assert (Hb0 : b0 <> 0).
  { unfold b0. apply Rgt_not_eq. apply Rdiv_lt_0_compat; [exact Hpos|].
    apply Rdiv_lt_0_compat; lra. }
  destruct (sample_bio_inspired_run (Some (Fin b0)))
    as [h' [evaluation [metrics [ntr [Hrun [Hpm [Hntr Hgeo]]]]]]].
  exists h', evaluation, (Fin ntr), (fmul (Fin ((b0 - ntr) / b0)) (Fin 100)),
    (Fin b0).
  intros g.
  assert (Hstep :
    search_step PropellerOptimizer.default 0%nat ["owl_serrations"]
      sample_conditions "minimize_ntr" (Fin b0)
      {| best_design := None; best_score := PInf; trials := [];
         source := g |} 0%nat [sample_base]
    = (h',
       Ok {| best_design :=
               Some [("geometry", VRef 2%nat);
                     ("evaluation", VDict evaluation);
                     ("configs",
                      VDict (fst (_generate_random_configs
                                    ["owl_serrations"] g)));
                     ("iteration", VReal (INR 0));
                     ("score", VNum (Fin ntr))];
             best_score := Fin ntr;
             trials := [[("iteration", VReal (INR 0));
                         ("score", VNum (Fin ntr));
                         ("ntr", VNum (Fin ntr))]];
             source := snd (_generate_random_configs
                              ["owl_serrations"] g) |})).
  { unfold search_step.
    cbn [source best_score best_design trials evaluator
         PropellerOptimizer.default String.eqb Ascii.eqb Bool.eqb].
    destruct (_generate_random_configs ["owl_serrations"] g) as [configs g'].
    rewrite (run_mbind _ _ _ _ _ Hrun).
    rewrite (run_lift_Ok _ metrics) by (apply dget_item_dict, Hpm).
    unfold mbind at 1. unfold mbind at 1.
    rewrite (dget_item_float _ _ _ Hntr). cbn [lift ret flt].
    rewrite Hgeo. unfold mbind at 1. cbn [lift].
    unfold mbind at 1. cbn [lift ret app fst snd]. reflexivity. }
  unfold optimize_bio_inspired_parameters.
  cbn [evaluator history PropellerOptimizer.default].
  rewrite (run_mbind _ _ _ _ _ Ebase).
  rewrite (run_lift_Ok _ pm0) by reflexivity.
  rewrite (run_lift_Ok _ (Fin b0)) by (apply dget_item_float, Hntr0).
  change (seq 0 (Z.to_nat 1)) with [0%nat].
  cbn [search_loop String.eqb Ascii.eqb Bool.eqb].
  unfold mbind at 1. unfold mbind at 1. rewrite Hstep.
  cbn [ret best_design trials source].
  unfold mbind at 1.
  rewrite (run_lift_Ok _ evaluation) by reflexivity.
  rewrite (run_lift_Ok _ metrics) by (apply dget_item_dict, Hpm).
  rewrite (run_lift_Ok _ (Fin ntr)) by (apply dget_item_float, Hntr).
  assert (Hq : npfdiv (fsub (Fin b0) (Fin ntr)) (Fin b0)
               = Ok (Fin ((b0 - ntr) / b0))).
  { unfold npfdiv, fdiv_with, fsub.
    destruct (Req_dec_T b0 0); [contradiction | reflexivity]. }
  rewrite (run_lift_Ok _ _ _ _ Hq).
  reflexivity.
Qed.

(** C4, where the code departs from the claim.  Two runs of
    [optimize_bio_inspired_parameters] that differ in the random draws only
    end with the same store and the same fault, or with the same history
    and the same best design up to the sampled parameters that it carries:
    no trial depends on the parameters sampled for it.  On the 50 mm blade
    with serrations, one trial under draws of 0 and one trial under draws of
    1/2 both return: the best designs carry the parameters sampled, which
    differ, and the same evaluation and score. *)
Theorem trials_ignore_sampled_parameters :
  (forall (self : t) (base_geometry : ref) (features : list string)
          (oc : dict) (objective : string) (num_iterations : Z)
          (g1 g2 : rng) (h : heap),
      same_run same_result
        (optimize_bio_inspired_parameters self base_geometry features oc
           objective num_iterations g1 h)
        (optimize_bio_inspired_parameters self base_geometry features oc
           objective num_iterations g2 h)) /\
  (exists (h' : heap) (best1 best2 : dict) (o1 o2 : t) (g1 g2 : rng),
      optimize_bio_inspired_parameters PropellerOptimizer.default 0%nat
        ["owl_serrations"] sample_conditions "minimize_ntr" 1 low_draws
        [sample_base] = (h', Ok (Some best1, o1, g1)) /\
      optimize_bio_inspired_parameters PropellerOptimizer.default 0%nat
        ["owl_serrations"] sample_conditions "minimize_ntr" 1 mid_draws
        [sample_base] = (h', Ok (Some best2, o2, g2)) /\
      dget best1 "configs"
      = Some (VDict [("owl_serrations",
                      VDict [("serration_depth_ratio", VReal 0.03);
                             ("serration_wavelength_ratio", VReal 0.015)])]) /\
      dget best2 "configs"
      = Some (VDict [("owl_serrations",
                      VDict [("serration_depth_ratio", VReal 0.055);
                             ("serration_wavelength_ratio", VReal 0.0275)])]) /\
      dget best1 "configs" <> dget best2 "configs" /\
      dget best1 "evaluation" = dget best2 "evaluation" /\
      dget best1 "score" = dget best2 "score" /\
      history o1 = history o2).
Proof.
  split; [exact optimizer_ignores_draws|].
  destruct sample_optimizer_run
    as [h' [evaluation [score [improvement [baseline Hrun]]]]].
  assert (Hlow : fst (_generate_random_configs ["owl_serrations"] low_draws)
                 = [("owl_serrations",
                     VDict [("serration_depth_ratio", VReal 0.03);
                            ("serration_wavelength_ratio", VReal 0.015)])]).
  { unfold _generate_random_configs, uniform, low_draws.
    cbn [mem existsb String.eqb Ascii.eqb Bool.eqb orb fst snd draws next
         dset].
    repeat f_equal; lra. }
  assert (Hmid : fst (_generate_random_configs ["owl_serrations"] mid_draws)
                 = [("owl_serrations",
                     VDict [("serration_depth_ratio", VReal 0.055);
                            ("serration_wavelength_ratio", VReal 0.0275)])]).
  { unfold _generate_random_configs, uniform, mid_draws.
    cbn [mem existsb String.eqb Ascii.eqb Bool.eqb orb fst snd draws next
         dset].
    repeat f_equal; lra. }
  do 7 eexists.
  split; [apply Hrun|]. split; [apply Hrun|].
  cbn [dget String.eqb Ascii.eqb Bool.eqb history].
  rewrite Hlow, Hmid.
  split; [reflexivity|]. split; [reflexivity|].
  split; [|split; [reflexivity | split; reflexivity]].
  intros H. injection H as H _. lra.
Qed.

End Optimisation.

(** * Further properties *)

(** ** Levels and scaling laws of the noise sources *)

Section NoiseLaws.

Import NoiseAnalyzer.

Lemma log10_div (x y : R) : 0 < x -> 0 < y -> log10 (x / y) = log10 x - log10 y.
Proof.
  intros Hx Hy.
  assert (H : log10 x = log10 (x / y) + log10 y).
  { rewrite <- log10_mult by (try apply Rdiv_lt_0_compat; assumption).
    f_equal. field. lra. }
  lra.
Qed.

Lemma log10_Rpower_base (x y : R) : 0 < x -> log10 (Rpower x y) = y * log10 x.
Proof.
  intros Hx. unfold log10, Rpower. rewrite ln_exp. field.
  pose proof ln_10_pos. lra.
Qed.

Lemma log10_pow (x : R) (n : nat) : 0 < x -> log10 (x ^ n) = INR n * log10 x.
Proof.
  intros Hx. unfold log10. rewrite ln_pow by exact Hx. field.
  pose proof ln_10_pos. lra.
Qed.

Lemma calculate_spl_value (self : t) (pressure distance : R) :
  0 < reference_pressure self -> 0 < pressure -> 0 < distance ->
  calculate_spl self pressure distance
  = Ok (20 * log10 (pressure / distance / reference_pressure self)).
Proof.
  intros Hr Hp Hd. unfold calculate_spl, calculate_spl_with.
  destruct (Rle_dec pressure 0); [lra|].
  rewrite pydiv_ok by lra. cbn [bind]. rewrite pydiv_ok by lra. cbn [bind].
  rewrite np_log10_ok; [reflexivity|].
  apply Rdiv_lt_0_compat; [apply Rdiv_lt_0_compat; lra | exact Hr].
Qed.

Lemma calculate_spl_silent (self : t) (pressure distance : R) :
  pressure <= 0 -> calculate_spl self pressure distance = Ok 0.
Proof.
  intros Hp. unfold calculate_spl, calculate_spl_with.
  destruct (Rle_dec pressure 0); [reflexivity | contradiction].
Qed.

(** X1.  [calculate_spl] answers 0 dB for a pressure that is not positive,
    whatever the distance; a positive pressure at distance 0 ends with
    [ZeroDivisionError]; and at a positive distance the level is
    [20 log10 (p / d / p_ref)], so that doubling the distance lowers it by
    [20 log10 2], about 6.02 dB. *)
Theorem spl_inverse_distance_law (self : t) (pressure distance : R) :
  0 < reference_pressure self ->
  (pressure <= 0 -> calculate_spl self pressure distance = Ok 0) /\
  (0 < pressure -> calculate_spl self pressure 0 = Raise ZeroDivisionError) /\
  (0 < pressure -> 0 < distance ->
   exists near far : R,
     calculate_spl self pressure distance = Ok near /\
     calculate_spl self pressure (2 * distance) = Ok far /\
     near = 20 * log10 (pressure / distance / reference_pressure self) /\
     near - far = 20 * log10 2).
Proof.
  intros Hr. split; [apply calculate_spl_silent|]. split.
  - intros Hp. unfold calculate_spl, calculate_spl_with, pydiv.
    destruct (Rle_dec pressure 0); [lra|].
    destruct (Req_dec_T 0 0); [reflexivity | lra].
  - intros Hp Hd. do 2 eexists.
    rewrite !calculate_spl_value by lra.
    split; [reflexivity|]. split; [reflexivity|]. split; [reflexivity|].
    set (q := pressure / distance / reference_pressure self).
    assert (Hq : 0 < q).
    { unfold q. apply Rdiv_lt_0_compat; [apply Rdiv_lt_0_compat; lra | lra]. }
    replace (pressure / (2 * distance) / reference_pressure self) with (q / 2)
      by (unfold q; field; lra).
    rewrite log10_div by lra. lra.
Qed.

Lemma spl_inverse_distance_law_witness :
  calculate_spl NoiseAnalyzer.default 0 1 = Ok 0 /\
  calculate_spl NoiseAnalyzer.default 1 0 = Raise ZeroDivisionError /\
  exists near far : R,
    calculate_spl NoiseAnalyzer.default 1 1 = Ok near /\
    calculate_spl NoiseAnalyzer.default 1 (2 * 1) = Ok far /\
    near - far = 20 * log10 2.
Proof.
  assert (Hr : 0 < reference_pressure NoiseAnalyzer.default) by (simpl; lra).
  split; [apply (spl_inverse_distance_law NoiseAnalyzer.default 0 1 Hr); lra|].
  split; [apply (spl_inverse_distance_law NoiseAnalyzer.default 1 1 Hr); lra|].
  destruct (spl_inverse_distance_law NoiseAnalyzer.default 1 1 Hr)
    as [_ [_ H]].
  destruct H as [near [far [H1 [H2 [_ H3]]]]]; try lra.
  exists near, far. repeat split; assumption.
Defined.

Lemma calculate_spl_with_value (divide : R -> R -> outcome R) (self : t)
    (pressure distance : R) :
  (forall x y, y <> 0 -> divide x y = Ok (x / y)) ->
  0 < reference_pressure self -> 0 < pressure -> 0 < distance ->
  calculate_spl_with divide self pressure distance
  = Ok (20 * log10 (pressure / distance / reference_pressure self)).
Proof.
  intros Hdiv Hr Hp Hd. unfold calculate_spl_with.
  destruct (Rle_dec pressure 0); [lra|].
  rewrite Hdiv by lra. cbn [bind]. rewrite Hdiv by lra. cbn [bind].
  rewrite np_log10_ok; [reflexivity|].
  apply Rdiv_lt_0_compat; [apply Rdiv_lt_0_compat; lra | exact Hr].
Qed.

(** The level of harmonic [h], for the source strength
    [c = 5e-3 tip_speed^4 (num_blades / 2)]. *)
Lemma harmonic_level (self : t) (c distance : R) (h : nat) :
  0 < reference_pressure self -> 0 < distance -> (0 < h)%nat ->
  exists s : R,
    calculate_spl self (c / (Rpower (INR h) 1.5 * distance ^ 2)) distance
    = Ok s /\
    (c <= 0 -> s = 0) /\
    (0 < c ->
     s = 20 * log10 (c / distance ^ 2 / distance / reference_pressure self)
         - 30 * log10 (INR h)).
Proof.
  intros Hr Hd Hh.
  assert (HI : 0 < INR h) by (apply lt_0_INR; exact Hh).
  assert (HP : 0 < Rpower (INR h) 1.5) by (unfold Rpower; apply exp_pos).
  assert (Hd2 : 0 < distance ^ 2) by (apply pow_lt; exact Hd).
  assert (Hden : 0 < Rpower (INR h) 1.5 * distance ^ 2)
    by (apply Rmult_lt_0_compat; assumption).
  destruct (Rle_dec c 0) as [Hc|Hc].
  - exists 0. split; [|split; [reflexivity | lra]].
    apply calculate_spl_silent.
    unfold Rdiv. rewrite <- (Rmult_0_l (/ (Rpower (INR h) 1.5 * distance ^ 2))).
    apply Rmult_le_compat_r; [left; apply Rinv_0_lt_compat; exact Hden | exact Hc].
  - assert (Hc' : 0 < c) by lra.
    exists (20 * log10 (c / distance ^ 2 / distance / reference_pressure self)
            - 30 * log10 (INR h)).
    split; [|split; [intros; exfalso; lra | intros _; reflexivity]].
    rewrite calculate_spl_value;
      [|exact Hr | apply Rdiv_lt_0_compat; assumption | exact Hd].
    f_equal.
    replace (c / (Rpower (INR h) 1.5 * distance ^ 2) / distance
             / reference_pressure self)
      with (c / distance ^ 2 / distance / reference_pressure self
            / Rpower (INR h) 1.5) by (field; lra).
    rewrite log10_div;
      [|repeat apply Rdiv_lt_0_compat; assumption | exact HP].
    rewrite log10_Rpower_base by exact HI. lra.
Qed.

(** X2.  [calculate_tonal_noise] returns the levels and frequencies of
    three harmonics, harmonic [h] at [h] times the blade passage frequency
    [rpm / 60 * num_blades].  With blades and a tip speed, harmonic [h] lies
    [30 log10 h] below the first (about 9.0 dB and 14.3 dB); without, all
    three levels are 0 dB. *)
Theorem tonal_harmonics_roll_off (self : t)
    (rpm num_blades tip_speed distance : R) :
  0 < reference_pressure self -> 0 < distance ->
  exists s1 s2 s3 : R,
    calculate_tonal_noise self rpm num_blades tip_speed distance
    = Ok [("BPF_harmonic_1", VReal s1);
          ("frequency_hz_1", VReal (rpm / 60.0 * num_blades * INR 1));
          ("BPF_harmonic_2", VReal s2);
          ("frequency_hz_2", VReal (rpm / 60.0 * num_blades * INR 2));
          ("BPF_harmonic_3", VReal s3);
          ("frequency_hz_3", VReal (rpm / 60.0 * num_blades * INR 3))] /\
    (0 < num_blades -> tip_speed <> 0 ->
     s2 = s1 - 30 * log10 2 /\ s3 = s1 - 30 * log10 3) /\
    (num_blades <= 0 \/ tip_speed = 0 -> s1 = 0 /\ s2 = 0 /\ s3 = 0).
Proof.
  intros Hr Hd.
  set (c := 5e-3 * tip_speed ^ 4 * (num_blades / 2.0)).
  assert (Hd2 : 0 < distance ^ 2) by (apply pow_lt; exact Hd).
  destruct (harmonic_level self c distance 1 Hr Hd ltac:(lia)) as [s1 [E1 [Z1 V1]]].
  destruct (harmonic_level self c distance 2 Hr Hd ltac:(lia)) as [s2 [E2 [Z2 V2]]].
  destruct (harmonic_level self c distance 3 Hr Hd ltac:(lia)) as [s3 [E3 [Z3 V3]]].
  exists s1, s2, s3. split; [|split].
  - unfold calculate_tonal_noise. cbn [tonal_loop].
    assert (Hstep : forall h : nat, (0 < h)%nat ->
              pypow (INR h) 1.5 = Ok (Rpower (INR h) 1.5) /\
              pydiv c (Rpower (INR h) 1.5 * distance ^ 2)
              = Ok (c / (Rpower (INR h) 1.5 * distance ^ 2))).
    { intros h Hh.
      assert (HI : 0 < INR h) by (apply lt_0_INR; exact Hh).
      split; [apply pypow_positive_base; exact HI|].
      apply pydiv_ok.
      assert (0 < Rpower (INR h) 1.5) by (unfold Rpower; apply exp_pos).
      nra. }
    destruct (Hstep 1%nat ltac:(lia)) as [P1 D1].
    destruct (Hstep 2%nat ltac:(lia)) as [P2 D2].
    destruct (Hstep 3%nat ltac:(lia)) as [P3 D3].
    fold c.
    rewrite P1. cbn [bind]. rewrite D1. cbn [bind]. rewrite E1. cbn [bind].
    rewrite P2. cbn [bind]. rewrite D2. cbn [bind]. rewrite E2. cbn [bind].
    rewrite P3. cbn [bind]. rewrite D3. cbn [bind]. rewrite E3. cbn [bind].
    reflexivity.
  - intros Hnb Hts.
    assert (Hc : 0 < c).
    { unfold c.
      assert (0 < tip_speed ^ 4).
      { replace (tip_speed ^ 4) with ((tip_speed ^ 2) ^ 2) by ring.
        apply pow_lt. apply Rsqr_pos_lt in Hts. unfold Rsqr in Hts. nra. }
      nra. }
    rewrite (V1 Hc), (V2 Hc), (V3 Hc).
    assert (H1 : log10 (INR 1) = 0).
    { simpl. unfold log10. rewrite ln_1. unfold Rdiv. ring. }
    rewrite H1.
    replace (INR 2) with 2 by (simpl; lra).
    replace (INR 3) with 3 by (simpl; lra).
    split; lra.
  - intros Hoff.
    assert (Hc : c <= 0).
    { unfold c. destruct Hoff as [Hnb | ->].
      - assert (0 <= tip_speed ^ 4).
        { replace (tip_speed ^ 4) with ((tip_speed ^ 2) ^ 2) by ring.
          apply pow2_ge_0. }
        nra.
      - replace (5e-3 * 0 ^ 4 * (num_blades / 2.0)) with 0 by (simpl; lra).
        lra. }
    rewrite (Z1 Hc), (Z2 Hc), (Z3 Hc). repeat split; reflexivity.
Qed.

Lemma tonal_harmonics_roll_off_witness :
  exists s1 s2 s3 : R,
    calculate_tonal_noise NoiseAnalyzer.default 5000 2 66.5 1
    = Ok [("BPF_harmonic_1", VReal s1);
          ("frequency_hz_1", VReal (5000 / 60.0 * 2 * INR 1));
          ("BPF_harmonic_2", VReal s2);
          ("frequency_hz_2", VReal (5000 / 60.0 * 2 * INR 2));
          ("BPF_harmonic_3", VReal s3);
          ("frequency_hz_3", VReal (5000 / 60.0 * 2 * INR 3))] /\
    s2 = s1 - 30 * log10 2 /\ s3 = s1 - 30 * log10 3.
Proof.
  destruct (tonal_harmonics_roll_off NoiseAnalyzer.default 5000 2 66.5 1)
    as [s1 [s2 [s3 [E [H _]]]]]; try (simpl; lra).
  exists s1, s2, s3. split; [exact E|]. apply H; lra.
Defined.

Lemma Rpower_scale (k x z : R) :
  0 < k -> 0 < x -> Rpower (k * x) z = Rpower k z * Rpower x z.
Proof. intros Hk Hx. symmetry. apply Rpower_mult_distr; assumption. Qed.

Lemma broadband_strength_pos (v a aoa : R) :
  0 < v -> 0 < a -> 0 < 1e-3 * v * a * (1.0 + 0.5 * Rabs aoa / 15.0).
Proof.
  intros Hv Ha. pose proof (Rabs_pos aoa).
  apply Rmult_lt_0_compat; [|lra].
  apply Rmult_lt_0_compat; [lra | exact Ha].
Qed.

Lemma broadband_value (self : t)
    (velocity chord thickness aoa distance : R) :
  0 < reference_pressure self -> 0 < distance ->
  0 < velocity -> 0 < chord * thickness ->
  calculate_broadband_noise self velocity chord thickness aoa distance
  = Ok (20 * log10 (1e-3 * Rpower velocity 5.5 * (chord * thickness)
                    * (1.0 + 0.5 * Rabs aoa / 15.0) / distance ^ 2
                    / distance / reference_pressure self)).
Proof.
  intros Hr Hd Hv Ha. unfold calculate_broadband_noise.
  rewrite pypow_positive_base by exact Hv. cbn [bind].
  assert (Hd2 : 0 < distance ^ 2) by (apply pow_lt; exact Hd).
  rewrite npdiv_ok by lra. cbn [bind].
  apply calculate_spl_with_value; [exact npdiv_ok | exact Hr | | exact Hd].
  assert (0 < Rpower velocity 5.5) by (unfold Rpower; apply exp_pos).
  apply Rdiv_lt_0_compat; [|exact Hd2].
  apply broadband_strength_pos; assumption.
Qed.

(** X3.  [calculate_broadband_noise] depends on the angle of attack
    through its absolute value, answers 0 dB at velocity 0, and follows the
    power law of the source: for a positive chord-thickness area, a
    velocity [k] times as large raises the level by [110 log10 k]. *)
Theorem broadband_velocity_law (self : t)
    (velocity chord thickness aoa distance k : R) :
  0 < reference_pressure self -> 0 < distance ->
  calculate_broadband_noise self velocity chord thickness (- aoa) distance
  = calculate_broadband_noise self velocity chord thickness aoa distance /\
  calculate_broadband_noise self 0 chord thickness aoa distance = Ok 0 /\
  (0 < velocity -> 0 < chord * thickness -> 0 < k ->
   exists s s' : R,
     calculate_broadband_noise self velocity chord thickness aoa distance
     = Ok s /\
     calculate_broadband_noise self (k * velocity) chord thickness aoa
       distance = Ok s' /\
     s' = s + 110 * log10 k).
Proof.
  intros Hr Hd. split; [|split].
  - unfold calculate_broadband_noise. rewrite Rabs_Ropp. reflexivity.
  - apply broadband_at_rest. lra.
  - intros Hv Ha Hk. do 2 eexists.
    rewrite !broadband_value by (try assumption; nra).
    split; [reflexivity|]. split; [reflexivity|].
    rewrite Rpower_scale by assumption.
    assert (HK : 0 < Rpower k 5.5) by (unfold Rpower; apply exp_pos).
    assert (HV : 0 < Rpower velocity 5.5) by (unfold Rpower; apply exp_pos).
    assert (Hd2 : 0 < distance ^ 2) by (apply pow_lt; exact Hd).
    pose proof (Rabs_pos aoa) as Habs.
    set (q := 1e-3 * Rpower velocity 5.5 * (chord * thickness)
              * (1.0 + 0.5 * Rabs aoa / 15.0) / distance ^ 2 / distance
              / reference_pressure self).
    assert (Hq : 0 < q).
    { unfold q. repeat apply Rdiv_lt_0_compat; try assumption.
      apply broadband_strength_pos; assumption. }
    replace (1e-3 * (Rpower k 5.5 * Rpower velocity 5.5) * (chord * thickness)
             * (1.0 + 0.5 * Rabs aoa / 15.0) / distance ^ 2 / distance
             / reference_pressure self)
      with (Rpower k 5.5 * q) by (unfold q; field; lra).
    rewrite log10_mult by assumption.
    rewrite log10_Rpower_base by exact Hk. lra.
Qed.

Lemma broadband_velocity_law_witness :
  calculate_broadband_noise NoiseAnalyzer.default 10 0.05 0.005 (- 5) 1
  = calculate_broadband_noise NoiseAnalyzer.default 10 0.05 0.005 5 1 /\
  exists s s' : R,
    calculate_broadband_noise NoiseAnalyzer.default 10 0.05 0.005 5 1 = Ok s /\
    calculate_broadband_noise NoiseAnalyzer.default (2 * 10) 0.05 0.005 5 1
    = Ok s' /\
    s' = s + 110 * log10 2.
Proof.
  destruct (broadband_velocity_law NoiseAnalyzer.default 10 0.05 0.005 5 1 2)
    as [Heven [_ Hlaw]]; try (simpl; lra).
  split; [exact Heven|]. apply Hlaw; lra.
Defined.

(** X4.  [calculate_vortex_noise] ends with [ZeroDivisionError] for a
    characteristic dimension of 0.  For a positive velocity and dimension
    the shedding frequency is [St v / d], and a velocity [k] times as large
    has [k] times the frequency and a level higher by [60 log10 k]. *)
Theorem vortex_shedding_law (self : t)
    (velocity diameter strouhal_number distance k : R) :
  0 < reference_pressure self -> 0 < distance ->
  calculate_vortex_noise self velocity 0 strouhal_number distance
  = Raise ZeroDivisionError /\
  (0 < velocity -> 0 < diameter -> 0 < k ->
   exists s s' : R,
     calculate_vortex_noise self velocity diameter strouhal_number distance
     = Ok (strouhal_number * velocity / diameter, s) /\
     calculate_vortex_noise self (k * velocity) diameter strouhal_number
       distance
     = Ok (k * (strouhal_number * velocity / diameter), s') /\
     s' = s + 60 * log10 k).
Proof.
  intros Hr Hd. split.
  - unfold calculate_vortex_noise, pydiv.
    destruct (Req_dec_T 0 0); [reflexivity | lra].
  - intros Hv Hdia Hk.
    assert (Hd2 : 0 < distance ^ 2) by (apply pow_lt; exact Hd).
    assert (Hrun : forall v : R, 0 < v ->
              calculate_vortex_noise self v diameter strouhal_number distance
              = Ok (strouhal_number * v / diameter,
                    20 * log10 (8e-4 * v ^ 3 * diameter / distance ^ 2
                                / distance / reference_pressure self))).
    { intros v Hv'. unfold calculate_vortex_noise.
      rewrite pydiv_ok by lra. cbn [bind].
      rewrite pydiv_ok by lra. cbn [bind].
      assert (0 < v ^ 3) by (apply pow_lt; exact Hv').
      rewrite calculate_spl_value; [reflexivity | exact Hr | | exact Hd].
      apply Rdiv_lt_0_compat; [|exact Hd2].
      repeat apply Rmult_lt_0_compat; lra. }
    do 2 eexists.
    rewrite (Hrun velocity Hv), (Hrun (k * velocity)) by nra.
    split; [reflexivity|]. split; [f_equal; f_equal; field; lra|].
    assert (HV : 0 < velocity ^ 3) by (apply pow_lt; exact Hv).
    assert (HK : 0 < k ^ 3) by (apply pow_lt; exact Hk).
    set (q := 8e-4 * velocity ^ 3 * diameter / distance ^ 2 / distance
              / reference_pressure self).
    assert (Hq : 0 < q).
    { unfold q. repeat apply Rdiv_lt_0_compat; try assumption.
      repeat apply Rmult_lt_0_compat; lra. }
    replace (8e-4 * (k * velocity) ^ 3 * diameter / distance ^ 2 / distance
             / reference_pressure self)
      with (k ^ 3 * q) by (unfold q; field; lra).
    rewrite log10_mult by assumption.
    rewrite log10_pow by exact Hk.
    replace (INR 3) with 3 by (simpl; lra). lra.
Qed.

Lemma vortex_shedding_law_witness :
  calculate_vortex_noise NoiseAnalyzer.default 10 0 0.2 1
  = Raise ZeroDivisionError /\
  exists s s' : R,
    calculate_vortex_noise NoiseAnalyzer.default 10 0.005 0.2 1
    = Ok (0.2 * 10 / 0.005, s) /\
    calculate_vortex_noise NoiseAnalyzer.default (2 * 10) 0.005 0.2 1
    = Ok (2 * (0.2 * 10 / 0.005), s') /\
    s' = s + 60 * log10 2.
Proof.
  destruct (vortex_shedding_law NoiseAnalyzer.default 10 0.005 0.2 1 2)
    as [Hzero Hlaw]; try (simpl; lra).
  split; [exact Hzero|]. apply Hlaw; lra.
Defined.

End NoiseLaws.

(** ** The metrics *)

Section MetricsLaws.

Import AeroacousticMetrics.

(** The reduction percentage against a baseline [b] of a ratio [m] that
    is a real number or [inf]. *)
Lemma reduction_cases (b m : pyfloat) :
  m <> NInf -> m <> NaN ->
  exists r : pyfloat,
    calculate_noise_reduction_percentage b m = Ok r /\
    (fle b (Fin 0) = true -> r = Fin 0) /\
    (b = PInf \/ b = NaN -> r = NaN) /\
    (forall x : R, b = Fin x -> 0 < x ->
       (m = PInf -> r = NInf) /\
       (forall y : R, m = Fin y -> r = Fin ((x - y) / x * 100.0))) /\
    (fge r (Fin 15.0) = true ->
     exists x y : R, b = Fin x /\ 0 < x /\ m = Fin y).
Proof.
  intros Hm Hn. unfold calculate_noise_reduction_percentage.
  destruct b as [x| | |].
  - cbn [fle]. destruct (Rle_dec x 0) as [Hx|Hx].
    + exists (Fin 0). split; [reflexivity|]. split; [reflexivity|].
      split; [intros [E|E]; discriminate|].
      split; [intros x' E; injection E as <-; lra|].
      cbn [fge fle]. destruct (Rle_dec 15.0 0); [lra | discriminate].
    + assert (Hx0 : x <> 0) by lra.
      destruct m as [y| | |]; try contradiction;
        cbn [fsub fdiv fdiv_with];
        (destruct (Req_dec_T x 0); [contradiction|]); cbn [bind].
      * exists (Fin ((x - y) / x * 100.0)). split; [reflexivity|].
        split; [discriminate|].
        split; [intros [E|E]; discriminate|].
        split.
        -- intros x' E Hpos. injection E as <-.
           split; [discriminate|]. intros y' E. injection E as <-.
           reflexivity.
        -- intros _. exists x, y. repeat split; [lra].
      * exists NInf. split.
        { unfold signed_inf. destruct (Rlt_dec 0 x); [|lra].
          cbn [fmul]. unfold signed_inf.
          destruct (Rlt_dec 0 100.0); [reflexivity | lra]. }
        split; [discriminate|].
        split; [intros [E|E]; discriminate|].
        split.
        -- intros x' E Hpos. split; [reflexivity | discriminate].
        -- discriminate.
  - cbn [fle].
    destruct m as [y| | |]; try contradiction;
      cbn [fsub fdiv fdiv_with bind fmul];
      (exists NaN; split; [reflexivity|]; split; [discriminate|];
       split; [reflexivity|]; split; [discriminate | discriminate]).
  - cbn [fle]. exists (Fin 0). split; [reflexivity|]. split; [reflexivity|].
    split; [intros [E|E]; discriminate|]. split; [discriminate|].
    cbn [fge fle]. destruct (Rle_dec 15.0 0); [lra | discriminate].
  - cbn [fle].
    destruct m as [y| | |]; try contradiction;
      cbn [fsub fdiv fdiv_with bind fmul];
      (exists NaN; split; [reflexivity|]; split; [discriminate|];
       split; [reflexivity|]; split; [discriminate | discriminate]).
Qed.

(** X5.  With a baseline NTR supplied, [evaluate_design_performance]
    returns whenever the three entries it computes with are numbers, and
    its target flag is the test [>= 15] of the reduction percentage that
    it returns beside it.  That percentage is 0 for a baseline that is not
    positive, nan for a baseline that is infinite or nan, and against a
    positive baseline [x] it is [-inf] for a design without thrust and
    [(x - total / (thrust / 1.0)) / x * 100] for a design with thrust.  So
    the target is met only by a design with thrust against a positive
    finite baseline. *)
Theorem target_flag_characterised
    (noise_results thrust_results : dict) (baseline : pyfloat)
    (total thrust power : R) :
  get_real noise_results "total_spl_db" 0 = Ok total ->
  get_real thrust_results "thrust_N" 0 = Ok thrust ->
  get_real thrust_results "power_W" 1 = Ok power ->
  exists (metrics : dict) (reduction : pyfloat),
    evaluate_design_performance noise_results thrust_results (Some baseline)
    = Ok metrics /\
    dget metrics "noise_reduction_percentage" = Some (VNum reduction) /\
    dget metrics "meets_15_percent_target"
    = Some (VBool (fge reduction (Fin 15.0))) /\
    (fle baseline (Fin 0) = true -> reduction = Fin 0) /\
    (baseline = PInf \/ baseline = NaN -> reduction = NaN) /\
    (forall x : R, baseline = Fin x -> 0 < x ->
       (thrust <= 0 -> reduction = NInf) /\
       (0 < thrust ->
        reduction = Fin ((x - total / (thrust / 1.0)) / x * 100.0))) /\
    (fge reduction (Fin 15.0) = true ->
     0 < thrust /\ exists x : R, baseline = Fin x /\ 0 < x).
Proof.
  intros Hn Ht Hp. unfold evaluate_design_performance.
  rewrite Hn, Ht, Hp. cbn [bind].
  destruct (acoustic_efficiency_returns total thrust power) as [e He].
  destruct (Rle_dec thrust 0) as [Hz|Hz].
  - rewrite ntr_nonpositive_thrust by exact Hz. rewrite He. cbn [bind].
    destruct (reduction_cases baseline PInf ltac:(discriminate)
                ltac:(discriminate))
      as [r [Er [Hlow [Hnan [Hpos Hflag]]]]].
    rewrite Er. cbn [bind]. do 2 eexists.
    split; [reflexivity|]. split; [reflexivity|]. split; [reflexivity|].
    split; [exact Hlow|]. split; [exact Hnan|]. split.
    + intros x Eb Hx. destruct (Hpos x Eb Hx) as [Hinf _].
      split; [intros _; apply Hinf; reflexivity | intros; lra].
    + intros H. destruct (Hflag H) as [x [y [_ [_ E]]]]. discriminate.
  - rewrite (ntr_positive_thrust total thrust 1.0) by lra.
    rewrite He. cbn [bind].
    destruct (reduction_cases baseline (Fin (total / (thrust / 1.0)))
                ltac:(discriminate) ltac:(discriminate))
      as [r [Er [Hlow [Hnan [Hpos Hflag]]]]].
    rewrite Er. cbn [bind]. do 2 eexists.
    split; [reflexivity|]. split; [reflexivity|]. split; [reflexivity|].
    split; [exact Hlow|]. split; [exact Hnan|]. split.
    + intros x Eb Hx. destruct (Hpos x Eb Hx) as [_ Hfin].
      split; [intros; lra | intros _; apply Hfin; reflexivity].
    + intros H. destruct (Hflag H) as [x [y [Eb [Hx _]]]].
      split; [lra|]. exists x. split; assumption.
Qed.

Lemma target_flag_characterised_witness :
  (exists metrics : dict,
      evaluate_design_performance
        [("total_spl_db", VReal 80)]
        [("thrust_N", VReal 10); ("power_W", VReal 100)]
        (Some (Fin 10)) = Ok metrics /\
      dget metrics "noise_reduction_percentage"
      = Some (VNum (Fin ((10 - 80 / (10 / 1.0)) / 10 * 100.0))) /\
      dget metrics "meets_15_percent_target" = Some (VBool true)) /\
  (exists metrics : dict,
      evaluate_design_performance
        [("total_spl_db", VReal 80)]
        [("thrust_N", VReal 0); ("power_W", VReal 100)]
        (Some (Fin 10)) = Ok metrics /\
      dget metrics "noise_reduction_percentage" = Some (VNum NInf) /\
      dget metrics "meets_15_percent_target" = Some (VBool false)).
Proof.
  split.
  - destruct (target_flag_characterised
                [("total_spl_db", VReal 80)]
                [("thrust_N", VReal 10); ("power_W", VReal 100)]
                (Fin 10) 80 10 100 eq_refl eq_refl eq_refl)
      as [metrics [r [E [Hr [Hf [_ [_ [Hpos _]]]]]]]].
    destruct (Hpos 10 eq_refl ltac:(lra)) as [_ Hfin].
    rewrite (Hfin ltac:(lra)) in Hr, Hf.
    exists metrics. split; [exact E|]. split; [exact Hr|].
    rewrite Hf. do 2 f_equal. cbn [fge fle].
    destruct (Rle_dec 15.0 ((10 - 80 / (10 / 1.0)) / 10 * 100.0)) as [H|H];
      [reflexivity | exfalso; apply H; lra].
  - destruct (target_flag_characterised
                [("total_spl_db", VReal 80)]
                [("thrust_N", VReal 0); ("power_W", VReal 100)]
                (Fin 10) 80 0 100 eq_refl eq_refl eq_refl)
      as [metrics [r [E [Hr [Hf [_ [_ [Hpos _]]]]]]]].
    destruct (Hpos 10 eq_refl ltac:(lra)) as [Hinf _].
    rewrite (Hinf ltac:(lra)) in Hr, Hf.
    exists metrics. split; [exact E|]. split; [exact Hr|]. exact Hf.
Defined.

(** X6.  [calculate_weighted_noise_metric] takes a level to a pressure
    and back: a spectrum of one SPL entry under the default weight comes
    back as that level, and under a weight [w] other than 0 as the level
    plus [20 log10 |w|]. *)
Theorem weighted_metric_round_trip (k : string) (s w : R) :
  contains "frequency_hz" k = false ->
  calculate_weighted_noise_metric [(k, VReal s)] None = Ok s /\
  (w <> 0 ->
   calculate_weighted_noise_metric [(k, VReal s)] (Some [(k, VReal w)])
   = Ok (s + 20 * log10 (Rabs w))).
Proof.
  intros Hk.
  assert (Hlevel : forall x : R, 0 < x ->
            20 * log10 (sqrt (x ^ 2 * Rpower 10 (s / 10) + 0))
            = s + 20 * log10 x).
  { intros x Hx.
    pose proof (Rpower_10_pos (s / 10)) as HX.
    assert (0 < x ^ 2) by (apply pow_lt; exact Hx).
    replace (x ^ 2 * Rpower 10 (s / 10) + 0) with (x ^ 2 * Rpower 10 (s / 10))
      by ring.
    rewrite log10_sqrt by (apply Rmult_lt_0_compat; assumption).
    rewrite log10_mult, log10_Rpower, log10_pow by assumption.
    replace (INR 2) with 2 by (simpl; lra). lra. }
  split.
  - destruct (weighted_metric_returns [(k, VReal s)] None) as [r Hr].
    { repeat constructor. eexists; reflexivity. }
    { constructor. }
    rewrite Hr. f_equal.
    apply weighted_metric_formula in Hr. destruct Hr as [Hr _].
    cbn [weights_or_empty spl_entries] in Hr. rewrite Hk in Hr.
    unfold get_value in Hr.
    cbn [dget real_of VReal weighted_energy fold_right fst snd] in Hr.
    rewrite Hr.
    + replace (1.0 ^ 2 * Rpower 10 (s / 10) + 0)
        with (1 ^ 2 * Rpower 10 (s / 10) + 0) by lra.
      rewrite Hlevel by lra.
      assert (H1 : log10 1 = 0) by (unfold log10; rewrite ln_1; lra).
      lra.
    + pose proof (Rpower_10_pos (s / 10)). lra.
  - intros Hw.
    destruct (weighted_metric_returns [(k, VReal s)] (Some [(k, VReal w)]))
      as [r Hr].
    { repeat constructor. eexists; reflexivity. }
    { repeat constructor. eexists; reflexivity. }
    rewrite Hr. f_equal.
    apply weighted_metric_formula in Hr. destruct Hr as [Hr _].
    cbn [weights_or_empty spl_entries] in Hr. rewrite Hk in Hr.
    unfold get_value in Hr. cbn [dget] in Hr.
    rewrite String.eqb_refl in Hr.
    cbn [real_of VReal weighted_energy fold_right fst snd] in Hr.
    assert (Hpos : 0 < Rabs w) by (apply Rabs_pos_lt; exact Hw).
    rewrite <- (pow2_abs w) in Hr.
    rewrite Hr.
    + apply Hlevel. exact Hpos.
    + pose proof (Rpower_10_pos (s / 10)).
      assert (0 < Rabs w ^ 2) by (apply pow_lt; exact Hpos). nra.
Qed.

Lemma weighted_metric_round_trip_witness :
  calculate_weighted_noise_metric [("BPF_harmonic_1", VReal 70)] None
  = Ok 70 /\
  calculate_weighted_noise_metric [("BPF_harmonic_1", VReal 70)]
    (Some [("BPF_harmonic_1", VReal 2)])
  = Ok (70 + 20 * log10 (Rabs 2)).
Proof.
  destruct (weighted_metric_round_trip "BPF_harmonic_1" 70 2 eq_refl)
    as [H1 H2].
  split; [exact H1 | apply H2; lra].
Defined.

Lemma weighted_loop_skip (p_ref : R) (s1 s2 weights : dict) (k : string)
    (v : value) :
  contains "frequency_hz" k = true ->
  forall acc : R,
    weighted_loop p_ref (s1 ++ (k, v) :: s2) weights acc
    = weighted_loop p_ref (s1 ++ s2) weights acc.
Proof.
  intros Hk. induction s1 as [|[k1 v1] s1 IH]; intros acc.
  - cbn [app weighted_loop]. rewrite Hk. reflexivity.
  - cbn [app weighted_loop]. destruct (contains "frequency_hz" k1); [apply IH|].
    destruct (as_real v1) as [x|e]; [|reflexivity]. cbn [bind].
    destruct (as_real _) as [y|e]; [|reflexivity]. cbn [bind]. apply IH.
Qed.

Lemma weighted_loop_permutation (p_ref : R) (weights s1 s2 : dict) :
  Permutation s1 s2 ->
  forall acc total : R,
    weighted_loop p_ref s1 weights acc = Ok total ->
    weighted_loop p_ref s2 weights acc = Ok total.
Proof.
  induction 1 as [|[k v] l l' Hperm IH|[k1 v1] [k2 v2] l|l l' l'' H1 IH1 H2 IH2];
    intros acc total H.
  - exact H.
  - cbn [weighted_loop] in *.
    destruct (contains "frequency_hz" k); [apply IH; exact H|].
    bind_inv H x Ex. bind_inv H y Ey. rewrite Ex, Ey. cbn [bind].
    apply IH. exact H.
  - cbn [weighted_loop] in *.
    destruct (contains "frequency_hz" k1), (contains "frequency_hz" k2);
      try exact H.
    bind_inv H x1 Ex1. bind_inv H y1 Ey1. bind_inv H x2 Ex2. bind_inv H y2 Ey2.
    rewrite Ex2, Ey2. cbn [bind]. rewrite Ex1, Ey1. cbn [bind].
    rewrite <- H. f_equal. ring.
  - apply IH2, IH1, H.
Qed.

(** X7.  [calculate_weighted_noise_metric] sums whatever the order of the
    spectrum: two spectra with the same entries in another order return
    the same level.  An entry whose label contains [frequency_hz] is
    skipped, whatever its value: leaving it out changes nothing. *)
Theorem weighted_metric_order_and_frequencies :
  (forall (s1 s2 : dict) (weights : option dict) (r : R),
      Permutation s1 s2 ->
      calculate_weighted_noise_metric s1 weights = Ok r ->
      calculate_weighted_noise_metric s2 weights = Ok r) /\
  (forall (s1 s2 : dict) (k : string) (v : value) (weights : option dict),
      contains "frequency_hz" k = true ->
      calculate_weighted_noise_metric (s1 ++ (k, v) :: s2) weights
      = calculate_weighted_noise_metric (s1 ++ s2) weights).
Proof.
  split.
  - intros s1 s2 weights r Hperm H.
    unfold calculate_weighted_noise_metric in *.
    destruct s1 as [|e1 s1].
    + apply Permutation_nil in Hperm. subst s2. exact H.
    + destruct s2 as [|e2 s2];
        [apply Permutation_sym, Permutation_nil in Hperm; discriminate|].
      bind_inv H total Et.
      rewrite (weighted_loop_permutation _ _ _ _ Hperm _ _ Et). cbn [bind].
      exact H.
  - intros s1 s2 k v weights Hk.
    unfold calculate_weighted_noise_metric.
    assert (Hloop := weighted_loop_skip 2e-5 s1 s2
                       (match weights with None => [] | Some w => w end)
                       k v Hk 0.0).
    destruct (s1 ++ (k, v) :: s2) as [|e l] eqn:E1;
      [destruct s1; discriminate|].
    rewrite Hloop.
    destruct (s1 ++ s2) as [|e' l'] eqn:E2; [|reflexivity].
    cbn [weighted_loop bind].
    destruct (Rlt_dec 0 0.0); [lra | reflexivity].
Qed.

Lemma weighted_metric_order_and_frequencies_witness :
  calculate_weighted_noise_metric
    [("frequency_hz_1", VStr "166 Hz"); ("BPF_harmonic_1", VReal 70)] None
  = calculate_weighted_noise_metric [("BPF_harmonic_1", VReal 70)] None.
Proof.
  destruct weighted_metric_order_and_frequencies as [_ H].
  apply (H [] [("BPF_harmonic_1", VReal 70)] "frequency_hz_1"
           (VStr "166 Hz") None).
  reflexivity.
Defined.

End MetricsLaws.

(** ** Thrust *)

Section ThrustLaws.

Import ThrustCalculator.

(** X8.  [calculate_thrust_momentum_theory] does not use the rotation
    speed it is given.  For an air density and a power whose product is
    not negative it returns a thrust [T >= 0] with
    [T^2 = 2 rho pi (d/2)^2 P], and twice the diameter gives twice the
    thrust. *)
Theorem momentum_thrust_law (self : t) (rpm rpm' diameter power : R) :
  calculate_thrust_momentum_theory self rpm diameter power
  = calculate_thrust_momentum_theory self rpm' diameter power /\
  (0 <= air_density self * power ->
   exists thrust : R,
     calculate_thrust_momentum_theory self rpm diameter power = Ok thrust /\
     0 <= thrust /\
     thrust ^ 2 = 2 * air_density self * (PI * (diameter / 2.0) ^ 2) * power /\
     calculate_thrust_momentum_theory self rpm (2 * diameter) power
     = Ok (2 * thrust)).
Proof.
  split; [reflexivity|]. intros Hpos.
  unfold calculate_thrust_momentum_theory.
  pose proof PI_RGT_0 as Hpi.
  set (x := 2 * air_density self * (PI * (diameter / 2.0) ^ 2) * power).
  assert (Hx : 0 <= x).
  { unfold x. pose proof (pow2_ge_0 (diameter / 2.0)).
    replace (2 * air_density self * (PI * (diameter / 2.0) ^ 2) * power)
      with (2 * (air_density self * power) * (PI * (diameter / 2.0) ^ 2))
      by ring.
    apply Rmult_le_pos; [lra|]. apply Rmult_le_pos; lra. }
  exists (sqrt x). rewrite np_sqrt_ok by exact Hx.
  split; [reflexivity|]. split; [apply sqrt_pos|]. split.
  - simpl. rewrite Rmult_1_r. apply sqrt_sqrt. exact Hx.
  - replace (2 * air_density self * (PI * (2 * diameter / 2.0) ^ 2) * power)
      with (2 ^ 2 * x)
      by (unfold x; replace (2 * diameter / 2.0) with (2 * (diameter / 2.0))
            by lra; ring).
    rewrite np_sqrt_ok by nra. f_equal.
    rewrite sqrt_mult by (try apply pow2_ge_0; lra).
    rewrite sqrt_pow2 by lra. reflexivity.
Qed.

Lemma momentum_thrust_law_witness :
  calculate_thrust_momentum_theory ThrustCalculator.default 5000 0.254 100
  = calculate_thrust_momentum_theory ThrustCalculator.default 0 0.254 100 /\
  exists thrust : R,
    calculate_thrust_momentum_theory ThrustCalculator.default 5000 0.254 100
    = Ok thrust /\
    calculate_thrust_momentum_theory ThrustCalculator.default 5000
      (2 * 0.254) 100 = Ok (2 * thrust).
Proof.
  destruct (momentum_thrust_law ThrustCalculator.default 5000 0 0.254 100)
    as [Hrpm Hlaw].
  split; [exact Hrpm|].
  destruct Hlaw as [T [E [_ [_ E2]]]]; [simpl; lra|].
  exists T. split; assumption.
Defined.

(** X9.  Zero denominators in the thrust calculator.
    [calculate_advance_ratio] and [calculate_thrust_coefficient] never
    raise: they answer 0 when their denominator [n D] or [rho n^2 D^4] is
    0, with [n = rpm / 60], and otherwise the quotient, which times the
    denominator is the velocity or the thrust again.
    [calculate_figure_of_merit] guards the power and not the disk: a power
    that is not positive gives 0, also for a radius of 0, and a positive
    power with a radius or an air density of 0 ends with
    [ZeroDivisionError]. *)
Theorem thrust_ratios_at_zero (self : t)
    (forward_velocity thrust power rpm diameter radius : R) :
  (exists j ct : R,
      calculate_advance_ratio self forward_velocity rpm diameter = Ok j /\
      calculate_thrust_coefficient self thrust rpm diameter = Ok ct /\
      (rpm / 60.0 * diameter = 0 -> j = 0) /\
      (rpm / 60.0 * diameter <> 0 ->
       j * (rpm / 60.0 * diameter) = forward_velocity) /\
      (air_density self * (rpm / 60.0) ^ 2 * diameter ^ 4 = 0 -> ct = 0) /\
      (air_density self * (rpm / 60.0) ^ 2 * diameter ^ 4 <> 0 ->
       ct * (air_density self * (rpm / 60.0) ^ 2 * diameter ^ 4) = thrust))
  /\
  (power <= 0 -> calculate_figure_of_merit self thrust power radius = Ok 0)
  /\
  (0 < power -> air_density self = 0 \/ radius = 0 ->
   calculate_figure_of_merit self thrust power radius
   = Raise ZeroDivisionError).
Proof.
  split; [|split].
  - unfold calculate_advance_ratio, calculate_thrust_coefficient.
    set (nd := rpm / 60.0 * diameter).
    set (den := air_density self * (rpm / 60.0) ^ 2 * diameter ^ 4).
    destruct (Req_dec_T nd 0) as [Hnd|Hnd];
      destruct (Req_dec_T den 0) as [Hden|Hden];
      try rewrite (pydiv_ok _ nd) by exact Hnd;
      try rewrite (pydiv_ok _ den) by exact Hden;
      do 2 eexists; (split; [reflexivity|]); (split; [reflexivity|]);
      repeat split; intros; try reflexivity; try contradiction;
      unfold Rdiv; rewrite Rmult_assoc, Rinv_l by assumption; ring.
  - unfold calculate_figure_of_merit. intros Hp.
    destruct (Rle_dec power 0); [reflexivity | contradiction].
  - unfold calculate_figure_of_merit. intros Hp Hz.
    destruct (Rle_dec power 0); [lra|].
    assert (E : 2 * air_density self * (PI * radius ^ 2) = 0).
    { destruct Hz as [-> | ->]; simpl; ring. }
    unfold pydiv. rewrite E.
    destruct (Req_dec_T 0 0); [reflexivity | lra].
Qed.

Lemma thrust_ratios_at_zero_witness :
  calculate_advance_ratio ThrustCalculator.default 10 0 0.254 = Ok 0 /\
  calculate_figure_of_merit ThrustCalculator.default 5 0 0 = Ok 0 /\
  calculate_figure_of_merit ThrustCalculator.default 5 100 0
  = Raise ZeroDivisionError.
Proof.
  destruct (thrust_ratios_at_zero ThrustCalculator.default 10 5 0 0 0.254 0)
    as [[j [ct [Ej [_ [Hj _]]]]] [H0 _]].
  destruct (thrust_ratios_at_zero ThrustCalculator.default 10 5 100 0 0.254 0)
    as [_ [_ H1]].
  split; [|split].
  - rewrite Ej. f_equal. apply Hj. unfold Rdiv. ring.
  - apply H0. lra.
  - apply H1; [lra | right; reflexivity].
Defined.

Lemma blade_loop_scale (self : t)
    (omega radius chord_root chord_tip pitch cl_slope dr nb k c : R)
    (rs : list R) :
  forall aT aQ T Q : R,
    blade_loop self omega radius chord_root chord_tip pitch cl_slope dr nb
      rs aT aQ = Ok (T, Q) ->
    blade_loop self (c * omega) radius chord_root chord_tip pitch cl_slope dr
      (k * nb) rs (k * c ^ 2 * aT) (k * c ^ 2 * aQ)
    = Ok (k * c ^ 2 * T, k * c ^ 2 * Q).
Proof.
  induction rs as [|r rs IH]; intros aT aQ T Q H.
  - cbn [blade_loop] in *. injection H as <- <-. reflexivity.
  - cbn [blade_loop] in *. bind_inv H x Ex. rewrite Ex. cbn [bind].
    apply IH in H. rewrite <- H. f_equal; ring.
Qed.

(** X10.  In [calculate_thrust_blade_element] thrust and torque are
    proportional to the blade count and to the square of the rotation
    speed, and the power to its cube: when a call returns, the call with
    [k] times the blades and [c] times the rpm returns [k c^2] times the
    thrust and torque and [k c^3] times the power. *)
Theorem blade_element_scaling (self : t) (rpm num_blades k c : R)
    (blade_params : dict) (num_elements : Z)
    (thrust torque power efficiency : R) :
  0 < k -> 0 < c ->
  calculate_thrust_blade_element self rpm blade_params num_blades num_elements
  = Ok [("thrust_N", VReal thrust); ("torque_Nm", VReal torque);
        ("power_W", VReal power); ("efficiency", VReal efficiency)] ->
  exists efficiency' : R,
    calculate_thrust_blade_element self (c * rpm) blade_params
      (k * num_blades) num_elements
    = Ok [("thrust_N", VReal (k * c ^ 2 * thrust));
          ("torque_Nm", VReal (k * c ^ 2 * torque));
          ("power_W", VReal (k * c ^ 3 * power));
          ("efficiency", VReal efficiency')].
Proof.
  intros Hk Hc H. unfold calculate_thrust_blade_element in *.
  bind_inv H radius E1. bind_inv H chord_root E2. bind_inv H chord_tip E3.
  bind_inv H pitch E4. bind_inv H slope E5. bind_inv H rs E6.
  bind_inv H r1 E7. bind_inv H r0 E8.
  apply bind_Ok_inv in H. destruct H as [[T Q] [E9 H]].
  bind_inv H eff E10.
  injection H as ET EQ EP _. subst thrust torque power.
  rewrite E1, E2, E3, E4, E5. cbn [bind]. rewrite E6. cbn [bind].
  rewrite E7, E8. cbn [bind].
  replace (c * rpm * 2 * PI / 60.0) with (c * (rpm * 2 * PI / 60.0))
    by (unfold Rdiv; ring).
  set (omega := rpm * 2 * PI / 60.0) in *.
  apply (blade_loop_scale _ _ _ _ _ _ _ _ _ k c) in E9.
  replace (k * c ^ 2 * 0.0) with 0.0 in E9 by lra.
  rewrite E9. cbn [bind].
  assert (Ks : 0 < k * c ^ 2) by (apply Rmult_lt_0_compat; [|apply pow_lt]; lra).
  destruct (Rlt_dec 0 (Q * omega)) as [Hp|Hp].
  - bind_inv E10 q Eq. bind_inv E10 v Ev.
    assert (Hden : 2 * air_density self * PI * radius ^ 2 <> 0).
    { unfold npdiv in Eq. destruct (Req_dec_T _ 0); [discriminate | assumption]. }
    assert (Hq : 0 <= q).
    { unfold np_sqrt in Ev. destruct (Rle_dec 0 q); [assumption | discriminate]. }
    rewrite (npdiv_ok _ _ Hden) in Eq. injection Eq as Eq.
    assert (Hp' : 0 < k * c ^ 2 * Q * (c * omega)).
    { replace (k * c ^ 2 * Q * (c * omega)) with (k * c ^ 2 * c * (Q * omega))
        by ring.
      apply Rmult_lt_0_compat; [|exact Hp]. apply Rmult_lt_0_compat; lra. }
    destruct (Rlt_dec 0 (k * c ^ 2 * Q * (c * omega))); [|contradiction].
    rewrite npdiv_ok by exact Hden. cbn [bind].
    rewrite np_sqrt_ok.
    + cbn [bind]. rewrite npdiv_ok by lra. cbn [bind].
      replace (k * c ^ 2 * Q * (c * omega)) with (k * c ^ 3 * (Q * omega))
        by ring.
      eexists. reflexivity.
    + subst q. change (radius * (radius * 1)) with (radius ^ 2) in Hq.
      unfold Rdiv in *. rewrite Rmult_assoc. apply Rmult_le_pos; lra.
  - assert (Hp' : ~ 0 < k * c ^ 2 * Q * (c * omega)).
    { replace (k * c ^ 2 * Q * (c * omega)) with (k * c ^ 2 * c * (Q * omega))
        by ring.
      intros Hpos. apply Hp.
      assert (Hs : 0 < k * c ^ 2 * c) by (apply Rmult_lt_0_compat; lra).
      nra. }
    destruct (Rlt_dec 0 (k * c ^ 2 * Q * (c * omega))); [contradiction|].
    cbn [bind].
    replace (k * c ^ 2 * Q * (c * omega)) with (k * c ^ 3 * (Q * omega))
      by ring.
    eexists. reflexivity.
Qed.

Lemma blade_element_scaling_witness :
  exists thrust torque power efficiency efficiency' : R,
    calculate_thrust_blade_element ThrustCalculator.default 5000 [] 2 20
    = Ok [("thrust_N", VReal thrust); ("torque_Nm", VReal torque);
          ("power_W", VReal power); ("efficiency", VReal efficiency)] /\
    calculate_thrust_blade_element ThrustCalculator.default (2 * 5000) []
      (1.5 * 2) 20
    = Ok [("thrust_N", VReal (1.5 * 2 ^ 2 * thrust));
          ("torque_Nm", VReal (1.5 * 2 ^ 2 * torque));
          ("power_W", VReal (1.5 * 2 ^ 3 * power));
          ("efficiency", VReal efficiency')].
Proof.
  destruct (blade_element_returns ThrustCalculator.default 5000 [] 2 20)
    as [T [Q [P [e [E _]]]]];
    try (simpl; lra); try lia; try exact I.
  destruct (blade_element_scaling ThrustCalculator.default 5000 2 1.5 2 [] 20
              T Q P e ltac:(lra) ltac:(lra) E) as [e' E'].
  exists T, Q, P, e, e'. split; assumption.
Defined.

(** X11.  [calculate_thrust_blade_element] needs two blade elements: with
    numbers for the blade parameters, a negative element count ends with
    [ValueError] and a count of 0 or 1 with [IndexError]. *)
Theorem blade_element_needs_two_elements (self : t) (rpm num_blades : R)
    (blade_params : dict) (num_elements : Z) :
  real_entry blade_params "radius" ->
  real_entry blade_params "chord_root" ->
  real_entry blade_params "chord_tip" ->
  real_entry blade_params "pitch_angle" ->
  real_entry blade_params "cl_slope" ->
  ((num_elements < 0)%Z ->
   calculate_thrust_blade_element self rpm blade_params num_blades
     num_elements = Raise ValueError) /\
  ((0 <= num_elements < 2)%Z ->
   calculate_thrust_blade_element self rpm blade_params num_blades
     num_elements = Raise IndexError).
Proof.
  intros Hr Hcr Hct Hp Hs.
  destruct (get_real_returns _ _ 0.127 Hr) as [radius Er].
  destruct (get_real_returns _ _ 0.03 Hcr) as [croot Ecr].
  destruct (get_real_returns _ _ 0.015 Hct) as [ctip Ect].
  destruct (get_real_returns _ _ 10.0 Hp) as [pitch Ep].
  destruct (get_real_returns _ _ (2 * PI) Hs) as [slope Es].
  unfold calculate_thrust_blade_element.
  rewrite Er, Ecr, Ect, Ep, Es. cbn [bind]. unfold linspace.
  split; intros Hn.
  - apply Z.ltb_lt in Hn. rewrite Hn. reflexivity.
  - assert (Hcase : num_elements = 0%Z \/ num_elements = 1%Z) by lia.
    destruct Hcase as [-> | ->]; reflexivity.
Qed.

Lemma blade_element_needs_two_elements_witness :
  calculate_thrust_blade_element ThrustCalculator.default 5000 [] 2 (-1)
  = Raise ValueError /\
  calculate_thrust_blade_element ThrustCalculator.default 5000 [] 2 1
  = Raise IndexError.
Proof.
  destruct (blade_element_needs_two_elements ThrustCalculator.default 5000 2
              [] (-1) I I I I I) as [H1 _].
  destruct (blade_element_needs_two_elements ThrustCalculator.default 5000 2
              [] 1 I I I I I) as [_ H2].
  split; [apply H1; lia | apply H2; lia].
Defined.

End ThrustLaws.

(** ** Feature models *)

Section FeatureLaws.

Lemma pymin_unit_interval (a : R) : 0 <= a -> 0 <= pymin a 1.0 <= 1.
Proof. intros H. unfold pymin. destruct (Rlt_dec 1.0 a); lra. Qed.

Lemma pymin_monotone (a b c : R) : a <= b -> pymin a c <= pymin b c.
Proof.
  intros H. unfold pymin.
  destruct (Rlt_dec c a); destruct (Rlt_dec c b); lra.
Qed.

Lemma degrees_atan_bound (x : R) : -90 < degrees (atan x) < 90.
Proof.
  pose proof PI_RGT_0 as Hpi. pose proof (atan_bound x) as [Hl Hu].
  unfold degrees.
  assert (Hk : 0 < 180 / PI) by (apply Rdiv_lt_0_compat; lra).
  assert (E : PI / 2 * (180 / PI) = 90) by (field; lra).
  split.
  - assert (H : - (PI / 2) * (180 / PI) < atan x * (180 / PI))
      by (apply Rmult_lt_compat_r; lra).
    replace (- (PI / 2) * (180 / PI)) with (- (PI / 2 * (180 / PI))) in H
      by ring.
    lra.
  - rewrite <- E. apply Rmult_lt_compat_r; lra.
Qed.

(** X12.  [calculate_serration_geometry] ends with [ZeroDivisionError]
    exactly when the chord times the wavelength ratio is 0, whether or not
    a serration count is given.  Otherwise it returns the depth and the
    wavelength as the chord times their ratios, a count given is returned
    as it is, and the serration angle is [atan (2 depth_ratio /
    wavelength_ratio)] in degrees: between -90 and 90 and the same for
    every chord. *)
Theorem serration_geometry_law
    (chord_length serration_depth_ratio serration_wavelength_ratio : R)
    (num_serrations : option Z) :
  (chord_length * serration_wavelength_ratio = 0 ->
   OwlWingSerrations.calculate_serration_geometry chord_length
     serration_depth_ratio serration_wavelength_ratio num_serrations
   = Raise ZeroDivisionError) /\
  (chord_length * serration_wavelength_ratio <> 0 ->
   exists (count : Z) (angle : R),
     OwlWingSerrations.calculate_serration_geometry chord_length
       serration_depth_ratio serration_wavelength_ratio num_serrations
     = Ok [("depth_m", VReal (chord_length * serration_depth_ratio));
           ("wavelength_m", VReal (chord_length * serration_wavelength_ratio));
           ("num_serrations", VReal (IZR count));
           ("angle_deg", VReal angle);
           ("depth_ratio", VReal serration_depth_ratio);
           ("wavelength_ratio", VReal serration_wavelength_ratio)] /\
     (forall k : Z, num_serrations = Some k -> count = k) /\
     angle
     = degrees (atan (2 * serration_depth_ratio / serration_wavelength_ratio))
     /\ -90 < angle < 90).
Proof.
  unfold OwlWingSerrations.calculate_serration_geometry. split.
  - intros Hz. unfold pydiv. rewrite Hz.
    destruct num_serrations as [k|]; cbn [bind].
    + destruct (Req_dec_T (0 / 2) 0); [reflexivity | lra].
    + destruct (Req_dec_T 0 0); [reflexivity | lra].
  - intros Hnz.
    assert (Hc : chord_length <> 0) by (intros ->; apply Hnz; ring).
    assert (Hw : serration_wavelength_ratio <> 0)
      by (intros ->; apply Hnz; ring).
    assert (E : chord_length * serration_depth_ratio
                / (chord_length * serration_wavelength_ratio / 2)
                = 2 * serration_depth_ratio / serration_wavelength_ratio)
      by (field; split; assumption).
    destruct num_serrations as [k|]; cbn [bind].
    + rewrite pydiv_ok by lra. cbn [bind]. rewrite E.
      eexists k, _. split; [reflexivity|]. split; [congruence|].
      split; [reflexivity | apply degrees_atan_bound].
    + rewrite pydiv_ok by exact Hnz. cbn [bind].
      rewrite pydiv_ok by lra. cbn [bind]. rewrite E.
      eexists _, _. split; [reflexivity|]. split; [discriminate|].
      split; [reflexivity | apply degrees_atan_bound].
Qed.

Lemma serration_geometry_law_witness :
  OwlWingSerrations.calculate_serration_geometry 0 0.05 0.02 (Some 25%Z)
  = Raise ZeroDivisionError /\
  exists angle : R,
    OwlWingSerrations.calculate_serration_geometry 0.05 0.05 0.02 (Some 25%Z)
    = Ok [("depth_m", VReal (0.05 * 0.05));
          ("wavelength_m", VReal (0.05 * 0.02));
          ("num_serrations", VReal 25);
          ("angle_deg", VReal angle);
          ("depth_ratio", VReal 0.05);
          ("wavelength_ratio", VReal 0.02)] /\
    angle = degrees (atan (2 * 0.05 / 0.02)).
Proof.
  split.
  - apply (serration_geometry_law 0 0.05 0.02 (Some 25%Z)). lra.
  - destruct (serration_geometry_law 0.05 0.05 0.02 (Some 25%Z))
      as [_ H].
    destruct H as [count [angle [E [Hk [Ha _]]]]]; [lra|].
    rewrite (Hk 25%Z eq_refl) in E. exists angle. split; assumption.
Defined.

(** X13.  [calculate_tubercle_geometry] fits the tubercles to the span:
    for a span and a wavelength ratio other than 0 and no count given it
    returns at least 3 tubercles, a wavelength that times the count is the
    span, and as wavelength ratio one over the count, whatever ratio was
    asked for.  A span of 0, a wavelength ratio of 0 with no count, and a
    count of 0 end with [ZeroDivisionError]. *)
Theorem tubercle_geometry_law
    (blade_span amplitude_ratio wavelength_ratio : R)
    (num_tubercles : option Z) :
  (blade_span = 0 ->
   HumpbackWhaleTubercles.calculate_tubercle_geometry blade_span
     amplitude_ratio wavelength_ratio num_tubercles
   = Raise ZeroDivisionError) /\
  (num_tubercles = Some 0%Z ->
   HumpbackWhaleTubercles.calculate_tubercle_geometry blade_span
     amplitude_ratio wavelength_ratio num_tubercles
   = Raise ZeroDivisionError) /\
  (num_tubercles = None -> wavelength_ratio = 0 ->
   HumpbackWhaleTubercles.calculate_tubercle_geometry blade_span
     amplitude_ratio wavelength_ratio num_tubercles
   = Raise ZeroDivisionError) /\
  (num_tubercles = None -> blade_span <> 0 -> wavelength_ratio <> 0 ->
   exists (count : Z) (wavelength ratio : R),
     HumpbackWhaleTubercles.calculate_tubercle_geometry blade_span
       amplitude_ratio wavelength_ratio num_tubercles
     = Ok [("num_tubercles", VReal (IZR count));
           ("wavelength_m", VReal wavelength);
           ("amplitude_ratio", VReal amplitude_ratio);
           ("wavelength_ratio", VReal ratio);
           ("span_m", VReal blade_span)] /\
     (3 <= count)%Z /\
     wavelength * IZR count = blade_span /\
     ratio * IZR count = 1).
Proof.
  unfold HumpbackWhaleTubercles.calculate_tubercle_geometry.
  split; [|split; [|split]].
  - intros ->. unfold pydiv. destruct num_tubercles as [k|]; cbn [bind].
    + destruct (Req_dec_T (IZR k) 0); [reflexivity|]. cbn [bind].
      destruct (Req_dec_T 0 0); [reflexivity | lra].
    + replace (0 * wavelength_ratio) with 0 by ring.
      destruct (Req_dec_T 0 0); [reflexivity | lra].
  - intros ->. cbn [bind]. unfold pydiv.
    destruct (Req_dec_T 0 0); [reflexivity | lra].
  - intros -> ->. unfold pydiv.
    replace (blade_span * 0) with 0 by ring.
    destruct (Req_dec_T 0 0); [reflexivity | lra].
  - intros -> Hs Hw.
    rewrite pydiv_ok by (apply Rmult_integral_contrapositive_currified;
                         assumption).
    cbn [bind].
    set (count := Z.max 3 (pyint (blade_span / (blade_span * wavelength_ratio)))).
    assert (Hc : (3 <= count)%Z) by (unfold count; lia).
    assert (Hcr : IZR count <> 0).
    { apply not_0_IZR. lia. }
    rewrite pydiv_ok by exact Hcr. cbn [bind].
    rewrite pydiv_ok by exact Hs. cbn [bind].
    eexists count, _, _. split; [reflexivity|]. split; [exact Hc|].
    split; field; try split; assumption.
Qed.

Lemma tubercle_geometry_law_witness :
  HumpbackWhaleTubercles.calculate_tubercle_geometry 0.127 0.12 0.25
    (Some 0%Z) = Raise ZeroDivisionError /\
  exists (count : Z) (wavelength ratio : R),
    HumpbackWhaleTubercles.calculate_tubercle_geometry 0.127 0.12 0.4 None
    = Ok [("num_tubercles", VReal (IZR count));
          ("wavelength_m", VReal wavelength);
          ("amplitude_ratio", VReal 0.12);
          ("wavelength_ratio", VReal ratio);
          ("span_m", VReal 0.127)] /\
    (3 <= count)%Z /\ ratio * IZR count = 1.
Proof.
  destruct (tubercle_geometry_law 0.127 0.12 0.25 (Some 0%Z))
    as [_ [H0 _]].
  destruct (tubercle_geometry_law 0.127 0.12 0.4 None) as [_ [_ [_ H]]].
  split; [apply H0; reflexivity|].
  destruct H as [count [w [r [E [Hc [_ Hr]]]]]]; try reflexivity; try lra.
  exists count, w, r. repeat split; assumption.
Defined.

(** X14.  With serration parameters of a depth that is not negative, a
    frequency other than 0 and a baseline other than 0,
    [estimate_noise_reduction] of the serrations returns an effectiveness
    in (0, 1] and a reduction between 0 and 14 dB; the reduction is
    subtracted from the baseline, and neither it nor the effectiveness
    depends on the baseline or on the flow velocity. *)
Theorem serration_reduction_bounded
    (baseline_noise_db frequency_hz flow_velocity depth wavelength : R)
    (serration_params : dict) :
  item_real serration_params "depth_m" = Ok depth ->
  item_real serration_params "wavelength_m" = Ok wavelength ->
  0 <= depth -> frequency_hz <> 0 -> baseline_noise_db <> 0 ->
  exists reduction effectiveness : R,
    0 < effectiveness <= 1 /\ 0 <= reduction <= 14 /\
    forall baseline' flow_velocity' : R,
      baseline' <> 0 ->
      OwlWingSerrations.estimate_noise_reduction baseline' serration_params
        frequency_hz flow_velocity'
      = Ok [("noise_reduction_db", VReal reduction);
            ("reduced_noise_db", VReal (baseline' - reduction));
            ("effectiveness_factor", VReal effectiveness);
            ("reduction_percentage", VReal (reduction / baseline' * 100))].
Proof.
  intros Ed Ew Hd Hf _.
  unfold OwlWingSerrations.estimate_noise_reduction.
  rewrite Ed, Ew. cbn [bind].
  rewrite pydiv_ok by exact Hf. cbn [bind].
  assert (Ho : 343.0 / frequency_hz / 4 <> 0).
  { change (343.0 / frequency_hz / 4) with (343.0 * / frequency_hz * / 4).
    apply Rmult_integral_contrapositive_currified; [|lra].
    apply Rmult_integral_contrapositive_currified; [lra|].
    apply Rinv_neq_0_compat. exact Hf. }
  rewrite pydiv_ok by exact Ho. cbn [bind].
  set (r := wavelength / (343.0 / frequency_hz / 4)).
  pose proof (pymin_unit_interval (depth / 0.01)
                ltac:(apply Rmult_le_pos; lra)) as Hdf.
  set (df := pymin (depth / 0.01) 1.0) in *.
  destruct (Rlt_dec r 0.1) as [H1|H1];
    [|destruct (Rlt_dec r 0.5) as [H2|H2];
      [|destruct (Rle_dec r 2.0) as [H3|H3]]].
  - exists ((2.0 + 5.0 * 0.3) * df * 2.0), 0.3.
    split; [lra|]. split; [nra|]. intros b v Hb.
    rewrite pydiv_ok by exact Hb. reflexivity.
  - exists ((2.0 + 5.0 * (0.3 + 0.4 * (r - 0.1) / 0.4)) * df * 2.0),
      (0.3 + 0.4 * (r - 0.1) / 0.4).
    split; [lra|]. split; [nra|]. intros b v Hb.
    rewrite pydiv_ok by exact Hb. reflexivity.
  - assert (Ha : 0.7 <= 0.7 + 0.3 * (1.0 - Rabs (r - 1.0)) <= 1).
    { pose proof (Rabs_pos (r - 1.0)).
      assert (Rabs (r - 1.0) <= 1) by (apply Rabs_le; lra). lra. }
    exists ((2.0 + 5.0 * (0.7 + 0.3 * (1.0 - Rabs (r - 1.0)))) * df * 2.0),
      (0.7 + 0.3 * (1.0 - Rabs (r - 1.0))).
    split; [lra|]. split; [nra|]. intros b v Hb.
    rewrite pydiv_ok by exact Hb. reflexivity.
  - assert (Ha : 0 < exp (- (r - 2.0) / 2.0) <= 1).
    { split; [apply exp_pos|]. rewrite <- exp_0.
      destruct (Req_dec (- (r - 2.0) / 2.0) 0) as [-> | Hne]; [lra|].
      left. apply exp_increasing. lra. }
    exists ((2.0 + 5.0 * (0.5 * exp (- (r - 2.0) / 2.0))) * df * 2.0),
      (0.5 * exp (- (r - 2.0) / 2.0)).
    split; [lra|]. split; [nra|]. intros b v Hb.
    rewrite npdiv_ok by exact Hb. reflexivity.
Qed.

Lemma serration_reduction_bounded_witness :
  exists reduction effectiveness : R,
    0 <= reduction <= 14 /\
    OwlWingSerrations.estimate_noise_reduction 70
      [("depth_m", VReal 0.0025); ("wavelength_m", VReal 0.001)] 1000 10.0
    = Ok [("noise_reduction_db", VReal reduction);
          ("reduced_noise_db", VReal (70 - reduction));
          ("effectiveness_factor", VReal effectiveness);
          ("reduction_percentage", VReal (reduction / 70 * 100))].
Proof.
  destruct (serration_reduction_bounded 70 1000 10.0 0.0025 0.001
              [("depth_m", VReal 0.0025); ("wavelength_m", VReal 0.001)]
              eq_refl eq_refl ltac:(lra) ltac:(lra) ltac:(lra))
    as [red [eff [_ [Hr H]]]].
  exists red, eff. split; [exact Hr|]. apply H. lra.
Defined.

Lemma aoa_factor_monotone (a1 a2 : R) :
  a1 <= a2 ->
  let f := fun aoa : R =>
    if Rlt_dec aoa 5 then 0.4
    else if Rlt_dec aoa 10 then 0.4 + 0.4 * (aoa - 5) / 5
    else 0.8 + 0.2 * pymin ((aoa - 10) / 10) 1.0 in
  0.4 <= f a1 /\ f a1 <= f a2 /\ f a2 <= 1.
Proof.
  intros H f. unfold f, pymin.
  destruct (Rlt_dec a1 5); destruct (Rlt_dec a1 10);
    destruct (Rlt_dec a2 5); destruct (Rlt_dec a2 10);
    destruct (Rlt_dec 1.0 ((a1 - 10) / 10));
    destruct (Rlt_dec 1.0 ((a2 - 10) / 10)); lra.
Qed.

(** X15.  The tubercle estimate grows with the angle of attack: for
    tubercle parameters with a count and an amplitude ratio that are not
    negative and a baseline other than 0, [estimate_noise_reduction]
    returns at both of two angles, the effectiveness factor lies between
    0.4 and 1, and the larger angle has the larger or the same factor,
    vortex reduction and net reduction. *)
Theorem tubercle_reduction_grows_with_angle
    (baseline_noise_db count amplitude aoa1 aoa2 : R)
    (tubercle_params conditions1 conditions2 : dict) :
  item_real tubercle_params "num_tubercles" = Ok count ->
  item_real tubercle_params "amplitude_ratio" = Ok amplitude ->
  get_real conditions1 "angle_of_attack" 5.0 = Ok aoa1 ->
  get_real conditions2 "angle_of_attack" 5.0 = Ok aoa2 ->
  0 <= count -> 0 <= amplitude -> baseline_noise_db <> 0 ->
  aoa1 <= aoa2 ->
  exists net1 net2 vortex1 vortex2 increase factor1 factor2 : R,
    HumpbackWhaleTubercles.estimate_noise_reduction baseline_noise_db
      tubercle_params conditions1
    = Ok [("noise_reduction_db", VReal net1);
          ("reduced_noise_db", VReal (baseline_noise_db - net1));
          ("vortex_noise_reduction_db", VReal vortex1);
          ("broadband_noise_increase_db", VReal increase);
          ("aoa_effectiveness_factor", VReal factor1);
          ("reduction_percentage", VReal (net1 / baseline_noise_db * 100))] /\
    HumpbackWhaleTubercles.estimate_noise_reduction baseline_noise_db
      tubercle_params conditions2
    = Ok [("noise_reduction_db", VReal net2);
          ("reduced_noise_db", VReal (baseline_noise_db - net2));
          ("vortex_noise_reduction_db", VReal vortex2);
          ("broadband_noise_increase_db", VReal increase);
          ("aoa_effectiveness_factor", VReal factor2);
          ("reduction_percentage", VReal (net2 / baseline_noise_db * 100))] /\
    0.4 <= factor1 /\ factor1 <= factor2 /\ factor2 <= 1 /\
    6.6 <= vortex1 /\ vortex1 <= vortex2 /\ vortex2 <= 17.6 /\
    net1 <= net2 /\ net1 = vortex1 - increase /\ net2 = vortex2 - increase.
Proof.
  intros En Ea E1 E2 Hn Hamp Hb Hle.
  unfold HumpbackWhaleTubercles.estimate_noise_reduction.
  rewrite En, Ea, E1, E2. cbn [bind].
  rewrite pydiv_ok by exact Hb. rewrite pydiv_ok by exact Hb. cbn [bind].
  pose proof (aoa_factor_monotone aoa1 aoa2 Hle) as Hf. cbv beta zeta in Hf.
  set (f1 := if Rlt_dec aoa1 5 then 0.4
             else if Rlt_dec aoa1 10 then 0.4 + 0.4 * (aoa1 - 5) / 5
             else 0.8 + 0.2 * pymin ((aoa1 - 10) / 10) 1.0) in *.
  set (f2 := if Rlt_dec aoa2 5 then 0.4
             else if Rlt_dec aoa2 10 then 0.4 + 0.4 * (aoa2 - 5) / 5
             else 0.8 + 0.2 * pymin ((aoa2 - 10) / 10) 1.0) in *.
  pose proof (pymin_unit_interval (count / 5.0)
                ltac:(apply Rmult_le_pos; lra)) as Ht.
  pose proof (pymin_unit_interval (amplitude / 0.12)
                ltac:(apply Rmult_le_pos; lra)) as Hm.
  set (tf := pymin (count / 5.0) 1.0) in *.
  set (af := pymin (amplitude / 0.12) 1.0) in *.
  assert (Hta : 0 <= tf * af <= 1) by nra.
  do 7 eexists. split; [reflexivity|]. split; [reflexivity|].
  assert (Hp1 : 0 <= f1 * (tf * af) <= 1) by nra.
  assert (Hp2 : 0 <= f2 * (tf * af) <= 1) by nra.
  assert (Hp : f1 * (tf * af) <= f2 * (tf * af)) by nra.
  repeat split; try lra; nra.
Qed.

Lemma tubercle_reduction_grows_with_angle_witness :
  exists net1 net2 vortex1 vortex2 increase factor1 factor2 : R,
    HumpbackWhaleTubercles.estimate_noise_reduction 70
      [("num_tubercles", VReal 4); ("amplitude_ratio", VReal 0.12)]
      [("angle_of_attack", VReal 4)]
    = Ok [("noise_reduction_db", VReal net1);
          ("reduced_noise_db", VReal (70 - net1));
          ("vortex_noise_reduction_db", VReal vortex1);
          ("broadband_noise_increase_db", VReal increase);
          ("aoa_effectiveness_factor", VReal factor1);
          ("reduction_percentage", VReal (net1 / 70 * 100))] /\
    HumpbackWhaleTubercles.estimate_noise_reduction 70
      [("num_tubercles", VReal 4); ("amplitude_ratio", VReal 0.12)]
      [("angle_of_attack", VReal 12)]
    = Ok [("noise_reduction_db", VReal net2);
          ("reduced_noise_db", VReal (70 - net2));
          ("vortex_noise_reduction_db", VReal vortex2);
          ("broadband_noise_increase_db", VReal increase);
          ("aoa_effectiveness_factor", VReal factor2);
          ("reduction_percentage", VReal (net2 / 70 * 100))] /\
    net1 <= net2.
Proof.
  destruct (tubercle_reduction_grows_with_angle 70 4 0.12 4 12
              [("num_tubercles", VReal 4); ("amplitude_ratio", VReal 0.12)]
              [("angle_of_attack", VReal 4)] [("angle_of_attack", VReal 12)]
              eq_refl eq_refl eq_refl eq_refl
              ltac:(lra) ltac:(lra) ltac:(lra) ltac:(lra))
    as [n1 [n2 [v1 [v2 [i [f1 [f2 [E1 [E2 H]]]]]]]]].
  exists n1, n2, v1, v2, i, f1, f2.
  split; [exact E1|]. split; [exact E2|]. tauto.
Defined.

Lemma re_factor_monotone (re1 re2 : R) :
  re1 <= re2 ->
  let f := fun re : R =>
    if Rlt_dec re 100000 then 1.0
    else if Rlt_dec re 500000 then 1.0 - 0.5 * (re - 100000) / 400000
    else 0.5 * exp (- (re - 500000) / 500000) in
  0 < f re2 /\ f re2 <= f re1 /\ f re1 <= 1.
Proof.
  intros H f.
  assert (Hexp : forall re, 500000 <= re ->
            0 < exp (- (re - 500000) / 500000) <= 1).
  { intros re Hre. split; [apply exp_pos|]. rewrite <- exp_0.
    destruct (Req_dec (- (re - 500000) / 500000) 0) as [-> | Hne]; [lra|].
    left. apply exp_increasing. lra. }
  assert (Hmono : 500000 <= re1 ->
            exp (- (re2 - 500000) / 500000)
            <= exp (- (re1 - 500000) / 500000)).
  { intros H1. destruct (Req_dec re1 re2) as [-> | Hne]; [lra|].
    left. apply exp_increasing. lra. }
  unfold f.
  destruct (Rlt_dec re1 100000); destruct (Rlt_dec re1 500000);
    destruct (Rlt_dec re2 100000); destruct (Rlt_dec re2 500000);
    try lra;
    try (pose proof (Hexp re2 ltac:(lra)));
    try (pose proof (Hexp re1 ltac:(lra)));
    try (pose proof (Hmono ltac:(lra)));
    lra.
Qed.

(** X16.  The corrugation estimate falls with the Reynolds number: for
    corrugation parameters with a depth and a count that are not
    negative, a wavelength other than 0 and a baseline other than 0,
    [estimate_noise_reduction] returns at both of two Reynolds numbers,
    the effectiveness factor lies in (0, 1], the larger Reynolds number
    has the smaller or the same factor and net reduction, and the
    friction increase is the depth over the wavelength at both. *)
Theorem corrugation_reduction_falls_with_reynolds
    (baseline_noise_db depth wavelength count re1 re2 v1 v2 : R)
    (corrugation_params : dict) :
  item_real corrugation_params "depth_m" = Ok depth ->
  item_real corrugation_params "wavelength_m" = Ok wavelength ->
  item_real corrugation_params "num_corrugations" = Ok count ->
  0 <= depth -> 0 <= count -> wavelength <> 0 -> baseline_noise_db <> 0 ->
  re1 <= re2 ->
  exists net1 net2 layer1 layer2 vortex1 vortex2 factor1 factor2 : R,
    DragonflyCorrugations.estimate_noise_reduction baseline_noise_db
      corrugation_params re1 v1
    = Ok [("noise_reduction_db", VReal net1);
          ("reduced_noise_db", VReal (baseline_noise_db - net1));
          ("boundary_layer_reduction_db", VReal layer1);
          ("vortex_reduction_db", VReal vortex1);
          ("friction_increase_db", VReal (depth / wavelength));
          ("re_effectiveness_factor", VReal factor1);
          ("reduction_percentage", VReal (net1 / baseline_noise_db * 100))] /\
    DragonflyCorrugations.estimate_noise_reduction baseline_noise_db
      corrugation_params re2 v2
    = Ok [("noise_reduction_db", VReal net2);
          ("reduced_noise_db", VReal (baseline_noise_db - net2));
          ("boundary_layer_reduction_db", VReal layer2);
          ("vortex_reduction_db", VReal vortex2);
          ("friction_increase_db", VReal (depth / wavelength));
          ("re_effectiveness_factor", VReal factor2);
          ("reduction_percentage", VReal (net2 / baseline_noise_db * 100))] /\
    0 < factor2 /\ factor2 <= factor1 /\ factor1 <= 1 /\
    layer2 <= layer1 /\ vortex2 <= vortex1 /\ net2 <= net1 /\
    net1 = layer1 + vortex1 - depth / wavelength /\
    net2 = layer2 + vortex2 - depth / wavelength.
Proof.
  intros Ed Ew En Hd Hn Hw Hb Hle.
  pose proof (re_factor_monotone re1 re2 Hle) as Hf. cbv beta zeta in Hf.
  pose proof (pymin_unit_interval (depth / 0.002)
                ltac:(apply Rmult_le_pos; lra)) as Hdf.
  pose proof (pymin_unit_interval (count / 10.0)
                ltac:(apply Rmult_le_pos; lra)) as Hnf.
  assert (Hfr : 0.5 * (1.0 + depth / wavelength - 1.0) * 2.0
                = depth / wavelength) by lra.
  unfold DragonflyCorrugations.estimate_noise_reduction.
  rewrite Ed, Ew, En. cbn [bind].
  set (df := pymin (depth / 0.002) 1.0) in *.
  set (nf := pymin (count / 10.0) 1.0) in *.
  assert (Hdn : 0 <= df * nf <= 1) by nra.
  set (f1 := if Rlt_dec re1 100000 then 1.0
             else if Rlt_dec re1 500000
                  then 1.0 - 0.5 * (re1 - 100000) / 400000
                  else 0.5 * exp (- (re1 - 500000) / 500000)) in Hf.
  set (f2 := if Rlt_dec re2 100000 then 1.0
             else if Rlt_dec re2 500000
                  then 1.0 - 0.5 * (re2 - 100000) / 400000
                  else 0.5 * exp (- (re2 - 500000) / 500000)) in Hf.
  exists ((2.0 + 3.0 * f1 * df * nf) * 2.1 + (1.0 + 2.0 * f1 * nf) * 2.1
          - depth / wavelength),
    ((2.0 + 3.0 * f2 * df * nf) * 2.1 + (1.0 + 2.0 * f2 * nf) * 2.1
     - depth / wavelength),
    ((2.0 + 3.0 * f1 * df * nf) * 2.1), ((2.0 + 3.0 * f2 * df * nf) * 2.1),
    ((1.0 + 2.0 * f1 * nf) * 2.1), ((1.0 + 2.0 * f2 * nf) * 2.1), f1, f2.
  split; [|split].
  - unfold f1.
    destruct (Rlt_dec re1 100000); [|destruct (Rlt_dec re1 500000)];
      rewrite pydiv_ok by exact Hw; cbn [bind];
      rewrite ?pydiv_ok, ?npdiv_ok by exact Hb; cbn [bind];
      rewrite Hfr; reflexivity.
  - unfold f2.
    destruct (Rlt_dec re2 100000); [|destruct (Rlt_dec re2 500000)];
      rewrite pydiv_ok by exact Hw; cbn [bind];
      rewrite ?pydiv_ok, ?npdiv_ok by exact Hb; cbn [bind];
      rewrite Hfr; reflexivity.
  - assert (H1 : f2 * nf <= f1 * nf) by nra.
    assert (H2 : f2 * (df * nf) <= f1 * (df * nf)) by nra.
    repeat split; try lra; nra.
Qed.

Lemma corrugation_reduction_falls_with_reynolds_witness :
  exists net1 net2 layer1 layer2 vortex1 vortex2 factor1 factor2 : R,
    DragonflyCorrugations.estimate_noise_reduction 70
      [("depth_m", VReal 0.0015); ("wavelength_m", VReal 0.0025);
       ("num_corrugations", VReal 20)] 50000 10.0
    = Ok [("noise_reduction_db", VReal net1);
          ("reduced_noise_db", VReal (70 - net1));
          ("boundary_layer_reduction_db", VReal layer1);
          ("vortex_reduction_db", VReal vortex1);
          ("friction_increase_db", VReal (0.0015 / 0.0025));
          ("re_effectiveness_factor", VReal factor1);
          ("reduction_percentage", VReal (net1 / 70 * 100))] /\
    DragonflyCorrugations.estimate_noise_reduction 70
      [("depth_m", VReal 0.0015); ("wavelength_m", VReal 0.0025);
       ("num_corrugations", VReal 20)] 800000 10.0
    = Ok [("noise_reduction_db", VReal net2);
          ("reduced_noise_db", VReal (70 - net2));
          ("boundary_layer_reduction_db", VReal layer2);
          ("vortex_reduction_db", VReal vortex2);
          ("friction_increase_db", VReal (0.0015 / 0.0025));
          ("re_effectiveness_factor", VReal factor2);
          ("reduction_percentage", VReal (net2 / 70 * 100))] /\
    net2 <= net1.
Proof.
  destruct (corrugation_reduction_falls_with_reynolds 70 0.0015 0.0025 20
              50000 800000 10.0 10.0
              [("depth_m", VReal 0.0015); ("wavelength_m", VReal 0.0025);
               ("num_corrugations", VReal 20)]
              eq_refl eq_refl eq_refl
              ltac:(lra) ltac:(lra) ltac:(lra) ltac:(lra) ltac:(lra))
    as [n1 [n2 [l1 [l2 [w1 [w2 [f1 [f2 [E1 [E2 H]]]]]]]]]].
  exists n1, n2, l1, l2, w1, w2, f1, f2.
  split; [exact E1|]. split; [exact E2|]. tauto.
Defined.

(** X17.  [estimate_structural_benefits] does not read the blade
    material.  With a wavelength of 0 it ends with [ZeroDivisionError];
    otherwise it returns a stiffness increase of [100 (depth /
    wavelength)^2] percent, half of it as torsional increase, a
    natural-frequency increase [f >= 0] with [(1 + f/100)^2] the moment
    area factor, and a flutter resistance that is high exactly when the
    stiffness increase exceeds 20 percent. *)
Theorem structural_benefits_law (depth wavelength : R)
    (corrugation_params blade_material : dict) :
  item_real corrugation_params "depth_m" = Ok depth ->
  item_real corrugation_params "wavelength_m" = Ok wavelength ->
  DragonflyCorrugations.estimate_structural_benefits corrugation_params
    blade_material
  = DragonflyCorrugations.estimate_structural_benefits corrugation_params []
  /\
  (wavelength = 0 ->
   DragonflyCorrugations.estimate_structural_benefits corrugation_params
     blade_material = Raise ZeroDivisionError) /\
  (wavelength <> 0 ->
   exists stiffness frequency : R,
     DragonflyCorrugations.estimate_structural_benefits corrugation_params
       blade_material
     = Ok [("stiffness_increase_percentage", VReal stiffness);
           ("torsional_stiffness_increase_percentage",
            VReal (stiffness * 0.5));
           ("natural_frequency_increase_percentage", VReal frequency);
           ("moment_area_factor", VReal (1.0 + (depth / wavelength) ^ 2));
           ("flutter_resistance_improvement",
            VStr (if Rlt_dec 20 stiffness then "high" else "moderate"))] /\
     stiffness = 100 * (depth / wavelength) ^ 2 /\
     0 <= frequency /\
     (1 + frequency / 100) ^ 2 = 1.0 + (depth / wavelength) ^ 2).
Proof.
  intros Ed Ew. split; [reflexivity|].
  unfold DragonflyCorrugations.estimate_structural_benefits.
  rewrite Ed, Ew. cbn [bind]. split.
  - intros ->. unfold pydiv. destruct (Req_dec_T 0 0); [reflexivity | lra].
  - intros Hw. rewrite pydiv_ok by exact Hw. cbn [bind].
    pose proof (pow2_ge_0 (depth / wavelength)) as Hsq.
    set (m := 1.0 + (depth / wavelength) ^ 2) in *.
    rewrite np_sqrt_ok by (unfold m; lra). cbn [bind].
    exists ((m - 1.0) * 100), ((sqrt m - 1.0) * 100).
    split; [reflexivity|]. split; [unfold m; lra|].
    assert (H1 : 1 <= sqrt m).
    { rewrite <- sqrt_1. apply sqrt_le_1_alt. unfold m. lra. }
    split; [lra|].
    replace (1 + (sqrt m - 1.0) * 100 / 100) with (sqrt m) by lra.
    simpl. rewrite Rmult_1_r. apply sqrt_sqrt. unfold m. lra.
Qed.

Lemma structural_benefits_law_witness :
  DragonflyCorrugations.estimate_structural_benefits
    [("depth_m", VReal 0.0015); ("wavelength_m", VReal 0)] []
  = Raise ZeroDivisionError /\
  exists stiffness frequency : R,
    DragonflyCorrugations.estimate_structural_benefits
      [("depth_m", VReal 0.0015); ("wavelength_m", VReal 0.0025)]
      [("E", VReal 70)]
    = Ok [("stiffness_increase_percentage", VReal stiffness);
          ("torsional_stiffness_increase_percentage", VReal (stiffness * 0.5));
          ("natural_frequency_increase_percentage", VReal frequency);
          ("moment_area_factor", VReal (1.0 + (0.0015 / 0.0025) ^ 2));
          ("flutter_resistance_improvement",
           VStr (if Rlt_dec 20 stiffness then "high" else "moderate"))] /\
    stiffness = 100 * (0.0015 / 0.0025) ^ 2.
Proof.
  destruct (structural_benefits_law 0.0015 0
              [("depth_m", VReal 0.0015); ("wavelength_m", VReal 0)] []
              eq_refl eq_refl) as [_ [H0 _]].
  destruct (structural_benefits_law 0.0015 0.0025
              [("depth_m", VReal 0.0015); ("wavelength_m", VReal 0.0025)]
              [("E", VReal 70)] eq_refl eq_refl) as [_ [_ H]].
  split; [apply H0; reflexivity|].
  destruct H as [s [f [E [Hs _]]]]; [lra|].
  exists s, f. split; assumption.
Defined.

End FeatureLaws.

(** ** Profiles *)

Section ProfileLaws.

Lemma linspace_length (start stop : R) (num : Z) (xs : list R) :
  linspace start stop num = Ok xs -> List.length xs = Z.to_nat num.
Proof.
  unfold linspace. destruct (num <? 0)%Z; [discriminate|].
  intros H. injection H as <-. rewrite length_map, length_seq. reflexivity.
Qed.

Lemma linspace_returns (start stop : R) (num : Z) :
  (0 <= num)%Z ->
  linspace start stop num
  = Ok (map (fun i => INR i * ((stop - start) / INR (Z.to_nat num - 1))
                      + start)
          (seq 0 (Z.to_nat num))).
Proof.
  intros H. unfold linspace.
  destruct (num <? 0)%Z eqn:E; [apply Z.ltb_lt in E; lia | reflexivity].
Qed.

Lemma nth_error_map_seq {A : Type} (f : nat -> A) (n i : nat) :
  (i < n)%nat -> nth_error (map f (seq 0 n)) i = Some (f i).
Proof.
  intros H. rewrite nth_error_map.
  rewrite (nth_error_nth' (seq 0 n) 0%nat) by (rewrite length_seq; exact H).
  rewrite seq_nth by exact H. reflexivity.
Qed.

Lemma sin_whole_turns (k : Z) : (0 <= k)%Z -> sin (2 * PI * IZR k) = 0.
Proof.
  intros H. rewrite <- (Z2Nat.id k H), <- INR_IZR_INZ.
  replace (2 * PI * INR (Z.to_nat k)) with (0 + 2 * INR (Z.to_nat k) * PI)
    by ring.
  rewrite sin_period. apply sin_0.
Qed.

Lemma array_quotient_returns (f : R -> R) (xs : list R) (w : R) :
  w <> 0 ->
  match xs with
  | [] => Ok []
  | _ :: _ => if Req_dec_T w 0 then Raise NotReal else Ok (map f xs)
  end = Ok (map f xs).
Proof.
  intros H. destruct xs; [reflexivity|].
  destruct (Req_dec_T w 0); [contradiction | reflexivity].
Qed.

Import HumpbackWhaleTubercles.

(** X18.  [generate_tubercle_profile] returns as many spanwise
    coordinates and amplitudes as points are asked for, every amplitude
    between -1 and 1.  On the geometry that [calculate_tubercle_geometry]
    derives for a span and a wavelength ratio other than 0, and for at
    least two points, the profile runs from 0 to the span over a whole
    number of waves: the amplitude is 0 at both ends. *)
Theorem tubercle_profile_whole_waves :
  (forall (tubercle_params : dict) (num_points : Z) (s amplitude : list R),
      generate_tubercle_profile tubercle_params num_points
        = Ok (s, amplitude) ->
      List.length s = Z.to_nat num_points /\
      List.length amplitude = Z.to_nat num_points /\
      Forall (fun a => -1 <= a <= 1) amplitude) /\
  (forall (blade_span amplitude_ratio wavelength_ratio : R) (num_points : Z),
      blade_span <> 0 -> wavelength_ratio <> 0 -> (2 <= num_points)%Z ->
      exists (tubercle_params : dict) (s amplitude : list R),
        calculate_tubercle_geometry blade_span amplitude_ratio
          wavelength_ratio None = Ok tubercle_params /\
        generate_tubercle_profile tubercle_params num_points
          = Ok (s, amplitude) /\
        nth_error s 0 = Some 0 /\
        nth_error amplitude 0 = Some 0 /\
        nth_error s (Z.to_nat num_points - 1) = Some blade_span /\
        nth_error amplitude (Z.to_nat num_points - 1) = Some 0).
Proof.
  split.
  - intros params n s amp H. unfold generate_tubercle_profile in H.
    bind_inv H wavelength E1. bind_inv H count E2. bind_inv H span E3.
    bind_inv H xs E4. bind_inv H ys E5. injection H as <- <-.
    pose proof (linspace_length _ _ _ _ E4) as Hlen.
    split; [exact Hlen|].
    assert (Hys : ys = map (fun x => sin (2 * PI * x / wavelength)) xs).
    { destruct xs as [|x xs]; [injection E5 as <-; reflexivity|].
      destruct (Req_dec_T wavelength 0); [discriminate|].
      injection E5 as <-. reflexivity. }
    subst ys. split; [rewrite length_map; exact Hlen|].
    apply Forall_map, Forall_forall. intros y _.
    pose proof (SIN_bound (2 * PI * y / wavelength)). lra.
  - intros span a wr n Hs Hw Hn.
    unfold calculate_tubercle_geometry.
    rewrite pydiv_ok by (apply Rmult_integral_contrapositive_currified;
                         assumption).
    cbn [bind].
    set (count := Z.max 3 (pyint (span / (span * wr)))).
    assert (Hc : (3 <= count)%Z) by (unfold count; lia).
    assert (Hcr : IZR count <> 0) by (apply not_0_IZR; lia).
    rewrite pydiv_ok by exact Hcr. cbn [bind].
    rewrite pydiv_ok by exact Hs. cbn [bind].
    eexists. exists
      (map (fun i => INR i * ((span - 0) / INR (Z.to_nat n - 1)) + 0)
         (seq 0 (Z.to_nat n))).
    eexists. split; [reflexivity|].
    unfold generate_tubercle_profile.
    cbn [item_real dget String.eqb Ascii.eqb Bool.eqb as_real VReal bind].
    rewrite linspace_returns by lia. cbn [bind].
    assert (Hw0 : span / IZR count <> 0).
    { unfold Rdiv. apply Rmult_integral_contrapositive_currified;
        [exact Hs | apply Rinv_neq_0_compat; exact Hcr]. }
    assert (Hnat : (2 <= Z.to_nat n)%nat) by lia.
    rewrite (array_quotient_returns
               (fun x => sin (2 * PI * x / (span / IZR count))))
      by exact Hw0.
    cbn [bind]. split; [reflexivity|].
    assert (Hlast : INR (Z.to_nat n - 1)
                    * ((span - 0) / INR (Z.to_nat n - 1)) + 0 = span).
    { assert (Hd : INR (Z.to_nat n - 1) <> 0)
        by (apply not_0_INR; lia).
      field. exact Hd. }
    rewrite map_map.
    rewrite !nth_error_map_seq by lia.
    repeat split.
    + f_equal. simpl. lra.
    + f_equal. simpl INR.
      replace (2 * PI * (0 * ((span - 0) / INR (Z.to_nat n - 1)) + 0)
               / (span / IZR count)) with 0
        by (unfold Rdiv; ring).
      apply sin_0.
    + f_equal. exact Hlast.
    + f_equal. rewrite Hlast.
      replace (2 * PI * span / (span / IZR count)) with (2 * PI * IZR count)
        by (field; split; assumption).
      apply sin_whole_turns. lia.
Qed.

Lemma tubercle_profile_whole_waves_witness :
  exists (tubercle_params : dict) (s amplitude : list R),
    calculate_tubercle_geometry 0.127 0.12 0.25 None = Ok tubercle_params /\
    generate_tubercle_profile tubercle_params 100 = Ok (s, amplitude) /\
    List.length amplitude = 100%nat /\
    nth_error s 99 = Some 0.127 /\
    nth_error amplitude 99 = Some 0.
Proof.
  destruct tubercle_profile_whole_waves as [Hshape Hwaves].
  destruct (Hwaves 0.127 0.12 0.25 100%Z)
    as [p [s [a [Ep [Eprof [_ [_ [Hs Ha]]]]]]]]; try lra; try lia.
  exists p, s, a. split; [exact Ep|]. split; [exact Eprof|].
  destruct (Hshape _ _ _ _ Eprof) as [_ [Hl _]].
  split; [exact Hl|]. split; [exact Hs | exact Ha].
Defined.

Import DragonflyCorrugations.

(** X19.  [generate_corrugation_profile] returns as many chordwise
    coordinates and heights as points are asked for.  The sinusoidal
    profile stays within the depth on either side of the surface and
    starts at height 0; every other profile type gives the triangular
    profile, which stays within half the depth and starts at its crest,
    half the depth. *)
Theorem corrugation_profile_heights (corrugation_params : dict)
    (profile_type : string) (num_points : Z) (depth : R) (x z : list R) :
  item_real corrugation_params "depth_m" = Ok depth ->
  generate_corrugation_profile corrugation_params profile_type num_points
    = Ok (x, z) ->
  List.length x = Z.to_nat num_points /\
  List.length z = Z.to_nat num_points /\
  (profile_type = "sinusoidal" ->
   Forall (fun h => Rabs h <= Rabs depth) z /\
   ((1 <= num_points)%Z -> nth_error z 0 = Some (depth * 0))) /\
  (profile_type <> "sinusoidal" ->
   Forall (fun h => Rabs h <= Rabs depth / 2) z /\
   ((1 <= num_points)%Z -> nth_error z 0 = Some (depth * 0.5))).
Proof.
  intros Ed H. unfold generate_corrugation_profile in H.
  rewrite Ed in H. cbn [bind] in H.
  bind_inv H wavelength E2. bind_inv H count E3.
  bind_inv H xs E4. bind_inv H zs E5. injection H as <- <-.
  pose proof (linspace_length _ _ _ _ E4) as Hlen.
  split; [exact Hlen|].
  assert (Hfirst : (1 <= num_points)%Z -> exists rest, xs = 0 :: rest).
  { intros Hn. rewrite linspace_returns in E4 by lia. injection E4 as <-.
    destruct (Z.to_nat num_points) as [|n] eqn:En; [lia|].
    cbn [seq map]. eexists. f_equal. simpl. lra. }
  assert (Hzs : zs
                = if String.eqb profile_type "sinusoidal" then
                    map (fun xi => depth * sin (2 * PI * xi / wavelength)) xs
                  else
                    map (fun xi =>
                           depth
                           * (2 * Rabs (frac_part (xi / wavelength) - 0.5)
                              - 0.5)) xs).
  { destruct xs as [|x0 xs].
    - injection E5 as <-. destruct (String.eqb profile_type "sinusoidal");
        reflexivity.
    - destruct (Req_dec_T wavelength 0); [discriminate|].
      destruct (String.eqb profile_type "sinusoidal");
        injection E5 as <-; reflexivity. }
  clear E5. subst zs.
  destruct (String.eqb profile_type "sinusoidal") eqn:Et;
    (split; [rewrite length_map; exact Hlen|]).
  - apply String.eqb_eq in Et. split; [|intros Hne; contradiction].
    intros _. split.
    + apply Forall_map, Forall_forall. intros y _.
      rewrite Rabs_mult.
      pose proof (SIN_bound (2 * PI * y / wavelength)) as Hb.
      assert (Hs : Rabs (sin (2 * PI * y / wavelength)) <= 1)
        by (apply Rabs_le; lra).
      pose proof (Rabs_pos depth). nra.
    + intros Hn. destruct (Hfirst Hn) as [rest ->].
      cbn [map nth_error]. f_equal. f_equal.
      replace (2 * PI * 0 / wavelength) with 0 by (unfold Rdiv; ring).
      apply sin_0.
  - apply String.eqb_neq in Et. split; [intros He; contradiction|].
    intros _. split.
    + apply Forall_map, Forall_forall. intros y _.
      rewrite Rabs_mult.
      destruct (base_fp (y / wavelength)) as [Hf0 Hf1].
      assert (Hs : Rabs (2 * Rabs (frac_part (y / wavelength) - 0.5) - 0.5)
                   <= 1 / 2).
      { apply Rabs_le.
        pose proof (Rabs_pos (frac_part (y / wavelength) - 0.5)).
        assert (Rabs (frac_part (y / wavelength) - 0.5) <= 0.5)
          by (apply Rabs_le; lra).
        lra. }
      pose proof (Rabs_pos depth). nra.
    + intros Hn. destruct (Hfirst Hn) as [rest ->].
      cbn [map nth_error]. f_equal. f_equal.
      replace (0 / wavelength) with 0 by (unfold Rdiv; ring).
      rewrite fp_R0.
      rewrite Rabs_left by lra. lra.
Qed.

Lemma corrugation_profile_heights_witness :
  exists x z : list R,
    generate_corrugation_profile
      [("depth_m", VReal 0.0015); ("wavelength_m", VReal 0.0025);
       ("num_corrugations", VReal 20)] "triangular" 200
    = Ok (x, z) /\
    List.length z = 200%nat /\
    Forall (fun h => Rabs h <= Rabs 0.0015 / 2) z /\
    nth_error z 0 = Some (0.0015 * 0.5).
Proof.
  assert (Hrun : exists x z,
             generate_corrugation_profile
               [("depth_m", VReal 0.0015); ("wavelength_m", VReal 0.0025);
                ("num_corrugations", VReal 20)] "triangular" 200
             = Ok (x, z)).
  { unfold generate_corrugation_profile.
    cbn [item_real dget String.eqb Ascii.eqb Bool.eqb as_real VReal bind].
    rewrite linspace_returns by lia. cbn [bind].
    destruct (map _ (seq 0 (Z.to_nat 200))) as [|x0 xs];
      [do 2 eexists; reflexivity|].
    destruct (Req_dec_T 0.0025 0); [lra|].
    do 2 eexists. reflexivity. }
  destruct Hrun as [x [z E]].
  destruct (corrugation_profile_heights
              [("depth_m", VReal 0.0015); ("wavelength_m", VReal 0.0025);
               ("num_corrugations", VReal 20)] "triangular" 200 0.0015 x z
              eq_refl E)
    as [_ [Hl [_ Htri]]].
  destruct Htri as [Hb H0]; [discriminate|].
  exists x, z. split; [exact E|]. split; [exact Hl|].
  split; [exact Hb | apply H0; lia].
Defined.

End ProfileLaws.

(** ** Combined reduction *)

Section CombinedLaws.

Import BioInspiredDesignFactory.

Ltac same_reads :=
  repeat match goal with
         | H : ?m = Ok ?a, H' : ?m = Ok ?b |- _ =>
             rewrite H in H'; injection H' as <-
         end.

(** The reduction of each estimate is the same at every level. *)
Lemma owl_reduction_level_free (l1 l2 : R) (params : dict)
    (freq v1 v2 : R) (res1 res2 : dict) :
  OwlWingSerrations.estimate_noise_reduction l1 params freq v1 = Ok res1 ->
  OwlWingSerrations.estimate_noise_reduction l2 params freq v2 = Ok res2 ->
  item_real res1 "noise_reduction_db" = item_real res2 "noise_reduction_db".
Proof.
  unfold OwlWingSerrations.estimate_noise_reduction. intros H1 H2.
  bind_inv H1 depth E1. bind_inv H1 wavelength E2. bind_inv H1 aw E3.
  bind_inv H1 wr E4.
  bind_inv H2 depth' E1'. bind_inv H2 wavelength' E2'. bind_inv H2 aw' E3'.
  bind_inv H2 wr' E4'.
  same_reads. revert H1 H2.
  destruct (Rlt_dec wr 0.1); [|destruct (Rlt_dec wr 0.5);
                               [|destruct (Rle_dec wr 2.0)]];
    intros H1 H2; bind_inv H1 q1 Eq1; bind_inv H2 q2 Eq2;
    injection H1 as <-; injection H2 as <-; reflexivity.
Qed.

Lemma humpback_reduction_level_free (l1 l2 : R) (params conditions : dict)
    (res1 res2 : dict) :
  HumpbackWhaleTubercles.estimate_noise_reduction l1 params conditions
    = Ok res1 ->
  HumpbackWhaleTubercles.estimate_noise_reduction l2 params conditions
    = Ok res2 ->
  item_real res1 "noise_reduction_db" = item_real res2 "noise_reduction_db".
Proof.
  unfold HumpbackWhaleTubercles.estimate_noise_reduction. intros H1 H2.
  bind_inv H1 n E1. bind_inv H1 a E2. bind_inv H1 aoa E3. bind_inv H1 q1 Eq1.
  bind_inv H2 n' E1'. bind_inv H2 a' E2'. bind_inv H2 aoa' E3'.
  bind_inv H2 q2 Eq2.
  same_reads. injection H1 as <-. injection H2 as <-. reflexivity.
Qed.

Lemma dragonfly_reduction_level_free (l1 l2 : R) (params : dict)
    (reynolds v1 v2 : R) (res1 res2 : dict) :
  DragonflyCorrugations.estimate_noise_reduction l1 params reynolds v1
    = Ok res1 ->
  DragonflyCorrugations.estimate_noise_reduction l2 params reynolds v2
    = Ok res2 ->
  item_real res1 "noise_reduction_db" = item_real res2 "noise_reduction_db".
Proof.
  unfold DragonflyCorrugations.estimate_noise_reduction. intros H1 H2.
  bind_inv H1 depth E1. bind_inv H1 wavelength E2. bind_inv H1 n E3.
  bind_inv H2 depth' E1'. bind_inv H2 wavelength' E2'. bind_inv H2 n' E3'.
  same_reads. revert H1 H2.
  destruct (Rlt_dec reynolds 100000); [|destruct (Rlt_dec reynolds 500000)];
    intros H1 H2; bind_inv H1 dw E4; bind_inv H1 q1 Eq1;
    bind_inv H2 dw' E4'; bind_inv H2 q2 Eq2; same_reads;
    injection H1 as <-; injection H2 as <-; reflexivity.
Qed.

Lemma feature_reduce_level_free (fp oc : dict) (feature : string)
    (l1 l2 : R) (res1 res2 : dict) :
  feature_reduce fp oc feature l1 = Some (Ok res1) ->
  feature_reduce fp oc feature l2 = Some (Ok res2) ->
  item_real res1 "noise_reduction_db" = item_real res2 "noise_reduction_db".
Proof.
  unfold feature_reduce. intros H1 H2.
  destruct (String.eqb feature "owl_serrations").
  { injection H1 as H1. injection H2 as H2.
    bind_inv H1 params E1. bind_inv H1 freq E2. bind_inv H1 v E3.
    bind_inv H2 params' E1'. bind_inv H2 freq' E2'. bind_inv H2 v' E3'.
    same_reads. exact (owl_reduction_level_free _ _ _ _ _ _ _ _ H1 H2). }
  destruct (String.eqb feature "humpback_tubercles").
  { injection H1 as H1. injection H2 as H2.
    bind_inv H1 params E1. bind_inv H2 params' E1'.
    same_reads. exact (humpback_reduction_level_free _ _ _ _ _ _ H1 H2). }
  destruct (String.eqb feature "dragonfly_corrugations"); [|discriminate].
  injection H1 as H1. injection H2 as H2.
  bind_inv H1 params E1. bind_inv H1 re E2. bind_inv H1 v E3.
  bind_inv H2 params' E1'. bind_inv H2 re' E2'. bind_inv H2 v' E3'.
  same_reads. exact (dragonfly_reduction_level_free _ _ _ _ _ _ _ _ H1 H2).
Qed.

Lemma sequence_reductions (fp oc : dict) (level : R)
    (features : list string) (reductions : list R) :
  reduced_in_sequence fp oc level features reductions ->
  reductions_of fp oc features reductions.
Proof.
  induction 1 as [level | level f rest reds Hnone Hseq IH
                 | level f rest result red reds Hsome Hr Hseq IH].
  - constructor.
  - apply red_skip; [|exact IH].
    destruct (mem f recognized) eqn:E; [|reflexivity].
    exfalso. exact (feature_reduce_recognized fp oc f level E Hnone).
  - eapply red_take; eassumption.
Qed.

Lemma reductions_of_functional (fp oc : dict) (features : list string) :
  forall r1 r2 : list R,
    reductions_of fp oc features r1 -> reductions_of fp oc features r2 ->
    r1 = r2.
Proof.
  induction features as [|f rest IH]; intros r1 r2 H1 H2.
  - inversion H1. inversion H2. reflexivity.
  - inversion H1 as [| f1 rest1 reds1 Hm1 Hrest1
                     | f1 rest1 lv1 res1 x1 reds1 Hs1 Hx1 Hrest1]; subst;
      inversion H2 as [| f2 rest2 reds2 Hm2 Hrest2
                       | f2 rest2 lv2 res2 x2 reds2 Hs2 Hx2 Hrest2]; subst.
    + apply IH; assumption.
    + rewrite (feature_reduce_unrecognized fp oc f lv2 Hm1) in Hs2.
      discriminate.
    + rewrite (feature_reduce_unrecognized fp oc f lv1 Hm2) in Hs1.
      discriminate.
    + pose proof (feature_reduce_level_free _ _ _ _ _ _ _ Hs1 Hs2) as E.
      rewrite Hx1, Hx2 in E. injection E as ->.
      f_equal. apply IH; assumption.
Qed.

Lemma reductions_of_permutation (fp oc : dict) (l l' : list string) :
  Permutation l l' ->
  forall reds : list R,
    reductions_of fp oc l reds ->
    exists reds' : list R,
      reductions_of fp oc l' reds' /\ sum_db reds' = sum_db reds.
Proof.
  induction 1 as [| x l l' Hp IH | x y l | l l' l'' Hp1 IH1 Hp2 IH2];
    intros reds H.
  - exists reds. split; [exact H | reflexivity].
  - inversion H as [| f rest reds0 Hm Hrest
                    | f rest lv res r reds0 Hs Hr Hrest]; subst.
    + destruct (IH _ Hrest) as [reds' [H' E]].
      exists reds'. split; [apply red_skip; assumption | exact E].
    + destruct (IH _ Hrest) as [reds' [H' E]].
      exists (r :: reds'). split; [eapply red_take; eassumption|].
      simpl. rewrite E. reflexivity.
  - inversion H as [| f rest reds0 Hm Hrest
                    | f rest lv res r reds0 Hs Hr Hrest]; subst.
    + inversion Hrest as [| f' rest' reds1 Hm' Hrest'
                          | f' rest' lv' res' r' reds1 Hs' Hr' Hrest']; subst.
      * exists reds. split; [|reflexivity].
        apply red_skip; [assumption|]. apply red_skip; assumption.
      * exists (r' :: reds1). split; [|reflexivity].
        eapply red_take; [eassumption | eassumption |].
        apply red_skip; assumption.
    + inversion Hrest as [| f' rest' reds1 Hm' Hrest'
                          | f' rest' lv' res' r' reds1 Hs' Hr' Hrest']; subst.
      * exists (r :: reds0). split; [|reflexivity].
        apply red_skip; [assumption|]. eapply red_take; eassumption.
      * exists (r' :: r :: reds1). split; [|simpl; lra].
        eapply red_take; [eassumption | eassumption |].
        eapply red_take; eassumption.
  - destruct (IH1 _ H) as [r1 [H1 E1]].
    destruct (IH2 _ H1) as [r2 [H2 E2]].
    exists r2. split; [exact H2 | lra].
Qed.

Lemma combined_result_shape (baseline_noise_db : R) (features : list string)
    (fp oc result : dict) :
  estimate_combined_noise_reduction baseline_noise_db features fp oc
    = Ok result ->
  exists (reductions : list R) (individual : dict),
    reduced_in_sequence fp oc baseline_noise_db features reductions /\
    result
    = let effective := sum_db reductions * synergy (List.length features) in
      [("total_reduction_db", VReal effective);
       ("final_noise_db", VReal (baseline_noise_db - effective));
       ("individual_reductions", VDict individual);
       ("interaction_factor", VReal (synergy (List.length features)));
       ("reduction_percentage",
        VReal (effective / baseline_noise_db * 100))].
Proof.
  intros H. unfold estimate_combined_noise_reduction in H.
  bind_inv H st E. bind_inv H q Eq. injection H as <-.
  destruct (reduction_loop_spec _ _ _ _ _ E) as [reds [Hseq Htot]].
  cbn [total_reduction current_noise] in Hseq, Htot.
  exists reds, (individual_reductions st). split; [exact Hseq|].
  cbv zeta. rewrite effective_value, interaction_value, Htot.
  replace (0.0 + sum_db reds) with (sum_db reds) by lra.
  unfold pydiv in Eq. destruct (Req_dec_T baseline_noise_db 0); [discriminate|].
  injection Eq as <-. rewrite effective_value, Htot.
  replace (0.0 + sum_db reds) with (sum_db reds) by lra.
  reflexivity.
Qed.

(** X20.  The total of [estimate_combined_noise_reduction] does not
    depend on the order of the feature list: the reduction that a feature
    estimates is the same at every noise level, so when the calls on a
    list and on a rearrangement of it both return, they return the same
    total reduction, final noise, interaction factor and reduction
    percentage. *)
Theorem combined_reduction_order_free (baseline_noise_db : R)
    (features1 features2 : list string)
    (feature_params operating_conditions result1 result2 : dict) :
  Permutation features1 features2 ->
  estimate_combined_noise_reduction baseline_noise_db features1
    feature_params operating_conditions = Ok result1 ->
  estimate_combined_noise_reduction baseline_noise_db features2
    feature_params operating_conditions = Ok result2 ->
  dget result1 "total_reduction_db" = dget result2 "total_reduction_db" /\
  dget result1 "final_noise_db" = dget result2 "final_noise_db" /\
  dget result1 "interaction_factor" = dget result2 "interaction_factor" /\
  dget result1 "reduction_percentage" = dget result2 "reduction_percentage".
Proof.
  intros Hp H1 H2.
  destruct (combined_result_shape _ _ _ _ _ H1) as [r1 [i1 [Hs1 ->]]].
  destruct (combined_result_shape _ _ _ _ _ H2) as [r2 [i2 [Hs2 ->]]].
  apply sequence_reductions in Hs1. apply sequence_reductions in Hs2.
  destruct (reductions_of_permutation _ _ _ _ Hp _ Hs1) as [r2' [Hs2' E]].
  rewrite (reductions_of_functional _ _ _ _ _ Hs2 Hs2'), E.
  rewrite (Permutation_length Hp).
  repeat split; reflexivity.
Qed.

Lemma combined_reduction_order_free_witness :
  exists result1 result2 : dict,
    estimate_combined_noise_reduction 70
      ["owl_serrations"; "humpback_tubercles"] sample_feature_params []
    = Ok result1 /\
    estimate_combined_noise_reduction 70
      ["humpback_tubercles"; "owl_serrations"] sample_feature_params []
    = Ok result2 /\
    dget result1 "total_reduction_db" = dget result2 "total_reduction_db" /\
    dget result1 "final_noise_db" = dget result2 "final_noise_db".
Proof.
  destruct (sample_owl_reduce 70 ltac:(lra)) as [o1 [Eo1 Ro1]].
  destruct (sample_humpback_reduce (70 - 1.75) ltac:(lra)) as [h1 [Eh1 Rh1]].
  destruct (sample_humpback_reduce 70 ltac:(lra)) as [h2 [Eh2 Rh2]].
  destruct (sample_owl_reduce (70 - 9.12) ltac:(lra)) as [o2 [Eo2 Ro2]].
  assert (Hs1 : reduced_in_sequence sample_feature_params [] 70
                  ["owl_serrations"; "humpback_tubercles"] [1.75; 9.12]).
  { eapply seq_reduce; [exact Eo1 | exact Ro1 |].
    eapply seq_reduce; [exact Eh1 | exact Rh1 |]. constructor. }
  assert (Hs2 : reduced_in_sequence sample_feature_params [] 70
                  ["humpback_tubercles"; "owl_serrations"] [9.12; 1.75]).
  { eapply seq_reduce; [exact Eh2 | exact Rh2 |].
    eapply seq_reduce; [exact Eo2 | exact Ro2 |]. constructor. }
  destruct (combined_reduction_returns 70 _ _ _ _ Hs1 ltac:(lra)) as [r1 E1].
  destruct (combined_reduction_returns 70 _ _ _ _ Hs2 ltac:(lra)) as [r2 E2].
  exists r1, r2. split; [exact E1|]. split; [exact E2|].
  destruct (combined_reduction_order_free 70
              ["owl_serrations"; "humpback_tubercles"]
              ["humpback_tubercles"; "owl_serrations"]
              sample_feature_params [] r1 r2
              (perm_swap _ _ _) E1 E2) as [Ht [Hf _]].
  split; assumption.
Defined.

End CombinedLaws.

(** ** Composition *)

Section CompositionLaws.

Import BioInspiredDesignFactory.








End CompositionLaws.

(** ** Recommendations and variants *)

Section FactoryLaws.

Import BioInspiredDesignFactory.

Lemma is_string_spec (v : value) (s : string) :
  (is_string v s = true -> v = VStr s) /\
  (is_string v s = false -> v <> VStr s).
Proof.
  destruct v; simpl; split; try discriminate; intros H.
  - apply String.eqb_eq in H. subst. reflexivity.
  - intros E. injection E as ->. rewrite String.eqb_refl in H. discriminate.
Qed.

(** X22.  [recommend_features] on numbers as Reynolds number, angle of
    attack and noise target returns without a change to the store a list
    without repetition of feature names, and it says which: the
    serrations when the manufacturing complexity is medium or high or the
    noise target is at least 15; the corrugations when the Reynolds number
    is below 300000 or stiffness is required; the tubercles only for a
    high manufacturing complexity, and then when the angle of attack is
    above 5 or the target is at least 15 and the corrugations are not
    recommended. *)
Theorem recommend_features_law (operating_conditions : dict)
    (constraints : option dict) (h : heap)
    (reynolds aoa target : pyfloat) (stiffness : bool) :
  let given :=
    match constraints with
    | None => []
    | Some c => c
    end in
  let manufacturing :=
    get_value given "manufacturing_complexity" (VStr "medium") in
  get_float operating_conditions "reynolds_number" (Fin 200000)
    = Ok reynolds ->
  get_float operating_conditions "angle_of_attack" (Fin 5.0) = Ok aoa ->
  get_float operating_conditions "noise_reduction_target" (Fin 15.0)
    = Ok target ->
  truth (get_value given "require_stiffness" (VBool false)) h
    = (h, Ok stiffness) ->
  exists recommendations : list string,
    recommend_features operating_conditions constraints h
    = (h, Ok recommendations) /\
    NoDup recommendations /\
    (In "owl_serrations" recommendations <->
     manufacturing = VStr "medium" \/ manufacturing = VStr "high" \/
     fge target (Fin 15.0) = true) /\
    (In "dragonfly_corrugations" recommendations <->
     flt reynolds (Fin 300000) = true \/ stiffness = true) /\
    (In "humpback_tubercles" recommendations <->
     manufacturing = VStr "high" /\
     (fgt aoa (Fin 5.0) = true \/
      fge target (Fin 15.0) = true /\
      flt reynolds (Fin 300000) = false /\ stiffness = false)) /\
    (forall name : string,
        In name recommendations -> In name recognized).
Proof.
  intros given manufacturing Ere Eaoa Etarget Etruth.
  unfold recommend_features. fold given.
  rewrite Ere, Eaoa, Etarget, !run_lift. fold manufacturing.
  destruct (is_string_spec manufacturing "medium") as [Hm1 Hm0].
  destruct (is_string_spec manufacturing "high") as [Hh1 Hh0].
  assert (Hstage :
            (if flt reynolds (Fin 300000) then ret true
             else truth (get_value given "require_stiffness" (VBool false))) h
            = (h, Ok (flt reynolds (Fin 300000) || stiffness))).
  { destruct (flt reynolds (Fin 300000)); [reflexivity | exact Etruth]. }
  rewrite (run_mbind _ _ _ _ _ Hstage). unfold ret.
  destruct (is_string manufacturing "medium") eqn:Em;
    destruct (is_string manufacturing "high") eqn:Eh;
    try (specialize (Hm1 eq_refl)); try (specialize (Hh1 eq_refl));
    try (specialize (Hm0 eq_refl)); try (specialize (Hh0 eq_refl));
    try (exfalso; congruence);
    destruct (fgt aoa (Fin 5.0)); destruct (flt reynolds (Fin 300000));
    destruct stiffness; destruct (fge target (Fin 15.0));
    cbn [orb andb app List.length Nat.ltb Nat.leb negb mem existsb
         String.eqb Ascii.eqb Bool.eqb];
    eexists; (split; [reflexivity|]);
    (split; [repeat constructor; simpl; intuition discriminate|]);
    unfold recognized; simpl;
    repeat split; intros;
    repeat match goal with
           | H : _ \/ _ |- _ => destruct H
           | H : _ /\ _ |- _ => destruct H
           end;
    subst; try discriminate; try contradiction; try congruence;
    auto 8.
Qed.

Lemma recommend_features_law_witness :
  (exists recommendations : list string,
      recommend_features [] None [] = ([], Ok recommendations) /\
      In "owl_serrations" recommendations /\
      In "dragonfly_corrugations" recommendations /\
      ~ In "humpback_tubercles" recommendations) /\
  (exists recommendations : list string,
      recommend_features [("reynolds_number", VReal 400000)]
        (Some [("manufacturing_complexity", VStr "low")]) []
      = ([], Ok recommendations) /\
      In "owl_serrations" recommendations /\
      ~ In "dragonfly_corrugations" recommendations).
Proof.
  assert (Htarget : fge (Fin 15.0) (Fin 15.0) = true).
  { unfold fge, fle. destruct (Rle_dec 15.0 15.0); [reflexivity | lra]. }
  split.
  - destruct (recommend_features_law [] None [] (Fin 200000) (Fin 5.0)
                (Fin 15.0) false eq_refl eq_refl eq_refl eq_refl)
      as [recs [E [_ [Ho [Hd [Ht _]]]]]].
    exists recs. split; [exact E|]. split; [|split].
    + apply Ho. left. reflexivity.
    + apply Hd. left. unfold flt.
      destruct (Rlt_dec 200000 300000); [reflexivity | lra].
    + intros Hin. apply Ht in Hin. destruct Hin as [Hm _]. discriminate.
  - destruct (recommend_features_law [("reynolds_number", VReal 400000)]
                (Some [("manufacturing_complexity", VStr "low")]) []
                (Fin 400000) (Fin 5.0) (Fin 15.0) false
                eq_refl eq_refl eq_refl eq_refl)
      as [recs [E [_ [Ho [Hd _]]]]].
    exists recs. split; [exact E|]. split.
    + apply Ho. right. right. exact Htarget.
    + intros Hin. apply Hd in Hin. destruct Hin as [Hre | Hst];
        [|discriminate].
      unfold flt in Hre. destruct (Rlt_dec 400000 300000);
        [lra | discriminate].
Defined.

End FactoryLaws.

(** ** Evaluation *)

Section EvaluationLaws.

Import BioInspiredDesignFactory.
Import DesignEvaluator.

Tactic Notation "run_inv" hyp(H) ident(x) ident(h) ident(Hx) :=
  apply mbind_Ok_inv in H; destruct H as [x [h [Hx H]]].

Tactic Notation "read_inv" hyp(H) :=
  apply lift_Ok_inv in H; destruct H as [-> H].

Lemma not_In_eqb (k k' : string) (l : list string) :
  ~ In k l -> In k' l -> String.eqb k' k = false.
Proof.
  intros Hk Hin. destruct (String.eqb k' k) eqn:E; [|reflexivity].
  apply String.eqb_eq in E. subst k'. contradiction.
Qed.

Ltac keep_entries Hk :=
  rewrite ?dget_dset_other
    by (apply (not_In_eqb _ _ _ Hk); unfold written_entries; simpl; auto 12);
  reflexivity.

Ltac keep_reals Hin Hreal :=
  simpl in Hin;
  repeat (destruct Hin as [<- | Hin]);
  try contradiction;
  unfold real_entry in *;
  repeat (rewrite dget_dset_other by reflexivity);
  try rewrite dget_dset_same;
  first [exact Hreal | eexists; reflexivity].

(** A read of the store that fails ends the call. *)
Ltac run_read H :=
  match type of H with
  | mbind (lift ?o) _ _ = _ =>
      let x := fresh "x" in
      let e := fresh "e" in
      destruct o as [x|e];
      [rewrite run_lift in H | unfold mbind at 1, lift in H; discriminate]
  end.

Lemma owl_apply_entries (h h' : heap) (g g' : ref) (config : option dict)
    (d : dict) :
  nth_error h g = Some d ->
  OwlWingSerrations.apply_to_blade_design g config h = (h', Ok g') ->
  exists d' : dict,
    h' = h ++ [d'] /\ g' = List.length h /\
    (forall k : string, ~ In k written_entries -> dget d' k = dget d k) /\
    (forall k : string,
        In k ["drag_coefficient"; "cl_max"; "stall_angle_deg"] ->
        real_entry d k -> real_entry d' k).
Proof.
  intros Hg H. unfold OwlWingSerrations.apply_to_blade_design in H.
  run_inv H params h1 Ep.
  assert (Eh : h1 = h).
  { destruct config as [c|].
    - unfold ret in Ep. injection Ep as <- _. reflexivity.
    - run_inv Ep g0 h2 E0. apply deref_Ok_inv in E0. destruct E0 as [-> _].
      run_inv Ep c h3 E1. read_inv E1. read_inv Ep. reflexivity. }
  subst h1. clear Ep.
  rewrite (run_copy _ _ _ _ Hg) in H. rewrite !run_setitem in H.
  rewrite (run_deref _ _ _ _ _ Hg) in H. run_read H. run_read H.
  rewrite run_setitem in H. unfold ret in H. injection H as <- <-.
  eexists. split; [reflexivity|]. split; [reflexivity|]. split.
  - intros k Hk. keep_entries Hk.
  - intros k Hin Hreal. keep_reals Hin Hreal.
Qed.

Lemma humpback_apply_entries (h h' : heap) (g g' : ref)
    (config : option dict) (d : dict) :
  nth_error h g = Some d ->
  HumpbackWhaleTubercles.apply_to_blade_design g config h = (h', Ok g') ->
  exists d' : dict,
    h' = h ++ [d'] /\ g' = List.length h /\
    (forall k : string, ~ In k written_entries -> dget d' k = dget d k) /\
    (forall k : string,
        In k ["drag_coefficient"; "cl_max"; "stall_angle_deg"] ->
        real_entry d k -> real_entry d' k).
Proof.
  intros Hg H. unfold HumpbackWhaleTubercles.apply_to_blade_design in H.
  run_inv H params h1 Ep.
  assert (Eh : h1 = h).
  { destruct config as [c|].
    - unfold ret in Ep. injection Ep as <- _. reflexivity.
    - run_inv Ep g0 h2 E0. apply deref_Ok_inv in E0. destruct E0 as [-> _].
      run_inv Ep c h3 E1. read_inv E1. read_inv Ep. reflexivity. }
  subst h1. clear Ep.
  rewrite (run_copy _ _ _ _ Hg) in H. rewrite !run_setitem in H.
  rewrite (run_deref _ _ _ _ _ Hg) in H. run_read H.
  rewrite run_setitem in H.
  rewrite (run_deref _ _ _ _ _ Hg) in H. run_read H.
  rewrite run_setitem in H.
  rewrite (run_deref _ _ _ _ _ Hg) in H. run_read H.
  rewrite run_setitem in H. unfold ret in H. injection H as <- <-.
  eexists. split; [reflexivity|]. split; [reflexivity|]. split.
  - intros k Hk. keep_entries Hk.
  - intros k Hin Hreal. keep_reals Hin Hreal.
Qed.

Lemma dragonfly_apply_entries (h h' : heap) (g g' : ref)
    (config : option dict) (d : dict) :
  nth_error h g = Some d ->
  DragonflyCorrugations.apply_to_blade_design g config h = (h', Ok g') ->
  exists d' : dict,
    h' = h ++ [d'] /\ g' = List.length h /\
    (forall k : string, ~ In k written_entries -> dget d' k = dget d k) /\
    (forall k : string,
        In k ["drag_coefficient"; "cl_max"; "stall_angle_deg"] ->
        real_entry d k -> real_entry d' k).
Proof.
  intros Hg H. unfold DragonflyCorrugations.apply_to_blade_design in H.
  run_inv H params h1 Ep.
  assert (Eh : h1 = h).
  { destruct config as [c|].
    - unfold ret in Ep. injection Ep as <- _. reflexivity.
    - run_inv Ep g0 h2 E0. apply deref_Ok_inv in E0. destruct E0 as [-> _].
      run_inv Ep c h3 E1. read_inv E1. read_inv Ep. reflexivity. }
  subst h1. clear Ep.
  rewrite (run_copy _ _ _ _ Hg) in H. rewrite !run_setitem in H.
  rewrite (run_deref _ _ _ _ _ Hg) in H. run_read H.
  rewrite run_setitem in H.
  rewrite (run_deref _ _ _ _ _ Hg) in H. run_read H.
  rewrite run_setitem in H.
  rewrite (run_deref _ _ _ _ _ Hg) in H. run_read H.
  rewrite run_setitem in H. unfold ret in H. injection H as <- <-.
  eexists. split; [reflexivity|]. split; [reflexivity|]. split.
  - intros k Hk. keep_entries Hk.
  - intros k Hin Hreal. keep_reals Hin Hreal.
Qed.

(** One step of [create_design]: the feature applied when its name is
    listed. *)
Lemma feature_step_entries
    (apply : ref -> option dict -> M ref) (name : string) :
  (forall (h h' : heap) (g g' : ref) (config : option dict) (d : dict),
      nth_error h g = Some d -> apply g config h = (h', Ok g') ->
      exists d' : dict,
        h' = h ++ [d'] /\ g' = List.length h /\
        (forall k : string,
            ~ In k written_entries -> dget d' k = dget d k) /\
        (forall k : string,
            In k ["drag_coefficient"; "cl_max"; "stall_angle_deg"] ->
            real_entry d k -> real_entry d' k)) ->
  forall (features applied applied' : list string) (configs : dict)
         (h h' : heap) (g g' : ref) (d : dict),
    nth_error h g = Some d ->
    (if mem name features then
       let! config := lift (config_of configs name) in
       let! g2 := apply g config in
       ret (g2, (applied ++ [name])%list)
     else ret (g, applied)) h = (h', Ok (g', applied')) ->
    exists d' : dict,
      nth_error h' g' = Some d' /\
      (forall k : string, ~ In k written_entries -> dget d' k = dget d k) /\
      (forall k : string,
          In k ["drag_coefficient"; "cl_max"; "stall_angle_deg"] ->
          real_entry d k -> real_entry d' k) /\
      (forall (r : ref) (x : dict),
          nth_error h r = Some x -> nth_error h' r = Some x) /\
      (g <= g')%nat.
Proof.
  intros Happly features applied applied' configs h h' g g' d Hg H.
  destruct (mem name features).
  - run_inv H config h1 E0. read_inv E0.
    run_inv H g2 h2 E1. unfold ret in H. injection H as <- <- _.
    destruct (Happly _ _ _ _ _ _ Hg E1) as [d' [-> [-> [Hd' Hr']]]].
    exists d'. split; [apply nth_error_last|]. split; [exact Hd'|].
    split; [exact Hr'|].
    split; [intros r x Hr; apply nth_error_old; exact Hr|].
    apply Nat.lt_le_incl, nth_error_Some. rewrite Hg. discriminate.
  - unfold ret in H. injection H as <- <- _.
    exists d. split; [exact Hg|]. split; [reflexivity|].
    split; [auto|]. split; [auto | lia].
Qed.

Lemma nth_error_replace_other (h : heap) (r g : ref) (d : dict) :
  r <> g -> nth_error (replace_nth h g d) r = nth_error h r.
Proof.
  revert r g. induction h as [|y h IH]; intros [|r] [|g] Hne; simpl;
    try reflexivity; try congruence.
  apply IH. congruence.
Qed.

Lemma create_design_entries (base_geometry : ref)
    (features : list string) (custom_configs : option dict)
    (h h' : heap) (g' : ref) (d : dict) :
  nth_error h base_geometry = Some d ->
  create_design base_geometry features custom_configs h = (h', Ok g') ->
  exists d' : dict,
    nth_error h' g' = Some d' /\
    (forall k : string, ~ In k written_entries -> dget d' k = dget d k) /\
    (forall (r : ref) (x : dict),
        nth_error h r = Some x -> nth_error h' r = Some x) /\
    (List.length h <= g')%nat /\
    (forall k : string,
        In k ["drag_coefficient"; "cl_max"; "stall_angle_deg"] ->
        real_entry d k -> real_entry d' k).
Proof.
  intros Hg H. unfold create_design in H.
  rewrite (run_copy _ _ _ _ Hg) in H.
  run_inv H s1 h1 E1. destruct s1 as [g1 a1].
  destruct (feature_step_entries _ _ owl_apply_entries _ _ _ _ _ _ _ _ _
              (nth_error_last h d) E1) as [d1 [Hg1 [K1 [R1 [F1 L1]]]]].
  run_inv H s2 h2 E2. destruct s2 as [g2 a2].
  destruct (feature_step_entries _ _ humpback_apply_entries _ _ _ _ _ _ _ _ _
              Hg1 E2) as [d2 [Hg2 [K2 [R2 [F2 L2]]]]].
  run_inv H s3 h3 E3. destruct s3 as [g3 a3].
  destruct (feature_step_entries _ _ dragonfly_apply_entries _ _ _ _ _ _ _ _ _
              Hg2 E3) as [d3 [Hg3 [K3 [R3 [F3 L3]]]]].
  run_inv H u h4 E4. unfold ret in H. injection H as <- <-.
  unfold setitem in E4. rewrite Hg3 in E4. injection E4 as <- _.
  exists (dset d3 "bio_inspired_features" (VStrs a3)).
  split; [apply (nth_error_replace_nth _ _ d3), Hg3|]. split.
  - intros k Hk. rewrite dget_dset_other
      by (apply (not_In_eqb _ _ _ Hk); unfold written_entries; simpl; auto 12).
    rewrite (K3 k Hk), (K2 k Hk), (K1 k Hk). reflexivity.
  - split; [|split; [lia|]].
    + intros r x Hr.
      assert (Hlt : (r < List.length h)%nat)
        by (apply nth_error_Some; rewrite Hr; discriminate).
      rewrite nth_error_replace_other by lia.
      apply F3, F2, F1, nth_error_old, Hr.
    + intros k Hin Hreal.
      pose proof (R3 k Hin (R2 k Hin (R1 k Hin Hreal))) as H3.
      unfold real_entry in *. rewrite dget_dset_other; [exact H3|].
      simpl in Hin. destruct Hin as [<- | [<- | [<- | []]]]; reflexivity.
Qed.

(** X23.  [create_design] writes nine entries and no other: when it
    returns, the record it returns is a new one that has, under every key
    that is not one of [written_entries], what the base record has there,
    and the base record and every other record of the store are as they
    were. *)
Theorem create_design_keeps_other_entries (base_geometry : ref)
    (features : list string) (custom_configs : option dict)
    (h h' : heap) (g' : ref) (d : dict) :
  nth_error h base_geometry = Some d ->
  create_design base_geometry features custom_configs h = (h', Ok g') ->
  exists d' : dict,
    nth_error h' g' = Some d' /\
    (forall k : string, ~ In k written_entries -> dget d' k = dget d k) /\
    (forall (r : ref) (x : dict),
        nth_error h r = Some x -> nth_error h' r = Some x) /\
    (List.length h <= g')%nat.
Proof.
  intros Hg H.
  destruct (create_design_entries _ _ _ _ _ _ _ Hg H)
    as [d' [H1 [H2 [H3 [H4 _]]]]].
  exists d'. repeat split; assumption.
Qed.

Lemma create_design_keeps_other_entries_witness :
  exists (h' : heap) (g' : ref) (d' : dict),
    create_design 0%nat ["owl_serrations"] None [sample_base] = (h', Ok g') /\
    nth_error h' g' = Some d' /\
    dget d' "chord_length" = Some (VReal 0.05) /\
    nth_error h' 0 = Some sample_base.
Proof.
  destruct sample_create_design as [n [a [G [_ E]]]].
  destruct (create_design_keeps_other_entries 0%nat ["owl_serrations"] None
              [sample_base] _ _ sample_base eq_refl E)
    as [d' [Hg [Hk [Hf _]]]].
  exists [sample_base; sample_base; G], 2%nat, d'.
  split; [exact E|]. split; [exact Hg|]. split.
  - rewrite Hk; [reflexivity|]. unfold written_entries. simpl.
    intuition discriminate.
  - apply Hf. reflexivity.
Defined.

Lemma evaluate_design_reads (self : t) (g1 g2 : ref) (oc : dict)
    (baseline_ntr : option pyfloat) (h1 h2 : heap) (d1 d2 : dict) :
  nth_error h1 g1 = Some d1 -> nth_error h2 g2 = Some d2 ->
  (forall k : string, In k evaluated_entries -> dget d1 k = dget d2 k) ->
  match snd (evaluate_design self g1 oc baseline_ntr h1),
        snd (evaluate_design self g2 oc baseline_ntr h2) with
  | Ok e1, Ok e2 =>
      dget e1 "noise_analysis" = dget e2 "noise_analysis" /\
      dget e1 "thrust_analysis" = dget e2 "thrust_analysis" /\
      dget e1 "performance_metrics" = dget e2 "performance_metrics"
  | Raise a, Raise b => a = b
  | _, _ => False
  end.
Proof.
  intros H1 H2 Hk. unfold evaluate_design.
  rewrite (run_deref_base _ _ _ _ H1), (run_deref_base _ _ _ _ H2).
  assert (En : NoiseAnalyzer.calculate_total_noise (noise_analyzer self)
                 d1 oc 1.0
               = NoiseAnalyzer.calculate_total_noise (noise_analyzer self)
                   d2 oc 1.0).
  { unfold NoiseAnalyzer.calculate_total_noise, get_real.
    rewrite (Hk "chord_length"), (Hk "blade_thickness"), (Hk "num_blades"),
      (Hk "radius"), (Hk "angle_of_attack")
      by (unfold evaluated_entries; simpl; auto 12).
    reflexivity. }
  rewrite En. unfold get_value, get_real.
  rewrite (Hk "radius_m"), (Hk "chord_root"), (Hk "chord_tip"),
    (Hk "pitch_angle"), (Hk "cl_slope"), (Hk "num_blades")
    by (unfold evaluated_entries; simpl; auto 12).
  repeat match goal with
         | |- context [mbind (lift ?o) _ _] =>
             destruct o;
             [rewrite !run_lift
             | unfold mbind, lift; cbn [snd]; reflexivity]
         end.
  unfold ret. cbn [snd]. repeat split; reflexivity.
Qed.

(** X24.  The features do not reach the evaluation of a design:
    [evaluate_design] reads ten entries of a geometry record, and
    [create_design] writes none of them.  So on the record that
    [create_design] returns, [evaluate_design] returns the noise
    analysis, the thrust analysis and the performance metrics that it
    returns on the base record, and it ends with the same fault where it
    ends with one there. *)
Theorem features_leave_evaluation_unchanged (self : t) (base_geometry : ref)
    (features : list string) (custom_configs : option dict)
    (operating_conditions : dict) (baseline_ntr : option pyfloat)
    (h h' : heap) (g' : ref) (d : dict) :
  nth_error h base_geometry = Some d ->
  create_design base_geometry features custom_configs h = (h', Ok g') ->
  (forall e : dict,
      snd (evaluate_design self base_geometry operating_conditions
             baseline_ntr h) = Ok e ->
      exists e' : dict,
        snd (evaluate_design self g' operating_conditions baseline_ntr h')
        = Ok e' /\
        dget e' "noise_analysis" = dget e "noise_analysis" /\
        dget e' "thrust_analysis" = dget e "thrust_analysis" /\
        dget e' "performance_metrics" = dget e "performance_metrics") /\
  (forall err : fault,
      snd (evaluate_design self base_geometry operating_conditions
             baseline_ntr h) = Raise err ->
      snd (evaluate_design self g' operating_conditions baseline_ntr h')
      = Raise err).
Proof.
  intros Hg Hc.
  destruct (create_design_entries _ _ _ _ _ _ _ Hg Hc) as [d' [Hg' [Hk _]]].
  assert (Hsame : forall k : string,
             In k evaluated_entries -> dget d' k = dget d k).
  { intros k Hin. apply Hk. unfold evaluated_entries in Hin.
    unfold written_entries. simpl in Hin |- *.
    intuition (subst; discriminate). }
  pose proof (evaluate_design_reads self g' base_geometry
                operating_conditions baseline_ntr h' h d' d Hg' Hg Hsame)
    as Hboth.
  destruct (snd (evaluate_design self g' operating_conditions
                   baseline_ntr h')) as [e'|a];
    destruct (snd (evaluate_design self base_geometry operating_conditions
                     baseline_ntr h)) as [e|b]; try contradiction.
  - split; [|discriminate]. intros e0 E. injection E as <-.
    exists e'. split; [reflexivity | exact Hboth].
  - split; [discriminate|]. intros err E. injection E as <-.
    f_equal. exact Hboth.
Qed.

Lemma features_leave_evaluation_unchanged_witness :
  exists (h' : heap) (e e' : dict),
    create_design 0%nat ["owl_serrations"] None [sample_base]
    = (h', Ok 2%nat) /\
    snd (evaluate_design DesignEvaluator.default 0%nat sample_conditions None
           [sample_base]) = Ok e /\
    snd (evaluate_design DesignEvaluator.default 2%nat sample_conditions None
           h') = Ok e' /\
    dget e' "noise_analysis" = dget e "noise_analysis" /\
    dget e' "thrust_analysis" = dget e "thrust_analysis".
Proof.
  destruct sample_create_design as [n [a [G [_ E]]]].
  destruct (first_pass_at_rest 0%nat [sample_base] sample_base None
              0.05 0.005 2 0.127 5.0)
    as [noise0 [pm0 [total [T [Q [P [e0 [Ebase _]]]]]]]];
    try reflexivity; try lra;
    try (unfold positive_entry; simpl; exact I).
  cbv zeta in Ebase.
  destruct (features_leave_evaluation_unchanged DesignEvaluator.default
              0%nat ["owl_serrations"] None sample_conditions None
              [sample_base] _ _ sample_base eq_refl E) as [Hok _].
  destruct (Hok _ ltac:(rewrite Ebase; reflexivity)) as [e' [E' [Hn [Ht _]]]].
  eexists _, _, e'. split; [exact E|].
  split; [rewrite Ebase; reflexivity|].
  split; [exact E'|]. split; assumption.
Defined.

(** *** Variants *)

(** A record on which every feature can be applied with its default
    configuration. *)
Lemma apply_keeps_ready
    (apply : ref -> option dict -> M ref) (h : heap) (g : ref) (d : dict) :
  (forall (h h' : heap) (g g' : ref) (config : option dict) (d : dict),
      nth_error h g = Some d -> apply g config h = (h', Ok g') ->
      exists d' : dict,
        h' = h ++ [d'] /\ g' = List.length h /\
        (forall k : string,
            ~ In k written_entries -> dget d' k = dget d k) /\
        (forall k : string,
            In k ["drag_coefficient"; "cl_max"; "stall_angle_deg"] ->
            real_entry d k -> real_entry d' k)) ->
  nth_error h g = Some d ->
  (exists d', apply g None h = (h ++ [d'], Ok (List.length h))) ->
  nonzero_entry d "chord_length" -> nonzero_entry d "radius" ->
  real_entry d "drag_coefficient" -> real_entry d "cl_max" ->
  real_entry d "stall_angle_deg" ->
  exists d' : dict,
    apply g None h = (h ++ [d'], Ok (List.length h)) /\
    nonzero_entry d' "chord_length" /\ nonzero_entry d' "radius" /\
    real_entry d' "drag_coefficient" /\ real_entry d' "cl_max" /\
    real_entry d' "stall_angle_deg".
Proof.
  intros Hentries Hg [d' E] Hc Hr Hd Hcl Hst.
  destruct (Hentries _ _ _ _ _ _ Hg E) as [d2 [E2 [_ [Hk Hreal]]]].
  apply app_inv_head in E2. injection E2 as <-.
  exists d'. split; [exact E|].
  assert (Hother : forall k, In k ["chord_length"; "radius"] ->
                             dget d' k = dget d k).
  { intros k Hin. apply Hk. unfold written_entries. simpl in Hin |- *.
    intuition (subst; discriminate). }
  unfold nonzero_entry.
  rewrite (Hother "chord_length"), (Hother "radius") by (simpl; auto).
  split; [exact Hc|]. split; [exact Hr|].
  split; [|split]; apply Hreal; simpl; auto.
Qed.

Lemma create_design_returns (base_geometry : ref) (features : list string)
    (h : heap) (d : dict) :
  nth_error h base_geometry = Some d ->
  nonzero_entry d "chord_length" -> nonzero_entry d "radius" ->
  real_entry d "drag_coefficient" -> real_entry d "cl_max" ->
  real_entry d "stall_angle_deg" ->
  exists (h' : heap) (g' : ref),
    create_design base_geometry features None h = (h', Ok g').
Proof.
  intros Hg Hc Hr Hd Hcl Hst. unfold create_design.
  rewrite (run_copy _ _ _ _ Hg). cbn [config_of dget].
  assert (Hstage :
            forall (apply : ref -> option dict -> M ref) (name : string)
                   (applied : list string) (h1 : heap) (g1 : ref)
                   (d1 : dict),
              (nth_error h1 g1 = Some d1 ->
               nonzero_entry d1 "chord_length" -> nonzero_entry d1 "radius" ->
               real_entry d1 "drag_coefficient" -> real_entry d1 "cl_max" ->
               real_entry d1 "stall_angle_deg" ->
               exists d' : dict,
                 apply g1 None h1 = (h1 ++ [d'], Ok (List.length h1)) /\
                 nonzero_entry d' "chord_length" /\
                 nonzero_entry d' "radius" /\
                 real_entry d' "drag_coefficient" /\
                 real_entry d' "cl_max" /\
                 real_entry d' "stall_angle_deg") ->
              nth_error h1 g1 = Some d1 ->
              nonzero_entry d1 "chord_length" -> nonzero_entry d1 "radius" ->
              real_entry d1 "drag_coefficient" -> real_entry d1 "cl_max" ->
              real_entry d1 "stall_angle_deg" ->
              exists (h2 : heap) (g2 : ref) (applied2 : list string)
                     (d2 : dict),
                (if mem name features then
                   let! config := lift (Ok None) in
                   let! g := apply g1 config in
                   ret (g, (applied ++ [name])%list)
                 else ret (g1, applied)) h1 = (h2, Ok (g2, applied2)) /\
                nth_error h2 g2 = Some d2 /\
                nonzero_entry d2 "chord_length" /\
                nonzero_entry d2 "radius" /\
                real_entry d2 "drag_coefficient" /\
                real_entry d2 "cl_max" /\
                real_entry d2 "stall_angle_deg").
  { intros apply name applied h1 g1 d1 Happly Hg1 Hc1 Hr1 Hd1 Hcl1 Hst1.
    destruct (mem name features).
    - destruct (Happly Hg1 Hc1 Hr1 Hd1 Hcl1 Hst1) as [d' [E Hready]].
      exists (h1 ++ [d']), (List.length h1), (applied ++ [name])%list, d'.
      split; [rewrite run_lift, (run_mbind _ _ _ _ _ E); reflexivity|].
      split; [apply nth_error_last | exact Hready].
    - exists h1, g1, applied, d1. split; [reflexivity|].
      repeat split; assumption. }
  destruct (Hstage OwlWingSerrations.apply_to_blade_design "owl_serrations"
              [] (h ++ [d]) (List.length h) d)
    as [h1 [g1 [a1 [d1 [E1 [Hg1 [Hc1 [Hr1 [Hd1 [Hcl1 Hst1]]]]]]]]]];
    try assumption; try apply nth_error_last.
  { intros Hx Hcx Hrx Hdx Hclx Hstx.
    apply (apply_keeps_ready _ _ _ _ owl_apply_entries Hx); try assumption.
    apply (owl_apply_returns _ _ _ Hx); assumption. }
  rewrite (run_mbind _ _ _ _ _ E1). cbv beta iota.
  destruct (Hstage HumpbackWhaleTubercles.apply_to_blade_design
              "humpback_tubercles" a1 h1 g1 d1)
    as [h2 [g2 [a2 [d2 [E2 [Hg2 [Hc2 [Hr2 [Hd2 [Hcl2 Hst2]]]]]]]]]];
    try assumption.
  { intros Hx Hcx Hrx Hdx Hclx Hstx.
    apply (apply_keeps_ready _ _ _ _ humpback_apply_entries Hx);
      try assumption.
    apply (humpback_apply_returns _ _ _ Hx); assumption. }
  rewrite (run_mbind _ _ _ _ _ E2). cbv beta iota.
  destruct (Hstage DragonflyCorrugations.apply_to_blade_design
              "dragonfly_corrugations" a2 h2 g2 d2)
    as [h3 [g3 [a3 [d3 [E3 [Hg3 _]]]]]]; try assumption.
  { intros Hx Hcx Hrx Hdx Hclx Hstx.
    apply (apply_keeps_ready _ _ _ _ dragonfly_apply_entries Hx);
      try assumption.
    apply (dragonfly_apply_returns _ _ _ Hx); assumption. }
  rewrite (run_mbind _ _ _ _ _ E3). cbv beta iota.
  unfold mbind, setitem, ret. rewrite Hg3. do 2 eexists. reflexivity.
Qed.

Lemma firstn_In_list {A : Type} (k : nat) (l : list A) (x : A) :
  In x (firstn k l) -> In x l.
Proof.
  revert l. induction k as [|k IH]; intros [|y l] H; simpl in *;
    try contradiction.
  destruct H as [-> | H]; [left; reflexivity | right; apply IH, H].
Qed.

Lemma slice_to_In {A : Type} (l : list A) (n : Z) (x : A) :
  In x (slice_to l n) -> In x l.
Proof.
  unfold slice_to. destruct (n <? 0)%Z; apply firstn_In_list.
Qed.

Lemma slice_to_length {A : Type} (l : list A) (n : Z) :
  List.length (slice_to l n)
  = if (n <? 0)%Z then Z.to_nat (Z.of_nat (List.length l) + n)
    else Nat.min (Z.to_nat n) (List.length l).
Proof.
  unfold slice_to. destruct (n <? 0)%Z eqn:E; rewrite length_firstn;
    [|reflexivity].
  apply Z.ltb_lt in E. lia.
Qed.

(** X25.  [generate_design_variants] returns, for a count [n >= 0], the
    first [n] of five variants and at most five, and for a negative
    count all but the last [-n] of four.  Every variant is a name, a
    geometry and a feature list; its geometry is a record made by the
    call, with the entries of the base record under every key that the
    features do not write.  The records that were in the store, the
    base record among them, are as they were. *)
Theorem design_variants_law (base_geometry : ref) (num_variants : Z)
    (h h' : heap) (d : dict) (variants : list dict) :
  nth_error h base_geometry = Some d ->
  generate_design_variants base_geometry num_variants h
    = (h', Ok variants) ->
  ((0 <= num_variants)%Z ->
   List.length variants = Z.to_nat (Z.min num_variants 5)) /\
  ((num_variants < 0)%Z ->
   List.length variants = Z.to_nat (4 + num_variants)) /\
  (forall (r : ref) (x : dict),
      nth_error h r = Some x -> nth_error h' r = Some x) /\
  (forall v : dict,
      In v variants ->
      exists (name : string) (geometry : ref) (features : list string)
             (record : dict),
        v = variant name geometry features /\
        (List.length h <= geometry)%nat /\
        nth_error h' geometry = Some record /\
        forall k : string,
          ~ In k written_entries -> dget record k = dget d k).
Proof.
  intros Hg H. unfold generate_design_variants in H.
  rewrite (run_copy _ _ _ _ Hg) in H.
  run_inv H g1 h1 E1.
  destruct (create_design_entries _ _ _ _ _ _ _
              (nth_error_old h [d] _ _ Hg) E1)
    as [d1 [Hg1 [K1 [F1 [L1 _]]]]].
  run_inv H g2 h2 E2.
  destruct (create_design_entries _ _ _ _ _ _ _
              (F1 _ _ (nth_error_old h [d] _ _ Hg)) E2)
    as [d2 [Hg2 [K2 [F2 [L2 _]]]]].
  run_inv H g3 h3 E3.
  destruct (create_design_entries _ _ _ _ _ _ _
              (F2 _ _ (F1 _ _ (nth_error_old h [d] _ _ Hg))) E3)
    as [d3 [Hg3 [K3 [F3 [L3 _]]]]].
  assert (Hlen1 : (List.length h < List.length h1)%nat).
  { apply nth_error_Some. rewrite (F1 _ _ (nth_error_last h d)).
    discriminate. }
  assert (Hlen2 : (List.length h1 <= List.length h2)%nat).
  { destruct h1 as [|x1 t1]; [simpl; lia|].
    assert (Hx : nth_error (x1 :: t1) (List.length t1) <> None)
      by (apply nth_error_Some; simpl; lia).
    destruct (nth_error (x1 :: t1) (List.length t1)) as [y|] eqn:Ey;
      [|contradiction].
    apply F2 in Ey.
    assert (Hy : (List.length t1 < List.length h2)%nat)
      by (apply nth_error_Some; rewrite Ey; discriminate).
    simpl. lia. }
  assert (Hbase : forall hh, (forall r x, nth_error h3 r = Some x ->
                                          nth_error hh r = Some x) ->
            forall v,
              In v [variant "Baseline" (List.length h) [];
                    variant "Owl Serrations" g1 ["owl_serrations"];
                    variant "Humpback Tubercles" g2 ["humpback_tubercles"];
                    variant "Dragonfly Corrugations" g3
                      ["dragonfly_corrugations"]] ->
              exists name geometry features record,
                v = variant name geometry features /\
                (List.length h <= geometry)%nat /\
                nth_error hh geometry = Some record /\
                forall k, ~ In k written_entries ->
                          dget record k = dget d k).
  { intros hh Fh v Hin. simpl in Hin.
    destruct Hin as [<- | [<- | [<- | [<- | []]]]].
    - do 3 eexists. exists d. split; [reflexivity|]. split; [lia|].
      split; [apply Fh, F3, F2, F1, nth_error_last | reflexivity].
    - do 3 eexists. exists d1. split; [reflexivity|].
      rewrite length_app in L1. simpl in L1. split; [lia|].
      split; [apply Fh, F3, F2, Hg1 | exact K1].
    - do 3 eexists. exists d2. split; [reflexivity|]. split; [lia|].
      split; [apply Fh, F3, Hg2 | exact K2].
    - do 3 eexists. exists d3. split; [reflexivity|].
      assert (Hl3 : (List.length h2 <= g3)%nat) by exact L3.
      split; [lia|]. split; [apply Fh, Hg3 | exact K3]. }
  cbn [app] in H.
  destruct (5 <=? num_variants)%Z eqn:E5.
  - apply Z.leb_le in E5.
    run_inv H vs h4 E4. run_inv E4 g4 h5 E6.
    destruct (create_design_entries _ _ _ _ _ _ _
                (F3 _ _ (F2 _ _ (F1 _ _ (nth_error_old h [d] _ _ Hg)))) E6)
      as [d4 [Hg4 [K4 [F4 [L4 _]]]]].
    unfold ret in E4. injection E4 as <- <-.
    unfold ret in H. injection H as <- <-.
    split; [|split; [|split]].
    + intros _. rewrite slice_to_length.
      destruct (num_variants <? 0)%Z eqn:En;
        [apply Z.ltb_lt in En; lia|].
      cbn [List.length app]. lia.
    + intros Hn. lia.
    + intros r x Hr. apply F4, F3, F2, F1, nth_error_old, Hr.
    + intros v Hin. apply slice_to_In in Hin.
      change (In v ([variant "Baseline" (List.length h) [];
                     variant "Owl Serrations" g1 ["owl_serrations"];
                     variant "Humpback Tubercles" g2 ["humpback_tubercles"];
                     variant "Dragonfly Corrugations" g3
                       ["dragonfly_corrugations"]]
                    ++ [variant "Combined Bio-Inspired" g4
                          ["owl_serrations"; "humpback_tubercles";
                           "dragonfly_corrugations"]])) in Hin.
      apply in_app_or in Hin.
      destruct Hin as [Hin | [<- | []]].
      * exact (Hbase _ F4 v Hin).
      * do 3 eexists. exists d4. split; [reflexivity|].
        assert (Hl3 : (List.length h2 <= List.length h3)%nat).
        { destruct (Nat.le_gt_cases (List.length h2) (List.length h3))
            as [Hle | Hgt]; [exact Hle|].
          exfalso.
          assert (Hx : nth_error h2 (List.length h3) <> None)
            by (apply nth_error_Some; exact Hgt).
          destruct (nth_error h2 (List.length h3)) as [y|] eqn:Ey;
            [|contradiction].
          apply F3 in Ey.
          assert ((List.length h3 < List.length h3)%nat)
            by (apply nth_error_Some; rewrite Ey; discriminate).
          lia. }
        split; [lia|]. split; [exact Hg4 | exact K4].
  - apply Z.leb_gt in E5.
    unfold mbind, ret in H. injection H as <- <-.
    split; [|split; [|split]].
    + intros Hn. rewrite slice_to_length.
      destruct (num_variants <? 0)%Z eqn:En;
        [apply Z.ltb_lt in En; lia|].
      cbn [List.length]. lia.
    + intros Hn. rewrite slice_to_length.
      destruct (num_variants <? 0)%Z eqn:En;
        [|apply Z.ltb_ge in En; lia].
      cbn [List.length]. lia.
    + intros r x Hr. apply F3, F2, F1, nth_error_old, Hr.
    + intros v Hin. apply slice_to_In in Hin.
      exact (Hbase h3 (fun r x Hx => Hx) v Hin).
Qed.

Lemma design_variants_returns (base_geometry : ref) (num_variants : Z)
    (h : heap) (d : dict) :
  nth_error h base_geometry = Some d ->
  nonzero_entry d "chord_length" -> nonzero_entry d "radius" ->
  real_entry d "drag_coefficient" -> real_entry d "cl_max" ->
  real_entry d "stall_angle_deg" ->
  exists (h' : heap) (variants : list dict),
    generate_design_variants base_geometry num_variants h
    = (h', Ok variants).
Proof.
  intros Hg Hc Hr Hd Hcl Hst. unfold generate_design_variants.
  rewrite (run_copy _ _ _ _ Hg).
  pose proof (nth_error_old h [d] _ _ Hg) as Hg0.
  destruct (create_design_returns base_geometry ["owl_serrations"]
              (h ++ [d]) d Hg0 Hc Hr Hd Hcl Hst) as [h1 [g1 E1]].
  destruct (create_design_entries _ _ _ _ _ _ _ Hg0 E1)
    as [_ [_ [_ [F1 _]]]].
  rewrite (run_mbind _ _ _ _ _ E1).
  destruct (create_design_returns base_geometry ["humpback_tubercles"]
              h1 d (F1 _ _ Hg0) Hc Hr Hd Hcl Hst) as [h2 [g2 E2]].
  destruct (create_design_entries _ _ _ _ _ _ _ (F1 _ _ Hg0) E2)
    as [_ [_ [_ [F2 _]]]].
  rewrite (run_mbind _ _ _ _ _ E2).
  destruct (create_design_returns base_geometry ["dragonfly_corrugations"]
              h2 d (F2 _ _ (F1 _ _ Hg0)) Hc Hr Hd Hcl Hst) as [h3 [g3 E3]].
  destruct (create_design_entries _ _ _ _ _ _ _ (F2 _ _ (F1 _ _ Hg0)) E3)
    as [_ [_ [_ [F3 _]]]].
  rewrite (run_mbind _ _ _ _ _ E3).
  destruct (5 <=? num_variants)%Z.
  - destruct (create_design_returns base_geometry
                ["owl_serrations"; "humpback_tubercles";
                 "dragonfly_corrugations"]
                h3 d (F3 _ _ (F2 _ _ (F1 _ _ Hg0))) Hc Hr Hd Hcl Hst)
      as [h4 [g4 E4]].
    unfold mbind at 1. unfold mbind at 1. rewrite E4.
    do 2 eexists. reflexivity.
  - do 2 eexists. reflexivity.
Qed.

Lemma design_variants_law_witness :
  exists (h' : heap) (variants : list dict),
    generate_design_variants 0%nat 3 [sample_base] = (h', Ok variants) /\
    List.length variants = 3%nat /\
    nth_error h' 0 = Some sample_base.
Proof.
  assert (Hchord : nonzero_entry sample_base "chord_length").
  { unfold nonzero_entry. simpl. exists 0.05. split; [reflexivity | lra]. }
  destruct (design_variants_returns 0%nat 3 [sample_base] sample_base
              eq_refl Hchord I I I I) as [h' [vs E]].
  destruct (design_variants_law 0%nat 3 [sample_base] h' sample_base vs
              eq_refl E) as [Hlen [_ [Hframe _]]].
  exists h', vs. split; [exact E|].
  split; [apply Hlen; lia | apply Hframe; reflexivity].
Defined.

End EvaluationLaws.

(** ** Comparison *)

Section ComparisonLaws.

Import DesignEvaluator.

Tactic Notation "run_inv" hyp(H) ident(x) ident(h) ident(Hx) :=
  apply mbind_Ok_inv in H; destruct H as [x [h [Hx H]]].

Tactic Notation "read_inv" hyp(H) :=
  apply lift_Ok_inv in H; destruct H as [-> H].

(** The metrics that [compare_designs] reads off an evaluation. *)
Lemma performance_metrics_entries (noise thrust metrics : dict) :
  AeroacousticMetrics.evaluate_design_performance noise thrust None
    = Ok metrics ->
  exists (ntr : pyfloat) (level force : R),
    ntr <> NaN /\
    item_float metrics "noise_to_thrust_ratio_dB_per_N" = Ok ntr /\
    item_real metrics "total_noise_spl_db" = Ok level /\
    item_real metrics "thrust_N" = Ok force.
Proof.
  unfold AeroacousticMetrics.evaluate_design_performance. intros H.
  bind_inv H total E1. bind_inv H force E2. bind_inv H power E3.
  bind_inv H ntr E4. bind_inv H eff E5. injection H as <-.
  exists ntr, total, force. split; [|repeat split; reflexivity].
  unfold AeroacousticMetrics.calculate_noise_to_thrust_ratio in E4.
  destruct (Rle_dec force 0).
  - injection E4 as <-. discriminate.
  - bind_inv E4 a Ea. bind_inv E4 b Eb. injection E4 as <-. discriminate.
Qed.

(** The result that the loop of [compare_designs] records for the design
    at position [k]. *)
Lemma compare_loop_inv (self : t) (oc : dict) (designs : list ref) :
  forall (i : nat) (results : list dict) (h h' : heap) (out : list dict),
    compare_loop self designs oc i results h = (h', Ok out) ->
    h' = h /\
    exists added : list dict,
      out = results ++ added /\
      List.length added = List.length designs /\
      forall (k : nat) (g : ref),
        nth_error designs k = Some g ->
        exists (d evaluation metrics : dict) (ntr : pyfloat)
               (level force : R),
          nth_error h g = Some d /\
          evaluate_design self g oc None h = (h, Ok evaluation) /\
          item_dict evaluation "performance_metrics" = Ok metrics /\
          item_float metrics "noise_to_thrust_ratio_dB_per_N" = Ok ntr /\
          item_real metrics "total_noise_spl_db" = Ok level /\
          item_real metrics "thrust_N" = Ok force /\
          ntr <> NaN /\
          nth_error added k
          = Some [("name",
                   get_value d "name"
                     (VStr ("Design " ++ decimal (i + k + 1))));
                  ("evaluation", VDict evaluation);
                  ("ntr", VNum ntr);
                  ("noise_db", VReal level);
                  ("thrust_N", VReal force)].
Proof.
  induction designs as [|design rest IH]; intros i results h h' out H.
  - cbn [compare_loop] in H. unfold ret in H. injection H as <- <-.
    split; [reflexivity|]. exists []. split; [rewrite app_nil_r; reflexivity|].
    split; [reflexivity|]. intros [|k] g Hk; discriminate.
  - cbn [compare_loop] in H.
    run_inv H d h1 E0. apply deref_Ok_inv in E0. destruct E0 as [-> Hd].
    run_inv H evaluation h2 E1.
    destruct (evaluate_design_shape _ _ _ _ _ _ _ E1)
      as [-> [geo [noise [thrust [pm [_ [_ [Epm ->]]]]]]]].
    run_inv H metrics h3 E2. read_inv E2.
    cbn [item_dict dget String.eqb Ascii.eqb Bool.eqb] in E2.
    injection E2 as <-.
    run_inv H ntr h4 E3. read_inv E3.
    run_inv H level h5 E4. read_inv E4.
    run_inv H force h6 E5. read_inv E5.
    destruct (performance_metrics_entries _ _ _ Epm)
      as [ntr' [level' [force' [Hnan [En [El Ef]]]]]].
    rewrite En in E3. injection E3 as <-.
    destruct (IH _ _ _ _ _ H) as [-> [added [-> [Hlen Hrest]]]].
    split; [reflexivity|].
    eexists (_ :: added). split; [rewrite <- app_assoc; reflexivity|].
    split; [simpl; rewrite Hlen; reflexivity|].
    intros [|k] g Hk.
    + injection Hk as <-. exists d. eexists. exists pm, ntr', level, force.
      split; [exact Hd|]. split; [exact E1|]. split; [reflexivity|].
      split; [exact En|]. split; [exact E4|]. split; [exact E5|].
      split; [exact Hnan|].
      cbn [nth_error]. rewrite Nat.add_0_r. reflexivity.
    + destruct (Hrest k g Hk)
        as (d' & ev & m & x & lv & fo & H1 & H2 & H3 & H4 & H5 & H6 & H7
            & H8).
      exists d', ev, m, x, lv, fo. repeat (split; [assumption|]).
      cbn [nth_error]. rewrite H8.
      replace (S i + k + 1)%nat with (i + S k + 1)%nat by lia. reflexivity.
Qed.

Lemma flt_asymmetric (a b : pyfloat) : flt a b = true -> flt b a = false.
Proof.
  unfold flt. destruct a, b; try reflexivity; try discriminate.
  destruct (Rlt_dec x x0); [|discriminate].
  destruct (Rlt_dec x0 x); [lra | reflexivity].
Qed.

Lemma flt_before (a b c : pyfloat) :
  flt a b = true -> flt c b = false -> flt c a = false.
Proof.
  unfold flt. destruct a, b, c; try reflexivity; try discriminate;
    repeat match goal with
           | |- context [Rlt_dec ?x ?y] => destruct (Rlt_dec x y)
           end; try reflexivity; try discriminate; lra.
Qed.

Lemma sort_insert_permutation (x : dict) (sorted : list dict) :
  Permutation (x :: sorted) (sort_insert x sorted).
Proof.
  induction sorted as [|y rest IH]; cbn [sort_insert]; [reflexivity|].
  destruct (flt (ntr_of x) (ntr_of y)); [reflexivity|].
  rewrite perm_swap. apply perm_skip, IH.
Qed.

Lemma sort_insert_sorted (x : dict) (sorted : list dict) :
  StronglySorted (fun a b => flt (ntr_of b) (ntr_of a) = false) sorted ->
  StronglySorted (fun a b => flt (ntr_of b) (ntr_of a) = false)
    (sort_insert x sorted).
Proof.
  induction 1 as [|y rest Hs IH Hy]; cbn [sort_insert].
  - constructor; constructor.
  - destruct (flt (ntr_of x) (ntr_of y)) eqn:E.
    + constructor; [constructor; assumption|].
      constructor; [apply flt_asymmetric, E|].
      eapply Forall_impl; [|exact Hy]. intros z Hz.
      exact (flt_before _ _ _ E Hz).
    + constructor; [exact IH|].
      rewrite <- (sort_insert_permutation x rest).
      constructor; assumption.
Qed.

Lemma sort_by_ntr_spec (results : list dict) :
  Permutation results (sort_by_ntr results) /\
  StronglySorted (fun a b => flt (ntr_of b) (ntr_of a) = false)
    (sort_by_ntr results).
Proof.
  unfold sort_by_ntr.
  assert (H : forall acc : list dict,
             StronglySorted (fun a b => flt (ntr_of b) (ntr_of a) = false)
               acc ->
             Permutation (acc ++ results)
               (fold_left (fun sorted x => sort_insert x sorted) results acc)
             /\
             StronglySorted (fun a b => flt (ntr_of b) (ntr_of a) = false)
               (fold_left (fun sorted x => sort_insert x sorted) results
                  acc)).
  { induction results as [|x rest IH]; intros acc Hacc; cbn [fold_left].
    - rewrite app_nil_r. split; [reflexivity | exact Hacc].
    - destruct (IH (sort_insert x acc) (sort_insert_sorted x acc Hacc))
        as [Hp Hs].
      split; [|exact Hs]. rewrite <- Hp.
      rewrite <- (sort_insert_permutation x acc).
      symmetry. apply Permutation_middle. }
  exact (H [] (SSorted_nil _)).
Qed.

Lemma fle_of_not_flt (a b : pyfloat) :
  a <> NaN -> b <> NaN -> flt b a = false -> fle a b = true.
Proof.
  intros Ha Hb. unfold flt, fle.
  destruct a as [x| | |], b as [y| | |];
    try contradiction; try reflexivity; try discriminate.
  destruct (Rlt_dec y x); [discriminate|]. intros _.
  destruct (Rle_dec x y); [reflexivity | lra].
Qed.

(** Among ratios none of which is nan, "no later one is smaller" is
    "every later one is at least as large". *)
Lemma sorted_without_nan (l : list dict) :
  (forall r : dict, In r l -> ntr_of r <> NaN) ->
  StronglySorted (fun a b => flt (ntr_of b) (ntr_of a) = false) l ->
  StronglySorted (fun a b => fle (ntr_of a) (ntr_of b) = true) l.
Proof.
  intros Hreal Hs. induction Hs as [|a l Hs IH Ha]; constructor.
  - apply IH. intros r Hr. apply Hreal. right. exact Hr.
  - rewrite Forall_forall in *. intros b Hb.
    apply fle_of_not_flt;
      [apply Hreal; left; reflexivity | apply Hreal; right; exact Hb
      | exact (Ha b Hb)].
Qed.

(** What a call of [compare_designs] that returns has done. *)
Lemma compare_designs_inv (self : t) (designs : list ref) (oc : dict)
    (h h' : heap) (c : comparison) :
  compare_designs self designs oc h = (h', Ok c) ->
  h' = h /\ num_designs c = List.length designs /\
  exists results : list dict,
    List.length results = List.length designs /\
    (forall (k : nat) (g : ref),
        nth_error designs k = Some g ->
        exists (d evaluation metrics : dict) (ntr : pyfloat)
               (level force : R),
          nth_error h g = Some d /\
          evaluate_design self g oc None h = (h, Ok evaluation) /\
          item_dict evaluation "performance_metrics" = Ok metrics /\
          item_float metrics "noise_to_thrust_ratio_dB_per_N" = Ok ntr /\
          item_real metrics "total_noise_spl_db" = Ok level /\
          item_real metrics "thrust_N" = Ok force /\
          ntr <> NaN /\
          nth_error results k
          = Some [("name",
                   get_value d "name"
                     (VStr ("Design " ++ decimal (k + 1))));
                  ("evaluation", VDict evaluation);
                  ("ntr", VNum ntr);
                  ("noise_db", VReal level);
                  ("thrust_N", VReal force)]) /\
    Permutation results (DesignEvaluator.designs c) /\
    StronglySorted (fun a b => flt (ntr_of b) (ntr_of a) = false)
      (DesignEvaluator.designs c) /\
    exists rest : list dict,
      DesignEvaluator.designs c = DesignEvaluator.best_design c :: rest.
Proof.
  intros H. unfold compare_designs in H.
  run_inv H results h1 E.
  destruct (compare_loop_inv _ _ _ _ _ _ _ _ E)
    as [-> [added [-> [Hlen Hres]]]].
  cbn [app] in H.
  destruct (sort_by_ntr_spec added) as [Hperm Hsorted].
  destruct (sort_by_ntr added) as [|best rest] eqn:Es;
    [discriminate|].
  unfold ret in H. injection H as <- <-.
  cbn [DesignEvaluator.designs DesignEvaluator.best_design num_designs].
  split; [reflexivity|]. split; [reflexivity|].
  exists added. split; [exact Hlen|]. split; [exact Hres|].
  split; [exact Hperm|]. split; [exact Hsorted|].
  exists rest. reflexivity.
Qed.

(** A ratio computed from real numbers is a real number, or [inf] for a
    design without thrust: a comparison whose evaluations all return has
    no nan among its ratios. *)
Lemma compared_ratios_real (self : t) (designs : list ref) (oc : dict)
    (h h' : heap) (c : comparison) :
  compare_designs self designs oc h = (h', Ok c) ->
  forall r : dict, In r (DesignEvaluator.designs c) -> ntr_of r <> NaN.
Proof.
  intros H r Hr.
  destruct (compare_designs_inv _ _ _ _ _ _ H)
    as (_ & _ & results & Hlen & Hres & Hperm & _ & _).
  apply (Permutation_in _ (Permutation_sym Hperm)) in Hr.
  apply In_nth_error in Hr. destruct Hr as [k Hk].
  assert (Hlt : (k < List.length designs)%nat).
  { rewrite <- Hlen. apply nth_error_Some. rewrite Hk. discriminate. }
  destruct (nth_error designs k) as [g|] eqn:Eg;
    [|apply nth_error_None in Eg; lia].
  destruct (Hres k g Eg)
    as (d & ev & m & x & lv & fo & _ & _ & _ & _ & _ & _ & Hx & Er).
  rewrite Hk in Er. injection Er as ->. exact Hx.
Qed.

(** X26.  [compare_designs] ends with [IndexError] on an empty list of
    designs.  Otherwise, when every evaluation returns with real numbers
    and the call returns, the store is as it was and there is one result
    for each design: its name, or [Design k] for the [k]-th design without
    one, its evaluation by [evaluate_design], and the noise-to-thrust
    ratio, noise level and thrust of the performance metrics of that
    evaluation.  The results are returned rearranged, the best design
    being the first of them.  When none of the ratios is nan they are in
    ascending order of the ratio, so that no result has a smaller ratio
    than the best design; a ratio that is nan is not covered. *)
Theorem compare_designs_law (self : t) (designs : list ref) (oc : dict)
    (h : heap) :
  (designs = [] ->
   compare_designs self designs oc h = (h, Raise IndexError)) /\
  (forall (h' : heap) (c : comparison),
      compare_designs self designs oc h = (h', Ok c) ->
      h' = h /\ num_designs c = List.length designs /\
      (exists results : list dict,
          List.length results = List.length designs /\
          (forall (k : nat) (g : ref),
              nth_error designs k = Some g ->
              exists (d evaluation metrics : dict) (ntr : pyfloat)
                     (level force : R),
                nth_error h g = Some d /\
                evaluate_design self g oc None h = (h, Ok evaluation) /\
                item_dict evaluation "performance_metrics" = Ok metrics /\
                item_float metrics "noise_to_thrust_ratio_dB_per_N"
                = Ok ntr /\
                item_real metrics "total_noise_spl_db" = Ok level /\
                item_real metrics "thrust_N" = Ok force /\
                nth_error results k
                = Some [("name",
                         get_value d "name"
                           (VStr ("Design " ++ decimal (k + 1))));
                        ("evaluation", VDict evaluation);
                        ("ntr", VNum ntr);
                        ("noise_db", VReal level);
                        ("thrust_N", VReal force)]) /\
          Permutation results (DesignEvaluator.designs c)) /\
      nth_error (DesignEvaluator.designs c) 0
      = Some (DesignEvaluator.best_design c) /\
      ((forall r : dict,
           In r (DesignEvaluator.designs c) -> ntr_of r <> NaN) ->
       StronglySorted (fun a b => fle (ntr_of a) (ntr_of b) = true)
         (DesignEvaluator.designs c) /\
       forall r : dict,
         In r (DesignEvaluator.designs c) ->
         fle (ntr_of (DesignEvaluator.best_design c)) (ntr_of r) = true)).
Proof.
  split.
  - intros ->. reflexivity.
  - intros h' c H.
    destruct (compare_designs_inv _ _ _ _ _ _ H)
      as (-> & Hnum & results & Hlen & Hres & Hperm & Hsorted & rest & Ec).
    split; [reflexivity|]. split; [exact Hnum|]. split.
    { exists results. split; [exact Hlen|]. split; [|exact Hperm].
      intros k g Hk.
      destruct (Hres k g Hk)
        as (d & ev & m & x & lv & fo & H1 & H2 & H3 & H4 & H5 & H6 & _
            & H8).
      exists d, ev, m, x, lv, fo. repeat (split; [assumption|]).
      exact H8. }
    split; [rewrite Ec; reflexivity|].
    intros Hreal.
    pose proof (sorted_without_nan _ Hreal Hsorted) as Hs.
    split; [exact Hs|].
    rewrite Ec in Hs, Hreal |- *. intros r [<- | Hin].
    + apply fle_of_not_flt;
        try (apply Hreal; left; reflexivity).
      destruct (ntr_of (DesignEvaluator.best_design c)) as [x| | |];
        try reflexivity.
      unfold flt. destruct (Rlt_dec x x); [lra | reflexivity].
    + inversion Hs as [|? ? _ Hall]; subst.
      rewrite Forall_forall in Hall. exact (Hall r Hin).
Qed.

Lemma compare_designs_law_witness :
  compare_designs DesignEvaluator.default [] sample_conditions [sample_base]
  = ([sample_base], Raise IndexError) /\
  exists c : comparison,
    compare_designs DesignEvaluator.default [0%nat; 0%nat] sample_conditions
      [sample_base] = ([sample_base], Ok c) /\
    num_designs c = 2%nat /\
    List.length (DesignEvaluator.designs c) = 2%nat /\
    nth_error (DesignEvaluator.designs c) 0
    = Some (DesignEvaluator.best_design c) /\
    forall r : dict,
      In r (DesignEvaluator.designs c) ->
      fle (ntr_of (DesignEvaluator.best_design c)) (ntr_of r) = true.
Proof.
  destruct (compare_designs_law DesignEvaluator.default [] sample_conditions
              [sample_base]) as [Hempty _].
  split; [apply Hempty; reflexivity|].
  destruct (first_pass_at_rest 0%nat [sample_base] sample_base None
              0.05 0.005 2 0.127 5.0)
    as [noise0 [pm0 [total [T [Q [P [e0 [Ebase _]]]]]]]];
    try reflexivity; try lra;
    try (unfold positive_entry; simpl; exact I).
  cbv zeta in Ebase.
  destruct (evaluate_design_shape _ _ _ _ _ _ _ Ebase)
    as [_ [geo [noise [thrust [pm [_ [_ [Epm Eshape]]]]]]]].
  injection Eshape as E1 E2 E3. subst noise thrust pm.
  destruct (performance_metrics_entries _ _ _ Epm)
    as [ntr [level [force [Hnan [En [El Ef]]]]]].
  assert (Hrun : exists c,
             compare_designs DesignEvaluator.default [0%nat; 0%nat]
               sample_conditions [sample_base] = ([sample_base], Ok c)).
  { assert (Eloop : exists results : list dict,
               compare_loop DesignEvaluator.default [0%nat; 0%nat]
                 sample_conditions 0 [] [sample_base]
               = ([sample_base], Ok results) /\
               List.length results = 2%nat).
    { cbn [compare_loop].
      rewrite (run_deref_base 0%nat sample_base _ [sample_base] eq_refl).
      rewrite (run_mbind _ _ _ _ _ Ebase).
      cbn [item_dict dget String.eqb Ascii.eqb Bool.eqb].
      rewrite run_lift, En, run_lift, El, run_lift, Ef, run_lift.
      rewrite (run_deref_base 0%nat sample_base _ [sample_base] eq_refl).
      rewrite (run_mbind _ _ _ _ _ Ebase).
      cbn [item_dict dget String.eqb Ascii.eqb Bool.eqb].
      rewrite run_lift, En, run_lift, El, run_lift, Ef, run_lift.
      eexists. split; reflexivity. }
    destruct Eloop as [results [Eloop Hl]].
    unfold compare_designs. rewrite (run_mbind _ _ _ _ _ Eloop).
    destruct (sort_by_ntr_spec results) as [Hp _].
    destruct (sort_by_ntr results) as [|b rest].
    - apply Permutation_length in Hp. rewrite Hl in Hp. discriminate.
    - eexists. reflexivity. }
  destruct Hrun as [c Ec]. exists c. split; [exact Ec|].
  destruct (compare_designs_law DesignEvaluator.default [0%nat; 0%nat]
              sample_conditions [sample_base]) as [_ Hlaw].
  destruct (Hlaw _ _ Ec)
    as [_ [Hnum [[results [Hlen [_ Hperm]]] [Hbest Hordered]]]].
  split; [exact Hnum|]. split.
  { rewrite <- (Permutation_length Hperm). exact Hlen. }
  split; [exact Hbest|].
  exact (proj2 (Hordered (compared_ratios_real _ _ _ _ _ _ Ec))).
Defined.

End ComparisonLaws.

(** ** Optimisation *)

Section OptimisationLaws.

Import BioInspiredDesignFactory.
Import DesignEvaluator.
Import PropellerOptimizer.

Tactic Notation "run_inv" hyp(H) ident(x) ident(h) ident(Hx) :=
  apply mbind_Ok_inv in H; destruct H as [x [h [Hx H]]].

Tactic Notation "read_inv" hyp(H) :=
  apply lift_Ok_inv in H; destruct H as [-> H].

Lemma random_configs_shape (features : list string) (g : rng) :
  (forall i : nat, 0 <= draws g i < 1) ->
  let configs := fst (_generate_random_configs features g) in
  let g' := snd (_generate_random_configs features g) in
  draws g' = draws g /\
  next g'
  = (next g
     + 2 * List.length (filter (fun name => mem name features) recognized))%nat
  /\
  (forall name : string,
      mem name features = false -> dget configs name = None) /\
  (forall name : string,
      mem name recognized = false -> dget configs name = None) /\
  (mem "owl_serrations" features = true ->
   exists a b : R,
     dget configs "owl_serrations"
     = Some (VDict [("serration_depth_ratio", VReal a);
                    ("serration_wavelength_ratio", VReal b)]) /\
     0.03 <= a < 0.08 /\ 0.015 <= b < 0.04) /\
  (mem "humpback_tubercles" features = true ->
   exists a b : R,
     dget configs "humpback_tubercles"
     = Some (VDict [("amplitude_ratio", VReal a);
                    ("wavelength_ratio", VReal b)]) /\
     0.08 <= a < 0.14 /\ 0.20 <= b < 0.35) /\
  (mem "dragonfly_corrugations" features = true ->
   exists a b : R,
     dget configs "dragonfly_corrugations"
     = Some (VDict [("corrugation_depth_ratio", VReal a);
                    ("corrugation_wavelength_ratio", VReal b)]) /\
     0.025 <= a < 0.045 /\ 0.04 <= b < 0.07).
Proof.
  intros Hu. unfold _generate_random_configs, uniform, recognized.
  cbn [filter].
  assert (Hname : forall name k : string,
             String.eqb name k = false -> String.eqb k name = false)
    by (intros name k E; rewrite String.eqb_sym; exact E).
  destruct (mem "owl_serrations" features) eqn:Eo;
    destruct (mem "humpback_tubercles" features) eqn:Eh;
    destruct (mem "dragonfly_corrugations" features) eqn:Ed;
    cbn [fst snd draws next List.length dset String.eqb Ascii.eqb Bool.eqb];
    (split; [reflexivity|]); (split; [lia|]);
    (split;
     [intros name Hn; cbn [dget];
      repeat match goal with
             | |- context [String.eqb ?k name] =>
                 let E := fresh "E" in
                 destruct (String.eqb k name) eqn:E;
                 [apply String.eqb_eq in E; subst name; congruence|]
             end; reflexivity|]);
    (split;
     [intros name Hn; unfold mem in Hn; cbn [existsb] in Hn; cbn [dget];
      apply orb_false_elim in Hn; destruct Hn as [H1 Hn];
      apply orb_false_elim in Hn; destruct Hn as [H2 Hn];
      apply orb_false_elim in Hn; destruct Hn as [H3 _];
      rewrite ?(Hname _ _ H1), ?(Hname _ _ H2), ?(Hname _ _ H3);
      reflexivity|]);
    repeat split; try discriminate; intros _;
    do 2 eexists; (split; [reflexivity|]);
    repeat match goal with
           | |- context [draws g ?i] => pose proof (Hu i); generalize dependent (draws g i); intros
           end; lra.
Qed.

(** X27.  [_generate_random_configs] draws two numbers for each feature
    that is listed, in declaration order and once however often the name
    is listed, and places each in the range of its parameter: a
    configuration is made for the listed features and for no other name,
    and with draws from [0, 1) the serration ratios lie in [0.03, 0.08)
    and [0.015, 0.04), the tubercle ratios in [0.08, 0.14) and
    [0.20, 0.35), the corrugation ratios in [0.025, 0.045) and
    [0.04, 0.07). *)
Theorem sampled_configs_in_range (features : list string) (g : rng) :
  (forall i : nat, 0 <= draws g i < 1) ->
  let configs := fst (_generate_random_configs features g) in
  let g' := snd (_generate_random_configs features g) in
  draws g' = draws g /\
  next g'
  = (next g
     + 2 * List.length (filter (fun name => mem name features) recognized))%nat
  /\
  (forall name : string,
      mem name features = false -> dget configs name = None) /\
  (forall name : string,
      mem name recognized = false -> dget configs name = None) /\
  (mem "owl_serrations" features = true ->
   exists a b : R,
     dget configs "owl_serrations"
     = Some (VDict [("serration_depth_ratio", VReal a);
                    ("serration_wavelength_ratio", VReal b)]) /\
     0.03 <= a < 0.08 /\ 0.015 <= b < 0.04) /\
  (mem "humpback_tubercles" features = true ->
   exists a b : R,
     dget configs "humpback_tubercles"
     = Some (VDict [("amplitude_ratio", VReal a);
                    ("wavelength_ratio", VReal b)]) /\
     0.08 <= a < 0.14 /\ 0.20 <= b < 0.35) /\
  (mem "dragonfly_corrugations" features = true ->
   exists a b : R,
     dget configs "dragonfly_corrugations"
     = Some (VDict [("corrugation_depth_ratio", VReal a);
                    ("corrugation_wavelength_ratio", VReal b)]) /\
     0.025 <= a < 0.045 /\ 0.04 <= b < 0.07).
Proof. apply random_configs_shape. Qed.

Lemma sampled_configs_in_range_witness :
  next (snd (_generate_random_configs
               ["humpback_tubercles"; "owl_serrations"; "owl_serrations"]
               mid_draws)) = 4%nat /\
  exists a b : R,
    dget (fst (_generate_random_configs
                 ["humpback_tubercles"; "owl_serrations"; "owl_serrations"]
                 mid_draws)) "owl_serrations"
    = Some (VDict [("serration_depth_ratio", VReal a);
                   ("serration_wavelength_ratio", VReal b)]) /\
    0.03 <= a < 0.08 /\ 0.015 <= b < 0.04.
Proof.
  destruct (sampled_configs_in_range
              ["humpback_tubercles"; "owl_serrations"; "owl_serrations"]
              mid_draws) as [_ [Hn [_ [_ [Ho _]]]]].
  { intros i. simpl. lra. }
  split; [exact Hn | apply Ho; reflexivity].
Defined.

Lemma run_raise {A B : Type} (m : M A) (k : A -> M B) (h h1 : heap)
    (e : fault) :
  m h = (h1, Raise e) -> mbind m k h = (h1, Raise e).
Proof. intros H. unfold mbind. rewrite H. reflexivity. Qed.

Ltac run_on Hg :=
  repeat first
    [ rewrite run_setitem
    | rewrite (run_deref _ _ _ _ _ Hg)
    | rewrite run_lift ].

Lemma owl_apply_sampled (h : heap) (g : ref) (d c : dict) :
  nth_error h g = Some d -> real_entry d "drag_coefficient" ->
  dget c "depth_ratio" = None ->
  exists h' : heap,
    OwlWingSerrations.apply_to_blade_design g (Some c) h
    = (h', Raise (KeyError "depth_ratio")).
Proof.
  intros Hg Hd Hc.
  destruct (get_real_returns _ _ 0.02 Hd) as [drag Edrag].
  unfold OwlWingSerrations.apply_to_blade_design.
  change (mbind (ret c) ?k h) with (k c h). cbv beta.
  rewrite (run_copy _ _ _ _ Hg). run_on Hg. rewrite Edrag. run_on Hg.
  unfold item_real. rewrite Hc. eexists. reflexivity.
Qed.

Lemma humpback_apply_config (h : heap) (g : ref) (d c : dict) :
  nth_error h g = Some d -> real_entry d "cl_max" ->
  real_entry d "drag_coefficient" -> real_entry d "stall_angle_deg" ->
  exists d' : dict,
    HumpbackWhaleTubercles.apply_to_blade_design g (Some c) h
    = (h ++ [d'], Ok (List.length h)).
Proof.
  intros Hg Hcl Hd Hst.
  destruct (get_real_returns _ _ 1.2 Hcl) as [cl Ecl].
  destruct (get_real_returns _ _ 0.02 Hd) as [drag Edrag].
  destruct (get_real_returns _ _ 12.0 Hst) as [st Est].
  unfold HumpbackWhaleTubercles.apply_to_blade_design.
  change (mbind (ret c) ?k h) with (k c h). cbv beta.
  rewrite (run_copy _ _ _ _ Hg). run_on Hg. rewrite Ecl. run_on Hg.
  rewrite Edrag. run_on Hg. rewrite Est. run_on Hg.
  eexists. reflexivity.
Qed.

Lemma dragonfly_apply_sampled (h : heap) (g : ref) (d c : dict) :
  nth_error h g = Some d -> dget c "depth_m" = None ->
  exists h' : heap,
    DragonflyCorrugations.apply_to_blade_design g (Some c) h
    = (h', Raise (KeyError "depth_m")).
Proof.
  intros Hg Hc.
  unfold DragonflyCorrugations.apply_to_blade_design.
  change (mbind (ret c) ?k h) with (k c h). cbv beta.
  rewrite (run_copy _ _ _ _ Hg). run_on Hg.
  unfold DragonflyCorrugations.estimate_structural_benefits, item_real.
  rewrite Hc. eexists. reflexivity.
Qed.

(** X28.  The configurations that [_generate_random_configs] samples are
    not configurations that [create_design] accepts: they name the ratios
    and not the geometry that the features read.  Passed to
    [create_design] for a base record with numbers as drag coefficient,
    lift coefficient and stall angle, they end the call with [KeyError]
    at [depth_ratio] when the serrations are listed, and at [depth_m]
    when the corrugations are listed and the serrations are not. *)
Theorem sampled_configs_not_accepted (base_geometry : ref)
    (features : list string) (g : rng) (h : heap) (d : dict) :
  nth_error h base_geometry = Some d ->
  real_entry d "drag_coefficient" -> real_entry d "cl_max" ->
  real_entry d "stall_angle_deg" ->
  (In "owl_serrations" features ->
   snd (create_design base_geometry features
          (Some (fst (_generate_random_configs features g))) h)
   = Raise (KeyError "depth_ratio")) /\
  (~ In "owl_serrations" features ->
   In "dragonfly_corrugations" features ->
   snd (create_design base_geometry features
          (Some (fst (_generate_random_configs features g))) h)
   = Raise (KeyError "depth_m")).
Proof.
  intros Hg Hd Hcl Hst. split.
  - intros Ho. apply mem_In in Ho.
    unfold create_design. rewrite (run_copy _ _ _ _ Hg). rewrite Ho.
    assert (Hc : exists c : dict,
               config_of (fst (_generate_random_configs features g))
                 "owl_serrations" = Ok (Some c) /\
               dget c "depth_ratio" = None).
    { unfold _generate_random_configs, uniform. rewrite Ho.
      destruct (mem "humpback_tubercles" features);
        destruct (mem "dragonfly_corrugations" features);
        eexists; split; reflexivity. }
    destruct Hc as [c [Ec Hc]]. rewrite Ec.
    destruct (owl_apply_sampled (h ++ [d]) (List.length h) d c
                (nth_error_last h d) Hd Hc) as [h1 E1].
    match goal with
    | |- snd (mbind ?m ?k ?hh) = _ =>
        assert (S1 : m hh = (h1, Raise (KeyError "depth_ratio")))
          by (rewrite run_lift; apply run_raise; exact E1);
        rewrite (run_raise m k _ _ _ S1)
    end.
    reflexivity.
  - intros Ho Hdr. apply mem_In in Hdr.
    assert (Eo : mem "owl_serrations" features = false).
    { destruct (mem "owl_serrations" features) eqn:E; [|reflexivity].
      exfalso. apply Ho, mem_In, E. }
    unfold create_design. rewrite (run_copy _ _ _ _ Hg). rewrite Eo, Hdr.
    change (mbind (ret ?a) ?k ?hh) with (k a hh). cbv beta iota.
    assert (Hc : exists c : dict,
               config_of (fst (_generate_random_configs features g))
                 "dragonfly_corrugations" = Ok (Some c) /\
               dget c "depth_m" = None).
    { unfold _generate_random_configs, uniform. rewrite Eo, Hdr.
      destruct (mem "humpback_tubercles" features);
        eexists; split; reflexivity. }
    destruct Hc as [c [Ec Hc]]. rewrite Ec.
    destruct (mem "humpback_tubercles" features) eqn:Eh.
    + assert (Hch : exists c' : dict,
                 config_of (fst (_generate_random_configs features g))
                   "humpback_tubercles" = Ok (Some c')).
      { unfold _generate_random_configs, uniform. rewrite Eo, Eh, Hdr.
        eexists. reflexivity. }
      destruct Hch as [c' Ec']. rewrite Ec'.
      destruct (humpback_apply_config (h ++ [d]) (List.length h) d c'
                  (nth_error_last h d) Hcl Hd Hst) as [d2 E2].
      match goal with
      | |- snd (mbind ?m ?k ?hh) = _ =>
          assert (S2 : m hh = ((h ++ [d]) ++ [d2],
                               Ok (List.length (h ++ [d]),
                                   ["humpback_tubercles"])))
            by (rewrite run_lift, (run_mbind _ _ _ _ _ E2); reflexivity);
          rewrite (run_mbind m k _ _ _ S2)
      end.
      cbv beta iota.
      destruct (dragonfly_apply_sampled ((h ++ [d]) ++ [d2])
                  (List.length (h ++ [d])) d2 c (nth_error_last _ d2) Hc)
        as [h3 E3].
      match goal with
      | |- snd (mbind ?m ?k ?hh) = _ =>
          assert (S3 : m hh = (h3, Raise (KeyError "depth_m")))
            by (rewrite run_lift; apply run_raise; exact E3);
          rewrite (run_raise m k _ _ _ S3)
      end.
      reflexivity.
    + change (mbind (ret ?a) ?k ?hh) with (k a hh). cbv beta iota.
      destruct (dragonfly_apply_sampled (h ++ [d]) (List.length h) d c
                  (nth_error_last _ d) Hc) as [h3 E3].
      match goal with
      | |- snd (mbind ?m ?k ?hh) = _ =>
          assert (S3 : m hh = (h3, Raise (KeyError "depth_m")))
            by (rewrite run_lift; apply run_raise; exact E3);
          rewrite (run_raise m k _ _ _ S3)
      end.
      reflexivity.
Qed.

Lemma sampled_configs_not_accepted_witness :
  snd (create_design 0%nat ["owl_serrations"]
         (Some (fst (_generate_random_configs ["owl_serrations"] mid_draws)))
         [sample_base])
  = Raise (KeyError "depth_ratio") /\
  snd (create_design 0%nat ["humpback_tubercles"; "dragonfly_corrugations"]
         (Some (fst (_generate_random_configs
                       ["humpback_tubercles"; "dragonfly_corrugations"]
                       mid_draws)))
         [sample_base])
  = Raise (KeyError "depth_m").
Proof.
  split.
  - apply (sampled_configs_not_accepted 0%nat ["owl_serrations"] mid_draws
             [sample_base] sample_base eq_refl I I I).
    simpl. auto.
  - apply (sampled_configs_not_accepted 0%nat
             ["humpback_tubercles"; "dragonfly_corrugations"] mid_draws
             [sample_base] sample_base eq_refl I I I).
    + simpl. intuition discriminate.
    + simpl. auto.
Defined.

(** One pass of the search: the trial is recorded, and it becomes the best
    design when its score improves on the best score. *)
Lemma search_step_inv (self : PropellerOptimizer.t) (base_geometry : ref)
    (features : list string) (oc : dict) (objective : string)
    (baseline_ntr : pyfloat) (st st' : search_state) (iteration : nat)
    (h h' : heap) :
  search_step self base_geometry features oc objective baseline_ntr
    st iteration h = (h', Ok st') ->
  exists (score ntr : pyfloat),
    trials st' = trials st ++ [trial_record iteration score ntr] /\
    (objective = "minimize_ntr" -> ntr = score) /\
    (improves objective score (best_score st) = false ->
     best_score st' = best_score st /\ best_design st' = best_design st) /\
    (improves objective score (best_score st) = true ->
     best_score st' = score /\
     exists geometry evaluation configs : value,
       best_design st'
       = Some [("geometry", geometry); ("evaluation", evaluation);
               ("configs", configs);
               ("iteration", VReal (INR iteration));
               ("score", VNum score)]).
Proof.
  unfold search_step. intros H.
  destruct (_generate_random_configs features (source st)) as [cc g1].
  run_inv H evaluation h1 E1. run_inv H metrics h2 E2. read_inv E2.
  run_inv H sb h3 E3. destruct sb as [score better].
  run_inv H geometry h4 E4. read_inv E4.
  assert (Hb : better = improves objective score (best_score st) /\
               (objective = "minimize_ntr" ->
                item_float metrics "noise_to_thrust_ratio_dB_per_N"
                = Ok score)).
  { unfold improves.
    destruct (String.eqb objective "minimize_ntr") eqn:Eobj.
    - run_inv E3 s h5 E5. read_inv E5. unfold ret in E3.
      injection E3 as _ <- <-. split; [reflexivity | intros _; exact E5].
    - split.
      + destruct (String.eqb objective "maximize_efficiency").
        * run_inv E3 t h5 E5. read_inv E5. run_inv E3 s h6 E6. read_inv E6.
          unfold ret in E3. injection E3 as _ <- <-. reflexivity.
        * run_inv E3 s h5 E5. read_inv E5. unfold ret in E3.
          injection E3 as _ <- <-. reflexivity.
      + intros ->. discriminate. }
  destruct Hb as [-> Hntr].
  destruct (improves objective score (best_score st)) eqn:Hi;
    run_inv H ntr h5 E5; read_inv E5; unfold ret in H;
    injection H as _ <-; cbn [trials best_score best_design];
    exists score, ntr; (split; [reflexivity|]);
    (split; [intros Ho; rewrite (Hntr Ho) in E5; injection E5 as <-;
             reflexivity|]).
  - rewrite Hi. split; [discriminate|]. intros _. split; [reflexivity|].
    do 3 eexists. reflexivity.
  - rewrite Hi. split; [|discriminate]. intros _. split; reflexivity.
Qed.

Lemma improves_irreflexive (objective : string) (s : pyfloat) :
  improves objective s s = false.
Proof.
  unfold improves, fgt, flt.
  destruct (String.eqb objective "minimize_ntr"); destruct s; try reflexivity;
    destruct (Rlt_dec x x); try reflexivity; lra.
Qed.

Lemma improves_transitive (objective : string) (a b c : pyfloat) :
  improves objective a b = true -> improves objective c b = false ->
  improves objective c a = false.
Proof.
  unfold improves, fgt, flt.
  destruct (String.eqb objective "minimize_ntr"); destruct a, b, c;
    try reflexivity; try discriminate;
    repeat match goal with
           | |- context [Rlt_dec ?x ?y] => destruct (Rlt_dec x y)
           end; try reflexivity; try discriminate; lra.
Qed.

Lemma improves_earlier (objective : string) (s b x : pyfloat) :
  improves objective s b = true -> improves objective x b = false ->
  x = NaN \/ improves objective s x = true.
Proof.
  unfold improves, fgt, flt.
  destruct (String.eqb objective "minimize_ntr"); destruct s, b, x;
    try (left; reflexivity); try discriminate;
    repeat match goal with
           | |- context [Rlt_dec ?x ?y] => destruct (Rlt_dec x y)
           end; try (right; reflexivity); try discriminate; intros; lra.
Qed.

Lemma combine_snoc {A B : Type} (l1 : list A) (l2 : list B) (a : A) (b : B) :
  List.length l1 = List.length l2 ->
  combine (l1 ++ [a]) (l2 ++ [b]) = combine l1 l2 ++ [(a, b)].
Proof.
  revert l2. induction l1 as [|x l1 IH]; intros [|y l2] H; simpl in *;
    try discriminate; [reflexivity|].
  rewrite IH by congruence. reflexivity.
Qed.

(** The search loop, from a state in which [scores] are the scores of the
    trials so far: no trial improves on the best score, and the best
    design is the first trial with that score. *)
Lemma search_loop_inv (self : PropellerOptimizer.t) (base_geometry : ref)
    (features : list string) (oc : dict) (objective : string)
    (baseline_ntr : pyfloat) (base : list dict) (count : nat) :
  forall (done : list (pyfloat * pyfloat)) (st st' : search_state)
         (h h' : heap),
    search_loop self base_geometry features oc objective baseline_ntr
      (seq (List.length done) count) st h = (h', Ok st') ->
    trials st
    = base ++ map (fun '(i, (s, r)) => trial_record i s r)
                (combine (seq 0 (List.length done)) done) ->
    Forall (fun sr => improves objective (fst sr) (best_score st) = false)
      done ->
    (objective = "minimize_ntr" -> Forall (fun sr => snd sr = fst sr) done) ->
    match best_design st with
    | None => best_score st = worst_score objective
    | Some b =>
        exists i r,
          dget b "iteration" = Some (VReal (INR i)) /\
          dget b "score" = Some (VNum (best_score st)) /\
          nth_error done i = Some (best_score st, r) /\
          forall j x, (j < i)%nat -> nth_error done j = Some x ->
                      fst x = NaN \/
                      improves objective (best_score st) (fst x) = true
    end ->
    exists all : list (pyfloat * pyfloat),
      List.length all = (List.length done + count)%nat /\
      trials st'
      = base ++ map (fun '(i, (s, r)) => trial_record i s r)
                  (combine (seq 0 (List.length all)) all) /\
      Forall (fun sr => improves objective (fst sr) (best_score st') = false)
        all /\
      (objective = "minimize_ntr" ->
       Forall (fun sr => snd sr = fst sr) all) /\
      match best_design st' with
      | None => best_score st' = worst_score objective
      | Some b =>
          exists i r,
            dget b "iteration" = Some (VReal (INR i)) /\
            dget b "score" = Some (VNum (best_score st')) /\
            nth_error all i = Some (best_score st', r) /\
            forall j x, (j < i)%nat -> nth_error all j = Some x ->
                        fst x = NaN \/
                        improves objective (best_score st') (fst x) = true
      end.
Proof.
  induction count as [|count IH]; intros done st st' h h' H Ht Hno Hm Hbest.
  - cbn [seq search_loop] in H. unfold ret in H. injection H as _ <-.
    exists done. split; [lia|]. split; [exact Ht|].
    split; [exact Hno|]. split; assumption.
  - cbn [seq search_loop] in H. run_inv H st1 h1 E1.
    destruct (search_step_inv _ _ _ _ _ _ _ _ _ _ _ E1)
      as [score [ntr [Htr [Hntr [Hkeep Htake]]]]].
    assert (Hlen : List.length (done ++ [(score, ntr)])
                   = S (List.length done))
      by (rewrite length_app; simpl; lia).
    assert (Ht1 : trials st1
                  = base ++ map (fun '(i, (s, r)) => trial_record i s r)
                              (combine
                                 (seq 0 (List.length (done ++ [(score, ntr)])))
                                 (done ++ [(score, ntr)]))).
    { rewrite Htr, Ht, Hlen, seq_S, <- app_assoc. f_equal.
      rewrite combine_snoc by (rewrite length_seq; reflexivity).
      rewrite map_app. reflexivity. }
    assert (Hm1 : objective = "minimize_ntr" ->
                  Forall (fun sr => snd sr = fst sr) (done ++ [(score, ntr)])).
    { intros Ho. apply Forall_app. split; [apply Hm, Ho|].
      constructor; [apply Hntr, Ho | constructor]. }
    rewrite <- Hlen in H.
    destruct (improves objective score (best_score st)) eqn:Hi.
    + destruct (Htake eq_refl) as [Hs [geo [ev [cf Hd]]]].
      destruct (IH (done ++ [(score, ntr)]) st1 st' h1 h' H Ht1)
        as [all [Hall Hrest]].
      * rewrite Hs. apply Forall_app. split.
        -- eapply Forall_impl; [|exact Hno]. intros sr Hsr.
           exact (improves_transitive _ _ _ _ Hi Hsr).
        -- constructor; [apply improves_irreflexive | constructor].
      * exact Hm1.
      * rewrite Hd, Hs. exists (List.length done), ntr.
        split; [reflexivity|]. split; [reflexivity|]. split.
        -- rewrite nth_error_app2 by lia. rewrite Nat.sub_diag. reflexivity.
        -- intros j x Hj Hx. rewrite nth_error_app1 in Hx by exact Hj.
           apply nth_error_In in Hx.
           rewrite Forall_forall in Hno.
           exact (improves_earlier _ _ _ _ Hi (Hno x Hx)).
      * exists all. split; [rewrite Hall, Hlen; lia | exact Hrest].
    + destruct (Hkeep eq_refl) as [Hs Hd].
      destruct (IH (done ++ [(score, ntr)]) st1 st' h1 h' H Ht1)
        as [all [Hall Hrest]].
      * rewrite Hs. apply Forall_app. split; [exact Hno|].
        constructor; [exact Hi | constructor].
      * exact Hm1.
      * rewrite Hd, Hs. destruct (best_design st) as [b|]; [|exact Hbest].
        destruct Hbest as [i [r [Hi1 [Hi2 [Hi3 Hi4]]]]].
        exists i, r. split; [exact Hi1|]. split; [exact Hi2|].
        assert (Hlt : (i < List.length done)%nat)
          by (apply nth_error_Some; rewrite Hi3; discriminate).
        split; [rewrite nth_error_app1 by exact Hlt; exact Hi3|].
        intros j x Hj Hx. rewrite nth_error_app1 in Hx by lia.
        exact (Hi4 j x Hj Hx).
      * exists all. split; [rewrite Hall, Hlen; lia | exact Hrest].
Qed.

(** A run of the optimiser: the trials it records and the design it
    returns. *)
Lemma optimizer_run_shape (self self' : PropellerOptimizer.t)
    (base_geometry : ref) (features : list string) (oc : dict)
    (objective : string) (num_iterations : Z) (g g' : rng) (h h' : heap)
    (best : option dict) :
  optimize_bio_inspired_parameters self base_geometry features oc objective
    num_iterations g h = (h', Ok (best, self', g')) ->
  exists results : list (pyfloat * pyfloat),
    List.length results = Z.to_nat num_iterations /\
    history self'
    = history self ++ map (fun '(i, (s, r)) => trial_record i s r)
                        (combine (seq 0 (List.length results)) results) /\
    (objective = "minimize_ntr" ->
     Forall (fun sr => snd sr = fst sr) results) /\
    match best with
    | None =>
        Forall (fun sr => improves objective (fst sr) (worst_score objective)
                          = false) results
    | Some b =>
        exists (i : nat) (s r : pyfloat),
          dget b "iteration" = Some (VReal (INR i)) /\
          dget b "score" = Some (VNum s) /\
          nth_error results i = Some (s, r) /\
          Forall (fun sr => improves objective (fst sr) s = false) results /\
          forall j x, (j < i)%nat -> nth_error results j = Some x ->
                      fst x = NaN \/ improves objective s (fst x) = true
    end.
Proof.
  unfold optimize_bio_inspired_parameters. intros H.
  run_inv H baseline_eval h1 E1. run_inv H metrics h2 E2. read_inv E2.
  run_inv H baseline_ntr h3 E3. read_inv E3.
  run_inv H st h4 E4. run_inv H final h5 E5.
  unfold ret in H. injection H as _ <- <- _.
  destruct (search_loop_inv self base_geometry features oc objective
              baseline_ntr (history self) (Z.to_nat num_iterations)
              [] _ st h1 h4 E4) as [all [Hlen [Htr [Hno [Hm Hbest]]]]].
  - cbn [trials List.length seq combine map]. rewrite app_nil_r. reflexivity.
  - constructor.
  - intros _. constructor.
  - cbn [best_design best_score]. reflexivity.
  - exists all. split; [exact Hlen|]. cbn [history]. split; [exact Htr|].
    split; [exact Hm|].
    destruct (best_design st) as [[|entry b]|].
    + destruct Hbest as [i [r [Hi _]]]. discriminate.
    + destruct Hbest as [i [r [Hi1 [Hi2 [Hi3 Hi4]]]]].
      set (bd := entry :: b) in *.
      run_inv E5 evaluation h6 E6. read_inv E6.
      run_inv E5 m h7 E7. read_inv E7.
      run_inv E5 ntr h8 E8. read_inv E8.
      run_inv E5 q h9 E9. read_inv E9.
      clearbody bd. unfold ret in E5. injection E5 as _ <-.
      exists i, (best_score st), r.
      rewrite !dget_dset_other by reflexivity.
      split; [exact Hi1|]. split; [exact Hi2|]. split; [exact Hi3|].
      split; [exact Hno | exact Hi4].
    + unfold ret in E5. injection E5 as _ <-.
      rewrite <- Hbest. exact Hno.
Qed.

Lemma nth_error_trials (results : list (pyfloat * pyfloat)) (i : nat)
    (e : dict) :
  nth_error (map (fun '(i, (s, r)) => trial_record i s r)
               (combine (seq 0 (List.length results)) results)) i = Some e ->
  exists s r : pyfloat,
    nth_error results i = Some (s, r) /\ e = trial_record i s r.
Proof.
  intros H. rewrite nth_error_map in H.
  destruct (nth_error (combine (seq 0 (List.length results)) results) i)
    as [[j [s r]]|] eqn:E; [|discriminate].
  injection H as <-.
  assert (Hlt : (i < List.length results)%nat).
  { assert (Hl : (i < List.length
                        (combine (seq 0 (List.length results)) results))%nat)
      by (apply nth_error_Some; rewrite E; discriminate).
    rewrite length_combine, length_seq, Nat.min_id in Hl. exact Hl. }
  pose proof (nth_error_nth' results (s, r) Hlt) as Hr.
  assert (Hlc : (i < List.length
                       (combine (seq 0 (List.length results)) results))%nat)
    by (rewrite length_combine, length_seq, Nat.min_id; exact Hlt).
  pose proof (nth_error_nth' (combine (seq 0 (List.length results)) results)
                (0%nat, (s, r)) Hlc) as Hc.
  rewrite combine_nth in Hc by (rewrite length_seq; reflexivity).
  rewrite seq_nth in Hc by exact Hlt. rewrite E in Hc.
  injection Hc as -> Hsr. exists s, r.
  split; [rewrite Hr, <- Hsr; reflexivity | reflexivity].
Qed.

(** X29.  A run of [optimize_bio_inspired_parameters] that returns adds
    one record to the history for each iteration, after the records that
    were there: the record at position [i] of the added ones has the
    iteration number [i], and under the objective [minimize_ntr] its score
    is its noise-to-thrust ratio. *)
Theorem optimizer_history_grows (self self' : PropellerOptimizer.t)
    (base_geometry : ref) (features : list string) (oc : dict)
    (objective : string) (num_iterations : Z) (g g' : rng) (h h' : heap)
    (best : option dict) :
  optimize_bio_inspired_parameters self base_geometry features oc objective
    num_iterations g h = (h', Ok (best, self', g')) ->
  exists added : list dict,
    history self' = history self ++ added /\
    List.length added = Z.to_nat num_iterations /\
    forall (i : nat) (e : dict),
      nth_error added i = Some e ->
      exists score ntr : pyfloat,
        e = trial_record i score ntr /\
        (objective = "minimize_ntr" -> ntr = score).
Proof.
  intros H.
  destruct (optimizer_run_shape _ _ _ _ _ _ _ _ _ _ _ _ H)
    as [results [Hlen [Hh [Hm _]]]].
  eexists. split; [exact Hh|]. split.
  - rewrite length_map, length_combine, length_seq, Nat.min_id. exact Hlen.
  - intros i e He.
    destruct (nth_error_trials _ _ _ He) as [s [r [Hr ->]]].
    exists s, r. split; [reflexivity|]. intros Ho.
    specialize (Hm Ho). rewrite Forall_forall in Hm.
    exact (Hm _ (nth_error_In _ _ Hr)).
Qed.

Lemma optimizer_history_grows_witness :
  exists (h' : heap) (best : option dict) (self' : PropellerOptimizer.t)
         (g' : rng) (added : list dict),
    optimize_bio_inspired_parameters PropellerOptimizer.default 0%nat
      ["owl_serrations"] sample_conditions "minimize_ntr" 1 mid_draws
      [sample_base] = (h', Ok (best, self', g')) /\
    history self' = history PropellerOptimizer.default ++ added /\
    List.length added = 1%nat /\
    exists score : pyfloat, nth_error added 0 = Some (trial_record 0 score score).
Proof.
  destruct sample_optimizer_run as [h' [ev [score [imp [base E]]]]].
  specialize (E mid_draws).
  destruct (optimizer_history_grows _ _ _ _ _ _ _ _ _ _ _ _ E)
    as [added [Hh [Hlen Hrec]]].
  do 4 eexists. exists added. split; [exact E|].
  split; [exact Hh|]. split; [exact Hlen|].
  destruct added as [|e added]; [discriminate|].
  destruct (Hrec 0%nat e eq_refl) as [s [r [-> Hr]]].
  exists s. rewrite (Hr eq_refl). reflexivity.
Defined.

(** X30.  [optimize_bio_inspired_parameters] keeps the first trial that
    no trial beats.  When a run returns a best design, its score is the
    score of the trial with its iteration number, no trial of the run
    improves on that score, and every earlier trial has a score that is
    nan or that the best score improves on, so a tie keeps the earlier
    trial.  When the run returns no design, no trial improved on the
    infinite score that the search starts from. *)
Theorem best_design_is_first_optimum (self self' : PropellerOptimizer.t)
    (base_geometry : ref) (features : list string) (oc : dict)
    (objective : string) (num_iterations : Z) (g g' : rng) (h h' : heap)
    (best : option dict) :
  optimize_bio_inspired_parameters self base_geometry features oc objective
    num_iterations g h = (h', Ok (best, self', g')) ->
  exists results : list (pyfloat * pyfloat),
    history self'
    = history self ++ map (fun '(i, (s, r)) => trial_record i s r)
                        (combine (seq 0 (List.length results)) results) /\
    match best with
    | None =>
        forall score ntr : pyfloat,
          In (score, ntr) results ->
          improves objective score (worst_score objective) = false
    | Some b =>
        exists (i : nat) (s r : pyfloat),
          dget b "iteration" = Some (VReal (INR i)) /\
          dget b "score" = Some (VNum s) /\
          nth_error results i = Some (s, r) /\
          (forall score ntr : pyfloat,
              In (score, ntr) results -> improves objective score s = false)
          /\
          (forall (j : nat) (score ntr : pyfloat),
              (j < i)%nat -> nth_error results j = Some (score, ntr) ->
              score = NaN \/ improves objective s score = true)
    end.
Proof.
  intros H.
  destruct (optimizer_run_shape _ _ _ _ _ _ _ _ _ _ _ _ H)
    as [results [_ [Hh [_ Hbest]]]].
  exists results. split; [exact Hh|].
  destruct best as [b|].
  - destruct Hbest as [i [s [r [H1 [H2 [H3 [H4 H5]]]]]]].
    exists i, s, r. repeat split; try assumption.
    + intros score ntr Hin. rewrite Forall_forall in H4.
      exact (H4 _ Hin).
    + intros j score ntr Hj Hn. exact (H5 j _ Hj Hn).
  - intros score ntr Hin. rewrite Forall_forall in Hbest.
    exact (Hbest _ Hin).
Qed.

Lemma best_design_is_first_optimum_witness :
  exists (h' : heap) (b : dict) (self' : PropellerOptimizer.t) (g' : rng)
         (results : list (pyfloat * pyfloat)) (i : nat) (s r : pyfloat),
    optimize_bio_inspired_parameters PropellerOptimizer.default 0%nat
      ["owl_serrations"] sample_conditions "minimize_ntr" 1 mid_draws
      [sample_base] = (h', Ok (Some b, self', g')) /\
    dget b "iteration" = Some (VReal (INR i)) /\
    dget b "score" = Some (VNum s) /\
    nth_error results i = Some (s, r) /\
    (forall score ntr : pyfloat,
        In (score, ntr) results -> flt score s = false).
Proof.
  destruct sample_optimizer_run as [h' [ev [score [imp [base E]]]]].
  specialize (E mid_draws).
  destruct (best_design_is_first_optimum _ _ _ _ _ _ _ _ _ _ _ _ E)
    as [results [Hh [i [s [r [H1 [H2 [H3 [H4 _]]]]]]]]].
  do 4 eexists. exists results, i, s, r. split; [exact E|].
  split; [exact H1|]. split; [exact H2|]. split; [exact H3 | exact H4].
Defined.

End OptimisationLaws.
